(** * BOTBEAST2: risk sizing, safety stop, signal fusion and scanner isolation

    A shallow embedding of the decision core of the trading bot:

    - [gbsb/scanners/pair_scanner.py]       (module [PairScanner])
    - [gbsb/risk_management/risk_levels.py] (module [RiskLevels])
    - [gbsb/ai/autopilot_engine.py]         (module [AutopilotEngine])
    - [gbsb/ai/auto_opportunity_detector.py](module [AutoOpportunityDetector])

    Two readings of Python's numbers are used.  In the four modules above
    a float is an exact rational ([Q]): every comparison, [min], [max] and
    arithmetic step is the one the source performs, rounding and the IEEE
    special values are outside the model, and equality of numbers is [==]
    ([Qeq]).  Where the outcome hangs on the rounding or on the kind of the
    number, the code is embedded a second time on binary64 numbers:

    - [AutopilotEngine64]: the signal consolidation, which compares sums of
      rounded products;
    - [RiskLevels64]: the position sizing, whose divisions raise at zero on
      Python floats and return an infinity or a NaN on [numpy.float64].

    A Python call that raises is a value of [Result] carrying the
    exception. *)

From Stdlib Require Import QArith Qabs Qminmax Lqa Lia List Ascii String Bool.
From Stdlib Require Import Sorted Permutation.
From Stdlib Require Floats.
From stdpp Require Import base option list strings gmap.
Import ListNotations.

Local Open Scope string_scope.
Local Open Scope list_scope.
Local Open Scope Q_scope.

(** ** Python numerics *)

Module Py.

(** The exceptions that the embedded code can raise or receive. *)
Inductive Exception : Type :=
| ZeroDivisionError
| IndexError
| AttributeError (name : string)
| TypeError (msg : string)
| RuntimeError (msg : string).

Inductive Result (A : Type) : Type :=
| Ok (a : A)
| Raise (e : Exception).
Arguments Ok {A} a.
Arguments Raise {A} e.

Definition bind {A B} (r : Result A) (k : A -> Result B) : Result B :=
  match r with
  | Ok a => k a
  | Raise e => Raise e
  end.

Definition is_ok {A} (r : Result A) : bool :=
  match r with Ok _ => true | Raise _ => false end.

(** [a < b] and friends on floats, as booleans. *)
Definition ltb (a b : Q) : bool :=
  match a ?= b with Lt => true | _ => false end.
Definition gtb (a b : Q) : bool := ltb b a.
Definition leb (a b : Q) : bool := negb (ltb b a).
Definition geb (a b : Q) : bool := negb (ltb a b).
Definition eqb (a b : Q) : bool := Qeq_bool a b.

(** [min(a, b)]: the first argument unless the second is strictly
    smaller. *)
Definition min (a b : Q) : Q := if ltb b a then b else a.

(** [max(a, b)]: the first argument unless the second is strictly
    greater. *)
Definition max (a b : Q) : Q := if ltb a b then b else a.

Definition abs (a : Q) : Q := Qabs a.

(** [a / b] on Python floats: raises [ZeroDivisionError] at [b == 0]. *)
Definition div (a b : Q) : Result Q :=
  if eqb b 0 then Raise ZeroDivisionError else Ok (a / b).

(** [sum(xs)] *)
Definition sum (xs : list Q) : Q := fold_left Qplus xs 0.

(** What a [logging.Logger] call records: the level, the text of the
    f-string before its placeholder, and the exception interpolated into
    it (if any). *)
Inductive LogLevel : Type := INFO | WARNING | ERROR | CRITICAL.

Record LogRecord : Type := mkLog {
  log_level : LogLevel;
  log_text : string;
  log_exc : option Exception
}.

End Py.

Notation "'let*' x ':=' r 'in' k" := (Py.bind r (fun x => k))
  (at level 10, x name, r at level 100, k at level 200).

(** ** pair_scanner.py: the data the scanner hands to the risk engine *)

Module PairScanner.

Inductive MarketType : Type := SPOT | FUTURES | MARGIN.

Inductive Timeframe : Type := M1 | M5 | M15 | M30 | H1 | H4 | D1.

Record PairInfo : Type := mkPairInfo {
  symbol : string;
  exchange : string;
  market_type : MarketType;
  base_currency : string;
  quote_currency : string;
  price : Q;
  volume_24h : Q;
  volume_change_24h : Q;
  price_change_24h : Q;
  market_cap : option Q;
  available_margin : bool;
  max_leverage : Z;
  min_order_size : Q;
  tick_size : Q
}.

Record QuickOpportunity : Type := mkQuickOpportunity {
  pair : PairInfo;
  timeframe : Timeframe;
  strategy : string;
  signal : string;
  confidence : Q;
  entry_price : Q;
  stop_loss : option Q;
  take_profit : option Q;
  risk_reward_ratio : Q;
  time_to_expire : Z;            (* minutes *)
  reasoning : string;
  technical_score : Q;
  volume_score : Q;
  volatility_score : Q;
  overall_score : Q
}.

Record ScanConfig : Type := mkScanConfig {
  enabled_exchanges : list string;
  enabled_markets : list MarketType;
  enabled_timeframes : list Timeframe;
  min_volume_24h : Q;
  min_price_change_24h : Q;
  max_spread_percentage : Q;
  min_confidence_threshold : Q;
  max_pairs_per_exchange : nat;
  scan_interval : Z;
  parallel_workers : nat
}.

Global Instance MarketType_eq_dec : EqDecision MarketType.
Proof. solve_decision. Defined.

Record ScanStats : Type := mkScanStats {
  total_scanned : nat;
  opportunities_found : nat
}.

(** The scanner object: configuration, caches, statistics (the two
    counters; the clock readings are left out) and what it logged. *)
Record PairScanner : Type := mkPairScanner {
  config : ScanConfig;
  pairs_cache : list (string * list PairInfo);
  opportunities_cache : list QuickOpportunity;
  scan_stats : ScanStats;
  log : list Py.LogRecord
}.

(** One scan work item: the arguments of [_scan_pair_opportunities]. *)
Definition WorkItem : Type := (PairInfo * Timeframe * MarketType)%type.

(** How the [try] body of [_scan_pair_opportunities] runs for a work
    item: to its end, or raising [e] after appending [collected]. *)
Inductive ItemRun : Type :=
| Completes (opportunities : list QuickOpportunity)
| Fails (collected : list QuickOpportunity) (e : Py.Exception).

(** [PairScanner._filter_pairs] *)
Definition _filter_pairs (self : PairScanner) (pairs : list PairInfo)
    : list PairInfo :=
  List.filter
    (fun pair =>
       if Py.ltb (volume_24h pair) (min_volume_24h (config self)) then false
       else if Py.ltb (Py.abs (price_change_24h pair))
                      (min_price_change_24h (config self)) then false
       else if negb (bool_decide (market_type pair ∈ enabled_markets (config self)))
            then false
       else true)
    pairs.

(** [PairScanner._is_pair_supported] *)
Definition _is_pair_supported (pair : PairInfo) (mt : MarketType) : bool :=
  match mt with
  | SPOT => bool_decide (market_type pair = SPOT)
  | FUTURES => bool_decide (market_type pair = FUTURES) || available_margin pair
  | MARGIN => true
  end.

(** [PairScanner._filter_opportunities] *)
Definition _filter_opportunities (self : PairScanner)
    (opportunities : list QuickOpportunity) : list QuickOpportunity :=
  List.filter
    (fun opp =>
       if Py.ltb (confidence opp) (min_confidence_threshold (config self))
       then false
       else if Py.ltb (overall_score opp) 0.5 then false
       else if Py.ltb (risk_reward_ratio opp) 1.0 then false
       else true)
    opportunities.

(** [sorted(xs, key=key, reverse=True)]: descending and stable. *)
Fixpoint insert_desc {A} (key : A -> Q) (x : A) (l : list A) : list A :=
  match l with
  | [] => [x]
  | y :: l' =>
      if Py.ltb (key x) (key y) then y :: insert_desc key x l'
      else x :: y :: l'
  end.

Definition sorted_reverse {A} (key : A -> Q) (xs : list A) : list A :=
  fold_right (insert_desc key) [] xs.

(** The nested loops that prepare [scan_tasks]. *)
Definition scan_tasks (self : PairScanner) : list WorkItem :=
  flat_map
    (fun entry : string * list PairInfo =>
       let (exchange_name, pairs) := entry in
       if negb (bool_decide (exchange_name ∈ enabled_exchanges (config self)))
       then []
       else
         let filtered_pairs := _filter_pairs self pairs in
         flat_map
           (fun pair =>
              flat_map
                (fun timeframe =>
                   flat_map
                     (fun market_type =>
                        if _is_pair_supported pair market_type
                        then [(pair, timeframe, market_type)]
                        else [])
                     (enabled_markets (config self)))
                (enabled_timeframes (config self)))
           (take (max_pairs_per_exchange (config self)) filtered_pairs))
    (pairs_cache self).

(** [PairScanner._scan_pair_opportunities]: both exits of the [try]
    return [opportunities]; the handler logs a warning first. *)
Definition _scan_pair_opportunities (run : ItemRun)
    : list QuickOpportunity * list Py.LogRecord :=
  match run with
  | Completes opportunities => (opportunities, [])
  | Fails collected e =>
      (collected, [Py.mkLog Py.WARNING "Error escaneando " (Some e)])
  end.

(** What awaiting a scan task yields - the list it returned or the
    exception it raised - and what the task logged, on the logger of the
    scanner, while it ran. *)
Definition TaskOutcome : Type :=
  (Py.Result (list QuickOpportunity) * list Py.LogRecord)%type.

(** Awaiting the coroutine [_scan_pair_opportunities(pair, timeframe,
    market_type)] of the [i]-th task, whose body runs as [runs i item]: the
    handler inside lets no [Exception] out and logs its warning. *)
Definition await_scan_pair (runs : nat -> WorkItem -> ItemRun)
    (i : nat) (item : WorkItem) : TaskOutcome :=
  let (opportunities, logged) := _scan_pair_opportunities (runs i item) in
  (Py.Ok opportunities, logged).

(** [batch_size = 50]; [scan_tasks[i:i + batch_size]] for
    [i in range(0, len(scan_tasks), batch_size)]. *)
Definition batch_size : nat := 50.

Definition batches {A} (tasks : list A) : list (list A) :=
  map (fun k => take batch_size (drop (k * batch_size) tasks))
      (seq 0 ((length tasks + (batch_size - 1)) / batch_size)).

(** The body of [for result in batch_results]: what
    [asyncio.gather(..., return_exceptions=True)] yields for a task is the
    exception it raised or the list it returned. *)
Definition collect_result
    (acc : list QuickOpportunity * list Py.LogRecord)
    (result : Py.Result (list QuickOpportunity))
    : list QuickOpportunity * list Py.LogRecord :=
  let (all_opportunities, log) := acc in
  match result with
  | Py.Raise e =>
      (all_opportunities, log ++ [Py.mkLog Py.WARNING "Error en escaneo: " (Some e)])
  | Py.Ok [] => (all_opportunities, log)
  | Py.Ok opportunities => (all_opportunities ++ opportunities, log)
  end.

(** One batch: the await of [asyncio.gather] on the tasks of the batch,
    during which the tasks of the batch log (taken here in task order), then
    the loop over [batch_results]. *)
Definition collect_batch
    (acc : list QuickOpportunity * list Py.LogRecord)
    (batch : list TaskOutcome)
    : list QuickOpportunity * list Py.LogRecord :=
  let (all_opportunities, log) := acc in
  let batch_results := map fst batch in
  fold_left collect_result batch_results
            (all_opportunities, log ++ concat (map snd batch)).

Definition collect_batches
    (acc : list QuickOpportunity * list Py.LogRecord)
    (bs : list (list TaskOutcome))
    : list QuickOpportunity * list Py.LogRecord :=
  fold_left collect_batch bs acc.

(** [PairScanner.scan_all_opportunities].  [await_task i item] is what
    awaiting the [i]-th coroutine of [scan_tasks], created for [item],
    yields and logs.  Nothing else inside the outer [try] raises on the
    typed data, so its handler ([return []]) is not entered. *)
Definition scan_all_opportunities (self : PairScanner)
    (await_task : nat -> WorkItem -> TaskOutcome)
    : PairScanner * list QuickOpportunity :=
  let tasks := scan_tasks self in
  let log0 := log self ++ [Py.mkLog Py.INFO "Iniciando escaneo de " None] in
  let '(all_opportunities, log1) :=
    collect_batches ([], log0) (batches (imap await_task tasks)) in
  let filtered_opportunities := _filter_opportunities self all_opportunities in
  let sorted_opportunities := sorted_reverse overall_score filtered_opportunities in
  (mkPairScanner (config self) (pairs_cache self) sorted_opportunities
                 (mkScanStats (length tasks) (length sorted_opportunities))
                 (log1 ++ [Py.mkLog Py.INFO "Escaneo completado: " None]),
   sorted_opportunities).

(** *** From an analysis to an opportunity *)

(** The ['signals'] dict of an analysis, through the two keys
    [_calculate_levels] reads. *)
Record Signals : Type := mkSignals {
  sig_stop_loss : option Q;
  sig_take_profit : option Q
}.

(** The dict an [_analyze_*] coroutine returns, through the keys the
    scanner reads; an absent key is [None] ([a_levels] tells whether the key
    ['levels'] is there). *)
Record Analysis : Type := mkAnalysis {
  a_error : option string;
  a_strategy : option string;
  a_confidence : option Q;
  a_action : option string;
  a_levels : bool;
  a_signals : option Signals
}.

(** [if result:] on such a dict.  A dict that has none of these keys yields
    no opportunity whichever way this test goes: its action defaults to
    ['hold']. *)
Definition analysis_truthy (a : Analysis) : bool :=
  match a_error a, a_strategy a, a_confidence a, a_action a, a_signals a with
  | None, None, None, None, None => a_levels a
  | _, _, _, _, _ => true
  end.

(** [not x] on an [Optional[float]] *)
Definition level_falsy (x : option Q) : bool :=
  match x with
  | None => true
  | Some v => Py.eqb v 0
  end.

(** [PairScanner._calculate_levels].  The only step of the [try] that can
    raise is [signals['take_profit']] on a missing key (KeyError); the
    handler returns [(None, None)]. *)
Definition _calculate_levels (action : string) (current_price : Q)
    (analysis : Analysis) : option Q * option Q :=
  let strategy := default "" (a_strategy analysis) in
  let signals := default (mkSignals None None) (a_signals analysis) in
  let with_defaults (stop_loss take_profit : option Q) :=
    if level_falsy stop_loss then
      if String.eqb action "buy" then
        (Some (current_price * 0.98), Some (current_price * 1.04))
      else if String.eqb action "sell" then
        (Some (current_price * 1.02), Some (current_price * 0.96))
      else (stop_loss, take_profit)
    else (stop_loss, take_profit) in
  if String.eqb strategy "support_resistance" then with_defaults None None
  else if String.eqb strategy "fibonacci" then
    match a_signals analysis, sig_stop_loss signals with
    | Some _, Some stop_loss =>
        match sig_take_profit signals with
        | Some take_profit => with_defaults (Some stop_loss) (Some take_profit)
        | None => (None, None)
        end
    | _, _ => with_defaults None None
    end
  else with_defaults None None.

(** The risk/reward computation of [_create_opportunity_from_analysis]. *)
Definition risk_reward (action : string) (current_price : Q)
    (stop_loss take_profit : option Q) : Q :=
  match stop_loss, take_profit with
  | Some sl, Some tp =>
      if Py.eqb sl 0 || Py.eqb tp 0 then 1.0
      else
        let risk :=
          if String.eqb action "buy" then current_price - sl else sl - current_price in
        let reward :=
          if String.eqb action "buy" then tp - current_price else current_price - tp in
        if Py.gtb risk 0 then reward / risk else 1.0
  | _, _ => 1.0
  end.

Section OpportunityText.

(** The interpreter's [format(x, '.2f')], [format(x, ',.0f')] and
    [format(x, '.2%')]. *)
Variable format_2f : Q -> string.
Variable format_thousands : Q -> string.
Variable format_percent : Q -> string.

(** [PairScanner._generate_opportunity_reasoning] *)
Definition _generate_opportunity_reasoning (pair : PairInfo)
    (timeframe : Timeframe) (analysis : Analysis) (score : Q) : string :=
  let strategy := default "unknown" (a_strategy analysis) in
  let confidence := default 0.0 (a_confidence analysis) in
  "Estrategia: " +:+ strategy
  +:+ " | " +:+ "Confianza: " +:+ format_2f confidence
  +:+ " | " +:+ "Score: " +:+ format_2f score
  +:+ " | " +:+ "Volumen 24h: $" +:+ format_thousands (volume_24h pair)
  +:+ " | " +:+ "Cambio 24h: " +:+ format_percent (price_change_24h pair).

(** [PairScanner._create_opportunity_from_analysis]; [closes] is the
    ['close'] column of the frame.  The step of the [try] that can raise is
    [df['close'].iloc[-1]] on an empty frame; the handler returns [None]. *)
Definition _create_opportunity_from_analysis (self : PairScanner)
    (pair : PairInfo) (timeframe : Timeframe) (market_type : MarketType)
    (analysis : Analysis) (closes : list Q) : option QuickOpportunity :=
  let confidence := default 0.0 (a_confidence analysis) in
  let action := default "hold" (a_action analysis) in
  if String.eqb action "hold"
     || Py.ltb confidence (min_confidence_threshold (config self))
  then None
  else
    let technical_score := confidence in
    let volume_score := Py.min (volume_24h pair / 10000000) 1.0 in
    let volatility_score := Py.min (Py.abs (price_change_24h pair) / 0.1) 1.0 in
    let overall_score :=
      technical_score * 0.5 + volume_score * 0.3 + volatility_score * 0.2 in
    match last closes with
    | None => None
    | Some current_price =>
        let '(stop_loss, take_profit) :=
          _calculate_levels action current_price analysis in
        let risk_reward_ratio :=
          risk_reward action current_price stop_loss take_profit in
        let reasoning :=
          _generate_opportunity_reasoning pair timeframe analysis overall_score in
        Some (mkQuickOpportunity pair timeframe
                (default "unknown" (a_strategy analysis)) action confidence
                current_price stop_loss take_profit risk_reward_ratio 30
                reasoning technical_score volume_score volatility_score
                overall_score)
    end.

(** The [try] body of [_scan_pair_opportunities] on typed inputs:
    [market_data] is what [_get_market_data] returned (the closes of the
    frame, or [None]) and [analysis_results] what
    [asyncio.gather(..., return_exceptions=True)] returned for the
    analyses. *)
Definition scan_pair_body (self : PairScanner) (pair : PairInfo)
    (timeframe : Timeframe) (market_type : MarketType)
    (market_data : option (list Q))
    (analysis_results : list (Py.Result Analysis)) : list QuickOpportunity :=
  match market_data with
  | None => []
  | Some closes =>
      if (length closes <? 50)%nat then []
      else
        flat_map
          (fun result =>
             match result with
             | Py.Raise _ => []
             | Py.Ok analysis =>
                 if analysis_truthy analysis
                    && Py.geb (default 0 (a_confidence analysis))
                              (min_confidence_threshold (config self))
                 then
                   match _create_opportunity_from_analysis
                           self pair timeframe market_type analysis closes with
                   | Some opportunity => [opportunity]
                   | None => []
                   end
                 else []
             end)
          analysis_results
  end.

End OpportunityText.

(** *** Reading the cache *)

(** [PairScanner.get_top_opportunities] *)
Definition get_top_opportunities (self : PairScanner) (limit : nat)
    : list QuickOpportunity :=
  take limit (opportunities_cache self).

(** [PairScanner.get_opportunities_by_exchange] *)
Definition get_opportunities_by_exchange (self : PairScanner) (ex : string)
    : list QuickOpportunity :=
  List.filter (fun opp => String.eqb (exchange (pair opp)) ex)
              (opportunities_cache self).

(** [PairScanner.get_opportunities_by_strategy] *)
Definition get_opportunities_by_strategy (self : PairScanner) (s : string)
    : list QuickOpportunity :=
  List.filter (fun opp => String.eqb (strategy opp) s) (opportunities_cache self).

(** The ['top_opportunity_score'] entry of [get_scan_statistics]. *)
Definition top_opportunity_score (self : PairScanner) : Q :=
  match opportunities_cache self with
  | opp :: _ => overall_score opp
  | [] => 0.0
  end.

End PairScanner.

(** ** risk_levels.py *)

Module RiskLevels.
Import Py.

Inductive RiskLevel : Type := CONSERVATIVE | AGGRESSIVE | TURBO.

Inductive LeverageMode : Type := DYNAMIC | FIXED | ADAPTIVE.

Record RiskProfile : Type := mkRiskProfile {
  risk_level : RiskLevel;
  max_leverage : Q;
  base_position_size : Q;
  max_position_size : Q;
  stop_loss_percentage : Q;
  take_profit_percentage : Q;
  max_drawdown : Q;
  max_daily_trades : Z;
  risk_per_trade : Q;
  volatility_threshold : Q;
  confidence_threshold : Q;
  emergency_stop_loss : Q;
  position_sizing_method : string;
  diversification_limit : Z
}.

Record PositionSizing : Type := mkPositionSizing {
  base_size : Q;
  leverage : Q;
  adjusted_size : Q;
  risk_amount : Q;
  stop_distance : Q;
  position_value : Q;
  margin_required : Q;
  max_loss : Q
}.

Record RiskMetrics : Type := mkRiskMetrics {
  current_exposure : Q;
  total_leverage : Q;
  portfolio_var : Q;
  m_max_drawdown : Q;            (* RiskMetrics.max_drawdown *)
  sharpe_ratio : Q;
  win_rate : Q;
  profit_factor : Q;
  risk_score : Q;
  margin_utilization : Q;
  diversification_score : Q
}.

(** Rows of the [positions] and [trades] lists: dicts read only through
    [.get(key, default)], so a missing key is [None]. *)
Record Position : Type := mkPosition {
  p_symbol : option string;
  p_position_value : option Q
}.

Record Trade : Type := mkTrade {
  t_pnl : option Q
}.

(** The manager.  [risk_profiles] and [leverage_modes] are dicts keyed by
    the three members of [RiskLevel], hence total maps.  [position_history],
    which no method reads or writes after [__init__], is left out. *)
Record RiskManager : Type := mkRiskManager {
  current_risk_level : RiskLevel;
  risk_profiles : RiskLevel -> RiskProfile;
  leverage_modes : RiskLevel -> LeverageMode;
  current_metrics : RiskMetrics;
  risk_history : list RiskMetrics
}.

Definition _create_risk_profiles (l : RiskLevel) : RiskProfile :=
  match l with
  | CONSERVATIVE =>
      mkRiskProfile CONSERVATIVE 2.0 1000.0 5000.0 0.02 0.04 0.05 5
                    0.01 0.03 0.8 0.03 "kelly_criterion" 3
  | AGGRESSIVE =>
      mkRiskProfile AGGRESSIVE 5.0 2000.0 10000.0 0.03 0.06 0.10 15
                    0.025 0.05 0.7 0.05 "volatility_adjusted" 5
  | TURBO =>
      mkRiskProfile TURBO 10.0 5000.0 20000.0 0.05 0.10 0.20 30
                    0.05 0.08 0.6 0.08 "momentum_based" 8
  end.

Definition default_leverage_modes (l : RiskLevel) : LeverageMode :=
  match l with
  | CONSERVATIVE => FIXED
  | AGGRESSIVE => DYNAMIC
  | TURBO => ADAPTIVE
  end.

Definition initial_metrics : RiskMetrics :=
  mkRiskMetrics 0.0 1.0 0.0 0.0 0.0 0.0 0.0 0.0 0.0 0.0.

(** [RiskManager.__init__] *)
Definition init : RiskManager :=
  mkRiskManager CONSERVATIVE _create_risk_profiles default_leverage_modes
                initial_metrics [].

Definition set_risk_level (self : RiskManager) (l : RiskLevel) : RiskManager :=
  mkRiskManager l (risk_profiles self) (leverage_modes self)
                (current_metrics self) (risk_history self).

Definition get_current_profile (self : RiskManager) : RiskProfile :=
  risk_profiles self (current_risk_level self).

(** [create_risk_manager] *)
Definition create_risk_manager (initial_level : RiskLevel) : RiskManager :=
  set_risk_level init initial_level.

(** [market_conditions.get('trend_strength', 0.5)] *)
Definition trend_strength (market_conditions : gmap string Q) : Q :=
  default 0.5 (market_conditions !! "trend_strength").

(** [RiskManager._calculate_dynamic_leverage].  The three branches are the
    three members of [LeverageMode]; the trailing [return base_leverage]
    of the source is not reachable. *)
Definition _calculate_dynamic_leverage (self : RiskManager)
    (opportunity : PairScanner.QuickOpportunity) (volatility : Q)
    (market_conditions : gmap string Q) (profile : RiskProfile) : Q :=
  let base_leverage := max_leverage profile in
  let leverage_mode := leverage_modes self (risk_level profile) in
  match leverage_mode with
  | FIXED =>
      min base_leverage 2.0
  | DYNAMIC =>
      let confidence_factor := PairScanner.confidence opportunity in
      let volatility_factor := max 0.5 (1 - (volatility / 0.1)) in
      let market_factor := trend_strength market_conditions in
      let dynamic_leverage :=
        base_leverage * confidence_factor * volatility_factor * market_factor in
      min dynamic_leverage base_leverage
  | ADAPTIVE =>
      let trend_factor := trend_strength market_conditions in
      let volume_factor :=
        min 1.0 (PairScanner.volume_24h (PairScanner.pair opportunity) / 10000000) in
      let adaptive_leverage :=
        base_leverage * (0.5 + trend_factor * 0.3 + volume_factor * 0.2) in
      min adaptive_leverage base_leverage
  end.

(** [RiskManager._calculate_base_position_size] *)
Definition _calculate_base_position_size
    (opportunity : PairScanner.QuickOpportunity) (current_balance : Q)
    (profile : RiskProfile) : Result Q :=
  let sizing_method := position_sizing_method profile in
  if String.eqb sizing_method "kelly_criterion" then
    let win_rate := PairScanner.confidence opportunity in
    let avg_win := PairScanner.risk_reward_ratio opportunity in
    let* kelly_fraction := div (win_rate * avg_win - (1 - win_rate)) avg_win in
    let kelly_fraction := max 0 (min kelly_fraction 0.25) in
    Ok (current_balance * kelly_fraction)
  else if String.eqb sizing_method "volatility_adjusted" then
    let base_size := base_position_size profile in
    let* volatility_adjustment :=
      div 1 (1 + PairScanner.volatility_score opportunity) in
    Ok (base_size * volatility_adjustment)
  else if String.eqb sizing_method "momentum_based" then
    let momentum_score :=
      (PairScanner.technical_score opportunity
       + PairScanner.volume_score opportunity
       + PairScanner.volatility_score opportunity) / 3 in
    Ok (base_position_size profile * (0.5 + momentum_score * 0.5))
  else
    Ok (base_position_size profile).

(** [opportunity.stop_loss or 0] *)
Definition stop_loss_or_0 (stop_loss : option Q) : Q :=
  match stop_loss with
  | Some s => if eqb s 0 then 0 else s
  | None => 0
  end.

(** [RiskManager.calculate_position_size] *)
Definition calculate_position_size (self : RiskManager)
    (opportunity : PairScanner.QuickOpportunity) (current_balance : Q)
    (volatility : Q) (market_conditions : gmap string Q)
    : Result PositionSizing :=
  let profile := get_current_profile self in
  let leverage :=
    _calculate_dynamic_leverage self opportunity volatility
                                market_conditions profile in
  let* base_size :=
    _calculate_base_position_size opportunity current_balance profile in
  let adjusted_size := base_size * leverage in
  let adjusted_size := min adjusted_size (max_position_size profile) in
  let adjusted_size :=
    min adjusted_size (current_balance * max_leverage profile) in
  let stop_distance :=
    abs (PairScanner.entry_price opportunity
         - stop_loss_or_0 (PairScanner.stop_loss opportunity)) in
  let risk_amount := adjusted_size * risk_per_trade profile in
  let position_value := adjusted_size * PairScanner.entry_price opportunity in
  let* margin_required := div position_value leverage in
  let max_loss := risk_amount in
  Ok (mkPositionSizing base_size leverage adjusted_size risk_amount
                       stop_distance position_value margin_required max_loss).

(** [calculate_optimal_leverage] (module-level helper) *)
Definition calculate_optimal_leverage (volatility confidence : Q)
    (risk_level : RiskLevel) : Q :=
  let base_leverage :=
    match risk_level with
    | CONSERVATIVE => 2.0
    | AGGRESSIVE => 5.0
    | TURBO => 10.0
    end in
  let volatility_factor := max 0.5 (1 - (volatility / 0.1)) in
  let confidence_factor := confidence in
  let optimal_leverage := base_leverage * volatility_factor * confidence_factor in
  min optimal_leverage base_leverage.

(** *** Emergency stop and recommendations *)

(** The second component of [should_emergency_stop]: which f-string was
    built and the number interpolated into it. *)
Inductive StopReason : Type :=
| Drawdown_de_emergencia (max_drawdown : Q)
| Score_de_riesgo_critico (risk_score : Q)
| Utilizacion_de_margen_critica (margin_utilization : Q)
| Condiciones_normales.

(** [RiskManager.should_emergency_stop] *)
Definition should_emergency_stop (self : RiskManager) : bool * StopReason :=
  let profile := get_current_profile self in
  let m := current_metrics self in
  if gtb (m_max_drawdown m) (emergency_stop_loss profile) then
    (true, Drawdown_de_emergencia (m_max_drawdown m))
  else if gtb (risk_score m) 0.9 then
    (true, Score_de_riesgo_critico (risk_score m))
  else if gtb (margin_utilization m) 0.95 then
    (true, Utilizacion_de_margen_critica (margin_utilization m))
  else
    (false, Condiciones_normales).

(** [RiskManager.get_risk_recommendations] *)
Definition get_risk_recommendations (self : RiskManager) : list string :=
  let profile := get_current_profile self in
  let m := current_metrics self in
  (if gtb (risk_score m) 0.7
   then ["Considerar reducir exposición o cambiar a nivel más conservador"]
   else [])
  ++ (if gtb (m_max_drawdown m) (max_drawdown profile * 0.8)
      then ["Drawdown elevado, revisar estrategias de stop loss"] else [])
  ++ (if ltb (win_rate m) 0.4
      then ["Win rate bajo, revisar criterios de entrada"] else [])
  ++ (if ltb (diversification_score m) 0.3
      then ["Poca diversificación, considerar más pares"] else [])
  ++ (if gtb (margin_utilization m) 0.8
      then ["Alta utilización de margen, reducir posiciones"] else []).

(** *** Running metrics *)

(** [np.cumsum] *)
Fixpoint cumsum_from (acc : Q) (xs : list Q) : list Q :=
  match xs with
  | [] => []
  | x :: xs' => (acc + x) :: cumsum_from (acc + x) xs'
  end.
Definition cumsum (xs : list Q) : list Q := cumsum_from 0 xs.

(** [np.maximum.accumulate] *)
Fixpoint maximum_accumulate_from (m : Q) (xs : list Q) : list Q :=
  match xs with
  | [] => []
  | x :: xs' => max m x :: maximum_accumulate_from (max m x) xs'
  end.
Definition maximum_accumulate (xs : list Q) : list Q :=
  match xs with
  | [] => []
  | x :: xs' => x :: maximum_accumulate_from x xs'
  end.

(** [np.min] of a non-empty array *)
Definition np_min (x : Q) (xs : list Q) : Q := fold_left min xs x.

(** [np.mean] *)
Definition np_mean (xs : list Q) : Q :=
  sum xs / inject_Z (Z.of_nat (length xs)).

Definition pnl_of (t : Trade) : Q := default 0 (t_pnl t).
Definition position_value_of (p : Position) : Q := default 0 (p_position_value p).
Definition symbol_of (p : Position) : string := default "" (p_symbol p).

Section UpdateRiskMetrics.

(** [np.std] takes a square root, which the rationals do not have; it
    only feeds [sharpe_ratio]. *)
Variable np_std : list Q -> Q.

(** [RiskManager.update_risk_metrics].  The element-wise array division
    of the drawdown series is numpy's and does not raise; the Python
    float division of [margin_utilization] does. *)
Definition update_risk_metrics (self : RiskManager)
    (positions : list Position) (trades : list Trade)
    (current_balance : Q) : Result RiskManager :=
  match trades with
  | [] => Ok self
  | _ =>
    let total_trades := length trades in
    let winning_trades := length (List.filter (fun t => gtb (pnl_of t) 0) trades) in
    let current_exposure := sum (map position_value_of positions) in
    let total_leverage :=
      if gtb current_balance 0 then current_exposure / current_balance else 1.0 in
    let win_rate :=
      if (0 <? total_trades)%nat
      then inject_Z (Z.of_nat winning_trades) / inject_Z (Z.of_nat total_trades)
      else 0.0 in
    let gross_profit :=
      sum (map pnl_of (List.filter (fun t => gtb (pnl_of t) 0) trades)) in
    let gross_loss :=
      abs (sum (map pnl_of (List.filter (fun t => ltb (pnl_of t) 0) trades))) in
    let profit_factor :=
      if gtb gross_loss 0 then gross_profit / gross_loss else 0.0 in
    let returns := map pnl_of trades in
    let sharpe_ratio :=
      if (1 <? length returns)%nat then
        let mean_return := np_mean returns in
        let std_return := np_std returns in
        if gtb std_return 0 then mean_return / std_return else 0.0
      else 0.0 in
    let cumulative_pnl := cumsum returns in
    let running_max := maximum_accumulate cumulative_pnl in
    let drawdown :=
      map (fun cr => (fst cr - snd cr) / (snd cr + 1e-10))
          (combine cumulative_pnl running_max) in
    let max_drawdown :=
      match drawdown with
      | d :: ds => abs (np_min d ds)
      | [] => 0.0
      end in
    let risk_score :=
      min 1.0 (total_leverage * 0.3 + max_drawdown * 0.4 + (1 - win_rate) * 0.3) in
    let diversification_score :=
      min 1.0 (inject_Z (Z.of_nat (length (remove_dups (map symbol_of positions)))) / 10.0) in
    let* margin_utilization :=
      div current_exposure
          (current_balance * max_leverage (get_current_profile self)) in
    let metrics :=
      mkRiskMetrics current_exposure total_leverage 0.0 max_drawdown
                    sharpe_ratio win_rate profit_factor risk_score
                    margin_utilization diversification_score in
    let history := risk_history self ++ [metrics] in
    let history :=
      if (1000 <? length history)%nat
      then drop (length history - 1000)%nat history else history in
    Ok (mkRiskManager (current_risk_level self) (risk_profiles self)
                      (leverage_modes self) metrics history)
  end.

End UpdateRiskMetrics.

(** *** Trade validation and exit levels *)

(** A row of [current_positions] as [validate_trade] reads it: the keys of
    [Position] and the calendar day of its ['timestamp'] key, if it has
    one. *)
Record DatedPosition : Type := mkDatedPosition {
  dp_row : Position;
  dp_day : option Z
}.

(** The second component of [validate_trade]: which message was built and
    the numbers interpolated into it. *)
Inductive ValidationReason : Type :=
| Confianza_insuficiente (confidence threshold : Q)
| Limite_diario_de_trades (today_trades : nat) (max_daily_trades : Z)
| Limite_de_diversificacion (positions : nat) (diversification_limit : Z)
| Exposicion_total_excedida
| Leverage_excedido (leverage max_leverage : Q)
| Drawdown_maximo_excedido (drawdown max_drawdown : Q)
| Trade_valido.

(** [len([p for p in current_positions
          if p.get('timestamp', datetime.now()).date() == datetime.now().date()])];
    [today] is the calendar day of [datetime.now()]. *)
Definition today_trades (today : Z) (current_positions : list DatedPosition)
    : nat :=
  length (List.filter (fun p => Z.eqb (default today (dp_day p)) today)
                      current_positions).

(** [RiskManager.validate_trade] *)
Definition validate_trade (self : RiskManager) (today : Z)
    (opportunity : PairScanner.QuickOpportunity)
    (position_sizing : PositionSizing)
    (current_positions : list DatedPosition) : bool * ValidationReason :=
  let profile := get_current_profile self in
  if ltb (PairScanner.confidence opportunity) (confidence_threshold profile) then
    (false, Confianza_insuficiente (PairScanner.confidence opportunity)
                                   (confidence_threshold profile))
  else
    let today_trades := today_trades today current_positions in
    if (max_daily_trades profile <=? Z.of_nat today_trades)%Z then
      (false, Limite_diario_de_trades today_trades (max_daily_trades profile))
    else if (diversification_limit profile <=? Z.of_nat (length current_positions))%Z then
      (false, Limite_de_diversificacion (length current_positions)
                                        (diversification_limit profile))
    else
      let total_exposure :=
        sum (map (fun p => position_value_of (dp_row p)) current_positions) in
      let max_total_exposure :=
        max_position_size profile * inject_Z (diversification_limit profile) in
      if gtb (total_exposure + position_value position_sizing) max_total_exposure then
        (false, Exposicion_total_excedida)
      else if gtb (leverage position_sizing) (max_leverage profile) then
        (false, Leverage_excedido (leverage position_sizing) (max_leverage profile))
      else if gtb (m_max_drawdown (current_metrics self)) (max_drawdown profile) then
        (false, Drawdown_maximo_excedido (m_max_drawdown (current_metrics self))
                                         (max_drawdown profile))
      else (true, Trade_valido).

(** [if opportunity.stop_loss:] and [if opportunity.take_profit:] on an
    [Optional[float]]: the level when it is there and not zero. *)
Definition truthy_level (level : option Q) : option Q :=
  match level with
  | Some l => if eqb l 0 then None else Some l
  | None => None
  end.

(** [RiskManager.calculate_stop_loss] *)
Definition calculate_stop_loss (self : RiskManager)
    (opportunity : PairScanner.QuickOpportunity)
    (position_sizing : PositionSizing) : Q :=
  let profile := get_current_profile self in
  match truthy_level (PairScanner.stop_loss opportunity) with
  | Some l => l
  | None =>
      if String.eqb (PairScanner.signal opportunity) "buy"
      then PairScanner.entry_price opportunity * (1 - stop_loss_percentage profile)
      else PairScanner.entry_price opportunity * (1 + stop_loss_percentage profile)
  end.

(** [RiskManager.calculate_take_profit] *)
Definition calculate_take_profit (self : RiskManager)
    (opportunity : PairScanner.QuickOpportunity)
    (position_sizing : PositionSizing) : Q :=
  let profile := get_current_profile self in
  match truthy_level (PairScanner.take_profit opportunity) with
  | Some l => l
  | None =>
      if String.eqb (PairScanner.signal opportunity) "buy"
      then PairScanner.entry_price opportunity * (1 + take_profit_percentage profile)
      else PairScanner.entry_price opportunity * (1 - take_profit_percentage profile)
  end.

End RiskLevels.

(** ** risk_levels.py: position sizing on the numbers Python has *)

(** The sizing path once more, on run-time numbers: a binary64 value that
    is either a Python [float] (or [int]) or a [numpy.float64], as the
    prices read from a data frame are.  Arithmetic is IEEE arithmetic in
    both; a [numpy.float64] operand makes the result a [numpy.float64]; and
    [/] raises [ZeroDivisionError] at a zero divisor only between two
    Python numbers - with a [numpy.float64] operand it returns an infinity
    or a NaN (and warns). *)
Module RiskLevels64.
Import PrimFloat.
Import RiskLevels (RiskLevel(..), LeverageMode(..), default_leverage_modes).

#[local] Set Warnings "-inexact-float".

Record Num : Type := mkNum {
  value : float;
  numpy : bool
}.

(** A Python [float] or [int], and a [numpy.float64]. *)
Definition py (x : float) : Num := mkNum x false.
Definition np64 (x : float) : Num := mkNum x true.

Definition add (a b : Num) : Num :=
  mkNum (value a + value b) (numpy a || numpy b).
Definition sub (a b : Num) : Num :=
  mkNum (value a - value b) (numpy a || numpy b).
Definition mul (a b : Num) : Num :=
  mkNum (value a * value b) (numpy a || numpy b).

(** [a / b] *)
Definition truediv (a b : Num) : Py.Result Num :=
  if numpy a || numpy b then Py.Ok (np64 (value a / value b))
  else if (value b =? 0)%float then Py.Raise Py.ZeroDivisionError
  else Py.Ok (py (value a / value b)).

(** [a / b] by a nonzero constant. *)
Definition div_const (a b : Num) : Num :=
  mkNum (value a / value b) (numpy a || numpy b).

(** [min(a, b)] and [max(a, b)] return one of their arguments: the first
    unless the second is strictly smaller (greater). *)
Definition min (a b : Num) : Num := if (value b <? value a)%float then b else a.
Definition max (a b : Num) : Num := if (value a <? value b)%float then b else a.

Definition abs (a : Num) : Num := mkNum (PrimFloat.abs (value a)) (numpy a).

Declare Scope num_scope.
Delimit Scope num_scope with num.
Bind Scope num_scope with Num.
#[local] Infix "+" := add : num_scope.
#[local] Infix "-" := sub : num_scope.
#[local] Infix "*" := mul : num_scope.
#[local] Open Scope float_scope.

(** [PairInfo] and [QuickOpportunity], through the fields the sizing
    reads. *)
Record PairInfo : Type := mkPairInfo {
  volume_24h : Num
}.

Record QuickOpportunity : Type := mkQuickOpportunity {
  pair : PairInfo;
  confidence : Num;
  entry_price : Num;
  stop_loss : option Num;
  risk_reward_ratio : Num;
  technical_score : Num;
  volume_score : Num;
  volatility_score : Num
}.

(** [RiskProfile], through the fields the sizing reads; the profiles are
    built from Python literals. *)
Record RiskProfile : Type := mkRiskProfile {
  risk_level : RiskLevel;
  max_leverage : float;
  base_position_size : float;
  max_position_size : float;
  risk_per_trade : float;
  position_sizing_method : string
}.

Record PositionSizing : Type := mkPositionSizing {
  base_size : Num;
  leverage : Num;
  adjusted_size : Num;
  risk_amount : Num;
  stop_distance : Num;
  position_value : Num;
  margin_required : Num;
  max_loss : Num
}.

Record RiskManager : Type := mkRiskManager {
  current_risk_level : RiskLevel;
  risk_profiles : RiskLevel -> RiskProfile;
  leverage_modes : RiskLevel -> LeverageMode
}.

Definition _create_risk_profiles (l : RiskLevel) : RiskProfile :=
  match l with
  | CONSERVATIVE =>
      mkRiskProfile CONSERVATIVE 2.0 1000.0 5000.0 0.01 "kelly_criterion"
  | AGGRESSIVE =>
      mkRiskProfile AGGRESSIVE 5.0 2000.0 10000.0 0.025 "volatility_adjusted"
  | TURBO =>
      mkRiskProfile TURBO 10.0 5000.0 20000.0 0.05 "momentum_based"
  end.

(** [create_risk_manager] *)
Definition create_risk_manager (initial_level : RiskLevel) : RiskManager :=
  mkRiskManager initial_level _create_risk_profiles default_leverage_modes.

Definition get_current_profile (self : RiskManager) : RiskProfile :=
  risk_profiles self (current_risk_level self).

(** [market_conditions.get('trend_strength', 0.5)] *)
Definition trend_strength (market_conditions : gmap string Num) : Num :=
  default (py 0.5) (market_conditions !! "trend_strength").

(** [RiskManager._calculate_dynamic_leverage] *)
Definition _calculate_dynamic_leverage (self : RiskManager)
    (opportunity : QuickOpportunity) (volatility : Num)
    (market_conditions : gmap string Num) (profile : RiskProfile) : Num :=
  let base_leverage := py (max_leverage profile) in
  let leverage_mode := leverage_modes self (risk_level profile) in
  match leverage_mode with
  | FIXED =>
      min base_leverage (py 2.0)
  | DYNAMIC =>
      let confidence_factor := confidence opportunity in
      let volatility_factor :=
        max (py 0.5) (py 1 - div_const volatility (py 0.1))%num in
      let market_factor := trend_strength market_conditions in
      let dynamic_leverage :=
        (base_leverage * confidence_factor * volatility_factor * market_factor)%num in
      min dynamic_leverage base_leverage
  | ADAPTIVE =>
      let trend_factor := trend_strength market_conditions in
      let volume_factor :=
        min (py 1.0) (div_const (volume_24h (pair opportunity)) (py 10000000)) in
      let adaptive_leverage :=
        (base_leverage
         * (py 0.5 + trend_factor * py 0.3 + volume_factor * py 0.2))%num in
      min adaptive_leverage base_leverage
  end.

(** [RiskManager._calculate_base_position_size] *)
Definition _calculate_base_position_size
    (opportunity : QuickOpportunity) (current_balance : Num)
    (profile : RiskProfile) : Py.Result Num :=
  let sizing_method := position_sizing_method profile in
  if String.eqb sizing_method "kelly_criterion" then
    let win_rate := confidence opportunity in
    let avg_win := risk_reward_ratio opportunity in
    let* kelly_fraction :=
      truediv (win_rate * avg_win - (py 1 - win_rate))%num avg_win in
    let kelly_fraction := max (py 0) (min kelly_fraction (py 0.25)) in
    Py.Ok (current_balance * kelly_fraction)%num
  else if String.eqb sizing_method "volatility_adjusted" then
    let base_size := py (base_position_size profile) in
    let* volatility_adjustment :=
      truediv (py 1) (py 1 + volatility_score opportunity)%num in
    Py.Ok (base_size * volatility_adjustment)%num
  else if String.eqb sizing_method "momentum_based" then
    let momentum_score :=
      div_const (technical_score opportunity
                 + volume_score opportunity
                 + volatility_score opportunity)%num (py 3) in
    Py.Ok (py (base_position_size profile)
           * (py 0.5 + momentum_score * py 0.5))%num
  else
    Py.Ok (py (base_position_size profile)).

(** [opportunity.stop_loss or 0]: [None] and the zeros are falsy. *)
Definition stop_loss_or_0 (stop_loss : option Num) : Num :=
  match stop_loss with
  | Some s => if value s =? 0 then py 0 else s
  | None => py 0
  end.

(** [RiskManager.calculate_position_size] *)
Definition calculate_position_size (self : RiskManager)
    (opportunity : QuickOpportunity) (current_balance : Num)
    (volatility : Num) (market_conditions : gmap string Num)
    : Py.Result PositionSizing :=
  let profile := get_current_profile self in
  let leverage :=
    _calculate_dynamic_leverage self opportunity volatility
                                market_conditions profile in
  let* base_size :=
    _calculate_base_position_size opportunity current_balance profile in
  let adjusted_size := (base_size * leverage)%num in
  let adjusted_size := min adjusted_size (py (max_position_size profile)) in
  let adjusted_size :=
    min adjusted_size (current_balance * py (max_leverage profile))%num in
  let stop_distance :=
    abs (entry_price opportunity - stop_loss_or_0 (stop_loss opportunity))%num in
  let risk_amount := (adjusted_size * py (risk_per_trade profile))%num in
  let position_value := (adjusted_size * entry_price opportunity)%num in
  let* margin_required := truediv position_value leverage in
  let max_loss := risk_amount in
  Py.Ok (mkPositionSizing base_size leverage adjusted_size risk_amount
                          stop_distance position_value margin_required max_loss).

End RiskLevels64.

(** ** autopilot_engine.py: signal consolidation *)

Module AutopilotEngine.
Import Py.

(** A Python [dict] whose iteration order matters: the items in insertion
    order, keys unique. *)
Definition dict (V : Type) : Type := list (string * V).

Fixpoint dict_get {V} (key : string) (d : dict V) : option V :=
  match d with
  | [] => None
  | (k, v) :: d' => if String.eqb k key then Some v else dict_get key d'
  end.

(** [d[key] = v] *)
Fixpoint dict_set {V} (key : string) (v : V) (d : dict V) : dict V :=
  match d with
  | [] => [(key, v)]
  | (k, v') :: d' =>
      if String.eqb k key then (k, v) :: d' else (k, v') :: dict_set key v d'
  end.

(** [str.upper] on ASCII letters. *)
Definition upper_ascii (c : ascii) : ascii :=
  let n := nat_of_ascii c in
  if ((97 <=? n) && (n <=? 122))%nat then ascii_of_nat (n - 32) else c.

Fixpoint upper (s : string) : string :=
  match s with
  | EmptyString => EmptyString
  | String c s' => String (upper_ascii c) (upper s')
  end.

(** [class StrategyWeight(Enum)]: member names and values. *)
Definition StrategyWeight : dict Q :=
  [ ("SUPPORT_RESISTANCE", 0.20);
    ("CHANNEL_ANALYSIS", 0.15);
    ("ICT_TECHNIQUES", 0.25);
    ("FIBONACCI", 0.15);
    ("SESSION_ANALYSIS", 0.15);
    ("SPREAD_ANALYSIS", 0.10) ].

(** [getattr(StrategyWeight, name).value] *)
Definition StrategyWeight_value (name : string) : Result Q :=
  match dict_get name StrategyWeight with
  | Some w => Ok w
  | None => Raise (AttributeError name)
  end.

(** A support/resistance level as the consolidation reads it. *)
Record Level : Type := mkLevel {
  level_type : string;
  level_price : Q
}.

(** The dict an analysis returns for a symbol, through the keys the
    consolidation reads; an absent key is [None]. *)
Record SignalData : Type := mkSignalData {
  sd_error : option string;
  sd_confidence : option Q;
  sd_action : option string;
  sd_levels : option (list Level)
}.

(** [analysis_results]: strategy -> symbol -> signal data. *)
Definition AnalysisResults : Type := dict (dict SignalData).

(** [market_data]: symbol -> the ['close'] column of its frame. *)
Definition MarketData : Type := dict (list Q).

Record TradingSignal : Type := mkTradingSignal {
  timestamp : Z;
  symbol : string;
  action : string;
  confidence : Q;
  price : Q;
  stop_loss : option Q;
  take_profit : option Q;
  position_size : Q;
  reasoning : string;
  strategy_contributions : dict Q;
  risk_score : Q;
  ai_analysis : option (dict string)
}.

(** The methods embedded below read the engine through [self.config] only,
    so the configuration stands for [self]. *)
Record AutopilotConfig : Type := mkAutopilotConfig {
  enabled_strategies : list string;
  min_confidence_threshold : Q;
  max_position_size : Q;
  risk_per_trade : Q;
  max_daily_trades : Z;
  emergency_stop_loss : Q;
  ai_ollama_enabled : bool;
  ollama_model : string;
  analysis_interval : Z;
  trading_enabled : bool;
  dry_run : bool
}.

Definition default_config : AutopilotConfig :=
  mkAutopilotConfig
    ["support_resistance"; "channel_analysis"; "ict_techniques";
     "fibonacci"; "session_analysis"; "spread_analysis"]
    0.7 1000.0 0.02 10 0.05 true "gpt-oss-120b-turbo" 60 false true.

(** One entry of the local list [signals]. *)
Record WeightedSignal : Type := mkWeightedSignal {
  ws_action : string;
  ws_confidence : Q;
  ws_weight : Q
}.

(** [min(xs, key=key)] of a non-empty list: the first minimal element. *)
Fixpoint min_by {A} (key : A -> Q) (x : A) (xs : list A) : A :=
  match xs with
  | [] => x
  | y :: ys => if ltb (key y) (key x) then min_by key y ys else min_by key x ys
  end.

(** The level of kind [ty] closest to [current_price], if there is one. *)
Definition closest_level (levels : list Level) (ty : string)
    (current_price : Q) : option Level :=
  match List.filter (fun level => String.eqb (level_type level) ty) levels with
  | [] => None
  | x :: xs => Some (min_by (fun x => abs (level_price x - current_price)) x xs)
  end.

(** [not stop_loss] on an [Optional[float]] *)
Definition falsy (x : option Q) : bool :=
  match x with
  | None => true
  | Some v => eqb v 0
  end.

(** [AutopilotEngine._calculate_stop_take_profit] *)
Definition _calculate_stop_take_profit (action : string) (current_price : Q)
    (analysis_results : AnalysisResults) (symbol : string)
    : option Q * option Q :=
  let '(stop_loss, take_profit) :=
    match dict_get "support_resistance" analysis_results with
    | None => (None, None)
    | Some results =>
      match dict_get symbol results with
      | None => (None, None)
      | Some sr_data =>
        let levels := default [] (sd_levels sr_data) in
        match levels with
        | [] => (None, None)
        | _ =>
          if String.eqb action "buy" then
            (option_map (fun l => level_price l * 0.995)
                        (closest_level levels "support" current_price),
             option_map (fun l => level_price l * 0.995)
                        (closest_level levels "resistance" current_price))
          else if String.eqb action "sell" then
            (option_map (fun l => level_price l * 1.005)
                        (closest_level levels "resistance" current_price),
             option_map (fun l => level_price l * 1.005)
                        (closest_level levels "support" current_price))
          else (None, None)
        end
      end
    end in
  if falsy stop_loss then
    if String.eqb action "buy" then
      (Some (current_price * 0.98), Some (current_price * 1.04))
    else if String.eqb action "sell" then
      (Some (current_price * 1.02), Some (current_price * 0.96))
    else (stop_loss, take_profit)
  else (stop_loss, take_profit).

(** [AutopilotEngine._calculate_position_size] *)
Definition _calculate_position_size (self : AutopilotConfig)
    (confidence current_price : Q) : Q :=
  let base_size := confidence * max_position_size self in
  let risk_adjusted_size := base_size * risk_per_trade self in
  min risk_adjusted_size (max_position_size self).

(** [AutopilotEngine._calculate_risk_score] *)
Definition _calculate_risk_score (analysis_results : AnalysisResults) : Q :=
  let risk_factors :=
    flat_map
      (fun sr : string * dict SignalData =>
         flat_map
           (fun sd : string * SignalData =>
              match sd_error (snd sd) with
              | Some _ => []
              | None => [1 - default 0.0 (sd_confidence (snd sd))]
              end)
           (snd sr))
      analysis_results in
  match risk_factors with
  | [] => 0.5
  | _ => sum risk_factors / inject_Z (Z.of_nat (length risk_factors))
  end.

(** [', '.join(parts)] *)
Fixpoint join (sep : string) (parts : list string) : string :=
  match parts with
  | [] => ""
  | [p] => p
  | p :: ps => p +:+ sep +:+ join sep ps
  end.

Section Formatting.

(** The interpreter's [format(x, '.2f')] and [str(e)]. *)
Variable format_2f : Q -> string.
Variable str_exc : Exception -> string.

(** [AutopilotEngine._generate_reasoning] *)
Definition _generate_reasoning (analysis_results : AnalysisResults)
    (symbol action : string) (confidence : Q) : string :=
  let reasoning_parts :=
    flat_map
      (fun sr : string * dict SignalData =>
         let (strategy, results) := sr in
         match dict_get symbol results with
         | None => []
         | Some signal_data =>
           match sd_error signal_data with
           | Some _ => []
           | None =>
             let strategy_confidence := default 0.0 (sd_confidence signal_data) in
             let strategy_action := default "hold" (sd_action signal_data) in
             if gtb strategy_confidence 0.5 then
               [strategy +:+ ": " +:+ strategy_action +:+ " (confianza: "
                +:+ format_2f strategy_confidence +:+ ")"]
             else []
           end
         end)
      analysis_results in
  match reasoning_parts with
  | [] =>
      "Señal " +:+ action +:+ " con confianza " +:+ format_2f confidence
      +:+ " basada en análisis consolidado"
  | _ =>
      "Señal " +:+ action +:+ " con confianza " +:+ format_2f confidence
      +:+ ". Estrategias: " +:+ join ", " reasoning_parts
  end.

(** The [for strategy, results in analysis_results.items()] loop: it
    fills [signals] and [strategy_contributions], or raises at the first
    strategy name that [StrategyWeight] does not have. *)
Fixpoint collect_signals (symbol : string) (items : AnalysisResults)
    (signals : list WeightedSignal) (strategy_contributions : dict Q)
    : Result (list WeightedSignal * dict Q) :=
  match items with
  | [] => Ok (signals, strategy_contributions)
  | (strategy, results) :: items' =>
    match dict_get symbol results with
    | None => collect_signals symbol items' signals strategy_contributions
    | Some signal_data =>
      match sd_error signal_data with
      | Some _ => collect_signals symbol items' signals strategy_contributions
      | None =>
        let confidence := default 0.0 (sd_confidence signal_data) in
        let action := default "hold" (sd_action signal_data) in
        let* weight := StrategyWeight_value (upper strategy) in
        let weighted_confidence := confidence * weight in
        collect_signals symbol items'
          (signals ++ [mkWeightedSignal action weighted_confidence weight])
          (dict_set strategy weighted_confidence strategy_contributions)
      end
    end
  end.

(** [sum(s['confidence'] for s in signals if s['action'] == a)] *)
Definition action_weight (a : string) (signals : list WeightedSignal) : Q :=
  sum (map ws_confidence
           (List.filter (fun s => String.eqb (ws_action s) a) signals)).

(** [market_data[symbol]['close'].iloc[-1]] *)
Definition last_close (closes : list Q) : Result Q :=
  match last closes with
  | Some c => Ok c
  | None => Raise IndexError
  end.

(** The [try] body of [_consolidate_signals]; [now] is the reading of
    [datetime.now()]. *)
Definition consolidate_body (self : AutopilotConfig) (now : Z)
    (analysis_results : AnalysisResults) (market_data : MarketData)
    : Result TradingSignal :=
  let* first :=
    match market_data with
    | [] => Raise IndexError
    | first :: _ => Ok first
    end in
  let symbol := fst first in
  let* current_price := last_close (snd first) in
  let* collected := collect_signals symbol analysis_results [] [] in
  let '(signals, strategy_contributions) := collected in
  match signals with
  | [] =>
      Ok (mkTradingSignal now symbol "hold" 0.0 current_price None None 1.0
            "No hay señales válidas de las estrategias" [] 0.5 None)
  | _ =>
      let buy_weight := action_weight "buy" signals in
      let sell_weight := action_weight "sell" signals in
      let hold_weight := action_weight "hold" signals in
      let '(final_action, final_confidence) :=
        if gtb buy_weight sell_weight && gtb buy_weight hold_weight
        then ("buy", buy_weight)
        else if gtb sell_weight buy_weight && gtb sell_weight hold_weight
        then ("sell", sell_weight)
        else ("hold", hold_weight) in
      let '(stop_loss, take_profit) :=
        _calculate_stop_take_profit final_action current_price
                                    analysis_results symbol in
      let position_size :=
        _calculate_position_size self final_confidence current_price in
      let reasoning :=
        _generate_reasoning analysis_results symbol final_action
                            final_confidence in
      Ok (mkTradingSignal now symbol final_action final_confidence
            current_price stop_loss take_profit position_size reasoning
            strategy_contributions (_calculate_risk_score analysis_results)
            None)
  end.

(** [AutopilotEngine._consolidate_signals]: the signal and what was
    logged. *)
Definition _consolidate_signals (self : AutopilotConfig) (now : Z)
    (analysis_results : AnalysisResults) (market_data : MarketData)
    : TradingSignal * list LogRecord :=
  match consolidate_body self now analysis_results market_data with
  | Ok signal => (signal, [])
  | Raise e =>
      (mkTradingSignal now "UNKNOWN" "hold" 0.0 0.0 None None 1.0
         ("Error: " +:+ str_exc e) [] 0.5 None,
       [mkLog ERROR "Error consolidando señales: " (Some e)])
  end.

End Formatting.

(** *** The advisory validation *)

(** The dict [_get_ai_validation] returns, through the keys
    [_adjust_signal_with_ai] reads; the empty dict is [None] of
    [option AIValidation]. *)
Record AIValidation : Type := mkAIValidation {
  ai_recommendation : option string;
  ai_confidence : option Q;
  ai_risk_assessment : option string
}.

Definition with_confidence (signal : TradingSignal) (c : Q) (note : string)
    : TradingSignal :=
  mkTradingSignal (timestamp signal) (symbol signal) (action signal) c
                  (price signal) (stop_loss signal) (take_profit signal)
                  (position_size signal) (reasoning signal +:+ note)
                  (strategy_contributions signal) (risk_score signal)
                  (ai_analysis signal).

Section Advisory.

Variable format_2f : Q -> string.

(** [AutopilotEngine._adjust_signal_with_ai] *)
Definition _adjust_signal_with_ai (signal : TradingSignal)
    (ai_validation : option AIValidation) : TradingSignal :=
  match ai_validation with
  | None => signal
  | Some v =>
      let ai_recommendation := default "hold" (ai_recommendation v) in
      let ai_confidence := default 0.0 (ai_confidence v) in
      let ai_risk := default "medio" (ai_risk_assessment v) in
      let signal :=
        if String.eqb ai_recommendation (action signal) then
          with_confidence signal (min 1.0 (confidence signal * 1.1))
            (" | Confirmado por IA (confianza: " +:+ format_2f ai_confidence +:+ ")")
        else if negb (String.eqb ai_recommendation "hold")
                && negb (String.eqb ai_recommendation (action signal)) then
          with_confidence signal (confidence signal * 0.8)
            (" | Contradicción de IA: " +:+ ai_recommendation)
        else signal in
      if String.eqb ai_risk "alto" then
        with_confidence signal (confidence signal * 0.9) " | Riesgo alto según IA"
      else if String.eqb ai_risk "bajo" then
        with_confidence signal (min 1.0 (confidence signal * 1.05))
                        " | Riesgo bajo según IA"
      else signal
  end.

End Advisory.

(** *** The engine: status, trades and metrics *)

Inductive AutopilotStatus : Type :=
| STOPPED | STARTING | RUNNING | PAUSED | ERROR | EMERGENCY_STOP.

Record AutopilotMetrics : Type := mkAutopilotMetrics {
  total_trades : nat;
  winning_trades : nat;
  losing_trades : nat;
  total_pnl : Q;
  max_drawdown : Q;
  current_drawdown : Q;
  sharpe_ratio : Q;
  win_rate : Q;
  last_update : Z
}.

(** [AutopilotMetrics()] created at clock reading [now]. *)
Definition initial_metrics (now : Z) : AutopilotMetrics :=
  mkAutopilotMetrics 0 0 0 0.0 0.0 0.0 0.0 0.0 now.

(** An order execution as the exchange layer reports it; [ex_day] is the
    calendar day of its timestamp. *)
Record Execution : Type := mkExecution {
  ex_day : Z;
  ex_exchange : string;
  ex_symbol : string;
  ex_side : string;
  ex_amount : Q;
  ex_price : Q;
  ex_fees : Q
}.

(** A row of [trade_history]: a dict; the keys ['timestamp'] and ['pnl']
    may be missing. *)
Record TradeRecord : Type := mkTradeRecord {
  tr_day : option Z;
  tr_exchange : string;
  tr_symbol : string;
  tr_side : string;
  tr_amount : Q;
  tr_price : Q;
  tr_fees : Q;
  tr_signal_confidence : Q;
  tr_reasoning : string;
  tr_pnl : option Q
}.

(** The engine, through the attributes the embedded methods use;
    [exchange_manager] and [ollama_ai] enter through whether they are set. *)
Record Engine : Type := mkEngine {
  config : AutopilotConfig;
  status : AutopilotStatus;
  is_running : bool;
  trade_history : list TradeRecord;
  metrics : AutopilotMetrics;
  exchange_manager : bool;
  ollama_ai : bool;
  log : list LogRecord
}.

(** [AutopilotEngine.__init__] *)
Definition new_engine (config : AutopilotConfig) (now : Z) : Engine :=
  mkEngine config STOPPED false [] (initial_metrics now) false false [].

Definition with_status (self : Engine) (s : AutopilotStatus) (running : bool)
    (r : LogRecord) : Engine :=
  mkEngine (config self) s running (trade_history self) (metrics self)
           (exchange_manager self) (ollama_ai self) (log self ++ [r]).

Definition add_log (self : Engine) (r : LogRecord) : Engine :=
  with_status self (status self) (is_running self) r.

(** [AutopilotEngine.stop] *)
Definition stop (self : Engine) : Engine :=
  with_status self STOPPED false (mkLog INFO "Piloto automático detenido" None).

(** [AutopilotEngine.pause] *)
Definition pause (self : Engine) : Engine :=
  with_status self PAUSED (is_running self)
              (mkLog INFO "Piloto automático pausado" None).

(** [AutopilotEngine.resume] *)
Definition resume (self : Engine) : Engine :=
  with_status self RUNNING (is_running self)
              (mkLog INFO "Piloto automático reanudado" None).

(** [AutopilotEngine._close_all_positions]: it asks the exchanges for the
    balances and logs; [balances] is the exception of that request, if it
    raises. *)
Definition _close_all_positions (self : Engine) (balances : option Exception)
    : Engine :=
  if negb (exchange_manager self) then self
  else match balances with
       | None => add_log self (mkLog INFO "Cerrando todas las posiciones..." None)
       | Some e => add_log self (mkLog Py.ERROR "Error cerrando posiciones: " (Some e))
       end.

(** [AutopilotEngine.emergency_stop] *)
Definition emergency_stop (self : Engine) (balances : option Exception) : Engine :=
  let self :=
    mkEngine (config self) EMERGENCY_STOP false (trade_history self)
             (metrics self) (exchange_manager self) (ollama_ai self) (log self) in
  let self :=
    if exchange_manager self && trading_enabled (config self)
    then _close_all_positions self balances
    else self in
  add_log self (mkLog CRITICAL "PARADA DE EMERGENCIA ACTIVADA" None).

(** [AutopilotEngine.start]: the engine and whether a [_main_loop] task was
    created. *)
Definition start (self : Engine) : Engine * bool :=
  match status self with
  | RUNNING =>
      (add_log self (mkLog WARNING "El piloto automático ya está ejecutándose" None),
       false)
  | ERROR =>
      (add_log self
         (mkLog Py.ERROR
            "No se puede iniciar el piloto automático debido a errores previos"
            None),
       false)
  | _ =>
      (with_status self RUNNING true (mkLog INFO "Piloto automático iniciado" None),
       true)
  end.

(** What the exchange layer does with an order of [_execute_trade]. *)
Inductive OrderOutcome : Type :=
| NoOptimalExchange
| OrderNotExecuted
| OrderExecuted (execution : Execution)
| OrderRaised (e : Exception).

(** [AutopilotEngine._execute_trade] *)
Definition _execute_trade (self : Engine) (signal : TradingSignal)
    (outcome : OrderOutcome) : Engine :=
  if negb (exchange_manager self) || dry_run (config self) then
    add_log self (mkLog INFO "[DRY RUN] Ejecutaría: " None)
  else
    match outcome with
    | NoOptimalExchange =>
        add_log self
          (mkLog Py.ERROR "No se encontró exchange óptimo para ejecutar la orden" None)
    | OrderNotExecuted => self
    | OrderExecuted execution =>
        let trade_record :=
          mkTradeRecord (Some (ex_day execution)) (ex_exchange execution)
                        (ex_symbol execution) (ex_side execution)
                        (ex_amount execution) (ex_price execution)
                        (ex_fees execution) (confidence signal)
                        (reasoning signal) None in
        let m := metrics self in
        mkEngine (config self) (status self) (is_running self)
                 (trade_history self ++ [trade_record])
                 (mkAutopilotMetrics (total_trades m + 1) (winning_trades m)
                    (losing_trades m) (total_pnl m) (max_drawdown m)
                    (current_drawdown m) (sharpe_ratio m) (win_rate m)
                    (last_update m))
                 (exchange_manager self) (ollama_ai self)
                 (log self ++ [mkLog INFO "Trade ejecutado: " None])
    | OrderRaised e =>
        add_log self (mkLog Py.ERROR "Error ejecutando trade: " (Some e))
    end.

Definition pnl_of (t : TradeRecord) : Q := default 0 (tr_pnl t).

(** [AutopilotEngine._update_metrics] *)
Definition _update_metrics (self : Engine) (now : Z) : Engine :=
  match trade_history self with
  | [] => self
  | _ =>
      let total_trades := length (trade_history self) in
      let winning_trades :=
        length (List.filter (fun t => gtb (pnl_of t) 0) (trade_history self)) in
      let losing_trades :=
        length (List.filter (fun t => ltb (pnl_of t) 0) (trade_history self)) in
      let total_pnl := sum (map pnl_of (trade_history self)) in
      let win_rate :=
        if (0 <? total_trades)%nat
        then inject_Z (Z.of_nat winning_trades) / inject_Z (Z.of_nat total_trades)
        else 0 in
      let m := metrics self in
      mkEngine (config self) (status self) (is_running self) (trade_history self)
               (mkAutopilotMetrics total_trades winning_trades losing_trades
                  total_pnl (max_drawdown m) (current_drawdown m)
                  (sharpe_ratio m) win_rate now)
               (exchange_manager self) (ollama_ai self) (log self)
  end.

(** The count of today's trades in [_check_emergency_conditions]:
    [t['timestamp']] raises KeyError on a row without that key ([None]
    here); the handler of the method logs it. *)
Fixpoint count_today (today : Z) (history : list TradeRecord) : option nat :=
  match history with
  | [] => Some O
  | t :: history' =>
      match tr_day t, count_today today history' with
      | Some d, Some n => Some (if Z.eqb d today then S n else n)
      | _, _ => None
      end
  end.

(** [AutopilotEngine._check_emergency_conditions]; [today] is the calendar
    day of [datetime.now()]. *)
Definition _check_emergency_conditions (self : Engine) (today : Z)
    (balances : option Exception) : Engine :=
  let self :=
    if gtb (current_drawdown (metrics self)) (emergency_stop_loss (config self))
    then emergency_stop (add_log self (mkLog CRITICAL "Drawdown excedido: " None))
                        balances
    else self in
  match count_today today (trade_history self) with
  | None =>
      add_log self
        (mkLog Py.ERROR "Error verificando condiciones de emergencia: 'timestamp'"
               None)
  | Some today_trades =>
      if (max_daily_trades (config self) <=? Z.of_nat today_trades)%Z
      then pause (add_log self
                    (mkLog WARNING "Límite diario de trades alcanzado: " None))
      else self
  end.

(** What one cycle of [_analyze_and_trade] receives from outside: the
    market data and analysis results, the advisory validation, what the
    exchange does with an order and with the request for the balances, and
    the clock. *)
Record CycleInput : Type := mkCycleInput {
  ci_market_data : MarketData;
  ci_analysis_results : AnalysisResults;
  ci_ai_validation : option AIValidation;
  ci_order : OrderOutcome;
  ci_balances : option Exception;
  ci_now : Z;
  ci_today : Z
}.

Section Cycle.

Variable format_2f : Q -> string.
Variable str_exc : Exception -> string.

(** The signal a cycle acts on: consolidated, then adjusted by the advisory
    when there is one and the confidence exceeds 0.6 (the assignment to
    [ai_analysis] in between is not read again). *)
Definition cycle_signal (self : Engine) (input : CycleInput)
    : TradingSignal * list LogRecord :=
  let (consolidated_signal, logged) :=
    _consolidate_signals format_2f str_exc (config self) (ci_now input)
                         (ci_analysis_results input) (ci_market_data input) in
  if ollama_ai self && gtb (confidence consolidated_signal) 0.6
  then (_adjust_signal_with_ai format_2f consolidated_signal
                               (ci_ai_validation input), logged)
  else (consolidated_signal, logged).

(** [AutopilotEngine._analyze_and_trade]; each method it awaits handles its
    own exceptions, so the handler of the method itself is not reached. *)
Definition _analyze_and_trade (self : Engine) (input : CycleInput) : Engine :=
  match ci_market_data input with
  | [] => add_log self (mkLog WARNING "No hay datos de mercado disponibles" None)
  | _ =>
      let (signal, logged) := cycle_signal self input in
      let self :=
        mkEngine (config self) (status self) (is_running self)
                 (trade_history self) (metrics self) (exchange_manager self)
                 (ollama_ai self) (log self ++ logged) in
      let self :=
        if geb (confidence signal) (min_confidence_threshold (config self))
           && negb (String.eqb (action signal) "hold")
           && trading_enabled (config self)
           && negb (dry_run (config self))
        then _execute_trade self signal (ci_order input)
        else self in
      let self := _update_metrics self (ci_now input) in
      _check_emergency_conditions self (ci_today input) (ci_balances input)
  end.

(** One pass through the [while self.is_running] of [_main_loop]: [None]
    when the loop ends, the engine after the pass otherwise. *)
Definition _main_loop_iteration (self : Engine) (input : CycleInput)
    : option Engine :=
  if is_running self then
    match status self with
    | RUNNING => Some (_analyze_and_trade self input)
    | _ => Some self
    end
  else None.

(** The passes of [_main_loop] over the inputs of successive cycles, while
    nothing else touches the engine. *)
Fixpoint _main_loop (self : Engine) (inputs : list CycleInput) : Engine :=
  match inputs with
  | [] => self
  | input :: inputs' =>
      match _main_loop_iteration self input with
      | Some self' => _main_loop self' inputs'
      | None => self
      end
  end.

End Cycle.

End AutopilotEngine.

(** ** autopilot_engine.py: the consolidation in binary64 *)

(** The consolidation once more, with a Python [float] as what it is: an
    IEEE 754 binary64 number, every operation rounded to the nearest, NaN
    and the infinities included.  It decides what the exact reading above
    cannot: which of two weighted sums is the greater after rounding. *)
Module AutopilotEngine64.
Import PrimFloat.
Import AutopilotEngine (dict, dict_get, dict_set, upper, join).

#[local] Set Warnings "-inexact-float".
#[local] Open Scope float_scope.

(** [class StrategyWeight(Enum)]: member names and values. *)
Definition StrategyWeight : dict float :=
  [ ("SUPPORT_RESISTANCE", 0.20);
    ("CHANNEL_ANALYSIS", 0.15);
    ("ICT_TECHNIQUES", 0.25);
    ("FIBONACCI", 0.15);
    ("SESSION_ANALYSIS", 0.15);
    ("SPREAD_ANALYSIS", 0.10) ].

(** [getattr(StrategyWeight, name).value] *)
Definition StrategyWeight_value (name : string) : Py.Result float :=
  match dict_get name StrategyWeight with
  | Some w => Py.Ok w
  | None => Py.Raise (Py.AttributeError name)
  end.

Record Level : Type := mkLevel {
  level_type : string;
  level_price : float
}.

Record SignalData : Type := mkSignalData {
  sd_error : option string;
  sd_confidence : option float;
  sd_action : option string;
  sd_levels : option (list Level)
}.

Definition AnalysisResults : Type := dict (dict SignalData).

Definition MarketData : Type := dict (list float).

Record TradingSignal : Type := mkTradingSignal {
  timestamp : Z;
  symbol : string;
  action : string;
  confidence : float;
  price : float;
  stop_loss : option float;
  take_profit : option float;
  position_size : float;
  reasoning : string;
  strategy_contributions : dict float;
  risk_score : float;
  ai_analysis : option (dict string)
}.

(** The two fields of [self.config] the consolidation reads. *)
Record AutopilotConfig : Type := mkAutopilotConfig {
  max_position_size : float;
  risk_per_trade : float
}.

Definition default_config : AutopilotConfig := mkAutopilotConfig 1000.0 0.02.

Record WeightedSignal : Type := mkWeightedSignal {
  ws_action : string;
  ws_confidence : float;
  ws_weight : float
}.

(** [a > b] *)
Definition gtb (a b : float) : bool := b <? a.

(** [min(a, b)]: the first argument unless the second is smaller. *)
Definition min (a b : float) : float := if b <? a then b else a.

(** How the builtin [sum] adds floats: one rounded addition per item up to
    Python 3.11 (and for items of a subclass of [float] in any version), with
    the rounding errors compensated from Python 3.12 on. *)
Inductive Summation : Type := Plain | Compensated.

(** From 0, left to right, each addition rounded. *)
Definition sum_left (xs : list float) : float := fold_left add xs 0.

(** Neumaier's compensated summation: the first item is added to the
    integer 0 that [sum] starts from, the others with the rounding error of
    each addition collected in [c], which is added at the end when it is
    nonzero and finite. *)
Definition sum_compensated (xs : list float) : float :=
  match xs with
  | [] => 0
  | x :: xs' =>
      let '(f_result, c) :=
        fold_left
          (fun (acc : float * float) (x : float) =>
             let '(f_result, c) := acc in
             let t := f_result + x in
             let c :=
               if abs x <=? abs f_result then c + ((f_result - t) + x)
               else c + ((x - t) + f_result) in
             (t, c))
          xs' (0 + x, 0) in
      if negb (c =? 0) && is_finite c then f_result + c else f_result
  end.

(** [sum(xs)] *)
Definition sum (py : Summation) (xs : list float) : float :=
  match py with
  | Plain => sum_left xs
  | Compensated => sum_compensated xs
  end.

(** [min(xs, key=key)] of a non-empty list: the first minimal element. *)
Fixpoint min_by {A} (key : A -> float) (x : A) (xs : list A) : A :=
  match xs with
  | [] => x
  | y :: ys => if key y <? key x then min_by key y ys else min_by key x ys
  end.

Definition closest_level (levels : list Level) (ty : string)
    (current_price : float) : option Level :=
  match List.filter (fun level => String.eqb (level_type level) ty) levels with
  | [] => None
  | x :: xs => Some (min_by (fun x => abs (level_price x - current_price)) x xs)
  end.

(** [not stop_loss] on an [Optional[float]]: [None] and the zeros are
    falsy, a NaN is not. *)
Definition falsy (x : option float) : bool :=
  match x with
  | None => true
  | Some v => v =? 0
  end.

(** [AutopilotEngine._calculate_stop_take_profit] *)
Definition _calculate_stop_take_profit (action : string) (current_price : float)
    (analysis_results : AnalysisResults) (symbol : string)
    : option float * option float :=
  let '(stop_loss, take_profit) :=
    match dict_get "support_resistance" analysis_results with
    | None => (None, None)
    | Some results =>
      match dict_get symbol results with
      | None => (None, None)
      | Some sr_data =>
        let levels := default [] (sd_levels sr_data) in
        match levels with
        | [] => (None, None)
        | _ =>
          if String.eqb action "buy" then
            (option_map (fun l => level_price l * 0.995)
                        (closest_level levels "support" current_price),
             option_map (fun l => level_price l * 0.995)
                        (closest_level levels "resistance" current_price))
          else if String.eqb action "sell" then
            (option_map (fun l => level_price l * 1.005)
                        (closest_level levels "resistance" current_price),
             option_map (fun l => level_price l * 1.005)
                        (closest_level levels "support" current_price))
          else (None, None)
        end
      end
    end in
  if falsy stop_loss then
    if String.eqb action "buy" then
      (Some (current_price * 0.98), Some (current_price * 1.04))
    else if String.eqb action "sell" then
      (Some (current_price * 1.02), Some (current_price * 0.96))
    else (stop_loss, take_profit)
  else (stop_loss, take_profit).

(** [AutopilotEngine._calculate_position_size] *)
Definition _calculate_position_size (self : AutopilotConfig)
    (confidence current_price : float) : float :=
  let base_size := confidence * max_position_size self in
  let risk_adjusted_size := base_size * risk_per_trade self in
  min risk_adjusted_size (max_position_size self).

Section Interpreter.

(** The interpreter's [format(x, '.2f')] and [str(e)], numpy's [mean],
    and the summation of the interpreter in use. *)
Variable format_2f : float -> string.
Variable str_exc : Py.Exception -> string.
Variable np_mean : list float -> float.
Variable py : Summation.

(** [AutopilotEngine._calculate_risk_score] *)
Definition _calculate_risk_score (analysis_results : AnalysisResults) : float :=
  let risk_factors :=
    flat_map
      (fun sr : string * dict SignalData =>
         flat_map
           (fun sd : string * SignalData =>
              match sd_error (snd sd) with
              | Some _ => []
              | None => [1 - default 0.0 (sd_confidence (snd sd))]
              end)
           (snd sr))
      analysis_results in
  match risk_factors with
  | [] => 0.5
  | _ => np_mean risk_factors
  end.

(** [AutopilotEngine._generate_reasoning] *)
Definition _generate_reasoning (analysis_results : AnalysisResults)
    (symbol action : string) (confidence : float) : string :=
  let reasoning_parts :=
    flat_map
      (fun sr : string * dict SignalData =>
         let (strategy, results) := sr in
         match dict_get symbol results with
         | None => []
         | Some signal_data =>
           match sd_error signal_data with
           | Some _ => []
           | None =>
             let strategy_confidence := default 0.0 (sd_confidence signal_data) in
             let strategy_action := default "hold" (sd_action signal_data) in
             if gtb strategy_confidence 0.5 then
               [strategy +:+ ": " +:+ strategy_action +:+ " (confianza: "
                +:+ format_2f strategy_confidence +:+ ")"]
             else []
           end
         end)
      analysis_results in
  match reasoning_parts with
  | [] =>
      "Señal " +:+ action +:+ " con confianza " +:+ format_2f confidence
      +:+ " basada en análisis consolidado"
  | _ =>
      "Señal " +:+ action +:+ " con confianza " +:+ format_2f confidence
      +:+ ". Estrategias: " +:+ join ", " reasoning_parts
  end.

(** The [for strategy, results in analysis_results.items()] loop. *)
Fixpoint collect_signals (symbol : string) (items : AnalysisResults)
    (signals : list WeightedSignal) (strategy_contributions : dict float)
    : Py.Result (list WeightedSignal * dict float) :=
  match items with
  | [] => Py.Ok (signals, strategy_contributions)
  | (strategy, results) :: items' =>
    match dict_get symbol results with
    | None => collect_signals symbol items' signals strategy_contributions
    | Some signal_data =>
      match sd_error signal_data with
      | Some _ => collect_signals symbol items' signals strategy_contributions
      | None =>
        let confidence := default 0.0 (sd_confidence signal_data) in
        let action := default "hold" (sd_action signal_data) in
        let* weight := StrategyWeight_value (upper strategy) in
        let weighted_confidence := confidence * weight in
        collect_signals symbol items'
          (signals ++ [mkWeightedSignal action weighted_confidence weight])
          (dict_set strategy weighted_confidence strategy_contributions)
      end
    end
  end.

(** [sum(s['confidence'] for s in signals if s['action'] == a)] *)
Definition action_weight (a : string) (signals : list WeightedSignal) : float :=
  sum py (map ws_confidence
           (List.filter (fun s => String.eqb (ws_action s) a) signals)).

(** [market_data[symbol]['close'].iloc[-1]] *)
Definition last_close (closes : list float) : Py.Result float :=
  match last closes with
  | Some c => Py.Ok c
  | None => Py.Raise Py.IndexError
  end.

(** The [try] body of [_consolidate_signals]; [now] is the reading of
    [datetime.now()]. *)
Definition consolidate_body (self : AutopilotConfig) (now : Z)
    (analysis_results : AnalysisResults) (market_data : MarketData)
    : Py.Result TradingSignal :=
  let* first :=
    match market_data with
    | [] => Py.Raise Py.IndexError
    | first :: _ => Py.Ok first
    end in
  let symbol := fst first in
  let* current_price := last_close (snd first) in
  let* collected := collect_signals symbol analysis_results [] [] in
  let '(signals, strategy_contributions) := collected in
  match signals with
  | [] =>
      Py.Ok (mkTradingSignal now symbol "hold" 0.0 current_price None None 1.0
               "No hay señales válidas de las estrategias" [] 0.5 None)
  | _ =>
      let buy_weight := action_weight "buy" signals in
      let sell_weight := action_weight "sell" signals in
      let hold_weight := action_weight "hold" signals in
      let '(final_action, final_confidence) :=
        if gtb buy_weight sell_weight && gtb buy_weight hold_weight
        then ("buy", buy_weight)
        else if gtb sell_weight buy_weight && gtb sell_weight hold_weight
        then ("sell", sell_weight)
        else ("hold", hold_weight) in
      let '(stop_loss, take_profit) :=
        _calculate_stop_take_profit final_action current_price
                                    analysis_results symbol in
      let position_size :=
        _calculate_position_size self final_confidence current_price in
      let reasoning :=
        _generate_reasoning analysis_results symbol final_action
                            final_confidence in
      Py.Ok (mkTradingSignal now symbol final_action final_confidence
               current_price stop_loss take_profit position_size reasoning
               strategy_contributions (_calculate_risk_score analysis_results)
               None)
  end.

(** [AutopilotEngine._consolidate_signals]: the signal and what was
    logged. *)
Definition _consolidate_signals (self : AutopilotConfig) (now : Z)
    (analysis_results : AnalysisResults) (market_data : MarketData)
    : TradingSignal * list Py.LogRecord :=
  match consolidate_body self now analysis_results market_data with
  | Py.Ok signal => (signal, [])
  | Py.Raise e =>
      (mkTradingSignal now "UNKNOWN" "hold" 0.0 0.0 None None 1.0
         ("Error: " +:+ str_exc e) [] 0.5 None,
       [Py.mkLog Py.ERROR "Error consolidando señales: " (Some e)])
  end.

End Interpreter.

End AutopilotEngine64.

(** ** auto_opportunity_detector.py: the detection loop *)

Module AutoOpportunityDetector.
Import Py.

Record AutoDetectorConfig : Type := mkAutoDetectorConfig {
  scan_interval : Z;
  max_opportunities_per_scan : nat;
  min_execution_score : Q;
  risk_level : RiskLevels.RiskLevel;
  enable_news_analysis : bool;
  enable_ai_analysis : bool;
  enable_fundamental_filter : bool;
  max_position_size : Q;
  max_concurrent_positions : nat;
  emergency_stop_threshold : Q
}.

Definition default_config : AutoDetectorConfig :=
  mkAutoDetectorConfig 30 50 0.7 RiskLevels.CONSERVATIVE true true true
                       10000.0 5 0.05.

(** An enhanced opportunity, through the fields that do not come from the
    news and AI services. *)
Record EnhancedOpportunity : Type := mkEnhancedOpportunity {
  base_opportunity : PairScanner.QuickOpportunity;
  eo_risk_level : RiskLevels.RiskLevel;
  position_sizing : RiskLevels.PositionSizing;
  execution_score : Q
}.

(** [detection_stats], through its two scan counters. *)
Record DetectionStats : Type := mkDetectionStats {
  total_scans : nat;
  opportunities_found : nat
}.

Record Detector : Type := mkDetector {
  config : AutoDetectorConfig;
  risk_manager : RiskLevels.RiskManager;
  is_running : bool;
  detected_opportunities : list EnhancedOpportunity;
  active_positions : list RiskLevels.Position;
  detection_stats : DetectionStats;
  log : list LogRecord
}.

(** [AutoOpportunityDetector.__init__] *)
Definition init (config : AutoDetectorConfig) : Detector :=
  mkDetector config
             (RiskLevels.set_risk_level RiskLevels.init (risk_level config))
             false [] [] (mkDetectionStats 0 0) [].

(** What lines 165-171 of a cycle (scan, enhance, filter and prioritise)
    produce; they depend on the exchanges and on the news and AI
    services. *)
Inductive CycleOutcome : Type :=
| CycleCompleted (opportunities : list PairScanner.QuickOpportunity)
                 (filtered_opportunities : list EnhancedOpportunity)
| CycleRaised (e : Exception).

(** How one pass through the [while] of [_detection_loop] ends. *)
Inductive LoopStep : Type :=
| LoopExit                                           (* [is_running] is false *)
| LoopEmergencyStop (reason : RiskLevels.StopReason) (* [break] *)
| LoopScanned                                        (* sleeps [scan_interval] *)
| LoopCycleError (e : Exception).                    (* sleeps 5 s *)

Definition add_log (self : Detector) (r : LogRecord) : Detector :=
  mkDetector (config self) (risk_manager self) (is_running self)
             (detected_opportunities self) (active_positions self)
             (detection_stats self) (log self ++ [r]).

(** [AutoOpportunityDetector._emergency_stop_all_positions] *)
Definition _emergency_stop_all_positions (self : Detector) : Detector :=
  let self := add_log self (mkLog CRITICAL "Ejecutando parada de emergencia..." None) in
  mkDetector (config self) (risk_manager self) false
             (detected_opportunities self) [] (detection_stats self)
             (log self).

(** [AutoOpportunityDetector._update_detection_stats] *)
Definition _update_detection_stats (self : Detector)
    (opportunities_found filtered_opportunities : nat) : Detector :=
  mkDetector (config self) (risk_manager self) (is_running self)
             (detected_opportunities self) (active_positions self)
             (mkDetectionStats
                (total_scans (detection_stats self) + 1)
                (AutoOpportunityDetector.opportunities_found (detection_stats self)
                 + opportunities_found))
             (log self).

(** One pass through the [while self.is_running] of [_detection_loop],
    from the test of the condition to the [sleep] (or the exit). *)
Definition _detection_loop_iteration (self : Detector) (cycle : CycleOutcome)
    : Detector * LoopStep :=
  if negb (is_running self) then (self, LoopExit)
  else
    let (emergency_stop, reason) :=
      RiskLevels.should_emergency_stop (risk_manager self) in
    if emergency_stop then
      let self := add_log self (mkLog CRITICAL "Parada de emergencia activada: " None) in
      (_emergency_stop_all_positions self, LoopEmergencyStop reason)
    else
      match cycle with
      | CycleCompleted opportunities filtered_opportunities =>
          let self :=
            mkDetector (config self) (risk_manager self) (is_running self)
                       filtered_opportunities (active_positions self)
                       (detection_stats self) (log self) in
          let self :=
            _update_detection_stats self (length opportunities)
                                    (length filtered_opportunities) in
          let self :=
            match filtered_opportunities with
            | [] => self
            | _ => add_log self (mkLog INFO "Detectadas " None)
            end in
          (self, LoopScanned)
      | CycleRaised e =>
          (add_log self (mkLog ERROR "Error en loop de detección: " (Some e)),
           LoopCycleError e)
      end.

(** [AutoOpportunityDetector._detection_loop] when nothing else touches
    the detector: the passes it makes over the cycles the environment
    supplies, until it leaves the [while]. *)
Fixpoint _detection_loop (self : Detector) (cycles : list CycleOutcome)
    : Detector * list LoopStep :=
  match cycles with
  | [] => (self, [])
  | cycle :: cycles' =>
      let (d, step) := _detection_loop_iteration self cycle in
      match step with
      | LoopExit | LoopEmergencyStop _ => (d, [step])
      | LoopScanned | LoopCycleError _ =>
          let (d', steps) := _detection_loop d cycles' in
          (d', step :: steps)
      end
  end.

(** *** A session: the detector, its loop tasks and the calls made on it *)

(** [loop_tasks] counts the [_detection_loop] tasks created by
    [start_detection] that have not returned yet. *)
Record Session : Type := mkSession {
  detector : Detector;
  loop_tasks : nat
}.

Inductive Event : Type :=
| LoopWakes (cycle : CycleOutcome)
| Call_start_detection
| Call_stop_detection
| Call_set_risk_level (l : RiskLevels.RiskLevel)
| Call_update_risk_metrics (positions : list RiskLevels.Position)
                           (trades : list RiskLevels.Trade)
                           (current_balance : Q).

Definition with_risk_manager (self : Detector) (rm : RiskLevels.RiskManager)
    : Detector :=
  mkDetector (config self) rm (is_running self) (detected_opportunities self)
             (active_positions self) (detection_stats self) (log self).

Definition with_is_running (self : Detector) (b : bool) : Detector :=
  mkDetector (config self) (risk_manager self) b (detected_opportunities self)
             (active_positions self) (detection_stats self) (log self).

(** [AutoOpportunityDetector.start_detection] *)
Definition start_detection (s : Session) : Session :=
  if is_running (detector s) then
    mkSession (add_log (detector s)
                       (mkLog WARNING "La detección ya está ejecutándose" None))
              (loop_tasks s)
  else
    mkSession (add_log (with_is_running (detector s) true)
                       (mkLog INFO "Iniciando detección automática de oportunidades..." None))
              (S (loop_tasks s)).

(** [AutoOpportunityDetector.stop_detection] *)
Definition stop_detection (s : Session) : Session :=
  mkSession (add_log (with_is_running (detector s) false)
                     (mkLog INFO "Detención de detección automática..." None))
            (loop_tasks s).

Section Session.

Variable np_std : list Q -> Q.

(** One event of a session and, for a loop pass, how it ended.  A call
    that raises leaves the detector as it was.  [LoopWakes] takes a whole
    pass as one step, as when nothing runs at its awaits; [task_step] below
    takes it in its two stretches. *)
Definition session_step (s : Session) (ev : Event)
    : Session * option LoopStep :=
  match ev with
  | LoopWakes cycle =>
      match loop_tasks s with
      | O => (s, None)
      | S n =>
          let (d, step) := _detection_loop_iteration (detector s) cycle in
          match step with
          | LoopExit | LoopEmergencyStop _ => (mkSession d n, Some step)
          | LoopScanned | LoopCycleError _ => (mkSession d (S n), Some step)
          end
      end
  | Call_start_detection => (start_detection s, None)
  | Call_stop_detection => (stop_detection s, None)
  | Call_set_risk_level l =>
      (mkSession (with_risk_manager (detector s)
                    (RiskLevels.set_risk_level (risk_manager (detector s)) l))
                 (loop_tasks s), None)
  | Call_update_risk_metrics positions trades current_balance =>
      match RiskLevels.update_risk_metrics np_std (risk_manager (detector s))
                                           positions trades current_balance with
      | Ok rm => (mkSession (with_risk_manager (detector s) rm) (loop_tasks s), None)
      | Raise _ => (s, None)
      end
  end.

(** A run of events; the loop passes it contained, in order. *)
Fixpoint run (s : Session) (evs : list Event) : Session * list LoopStep :=
  match evs with
  | [] => (s, [])
  | ev :: evs' =>
      let (s1, step) := session_step s ev in
      let (s2, steps) := run s1 evs' in
      (s2, match step with Some st => st :: steps | None => steps end)
  end.

End Session.

(** *** The loop between its awaits *)

(** A pass of [_detection_loop] runs in two stretches.  The first goes from
    the [while] test through the safety check (lines 153-162) to the await
    of [_detect_opportunities]; nothing in it gives the control away, the
    coroutine [_emergency_stop_all_positions] having no await of its own.
    The second starts when the awaits of the scan and of
    [_enhance_opportunities] have returned or raised (lines 165-168): it
    publishes and counts the scan (171-185), or logs the exception (191),
    and goes to sleep.  Calls and other tasks run at the awaits. *)

(** Lines 153-162: [Some] step when the task leaves the loop, [None] when
    it goes on to scan. *)
Definition begin_pass (self : Detector) : Detector * option LoopStep :=
  if negb (is_running self) then (self, Some LoopExit)
  else
    let (emergency_stop, reason) :=
      RiskLevels.should_emergency_stop (risk_manager self) in
    if emergency_stop then
      let self := add_log self (mkLog CRITICAL "Parada de emergencia activada: " None) in
      (_emergency_stop_all_positions self, Some (LoopEmergencyStop reason))
    else (self, None).

(** Lines 171-192, with what the awaits of the pass produced. *)
Definition finish_pass (self : Detector) (cycle : CycleOutcome)
    : Detector * LoopStep :=
  match cycle with
  | CycleCompleted opportunities filtered_opportunities =>
      let self :=
        mkDetector (config self) (risk_manager self) (is_running self)
                   filtered_opportunities (active_positions self)
                   (detection_stats self) (log self) in
      let self :=
        _update_detection_stats self (length opportunities)
                                (length filtered_opportunities) in
      let self :=
        match filtered_opportunities with
        | [] => self
        | _ => add_log self (mkLog INFO "Detectadas " None)
        end in
      (self, LoopScanned)
  | CycleRaised e =>
      (add_log self (mkLog ERROR "Error en loop de detección: " (Some e)),
       LoopCycleError e)
  end.

(** The detector and its loop tasks that have not returned: those about to
    test the [while] (just created, or asleep) and those inside a pass, at
    its awaits. *)
Record TaskSession : Type := mkTaskSession {
  ts_detector : Detector;
  at_loop_test : nat;
  in_pass : nat
}.

(** What happens next: a task about to test the loop runs its first
    stretch, the awaits of a task inside a pass are over, or a call is made
    on the detector (a [LoopWakes] among the calls does nothing here). *)
Inductive TaskEvent : Type :=
| TestsLoop
| PassReturns (cycle : CycleOutcome)
| Calls (ev : Event).

Section Tasks.

Variable np_std : list Q -> Q.

Definition task_step (s : TaskSession) (ev : TaskEvent)
    : TaskSession * option LoopStep :=
  match ev with
  | TestsLoop =>
      match at_loop_test s with
      | O => (s, None)
      | S n =>
          match begin_pass (ts_detector s) with
          | (d, Some step) => (mkTaskSession d n (in_pass s), Some step)
          | (d, None) => (mkTaskSession d n (S (in_pass s)), None)
          end
      end
  | PassReturns cycle =>
      match in_pass s with
      | O => (s, None)
      | S m =>
          let (d, step) := finish_pass (ts_detector s) cycle in
          (mkTaskSession d (S (at_loop_test s)) m, Some step)
      end
  | Calls ev =>
      let s' := fst (session_step np_std (mkSession (ts_detector s) O) ev) in
      (mkTaskSession (detector s') (at_loop_test s + loop_tasks s') (in_pass s),
       None)
  end.

(** A run of events; the steps of the loop tasks it contained, in order. *)
Fixpoint task_run (s : TaskSession) (evs : list TaskEvent)
    : TaskSession * list LoopStep :=
  match evs with
  | [] => (s, [])
  | ev :: evs' =>
      let (s1, step) := task_step s ev in
      let (s2, steps) := task_run s1 evs' in
      (s2, match step with Some st => st :: steps | None => steps end)
  end.

End Tasks.

(** *** Scoring, enhancing and prioritising the opportunities *)

(** [class OpportunityPriority(Enum)] *)
Inductive OpportunityPriority : Type := LOW | MEDIUM | HIGH | CRITICAL.

(** The dict [_analyze_news_for_opportunity] returns, through the keys the
    scoring reads; an absent key is [None], the empty dict is [None] of
    [option NewsSentiment].  [ns_sentiment_score] is
    [news_sentiment.get('sentiment', {}).get('score')]. *)
Record NewsSentiment : Type := mkNewsSentiment {
  ns_sentiment_score : option Q;
  ns_impact_score : option Q;
  ns_relevance : option Q
}.

(** The dict [_analyze_with_ai] returns, likewise. *)
Record AIAnalysis : Type := mkAIAnalysis {
  aa_recommendation : option string;
  aa_confidence : option Q
}.

(** [AutoOpportunityDetector._calculate_priority] *)
Definition _calculate_priority (opportunity : PairScanner.QuickOpportunity)
    (news_sentiment : option NewsSentiment) (ai_analysis : option AIAnalysis)
    : OpportunityPriority :=
  let score := 0.0 in
  let score := score + PairScanner.confidence opportunity * 0.4 in
  let score :=
    match news_sentiment with
    | Some n =>
        let news_score := default 0 (ns_sentiment_score n) in
        score + abs news_score * 0.3
    | None => score
    end in
  let score :=
    match ai_analysis with
    | Some a =>
        let ai_confidence := default 0 (aa_confidence a) in
        score + ai_confidence * 0.3
    | None => score
    end in
  if geb score 0.9 then CRITICAL
  else if geb score 0.75 then HIGH
  else if geb score 0.6 then MEDIUM
  else LOW.

(** [x in ['buy', 'sell']] *)
Definition in_buy_sell (x : string) : bool :=
  String.eqb x "buy" || String.eqb x "sell".

(** [AutoOpportunityDetector._calculate_execution_score] *)
Definition _calculate_execution_score (opportunity : PairScanner.QuickOpportunity)
    (news_sentiment : option NewsSentiment) (ai_analysis : option AIAnalysis)
    : Q :=
  let score := 0.0 in
  let technical_score :=
    (PairScanner.confidence opportunity
     + PairScanner.technical_score opportunity
     + PairScanner.volume_score opportunity
     + PairScanner.volatility_score opportunity) / 4 in
  let score := score + technical_score * 0.4 in
  let score :=
    match news_sentiment with
    | Some n =>
        let news_impact := default 0 (ns_impact_score n) in
        let news_relevance := default 0 (ns_relevance n) in
        let news_factor := (news_impact + news_relevance) / 2 in
        score + news_factor * 0.3
    | None => score + 0.5 * 0.3
    end in
  let score :=
    match ai_analysis with
    | Some a =>
        let ai_confidence := default 0 (aa_confidence a) in
        let ai_recommendation := default "hold" (aa_recommendation a) in
        let ai_factor :=
          if in_buy_sell ai_recommendation
             && in_buy_sell (PairScanner.signal opportunity) then
            if (String.eqb ai_recommendation "buy"
                && String.eqb (PairScanner.signal opportunity) "buy")
               || (String.eqb ai_recommendation "sell"
                   && String.eqb (PairScanner.signal opportunity) "sell")
            then ai_confidence * 1.2
            else ai_confidence * 0.5
          else ai_confidence * 0.8 in
        score + min ai_factor 1.0 * 0.3
    | None => score + 0.5 * 0.3
    end in
  min score 1.0.

(** [AutoOpportunityDetector._calculate_expected_return] *)
Definition _calculate_expected_return (opportunity : PairScanner.QuickOpportunity)
    (position_sizing : RiskLevels.PositionSizing) : Q :=
  if gtb (PairScanner.risk_reward_ratio opportunity) 0 then
    let win_rate := PairScanner.confidence opportunity in
    (win_rate * PairScanner.risk_reward_ratio opportunity - (1 - win_rate) * 1.0)
    * RiskLevels.adjusted_size position_sizing
  else
    PairScanner.confidence opportunity
    * RiskLevels.adjusted_size position_sizing * 0.02.

(** [AutoOpportunityDetector._calculate_max_risk] *)
Definition _calculate_max_risk (position_sizing : RiskLevels.PositionSizing) : Q :=
  RiskLevels.max_loss position_sizing.

(** An [EnhancedOpportunity] with the fields that come from the news and AI
    services and the ones computed from them. *)
Record ScoredOpportunity : Type := mkScoredOpportunity {
  enhanced : EnhancedOpportunity;
  news_sentiment : option NewsSentiment;
  ai_analysis : option AIAnalysis;
  priority : OpportunityPriority;
  expected_return : Q;
  max_risk : Q
}.

(** One opportunity of a scan and what the news and AI services answer for
    it when they are asked (the empty dict when a service is not set or
    fails). *)
Record EnhanceInput : Type := mkEnhanceInput {
  ei_opportunity : PairScanner.QuickOpportunity;
  ei_news : option NewsSentiment;
  ei_ai : option AIAnalysis
}.

(** The rows of [active_positions], which carry no ['timestamp']. *)
Definition positions_of (self : Detector) : list RiskLevels.DatedPosition :=
  map (fun p => RiskLevels.mkDatedPosition p None) (active_positions self).

(** The [try] body of the loop of [_enhance_opportunities] for one
    opportunity: [Ok None] is the [continue] after a failed validation.
    [_generate_execution_recommendations] formats
    [opportunity.take_profit] with [.4f], which raises on [None]. *)
Definition enhance_one (self : Detector) (today : Z) (item : EnhanceInput)
    : Result (option ScoredOpportunity) :=
  let opportunity := ei_opportunity item in
  let current_balance := 10000.0 in
  let* position_sizing :=
    RiskLevels.calculate_position_size
      (risk_manager self) opportunity current_balance
      (PairScanner.volatility_score opportunity) ∅ in
  let (is_valid, reason) :=
    RiskLevels.validate_trade (risk_manager self) today opportunity
                              position_sizing (positions_of self) in
  if negb is_valid then Ok None
  else
    let news_sentiment :=
      if enable_news_analysis (config self) then ei_news item else None in
    let ai_analysis :=
      if enable_ai_analysis (config self) then ei_ai item else None in
    let priority := _calculate_priority opportunity news_sentiment ai_analysis in
    let execution_score :=
      _calculate_execution_score opportunity news_sentiment ai_analysis in
    let expected_return := _calculate_expected_return opportunity position_sizing in
    let max_risk := _calculate_max_risk position_sizing in
    match PairScanner.take_profit opportunity with
    | None =>
        Raise (TypeError "unsupported format string passed to NoneType.__format__")
    | Some _ =>
        Ok (Some (mkScoredOpportunity
                    (mkEnhancedOpportunity opportunity (risk_level (config self))
                                           position_sizing execution_score)
                    news_sentiment ai_analysis priority expected_return max_risk))
    end.

(** [AutoOpportunityDetector._enhance_opportunities]: the enhanced
    opportunities and the warnings logged, both in the order of the
    opportunities. *)
Fixpoint _enhance_opportunities (self : Detector) (today : Z)
    (opportunities : list EnhanceInput)
    : list ScoredOpportunity * list LogRecord :=
  match opportunities with
  | [] => ([], [])
  | item :: opportunities' =>
      let (enhanced, logged) := _enhance_opportunities self today opportunities' in
      match enhance_one self today item with
      | Ok (Some enhanced_opp) => (enhanced_opp :: enhanced, logged)
      | Ok None => (enhanced, logged)
      | Raise e =>
          (enhanced,
           mkLog WARNING "Error mejorando oportunidad: " (Some e) :: logged)
      end
  end.

(** [priority_order] of [_filter_and_prioritize] *)
Definition priority_order (p : OpportunityPriority) : Z :=
  match p with
  | CRITICAL => 4
  | HIGH => 3
  | MEDIUM => 2
  | LOW => 1
  end.

(** The sort key [(priority_order[x.priority], x.execution_score)]. *)
Definition sort_key (x : ScoredOpportunity) : Z * Q :=
  (priority_order (priority x), execution_score (enhanced x)).

(** [a < b] on the tuples of the key. *)
Definition key_ltb (a b : Z * Q) : bool :=
  (fst a <? fst b)%Z || ((fst a =? fst b)%Z && ltb (snd a) (snd b)).

(** [list.sort(key=..., reverse=True)]: descending, equal keys in their
    original order. *)
Fixpoint insert_desc_by {A} (lt : A -> A -> bool) (x : A) (l : list A) : list A :=
  match l with
  | [] => [x]
  | y :: l' =>
      if lt x y then y :: insert_desc_by lt x l'
      else x :: y :: l'
  end.

Definition sort_reverse_by {A} (lt : A -> A -> bool) (xs : list A) : list A :=
  fold_right (insert_desc_by lt) [] xs.

(** [AutoOpportunityDetector._filter_and_prioritize] *)
Definition _filter_and_prioritize (self : Detector)
    (opportunities : list ScoredOpportunity) : list ScoredOpportunity :=
  let filtered :=
    List.filter
      (fun opp => geb (execution_score (enhanced opp))
                      (min_execution_score (config self)))
      opportunities in
  sort_reverse_by (fun a b => key_ltb (sort_key a) (sort_key b)) filtered.

End AutoOpportunityDetector.

(** ** Definitions used to state the properties *)

Module Scenario.
Import PairScanner RiskLevels.

Definition btc : PairInfo :=
  mkPairInfo "BTCUSDT" "binance" SPOT "BTC" "USDT" 45000 1000000 0.05 0.02
             None false 1 0.001 0.01.

(** An opportunity on [btc] with the given confidence, risk/reward ratio
    and volatility score. *)
Definition opportunity (confidence risk_reward_ratio volatility_score : Q)
    : QuickOpportunity :=
  mkQuickOpportunity btc H1 "support_resistance" "buy" confidence 45000
                     (Some 44100) (Some 45900) risk_reward_ratio 30 ""
                     confidence 0.1 volatility_score 0.6.

(** A manager at [level] whose running metrics show the given drawdown,
    risk score and margin utilization. *)
Definition manager_with (level : RiskLevel)
    (drawdown risk_score margin_utilization : Q) : RiskManager :=
  mkRiskManager level _create_risk_profiles default_leverage_modes
    (mkRiskMetrics 0 1 0 drawdown 0 1 0 risk_score margin_utilization 1) [].

End Scenario.

(** The base size is computed unless a division by zero is reached: the
    Kelly division by the risk/reward ratio, or the volatility-adjusted
    division by [1 + volatility_score]. *)
Definition base_divisor_nonzero (opp : PairScanner.QuickOpportunity)
    (profile : RiskLevels.RiskProfile) : Prop :=
  (RiskLevels.position_sizing_method profile = "kelly_criterion" ->
   ~ PairScanner.risk_reward_ratio opp == 0)
  /\ (RiskLevels.position_sizing_method profile = "volatility_adjusted" ->
      ~ 1 + PairScanner.volatility_score opp == 0).

(** *** Position sizing on run-time numbers *)

Section Sizing64Inputs.
Import PrimFloat RiskLevels64.
#[local] Set Warnings "-inexact-float".
#[local] Open Scope float_scope.

(** The divisor of the profile's sizing method is not zero. *)
Definition method_divisor_nonzero64 (opp : QuickOpportunity)
    (profile : RiskProfile) : Prop :=
  (position_sizing_method profile = "kelly_criterion" ->
   (value (risk_reward_ratio opp) =? 0) = false)
  /\ (position_sizing_method profile = "volatility_adjusted" ->
      (value (add (py 1) (volatility_score opp)) =? 0) = false).

(** The division of the profile's sizing method has a [numpy.float64]
    operand. *)
Definition method_division_numpy64 (opp : QuickOpportunity)
    (profile : RiskProfile) : Prop :=
  (position_sizing_method profile = "kelly_criterion" ->
   numpy (confidence opp) || numpy (risk_reward_ratio opp) = true)
  /\ (position_sizing_method profile = "volatility_adjusted" ->
      numpy (volatility_score opp) = true).

(** Every number that reaches a division is a Python [float]. *)
Definition python_floats (opp : QuickOpportunity) (balance volatility : Num)
    (mc : gmap string Num) : Prop :=
  numpy (confidence opp) = false
  /\ numpy (entry_price opp) = false
  /\ numpy (risk_reward_ratio opp) = false
  /\ numpy (technical_score opp) = false
  /\ numpy (volume_score opp) = false
  /\ numpy (volatility_score opp) = false
  /\ numpy (volume_24h (pair opp)) = false
  /\ numpy balance = false
  /\ numpy volatility = false
  /\ numpy (trend_strength mc) = false.

(** An opportunity on BTCUSDT at 45000 with the given confidence,
    risk/reward ratio and volatility score; the entry price, the stop and
    the ratio are [numpy.float64] numbers when [from_frame] is set (the
    scanner computes them from a data frame), Python floats otherwise. *)
Definition opportunity64 (from_frame : bool)
    (confidence risk_reward_ratio volatility_score : float)
    : QuickOpportunity :=
  mkQuickOpportunity (mkPairInfo (py 1000000)) (py confidence)
                     (mkNum 45000 from_frame) (Some (mkNum 44100 from_frame))
                     (mkNum risk_reward_ratio from_frame)
                     (py confidence) (py 0.1) (py volatility_score).

End Sizing64Inputs.

(** A detector whose loop is running, with the given manager and open
    positions and some scans already counted. *)
Definition running_detector (rm : RiskLevels.RiskManager)
    (positions : list RiskLevels.Position)
    : AutoOpportunityDetector.Detector :=
  AutoOpportunityDetector.mkDetector
    AutoOpportunityDetector.default_config rm true [] positions
    (AutoOpportunityDetector.mkDetectionStats 3 7) [].

Definition two_positions : list RiskLevels.Position :=
  [ RiskLevels.mkPosition (Some "BTCUSDT") (Some 1200);
    RiskLevels.mkPosition (Some "ETHUSDT") (Some 800) ].

(** A cycle outcome for the loop to consume: a scan that found nothing. *)
Definition empty_cycle : AutoOpportunityDetector.CycleOutcome :=
  AutoOpportunityDetector.CycleCompleted [] [].

(** The three states of the safety monitor in the specification. *)
Inductive SafetyState : Type := Normal | Warning | Halted.

(** The safety rule in the words of the specification (section 4.5):
    Halted when a metric exceeds its threshold, else Warning when a metric
    exceeds 80% of its Halted threshold, else Normal. *)
Definition spec_safety_state (profile : RiskLevels.RiskProfile)
    (m : RiskLevels.RiskMetrics) : SafetyState :=
  if Py.gtb (RiskLevels.m_max_drawdown m) (RiskLevels.emergency_stop_loss profile)
     || Py.gtb (RiskLevels.risk_score m) 0.9
     || Py.gtb (RiskLevels.margin_utilization m) 0.95
  then Halted
  else if Py.gtb (RiskLevels.m_max_drawdown m)
                 (0.8 * RiskLevels.emergency_stop_loss profile)
          || Py.gtb (RiskLevels.risk_score m) (0.8 * 0.9)
          || Py.gtb (RiskLevels.margin_utilization m) (0.8 * 0.95)
  then Warning
  else Normal.

(** What the code shows of a warning: a reason other than the normal one
    from [should_emergency_stop], or a recommendation. *)
Definition surfaces_warning (rm : RiskLevels.RiskManager) : Prop :=
  snd (RiskLevels.should_emergency_stop rm) <> RiskLevels.Condiciones_normales
  \/ RiskLevels.get_risk_recommendations rm <> [].

(** The halt conditions of [should_emergency_stop]. *)
Definition halt_condition (rm : RiskLevels.RiskManager) : Prop :=
  let profile := RiskLevels.get_current_profile rm in
  let m := RiskLevels.current_metrics rm in
  RiskLevels.emergency_stop_loss profile < RiskLevels.m_max_drawdown m
  \/ 0.9 < RiskLevels.risk_score m
  \/ 0.95 < RiskLevels.margin_utilization m.

(** An event other than the operator's restart. *)
Definition not_restart (ev : AutoOpportunityDetector.Event) : Prop :=
  ev <> AutoOpportunityDetector.Call_start_detection.

(** The session of the drawdown scenario: one loop task, Conservative
    profile, drawdown 0.06. *)
Definition halting_session : AutoOpportunityDetector.Session :=
  AutoOpportunityDetector.mkSession
    (running_detector (Scenario.manager_with RiskLevels.CONSERVATIVE 0.06 0 0)
                      two_positions) 1.

(** The loop wakes and halts; then the metrics are recomputed from one
    winning trade on a balance of 1000; then whatever loop is left wakes. *)
Definition recovery_events : list AutoOpportunityDetector.Event :=
  [ AutoOpportunityDetector.LoopWakes empty_cycle;
    AutoOpportunityDetector.Call_update_risk_metrics
      [] [RiskLevels.mkTrade (Some 1)] 1000;
    AutoOpportunityDetector.LoopWakes empty_cycle ].

(** A task event other than the operator's restart. *)
Definition task_not_restart (ev : AutoOpportunityDetector.TaskEvent) : Prop :=
  ev <> AutoOpportunityDetector.Calls AutoOpportunityDetector.Call_start_detection.

(** The steps that end a pass which had reached its awaits. *)
Definition completes (st : AutoOpportunityDetector.LoopStep) : bool :=
  match st with
  | AutoOpportunityDetector.LoopScanned
  | AutoOpportunityDetector.LoopCycleError _ => true
  | _ => false
  end.

(** The steps that publish and count a scan. *)
Definition scanned (st : AutoOpportunityDetector.LoopStep) : bool :=
  match st with
  | AutoOpportunityDetector.LoopScanned => true
  | _ => false
  end.

(** One loop task of a running detector, Conservative profile and calm
    metrics, has begun a pass and waits for its scan when [stop_detection]
    is called. *)
Definition stopped_in_flight : AutoOpportunityDetector.TaskSession :=
  fst (AutoOpportunityDetector.task_run
         (fun _ => 0)
         (AutoOpportunityDetector.mkTaskSession
            (running_detector
               (Scenario.manager_with RiskLevels.CONSERVATIVE 0.01 0 0)
               two_positions) 1 0)
         [ AutoOpportunityDetector.TestsLoop;
           AutoOpportunityDetector.Calls
             AutoOpportunityDetector.Call_stop_detection ]).

(** What the scan of that pass found. *)
Definition late_opportunity : AutoOpportunityDetector.EnhancedOpportunity :=
  AutoOpportunityDetector.mkEnhancedOpportunity
    (Scenario.opportunity 0.9 2 0.3) RiskLevels.CONSERVATIVE
    (RiskLevels.mkPositionSizing 0.02 1 0.02 0.0004 0.02 0.02 0.02 0.0004) 0.8.

(** The awaits of the pass return; the task tests the loop; the metrics
    are recomputed; whatever task is left tests the loop. *)
Definition late_events : list AutoOpportunityDetector.TaskEvent :=
  [ AutoOpportunityDetector.PassReturns
      (AutoOpportunityDetector.CycleCompleted
         [Scenario.opportunity 0.9 2 0.3] [late_opportunity]);
    AutoOpportunityDetector.TestsLoop;
    AutoOpportunityDetector.Calls
      (AutoOpportunityDetector.Call_update_risk_metrics
         [] [RiskLevels.mkTrade (Some 1)] 1000);
    AutoOpportunityDetector.TestsLoop ].

(** *** Signal fusion in the words of the specification *)

(** The fixed weight of a strategy (0 for a name [StrategyWeight] lacks). *)
Definition weight_of (strategy : string) : Q :=
  match AutopilotEngine.StrategyWeight_value (AutopilotEngine.upper strategy) with
  | Py.Ok w => w
  | Py.Raise _ => 0
  end.

Definition known_strategy
    (entry : string * AutopilotEngine.dict AutopilotEngine.SignalData) : Prop :=
  Py.is_ok (AutopilotEngine.StrategyWeight_value (AutopilotEngine.upper (fst entry)))
  = true.

(** What the result of one strategy for [symbol] adds to the bucket of
    action [a]: its confidence times the weight of the strategy when its
    action is [a], nothing otherwise (nor when the result is an error or
    missing). *)
Definition contribution (symbol a : string)
    (entry : string * AutopilotEngine.dict AutopilotEngine.SignalData)
    : list Q :=
  match AutopilotEngine.dict_get symbol (snd entry) with
  | None => []
  | Some sd =>
    match AutopilotEngine.sd_error sd with
    | Some _ => []
    | None =>
      if String.eqb (default "hold" (AutopilotEngine.sd_action sd)) a
      then [default 0.0 (AutopilotEngine.sd_confidence sd) * weight_of (fst entry)]
      else []
    end
  end.

(** The accumulated weight of the bucket of action [a]. *)
Definition bucket (symbol a : string)
    (analysis_results : AutopilotEngine.AnalysisResults) : Q :=
  Py.sum (flat_map (contribution symbol a) analysis_results).

(** The results of the fusion scenario, under the names the engine gives
    the three strategies. *)
Definition result_of (confidence : Q) (action : string)
    : AutopilotEngine.dict AutopilotEngine.SignalData :=
  [("BTCUSDT", AutopilotEngine.mkSignalData None (Some confidence) (Some action) None)].

Definition fusion_results : AutopilotEngine.AnalysisResults :=
  [ ("support_resistance", result_of 0.6 "buy");
    ("ict_techniques", result_of 0.25 "buy");
    ("fibonacci", result_of 0.15 "sell") ].

Definition fusion_market_data : AutopilotEngine.MarketData :=
  [("BTCUSDT", [44800; 45000])].

(** *** Signal fusion in binary64 *)

Section Fusion64Inputs.
Import PrimFloat.

#[local] Set Warnings "-inexact-float".
#[local] Open Scope float_scope.

(** The fixed weight of a strategy, as a binary64 number. *)
Definition weight_of64 (strategy : string) : float :=
  match AutopilotEngine64.StrategyWeight_value (AutopilotEngine.upper strategy) with
  | Py.Ok w => w
  | Py.Raise _ => 0
  end.

Definition known_strategy64
    (entry : string * AutopilotEngine.dict AutopilotEngine64.SignalData)
    : Prop :=
  Py.is_ok (AutopilotEngine64.StrategyWeight_value
              (AutopilotEngine.upper (fst entry)))
  = true.

(** The result of one strategy for [symbol] when it counts: its action and
    its confidence times the weight of the strategy, one rounded
    multiplication. *)
Definition weighted64 (symbol : string)
    (entry : string * AutopilotEngine.dict AutopilotEngine64.SignalData)
    : option (string * float) :=
  match AutopilotEngine.dict_get symbol (snd entry) with
  | None => None
  | Some sd =>
    match AutopilotEngine64.sd_error sd with
    | Some _ => None
    | None =>
        Some (default "hold" (AutopilotEngine64.sd_action sd),
              default 0.0 (AutopilotEngine64.sd_confidence sd)
              * weight_of64 (fst entry))
    end
  end.

(** What the result of one strategy adds to the bucket of action [a]. *)
Definition contribution64 (symbol a : string)
    (entry : string * AutopilotEngine.dict AutopilotEngine64.SignalData)
    : list float :=
  match weighted64 symbol entry with
  | Some (action, weighted_confidence) =>
      if String.eqb action a then [weighted_confidence] else []
  | None => []
  end.

(** The terms of the bucket of action [a], in the order of the results. *)
Definition terms64 (symbol a : string)
    (analysis_results : AutopilotEngine64.AnalysisResults) : list float :=
  flat_map (contribution64 symbol a) analysis_results.

(** The bucket of action [a] as the interpreter computes it. *)
Definition bucket64 (py : AutopilotEngine64.Summation) (symbol a : string)
    (analysis_results : AutopilotEngine64.AnalysisResults) : float :=
  AutopilotEngine64.sum py (terms64 symbol a analysis_results).

Definition result_of64 (confidence : float) (action : string)
    : AutopilotEngine.dict AutopilotEngine64.SignalData :=
  [("BTCUSDT",
    AutopilotEngine64.mkSignalData None (Some confidence) (Some action) None)].

(** The fusion scenario. *)
Definition fusion_results64 : AutopilotEngine64.AnalysisResults :=
  [ ("support_resistance", result_of64 0.6 "buy");
    ("ict_techniques", result_of64 0.25 "buy");
    ("fibonacci", result_of64 0.15 "sell") ].

Definition fusion_market_data64 : AutopilotEngine64.MarketData :=
  [("BTCUSDT", [44800; 45000])].

(** Buy at 0.75 with weight 0.20 against sell at 1.0 with weight 0.15: the
    same weight, 0.15, on both sides. *)
Definition tie_results64 : AutopilotEngine64.AnalysisResults :=
  [ ("support_resistance", result_of64 0.75 "buy");
    ("channel_analysis", result_of64 1.0 "sell") ].

(** Three strategies that say buy with confidence 0.55, in two orders. *)
Definition three_buys64 : AutopilotEngine64.AnalysisResults :=
  [ ("support_resistance", result_of64 0.55 "buy");
    ("channel_analysis", result_of64 0.55 "buy");
    ("ict_techniques", result_of64 0.55 "buy") ].

Definition three_buys_reversed64 : AutopilotEngine64.AnalysisResults :=
  [ ("ict_techniques", result_of64 0.55 "buy");
    ("channel_analysis", result_of64 0.55 "buy");
    ("support_resistance", result_of64 0.55 "buy") ].

(** The rule of the specification on three computed buckets: the strictly
    greatest of buy and sell wins, anything else is hold. *)
Definition fused_action64 (buy sell hold : float) : string * float :=
  if (sell <? buy) && (hold <? buy) then ("buy", buy)
  else if (buy <? sell) && (hold <? sell) then ("sell", sell)
  else ("hold", hold).

(** A signal with its timestamp blanked. *)
Definition without_timestamp64 (t : AutopilotEngine64.TradingSignal)
    : AutopilotEngine64.TradingSignal :=
  AutopilotEngine64.mkTradingSignal
    0 (AutopilotEngine64.symbol t) (AutopilotEngine64.action t)
    (AutopilotEngine64.confidence t) (AutopilotEngine64.price t)
    (AutopilotEngine64.stop_loss t) (AutopilotEngine64.take_profit t)
    (AutopilotEngine64.position_size t) (AutopilotEngine64.reasoning t)
    (AutopilotEngine64.strategy_contributions t)
    (AutopilotEngine64.risk_score t) (AutopilotEngine64.ai_analysis t).

End Fusion64Inputs.

(** The same two results with exact numbers. *)
Definition tie_results : AutopilotEngine.AnalysisResults :=
  [ ("support_resistance", result_of 0.75 "buy");
    ("channel_analysis", result_of 1.0 "sell") ].

(** *** Scanner results *)

(** The opportunities of the tasks that returned, in task order. *)
Definition results_of (outcomes : list PairScanner.TaskOutcome)
    : list PairScanner.QuickOpportunity :=
  flat_map (fun o => match fst o with Py.Ok l => l | Py.Raise _ => [] end)
           outcomes.

(** A scanner over one exchange with two pairs, one timeframe and the spot
    market: two work items. *)
Definition eth : PairScanner.PairInfo :=
  PairScanner.mkPairInfo "ETHUSDT" "binance" PairScanner.SPOT "ETH" "USDT"
                         3000 5000000 0.03 (-0.04) None false 1 0.001 0.01.

Definition small_scanner : PairScanner.PairScanner :=
  PairScanner.mkPairScanner
    (PairScanner.mkScanConfig ["binance"] [PairScanner.SPOT] [PairScanner.H1]
                              1000000 0.01 0.005 0.6 100 30 8)
    [("binance", [Scenario.btc; eth])] [] (PairScanner.mkScanStats 0 0) [].

Definition eth_opportunity : PairScanner.QuickOpportunity :=
  PairScanner.mkQuickOpportunity eth PairScanner.H1 "fibonacci" "sell" 0.8 3000
                                 (Some 3060) (Some 2880) 2 30 "" 0.8 0.5 0.4 0.63.

(** The first task raises, the second returns one opportunity; neither
    logs. *)
Definition first_task_fails (i : nat) (item : PairScanner.WorkItem)
    : PairScanner.TaskOutcome :=
  match i with
  | O => (Py.Raise (Py.RuntimeError "timeout"), [])
  | _ => (Py.Ok [eth_opportunity], [])
  end.

(** An opportunity on [btc] that passes the scan filter. *)
Definition btc_opportunity : PairScanner.QuickOpportunity :=
  Scenario.opportunity 0.9 2 0.3.

(** The body of the first work item raises after it has appended one
    opportunity; the second runs to its end. *)
Definition first_item_fails_late (i : nat) (item : PairScanner.WorkItem)
    : PairScanner.ItemRun :=
  match i with
  | O => PairScanner.Fails [btc_opportunity] (Py.TypeError "confidence")
  | _ => PairScanner.Completes [eth_opportunity]
  end.

(** *** Inputs for the scanner's analyses *)

(** A support/resistance analysis that says buy with confidence 0.8. *)
Definition buy_analysis : PairScanner.Analysis :=
  PairScanner.mkAnalysis None (Some "support_resistance") (Some 0.8)
                         (Some "buy") true (Some (PairScanner.mkSignals None None)).

(** The dict an analysis returns from its own handler. *)
Definition error_analysis : PairScanner.Analysis :=
  PairScanner.mkAnalysis (Some "boom") None (Some 0.0) None false None.

(** Sixty closes ending at 45000. *)
Definition sixty_closes : list Q := repeat 44000 59 ++ [45000].

(** The opportunity the scanner makes of [buy_analysis] on [btc]. *)
Definition created_buy : option PairScanner.QuickOpportunity :=
  PairScanner._create_opportunity_from_analysis
    (fun _ => "") (fun _ => "") (fun _ => "") small_scanner Scenario.btc
    PairScanner.H1 PairScanner.SPOT buy_analysis sixty_closes.

(** *** Inputs for the autopilot engine's cycle *)

(** A configuration that trades: two strategies, threshold 0.4, two trades
    a day. *)
Definition live_config : AutopilotEngine.AutopilotConfig :=
  AutopilotEngine.mkAutopilotConfig
    ["support_resistance"; "ict_techniques"] 0.4 1000.0 0.02 2 0.05
    false "gpt-oss-120b-turbo" 60 true false.

(** A started engine with an exchange manager. *)
Definition live_engine : AutopilotEngine.Engine :=
  AutopilotEngine.mkEngine live_config AutopilotEngine.RUNNING true []
                           (AutopilotEngine.initial_metrics 0) true false [].

(** A started engine in the default configuration (analysis only). *)
Definition analysis_engine : AutopilotEngine.Engine :=
  AutopilotEngine.mkEngine AutopilotEngine.default_config AutopilotEngine.RUNNING
                           true [] (AutopilotEngine.initial_metrics 0) true false [].

Definition strong_results : AutopilotEngine.AnalysisResults :=
  [ ("support_resistance", result_of 0.9 "buy");
    ("ict_techniques", result_of 0.9 "buy") ].

Definition an_execution (day : Z) : AutopilotEngine.Execution :=
  AutopilotEngine.mkExecution day "binance" "BTCUSDT" "buy" 0.01 45000 0.1.

(** A cycle on [day] in which the analyses say buy and the exchange fills
    the order. *)
Definition trading_cycle (day : Z) : AutopilotEngine.CycleInput :=
  AutopilotEngine.mkCycleInput fusion_market_data strong_results None
    (AutopilotEngine.OrderExecuted (an_execution day)) None day day.

(** The metrics of an engine none of whose trades carries a profit or a
    loss: every row of the history lacks ['pnl'], and the counters say so. *)
Definition flat_metrics (self : AutopilotEngine.Engine) : Prop :=
  Forall (fun t => AutopilotEngine.tr_pnl t = None)
         (AutopilotEngine.trade_history self)
  /\ AutopilotEngine.total_trades (AutopilotEngine.metrics self)
     = length (AutopilotEngine.trade_history self)
  /\ AutopilotEngine.winning_trades (AutopilotEngine.metrics self) = O
  /\ AutopilotEngine.losing_trades (AutopilotEngine.metrics self) = O
  /\ AutopilotEngine.total_pnl (AutopilotEngine.metrics self) == 0
  /\ AutopilotEngine.win_rate (AutopilotEngine.metrics self) == 0.

(** The fused signal of [strong_results], and an advisory validation that
    contradicts it and calls the risk high. *)
Definition strong_signal : AutopilotEngine.TradingSignal :=
  fst (AutopilotEngine._consolidate_signals (fun _ => "") (fun _ => "")
         live_config 1 strong_results fusion_market_data).

Definition contrary_validation : AutopilotEngine.AIValidation :=
  AutopilotEngine.mkAIValidation (Some "sell") (Some 0.9) (Some "alto").

(** *** The fusion's inputs *)

(** The strategy of [entry] has a result for [symbol] that is no error:
    the results the consolidation loop does not skip. *)
Definition valid_for (symbol : string)
    (entry : string * AutopilotEngine.dict AutopilotEngine.SignalData) : bool :=
  match AutopilotEngine.dict_get symbol (snd entry) with
  | None => false
  | Some sd =>
      match AutopilotEngine.sd_error sd with
      | Some _ => false
      | None => true
      end
  end.

(** Every confidence reported by a strategy lies in [0, 1]. *)
Definition confidences_in_unit (analysis_results : AutopilotEngine.AnalysisResults)
    : Prop :=
  forall (strategy symbol : string)
         (results : AutopilotEngine.dict AutopilotEngine.SignalData)
         (sd : AutopilotEngine.SignalData),
    In (strategy, results) analysis_results ->
    In (symbol, sd) results ->
    AutopilotEngine.sd_error sd = None ->
    0 <= default 0.0 (AutopilotEngine.sd_confidence sd) <= 1.

(** The results of [strong_results] with one more strategy, which
    [StrategyWeight] does not have. *)
Definition unknown_results : AutopilotEngine.AnalysisResults :=
  strong_results ++ [("momentum", result_of 0.9 "buy")].

(** The support/resistance levels the analysis results hold for [symbol]
    (none when the strategy, the symbol or the key ['levels'] is missing). *)
Definition sr_levels (analysis_results : AutopilotEngine.AnalysisResults)
    (symbol : string) : list AutopilotEngine.Level :=
  match AutopilotEngine.dict_get "support_resistance" analysis_results with
  | None => []
  | Some results =>
      match AutopilotEngine.dict_get symbol results with
      | None => []
      | Some sr_data => default [] (AutopilotEngine.sd_levels sr_data)
      end
  end.

(** [l] is a level of kind [ty] and no level of that kind is closer to
    [current_price]. *)
Definition is_closest (levels : list AutopilotEngine.Level) (ty : string)
    (current_price : Q) (l : AutopilotEngine.Level) : Prop :=
  In l levels
  /\ AutopilotEngine.level_type l = ty
  /\ forall l' : AutopilotEngine.Level,
       In l' levels -> AutopilotEngine.level_type l' = ty ->
       Py.abs (AutopilotEngine.level_price l - current_price)
       <= Py.abs (AutopilotEngine.level_price l' - current_price).

(** Results with a support at 44000 and no resistance. *)
Definition support_only_results : AutopilotEngine.AnalysisResults :=
  [ ("support_resistance",
     [("BTCUSDT",
       AutopilotEngine.mkSignalData None (Some 0.9) (Some "buy")
         (Some [AutopilotEngine.mkLevel "support" 44000;
                AutopilotEngine.mkLevel "support" 43000]))]) ].

(** *** The detector's ranking *)

(** [a] may stand before [b] in the prioritised list: a higher priority,
    or the same priority and an execution score that is not lower. *)
Definition outranks (a b : AutoOpportunityDetector.ScoredOpportunity) : Prop :=
  (AutoOpportunityDetector.priority_order (AutoOpportunityDetector.priority b)
   < AutoOpportunityDetector.priority_order (AutoOpportunityDetector.priority a))%Z
  \/ (AutoOpportunityDetector.priority_order (AutoOpportunityDetector.priority a)
      = AutoOpportunityDetector.priority_order (AutoOpportunityDetector.priority b)
      /\ AutoOpportunityDetector.execution_score (AutoOpportunityDetector.enhanced b)
         <= AutoOpportunityDetector.execution_score
              (AutoOpportunityDetector.enhanced a)).

(** The opportunities of priority [p] and execution score [score]. *)
Definition same_rank (p : AutoOpportunityDetector.OpportunityPriority) (score : Q)
    (x : AutoOpportunityDetector.ScoredOpportunity) : bool :=
  (AutoOpportunityDetector.priority_order (AutoOpportunityDetector.priority x)
   =? AutoOpportunityDetector.priority_order p)%Z
  && Py.eqb (AutoOpportunityDetector.execution_score
               (AutoOpportunityDetector.enhanced x)) score.

(** The four scores of an opportunity lie in [0, 1]. *)
Definition scores_in_unit (opp : PairScanner.QuickOpportunity) : Prop :=
  0 <= PairScanner.confidence opp <= 1
  /\ 0 <= PairScanner.technical_score opp <= 1
  /\ 0 <= PairScanner.volume_score opp <= 1
  /\ 0 <= PairScanner.volatility_score opp <= 1.

(** A detector in the default configuration, and opportunities for it on a
    pair quoted at 0.5: one that passes the validation, one without
    take-profit, one whose confidence is below the profile's threshold. *)
Definition fresh_detector : AutoOpportunityDetector.Detector :=
  AutoOpportunityDetector.init AutoOpportunityDetector.default_config.

Definition ada : PairScanner.PairInfo :=
  PairScanner.mkPairInfo "ADAUSDT" "binance" PairScanner.SPOT "ADA" "USDT"
                         0.5 2000000 0.04 0.01 None false 1 0.001 0.01.

Definition ada_opportunity (confidence : Q) (take_profit : option Q)
    : PairScanner.QuickOpportunity :=
  PairScanner.mkQuickOpportunity ada PairScanner.H1 "fibonacci" "buy" confidence
                                 0.5 (Some 0.49) take_profit 2 30 "" 0.9 0.1 0.3
                                 0.6.

Definition good_item : AutoOpportunityDetector.EnhanceInput :=
  AutoOpportunityDetector.mkEnhanceInput (ada_opportunity 0.9 (Some 0.52)) None None.

Definition no_target_item : AutoOpportunityDetector.EnhanceInput :=
  AutoOpportunityDetector.mkEnhanceInput (ada_opportunity 0.9 None) None None.

Definition weak_item : AutoOpportunityDetector.EnhanceInput :=
  AutoOpportunityDetector.mkEnhanceInput (ada_opportunity 0.7 (Some 0.52)) None None.

(** The minimal execution score passed by an opportunity. *)
Definition passes_min_score (self : AutoOpportunityDetector.Detector)
    (opp : AutoOpportunityDetector.ScoredOpportunity) : bool :=
  Py.geb (AutoOpportunityDetector.execution_score
            (AutoOpportunityDetector.enhanced opp))
         (AutoOpportunityDetector.min_execution_score
            (AutoOpportunityDetector.config self)).

(** What the validation leaves of the exposure: the value of the open
    positions plus the value of the new one stays within the profile's
    [max_position_size] times its [diversification_limit]. *)
Definition within_exposure (self : AutoOpportunityDetector.Detector)
    (position_sizing : RiskLevels.PositionSizing) : Prop :=
  let profile :=
    RiskLevels.get_current_profile (AutoOpportunityDetector.risk_manager self) in
  Py.sum (map (fun p => RiskLevels.position_value_of (RiskLevels.dp_row p))
              (AutoOpportunityDetector.positions_of self))
  + RiskLevels.position_value position_sizing
  <= RiskLevels.max_position_size profile
     * inject_Z (RiskLevels.diversification_limit profile).

(** * Properties *)

(** ** Facts about the Python comparisons *)

Module PyFacts.
Import Py.

Lemma ltb_lt (a b : Q) : ltb a b = true <-> a < b.
Proof.
  unfold ltb. rewrite Qlt_alt.
  destruct (a ?= b); split; congruence.
Qed.

Lemma ltb_ge (a b : Q) : ltb a b = false <-> b <= a.
Proof.
  rewrite <- not_true_iff_false, ltb_lt. split; intros H.
  - apply Qnot_lt_le, H.
  - apply Qle_not_lt, H.
Qed.

Lemma gtb_gt (a b : Q) : gtb a b = true <-> b < a.
Proof. apply ltb_lt. Qed.

Lemma gtb_le (a b : Q) : gtb a b = false <-> a <= b.
Proof. apply ltb_ge. Qed.

Lemma eqb_eq (a b : Q) : eqb a b = true <-> a == b.
Proof. apply Qeq_bool_iff. Qed.

Lemma eqb_neq (a b : Q) : eqb a b = false <-> ~ a == b.
Proof. rewrite <- not_true_iff_false, eqb_eq. tauto. Qed.

Lemma min_cases (a b : Q) :
  (b < a /\ min a b = b) \/ (a <= b /\ min a b = a).
Proof.
  unfold min. destruct (ltb b a) eqn:E.
  - left. split; [apply ltb_lt, E | reflexivity].
  - right. split; [apply ltb_ge, E | reflexivity].
Qed.

Lemma max_cases (a b : Q) :
  (a < b /\ max a b = b) \/ (b <= a /\ max a b = a).
Proof.
  unfold max. destruct (ltb a b) eqn:E.
  - left. split; [apply ltb_lt, E | reflexivity].
  - right. split; [apply ltb_ge, E | reflexivity].
Qed.

Lemma min_le_l (a b : Q) : min a b <= a.
Proof. destruct (min_cases a b) as [[H ->]|[H ->]]; lra. Qed.

Lemma min_le_r (a b : Q) : min a b <= b.
Proof. destruct (min_cases a b) as [[H ->]|[H ->]]; lra. Qed.

Lemma min_Qmin (a b : Q) : min a b == Qmin a b.
Proof.
  destruct (min_cases a b) as [[H ->]|[H ->]].
  - symmetry. apply Q.min_r. lra.
  - symmetry. apply Q.min_l. lra.
Qed.

Lemma max_Qmax (a b : Q) : max a b == Qmax a b.
Proof.
  destruct (max_cases a b) as [[H ->]|[H ->]].
  - symmetry. apply Q.max_r. lra.
  - symmetry. apply Q.max_l. lra.
Qed.

Lemma max_ge_l (a b : Q) : a <= max a b.
Proof. destruct (max_cases a b) as [[H ->]|[H ->]]; lra. Qed.

Lemma div_ok (a b : Q) : ~ b == 0 -> div a b = Ok (a / b).
Proof. intros H. unfold div. apply eqb_neq in H. rewrite H. reflexivity. Qed.

Lemma div_zero (a b : Q) : b == 0 -> div a b = Raise ZeroDivisionError.
Proof. intros H. unfold div. apply eqb_eq in H. rewrite H. reflexivity. Qed.

End PyFacts.

(** ** Leverage and position size (risk_levels.py) *)

Section Sizing.
Import Py PyFacts RiskLevels.

Lemma dynamic_leverage_le_max (self : RiskManager)
    (opp : PairScanner.QuickOpportunity) (volatility : Q)
    (mc : gmap string Q) (profile : RiskProfile) :
  _calculate_dynamic_leverage self opp volatility mc profile
  <= max_leverage profile.
Proof.
  unfold _calculate_dynamic_leverage.
  destruct (leverage_modes self (risk_level profile)).
  - apply min_le_r.
  - apply min_le_l.
  - apply min_le_r.
Qed.

(** What [calculate_position_size] returns when it returns: the fields of
    the record in terms of the two intermediate results. *)
Lemma calculate_position_size_inv (self : RiskManager)
    (opp : PairScanner.QuickOpportunity) (balance volatility : Q)
    (mc : gmap string Q) (ps : PositionSizing) :
  calculate_position_size self opp balance volatility mc = Ok ps ->
  let profile := get_current_profile self in
  _calculate_base_position_size opp balance profile = Ok (base_size ps)
  /\ leverage ps = _calculate_dynamic_leverage self opp volatility mc profile
  /\ adjusted_size ps =
       min (min (base_size ps * leverage ps) (max_position_size profile))
           (balance * max_leverage profile)
  /\ ~ leverage ps == 0.
Proof.
  intros H profile. unfold calculate_position_size in H.
  fold profile in H.
  destruct (_calculate_base_position_size opp balance profile) as [b|e] eqn:Eb;
    cbn [bind] in H; [|discriminate].
  unfold div in H.
  destruct (eqb (_calculate_dynamic_leverage self opp volatility mc profile) 0)
    eqn:El; cbn [bind] in H; [discriminate|].
  injection H as <-. cbn [base_size leverage adjusted_size].
  repeat split. apply eqb_neq, El.
Qed.

End Sizing.

(** C1. For every risk profile, opportunity, volatility and market
    conditions, the leverage computed by [_calculate_dynamic_leverage] is at
    most [profile.max_leverage], whichever of the three modes (fixed,
    dynamic, adaptive) the profile's level selects; hence so is the
    [leverage] of every [PositionSizing] that [calculate_position_size]
    returns, and [calculate_optimal_leverage] never exceeds the base
    leverage of its level.  The bounds on confidence and volatility are not
    needed. *)
Theorem C1_leverage_at_most_max_leverage :
  forall (self : RiskLevels.RiskManager) (opp : PairScanner.QuickOpportunity)
         (balance volatility : Q) (mc : gmap string Q),
    (forall profile : RiskLevels.RiskProfile,
        RiskLevels._calculate_dynamic_leverage self opp volatility mc profile
        <= RiskLevels.max_leverage profile)
    /\ (forall ps : RiskLevels.PositionSizing,
           RiskLevels.calculate_position_size self opp balance volatility mc
           = Py.Ok ps ->
           RiskLevels.leverage ps
           <= RiskLevels.max_leverage (RiskLevels.get_current_profile self))
    /\ (forall (confidence : Q) (level : RiskLevels.RiskLevel),
           RiskLevels.calculate_optimal_leverage volatility confidence level
           <= RiskLevels.max_leverage (RiskLevels._create_risk_profiles level)).
Proof.
  intros self opp balance volatility mc. split; [|split].
  - intros profile. apply dynamic_leverage_le_max.
  - intros ps H. apply calculate_position_size_inv in H.
    destruct H as (_ & -> & _). apply dynamic_leverage_le_max.
  - intros confidence level. unfold RiskLevels.calculate_optimal_leverage.
    destruct level; cbn [RiskLevels._create_risk_profiles RiskLevels.max_leverage];
      apply PyFacts.min_le_r.
Qed.

(** The Turbo manager sizes an opportunity of confidence 0.9 on a balance of
    10000: the call returns and the leverage is within the profile's 10x. *)
Lemma C1_leverage_witness :
  exists ps,
    RiskLevels.calculate_position_size
      (RiskLevels.create_risk_manager RiskLevels.TURBO)
      (Scenario.opportunity 0.9 2 0.2) 10000 0.02 ∅ = Py.Ok ps
    /\ RiskLevels.leverage ps
       <= RiskLevels.max_leverage (RiskLevels._create_risk_profiles RiskLevels.TURBO).
Proof.
  eexists. split.
  - vm_compute. reflexivity.
  - refine (proj1 (proj2 (C1_leverage_at_most_max_leverage
             (RiskLevels.create_risk_manager RiskLevels.TURBO)
             (Scenario.opportunity 0.9 2 0.2) 10000 0.02 ∅)) _ _).
    vm_compute. reflexivity.
Defined.

(** C2. Every [PositionSizing] returned by [calculate_position_size] has
    [adjusted_size] equal to the minimum of [base_size * leverage],
    [profile.max_position_size] and [balance * profile.max_leverage], and so
    at most [min(profile.max_position_size, balance * profile.max_leverage)]. *)
Theorem C2_adjusted_size_is_clamped :
  forall (self : RiskLevels.RiskManager) (opp : PairScanner.QuickOpportunity)
         (balance volatility : Q) (mc : gmap string Q)
         (ps : RiskLevels.PositionSizing),
    RiskLevels.calculate_position_size self opp balance volatility mc = Py.Ok ps ->
    let profile := RiskLevels.get_current_profile self in
    RiskLevels.adjusted_size ps
    == Qmin (Qmin (RiskLevels.base_size ps * RiskLevels.leverage ps)
                  (RiskLevels.max_position_size profile))
            (balance * RiskLevels.max_leverage profile)
    /\ RiskLevels.adjusted_size ps
       <= Qmin (RiskLevels.max_position_size profile)
               (balance * RiskLevels.max_leverage profile).
Proof.
  intros self opp balance volatility mc ps H profile.
  apply calculate_position_size_inv in H.
  destruct H as (_ & _ & -> & _). fold profile.
  assert (E : Py.min (Py.min (RiskLevels.base_size ps * RiskLevels.leverage ps)
                             (RiskLevels.max_position_size profile))
                     (balance * RiskLevels.max_leverage profile)
              == Qmin (Qmin (RiskLevels.base_size ps * RiskLevels.leverage ps)
                            (RiskLevels.max_position_size profile))
                      (balance * RiskLevels.max_leverage profile)).
  { rewrite PyFacts.min_Qmin. rewrite PyFacts.min_Qmin. reflexivity. }
  split; [exact E|].
  rewrite E. apply Q.min_glb.
  - eapply Qle_trans; [apply Q.le_min_l|apply Q.le_min_r].
  - apply Q.le_min_r.
Qed.

(** The Conservative manager on a balance of 10000 with confidence 0.9 and
    risk/reward 2: the size is 5000, the profile's maximum. *)
Lemma C2_adjusted_size_witness :
  exists ps,
    RiskLevels.calculate_position_size
      (RiskLevels.create_risk_manager RiskLevels.CONSERVATIVE)
      (Scenario.opportunity 0.9 2 0.2) 10000 0.02 ∅ = Py.Ok ps
    /\ RiskLevels.adjusted_size ps == 5000
    /\ RiskLevels.adjusted_size ps
       <= Qmin (RiskLevels.max_position_size
                  (RiskLevels._create_risk_profiles RiskLevels.CONSERVATIVE))
               (10000 * RiskLevels.max_leverage
                          (RiskLevels._create_risk_profiles RiskLevels.CONSERVATIVE)).
Proof.
  eexists. split; [vm_compute; reflexivity|]. split; [vm_compute; reflexivity|].
  refine (proj2 (C2_adjusted_size_is_clamped
                   (RiskLevels.create_risk_manager RiskLevels.CONSERVATIVE)
                   (Scenario.opportunity 0.9 2 0.2) 10000 0.02 ∅ _ _)).
  vm_compute. reflexivity.
Defined.

(** C7. Under the [kelly_criterion] method with a nonzero risk/reward ratio
    [b] and confidence [p], the base size is [balance * f'] where [f'] is
    [f = (p*b - (1-p))/b] clamped to [[0, 0.25]]: [f'] is 0 when [f <= 0],
    0.25 when [f >= 0.25] and [f] in between.  With confidence 0.9 and
    risk/reward 2, [f] is 0.85 and the Conservative manager sizes a balance
    of 10000 at 2500, a quarter of it. *)
Theorem C7_kelly_fraction_clamped :
  (forall (opp : PairScanner.QuickOpportunity) (balance : Q)
          (profile : RiskLevels.RiskProfile),
      RiskLevels.position_sizing_method profile = "kelly_criterion" ->
      ~ PairScanner.risk_reward_ratio opp == 0 ->
      let p := PairScanner.confidence opp in
      let b := PairScanner.risk_reward_ratio opp in
      let f := (p * b - (1 - p)) / b in
      exists f' : Q,
        RiskLevels._calculate_base_position_size opp balance profile
        = Py.Ok (balance * f')
        /\ 0 <= f' <= 0.25
        /\ f' == Qmax 0 (Qmin f 0.25)
        /\ (f <= 0 -> f' == 0)
        /\ (0.25 <= f -> f' == 0.25)
        /\ (0 <= f <= 0.25 -> f' == f))
  /\ (0.9 * 2 - (1 - 0.9)) / 2 == 0.85
  /\ RiskLevels._calculate_base_position_size
       (Scenario.opportunity 0.9 2 0.2) 10000
       (RiskLevels._create_risk_profiles RiskLevels.CONSERVATIVE)
     = Py.Ok (10000 * 0.25).
Proof.
  split; [|split; [reflexivity|reflexivity]].
  intros opp balance profile Hm Hb p b f.
  exists (Py.max 0 (Py.min f 0.25)).
  assert (Hbase : RiskLevels._calculate_base_position_size opp balance profile
                  = Py.Ok (balance * Py.max 0 (Py.min f 0.25))).
  { unfold RiskLevels._calculate_base_position_size. rewrite Hm.
    cbn [String.eqb Ascii.eqb Bool.eqb]. rewrite PyFacts.div_ok by exact Hb.
    reflexivity. }
  split; [exact Hbase|].
  destruct (PyFacts.min_cases f 0.25) as [[H1 E1]|[H1 E1]];
    destruct (PyFacts.max_cases 0 (Py.min f 0.25)) as [[H2 E2]|[H2 E2]];
    rewrite E2, ?E1; rewrite ?E1 in H2.
  all: repeat split; try lra; try reflexivity; try (intros; lra).
  all: try (rewrite Q.max_r, Q.min_r by (try rewrite Q.min_r; lra); reflexivity).
  all: try (rewrite Q.min_r by lra; rewrite Q.max_l by lra; reflexivity).
  all: try (rewrite Q.min_l by lra; rewrite Q.max_r by lra; reflexivity).
  all: try (rewrite Q.min_l by lra; rewrite Q.max_l by lra; reflexivity).
Qed.

(** The scenario of the specification, through the general statement: the
    Kelly fraction 0.85 is cut to a quarter of the balance. *)
Lemma C7_kelly_witness :
  exists f' : Q,
    RiskLevels._calculate_base_position_size
      (Scenario.opportunity 0.9 2 0.2) 10000
      (RiskLevels._create_risk_profiles RiskLevels.CONSERVATIVE)
    = Py.Ok (10000 * f')
    /\ f' == 0.25.
Proof.
  destruct (proj1 C7_kelly_fraction_clamped
              (Scenario.opportunity 0.9 2 0.2) 10000
              (RiskLevels._create_risk_profiles RiskLevels.CONSERVATIVE))
    as (f' & Hbase & _ & _ & _ & Hhi & _).
  - reflexivity.
  - vm_compute. discriminate.
  - exists f'. split; [exact Hbase|]. apply Hhi. vm_compute. discriminate.
Defined.

(** ** Divisions in the sizing path *)

Section Divisions.
Import Py PyFacts RiskLevels.

Lemma base_position_size_ok (opp : PairScanner.QuickOpportunity)
    (balance : Q) (profile : RiskProfile) :
  is_ok (_calculate_base_position_size opp balance profile) = true
  <-> base_divisor_nonzero opp profile.
Proof.
  unfold _calculate_base_position_size, base_divisor_nonzero.
  destruct (String.eqb_spec (position_sizing_method profile) "kelly_criterion")
    as [E|N].
  - rewrite E. unfold div.
    destruct (eqb (PairScanner.risk_reward_ratio opp) 0) eqn:Ez; cbn.
    + apply eqb_eq in Ez. split; [discriminate|]. intros [H _]. tauto.
    + apply eqb_neq in Ez. split; [|reflexivity]. intros _.
      split; [tauto|discriminate].
  - destruct (String.eqb_spec (position_sizing_method profile)
                              "volatility_adjusted") as [E|N'].
    + rewrite E. unfold div.
      destruct (eqb (1 + PairScanner.volatility_score opp) 0) eqn:Ez; cbn.
      * apply eqb_eq in Ez. split; [discriminate|]. intros [_ H]. tauto.
      * apply eqb_neq in Ez. split; [|reflexivity]. intros _.
        split; [discriminate|tauto].
    + destruct (String.eqb (position_sizing_method profile) "momentum_based");
        cbn; (split; [|reflexivity]); intros _; split; tauto.
Qed.

Lemma calculate_position_size_ok (self : RiskManager)
    (opp : PairScanner.QuickOpportunity) (balance volatility : Q)
    (mc : gmap string Q) :
  let profile := get_current_profile self in
  is_ok (calculate_position_size self opp balance volatility mc) = true
  <-> base_divisor_nonzero opp profile
      /\ ~ _calculate_dynamic_leverage self opp volatility mc profile == 0.
Proof.
  intros profile. rewrite <- (base_position_size_ok opp balance profile).
  unfold calculate_position_size. fold profile.
  destruct (_calculate_base_position_size opp balance profile) as [b|e];
    cbn [bind is_ok]; [|split; [discriminate|intros [H _]; discriminate]].
  unfold div.
  destruct (eqb (_calculate_dynamic_leverage self opp volatility mc profile) 0)
    eqn:Ez; cbn [bind is_ok].
  - apply eqb_eq in Ez. split; [discriminate|]. intros [_ H]. tauto.
  - apply eqb_neq in Ez. tauto.
Qed.

(** In dynamic mode the volatility factor is at least 0.5, so with a
    positive [max_leverage] the leverage vanishes exactly when the
    confidence or the trend strength does. *)
Lemma dynamic_leverage_zero (self : RiskManager)
    (opp : PairScanner.QuickOpportunity) (volatility : Q)
    (mc : gmap string Q) (profile : RiskProfile) :
  leverage_modes self (risk_level profile) = DYNAMIC ->
  0 < max_leverage profile ->
  (_calculate_dynamic_leverage self opp volatility mc profile == 0
   <-> PairScanner.confidence opp == 0 \/ trend_strength mc == 0).
Proof.
  intros Hmode Hpos. unfold _calculate_dynamic_leverage. rewrite Hmode.
  set (c := PairScanner.confidence opp). set (t := trend_strength mc).
  set (v := max 0.5 (1 - volatility / 0.1)). set (m := max_leverage profile) in *.
  assert (Hv : 0.5 <= v) by apply max_ge_l.
  destruct (min_cases (m * c * v * t) m) as [[H ->]|[H ->]].
  - split; [lra|]. intros [Hc|Ht].
    + rewrite Hc in H. lra.
    + rewrite Ht in H. lra.
  - split.
    + intros Hz.
      destruct (Qmult_integral _ _ Hz) as [Hz1|Ht]; [|right; exact Ht].
      destruct (Qmult_integral _ _ Hz1) as [Hz2|Hv0]; [|lra].
      destruct (Qmult_integral _ _ Hz2) as [Hm|Hc]; [lra|left; exact Hc].
    + intros [Hc|Ht]; [rewrite Hc|rewrite Ht]; ring.
Qed.

End Divisions.

(** *** The divisions on run-time numbers *)

Section Divisions64.
Import PrimFloat RiskLevels64.
#[local] Set Warnings "-inexact-float".
#[local] Open Scope float_scope.

Lemma truediv_nonzero (a b : Num) :
  (value b =? 0) = false -> exists q, truediv a b = Py.Ok q.
Proof.
  intros H. unfold truediv. rewrite H.
  destruct (numpy a || numpy b); eauto.
Qed.

Lemma truediv_numpy (a b : Num) :
  numpy a || numpy b = true -> truediv a b = Py.Ok (np64 (value a / value b)).
Proof. intros H. unfold truediv. rewrite H. reflexivity. Qed.

Lemma truediv_python (a b : Num) :
  numpy a = false -> numpy b = false ->
  truediv a b
  = if value b =? 0 then Py.Raise Py.ZeroDivisionError
    else Py.Ok (py (value a / value b)).
Proof. intros Ha Hb. unfold truediv. rewrite Ha, Hb. reflexivity. Qed.

Lemma numpy_min (a b : Num) :
  numpy a = false -> numpy b = false -> numpy (min a b) = false.
Proof. intros Ha Hb. unfold min. destruct (value b <? value a); assumption. Qed.

Lemma numpy_max (a b : Num) :
  numpy a = false -> numpy b = false -> numpy (max a b) = false.
Proof. intros Ha Hb. unfold max. destruct (value a <? value b); assumption. Qed.

Lemma numpy_mul (a b : Num) :
  numpy a = false -> numpy b = false -> numpy (mul a b) = false.
Proof. intros Ha Hb. cbn. rewrite Ha, Hb. reflexivity. Qed.

Lemma numpy_add (a b : Num) :
  numpy a = false -> numpy b = false -> numpy (add a b) = false.
Proof. intros Ha Hb. cbn. rewrite Ha, Hb. reflexivity. Qed.

Lemma numpy_sub (a b : Num) :
  numpy a = false -> numpy b = false -> numpy (sub a b) = false.
Proof. intros Ha Hb. cbn. rewrite Ha, Hb. reflexivity. Qed.

Lemma numpy_div_const (a b : Num) :
  numpy a = false -> numpy b = false -> numpy (div_const a b) = false.
Proof. intros Ha Hb. cbn. rewrite Ha, Hb. reflexivity. Qed.

Ltac python_kind :=
  repeat first
    [ assumption
    | reflexivity
    | apply numpy_min
    | apply numpy_max
    | apply numpy_mul
    | apply numpy_add
    | apply numpy_sub
    | apply numpy_div_const ].

(** On Python floats the leverage is a Python float. *)
Lemma leverage_python (self : RiskManager) (opp : QuickOpportunity)
    (balance volatility : Num) (mc : gmap string Num) (profile : RiskProfile) :
  python_floats opp balance volatility mc ->
  numpy (_calculate_dynamic_leverage self opp volatility mc profile) = false.
Proof.
  intros (Hc & He & Hr & Ht & Hv & Hs & Hp & Hb & Hvol & Htr).
  unfold _calculate_dynamic_leverage.
  destruct (leverage_modes self (risk_level profile)); python_kind.
Qed.

(** The base size: it is computed when the divisor of the method is not
    zero or the division has a numpy operand; on Python floats it is a
    Python float, and it is computed exactly when the divisor is not
    zero. *)
Lemma base_size_returns (opp : QuickOpportunity) (balance : Num)
    (profile : RiskProfile) :
  method_divisor_nonzero64 opp profile \/ method_division_numpy64 opp profile ->
  exists b, _calculate_base_position_size opp balance profile = Py.Ok b.
Proof.
  intros H. unfold _calculate_base_position_size.
  destruct (String.eqb_spec (position_sizing_method profile) "kelly_criterion")
    as [E|N].
  - destruct H as [[H _]|[H _]]; specialize (H E).
    + destruct (truediv_nonzero
                  (sub (mul (confidence opp) (risk_reward_ratio opp))
                       (sub (py 1) (confidence opp)))
                  (risk_reward_ratio opp) H) as [q ->].
      cbn [Py.bind]. eauto.
    + rewrite truediv_numpy; [cbn [Py.bind]; eauto|].
      cbn [numpy sub mul py]. destruct (numpy (confidence opp)), (numpy (risk_reward_ratio opp));
        try discriminate; reflexivity.
  - destruct (String.eqb_spec (position_sizing_method profile)
                              "volatility_adjusted") as [E|N'].
    + destruct H as [[_ H]|[_ H]]; specialize (H E).
      * destruct (truediv_nonzero (py 1) (add (py 1) (volatility_score opp)) H)
          as [q ->].
        cbn [Py.bind]. eauto.
      * rewrite truediv_numpy; [cbn [Py.bind]; eauto|].
        cbn [numpy add py]. rewrite H. reflexivity.
    + destruct (String.eqb (position_sizing_method profile) "momentum_based");
        eauto.
Qed.

Lemma base_size_python (opp : QuickOpportunity) (balance volatility : Num)
    (mc : gmap string Num) (profile : RiskProfile) :
  python_floats opp balance volatility mc ->
  (method_divisor_nonzero64 opp profile ->
   exists b, _calculate_base_position_size opp balance profile = Py.Ok b
             /\ numpy b = false)
  /\ (~ method_divisor_nonzero64 opp profile ->
      _calculate_base_position_size opp balance profile
      = Py.Raise Py.ZeroDivisionError).
Proof.
  intros (Hc & He & Hr & Ht & Hv & Hs & Hp & Hb & Hvol & Htr).
  unfold _calculate_base_position_size, method_divisor_nonzero64.
  destruct (String.eqb_spec (position_sizing_method profile) "kelly_criterion")
    as [E|N].
  - rewrite truediv_python; [|python_kind..].
    destruct (value (risk_reward_ratio opp) =? 0) eqn:Ez; cbn [Py.bind].
    + split; [intros [H _]; specialize (H E); discriminate|reflexivity].
    + split; [|intros H; exfalso; apply H; split; [auto|]; rewrite E; discriminate].
      intros _. eexists. split; [reflexivity|python_kind].
  - destruct (String.eqb_spec (position_sizing_method profile)
                              "volatility_adjusted") as [E|N'].
    + rewrite truediv_python; [|python_kind..].
      destruct (value (add (py 1) (volatility_score opp)) =? 0) eqn:Ez;
        cbn [Py.bind].
      * split; [intros [_ H]; specialize (H E); discriminate|reflexivity].
      * split; [|intros H; exfalso; apply H; split; [rewrite E; discriminate|auto]].
        intros _. eexists. split; [reflexivity|python_kind].
    + split; [|intros H; exfalso; apply H; split; intros; contradiction].
      intros _.
      destruct (String.eqb (position_sizing_method profile) "momentum_based");
        eexists; (split; [reflexivity|python_kind]).
Qed.


Lemma method_divisor_dec (opp : QuickOpportunity) (profile : RiskProfile) :
  method_divisor_nonzero64 opp profile \/ ~ method_divisor_nonzero64 opp profile.
Proof.
  unfold method_divisor_nonzero64.
  destruct (String.eqb_spec (position_sizing_method profile) "kelly_criterion")
    as [E|N].
  - destruct (value (risk_reward_ratio opp) =? 0) eqn:Ez.
    + right. intros [H _]. specialize (H E). discriminate.
    + left. split; [auto|]. rewrite E. discriminate.
  - destruct (String.eqb_spec (position_sizing_method profile)
                              "volatility_adjusted") as [E|N'].
    + destruct (value (add (py 1) (volatility_score opp)) =? 0) eqn:Ez.
      * right. intros [_ H]. specialize (H E). discriminate.
      * left. split; [rewrite E; discriminate|auto].
    + left. split; intros; contradiction.
Qed.

(** The whole call on Python floats. *)
Lemma calculate_position_size_python (self : RiskManager)
    (opp : QuickOpportunity) (balance volatility : Num) (mc : gmap string Num) :
  let profile := get_current_profile self in
  let leverage := _calculate_dynamic_leverage self opp volatility mc profile in
  python_floats opp balance volatility mc ->
  (method_divisor_nonzero64 opp profile /\ (value leverage =? 0) = false ->
   exists ps, calculate_position_size self opp balance volatility mc = Py.Ok ps)
  /\ (~ (method_divisor_nonzero64 opp profile /\ (value leverage =? 0) = false) ->
      calculate_position_size self opp balance volatility mc
      = Py.Raise Py.ZeroDivisionError).
Proof.
  intros profile leverage Hpy.
  pose proof (leverage_python self opp balance volatility mc profile Hpy) as Hlev.
  destruct (base_size_python opp balance volatility mc profile Hpy) as [Hok Hraise].
  destruct Hpy as (Hc & He & Hr & Ht & Hv & Hs & Hp & Hb & Hvol & Htr).
  unfold calculate_position_size. fold profile. fold leverage. fold leverage in Hlev.
  destruct (method_divisor_dec opp profile) as [Hm|Hm].
  - destruct (Hok Hm) as (b & -> & Hkb). cbn [Py.bind].
    rewrite truediv_python; [|python_kind..].
    destruct (value leverage =? 0) eqn:Ez; cbn [Py.bind].
    + split; [intros [_ H]; discriminate|reflexivity].
    + split; [eauto|]. intros H. exfalso. apply H. auto.
  - rewrite (Hraise Hm). cbn [Py.bind].
    split; [intros [H _]; contradiction|reflexivity].
Qed.

End Divisions64.

Section SizingClaim.
Import PrimFloat RiskLevels64.
#[local] Set Warnings "-inexact-float".
#[local] Open Scope float_scope.

(** C10 as stated fails: under the Aggressive profile
    ([volatility_adjusted] sizing), with Python floats throughout, risk/reward
    1, confidence 0.5 and volatility score -1, the risk/reward ratio and the
    computed leverage are both nonzero, yet the call raises
    [ZeroDivisionError] at [1 / (1 + volatility_score)]. *)
Lemma C10_counterexample_third_division :
  let self := create_risk_manager RiskLevels.AGGRESSIVE in
  let opp := opportunity64 false 0.5 1 (-1) in
  python_floats opp (py 10000) (py 0.02) ∅
  /\ value (risk_reward_ratio opp) = 1
  /\ value (_calculate_dynamic_leverage self opp (py 0.02) ∅
                                        (get_current_profile self)) = 1
  /\ calculate_position_size self opp (py 10000) (py 0.02) ∅
     = Py.Raise Py.ZeroDivisionError.
Proof.
  cbv zeta. split; [|split; [|split]].
  - unfold python_floats. repeat split; reflexivity.
  - reflexivity.
  - vm_compute. reflexivity.
  - vm_compute. reflexivity.
Qed.

(** C10 (amended). [calculate_position_size] reaches three divisions that
    no test guards: the Kelly fraction divides by the risk/reward ratio, the
    volatility-adjusted size divides by [1 + volatility_score], and
    [margin_required] divides by the computed leverage.  Whenever the
    divisor of the profile's sizing method and the leverage are nonzero the
    call returns a [PositionSizing].  When every number involved is a Python
    float it returns exactly then, and raises [ZeroDivisionError] otherwise:
    so the Aggressive manager at confidence 0 and the Conservative manager
    at risk/reward 0 raise.  A zero divisor does not always raise: a
    division with a [numpy.float64] operand returns an infinity or a NaN, so
    with a [numpy.float64] entry price the call returns whenever the
    division of its sizing method has a nonzero divisor or a numpy operand -
    on the same two inputs with the price and the ratio read from a data
    frame it returns, with a NaN margin in the first and a base size of 0
    in the second. *)
Theorem C10_sizing_divisions :
  (forall (self : RiskManager) (opp : QuickOpportunity)
          (balance volatility : Num) (mc : gmap string Num),
      let profile := get_current_profile self in
      let leverage := _calculate_dynamic_leverage self opp volatility mc profile in
      (method_divisor_nonzero64 opp profile ->
       (value leverage =? 0) = false ->
       exists ps, calculate_position_size self opp balance volatility mc = Py.Ok ps)
      /\ (python_floats opp balance volatility mc ->
          ((exists ps,
               calculate_position_size self opp balance volatility mc = Py.Ok ps)
           <-> method_divisor_nonzero64 opp profile
               /\ (value leverage =? 0) = false)
          /\ (~ (method_divisor_nonzero64 opp profile
                 /\ (value leverage =? 0) = false) ->
              calculate_position_size self opp balance volatility mc
              = Py.Raise Py.ZeroDivisionError))
      /\ (numpy (entry_price opp) = true ->
          method_divisor_nonzero64 opp profile
          \/ method_division_numpy64 opp profile ->
          exists ps,
            calculate_position_size self opp balance volatility mc = Py.Ok ps))
  /\ calculate_position_size (create_risk_manager RiskLevels.AGGRESSIVE)
                             (opportunity64 false 0 2 0.2) (py 10000) (py 0.02) ∅
     = Py.Raise Py.ZeroDivisionError
  /\ calculate_position_size (create_risk_manager RiskLevels.CONSERVATIVE)
                             (opportunity64 false 0.9 0 0.2) (py 10000) (py 0.02) ∅
     = Py.Raise Py.ZeroDivisionError
  /\ (exists ps,
         calculate_position_size (create_risk_manager RiskLevels.AGGRESSIVE)
                                 (opportunity64 true 0 2 0.2)
                                 (py 10000) (py 0.02) ∅
         = Py.Ok ps
         /\ value (leverage ps) = 0
         /\ is_nan (value (margin_required ps)) = true)
  /\ (exists ps,
         calculate_position_size (create_risk_manager RiskLevels.CONSERVATIVE)
                                 (opportunity64 true 0.9 0 0.2)
                                 (py 10000) (py 0.02) ∅
         = Py.Ok ps
         /\ value (base_size ps) = 0
         /\ value (margin_required ps) = 0).
Proof.
  split; [|split; [|split; [|split]]].
  - intros self opp balance volatility mc profile leverage.
    split; [|split].
    + intros Hm Hl. unfold calculate_position_size. fold profile. fold leverage.
      destruct (base_size_returns opp balance profile (or_introl Hm)) as [b ->].
      cbn [Py.bind].
      match goal with
      | |- context [truediv ?a leverage] =>
          destruct (truediv_nonzero a leverage Hl) as [q ->]
      end.
      cbn [Py.bind]. eauto.
    + intros Hpy.
      destruct (calculate_position_size_python self opp balance volatility mc Hpy)
        as [Hok Hraise].
      fold profile in Hok, Hraise. fold leverage in Hok, Hraise.
      split; [|exact Hraise]. split; [|exact Hok].
      intros [ps Hps].
      destruct (method_divisor_dec opp profile) as [Hm|Hm].
      * destruct (value leverage =? 0) eqn:Ez; [|auto].
        rewrite Hraise in Hps; [discriminate|]. intros [_ H]. discriminate.
      * rewrite Hraise in Hps; [discriminate|]. intros [H _]. contradiction.
    + intros He Hm. unfold calculate_position_size. fold profile. fold leverage.
      destruct (base_size_returns opp balance profile Hm) as [b ->].
      cbn [Py.bind].
      rewrite truediv_numpy; [cbn [Py.bind]; eauto|].
      cbn [numpy mul]. rewrite He. rewrite orb_true_r. reflexivity.
  - vm_compute. reflexivity.
  - vm_compute. reflexivity.
  - eexists. split; [vm_compute; reflexivity|]. split; vm_compute; reflexivity.
  - eexists. split; [vm_compute; reflexivity|]. split; vm_compute; reflexivity.
Qed.

(** The Aggressive manager at confidence 0.8 with no trend entry, on Python
    floats: the divisors are nonzero and the call returns. *)
Lemma C10_sizing_witness :
  exists ps,
    calculate_position_size (create_risk_manager RiskLevels.AGGRESSIVE)
                            (opportunity64 false 0.8 2 0.2)
                            (py 10000) (py 0.02) ∅ = Py.Ok ps.
Proof.
  apply (proj1 (proj1 C10_sizing_divisions
                  (create_risk_manager RiskLevels.AGGRESSIVE)
                  (opportunity64 false 0.8 2 0.2) (py 10000) (py 0.02) ∅)).
  - split.
    + intros H. vm_compute in H. discriminate.
    + intros _. vm_compute. reflexivity.
  - vm_compute. reflexivity.
Defined.

End SizingClaim.

(** ** The safety stop (risk_levels.py, auto_opportunity_detector.py) *)

Section Safety.
Import Py PyFacts RiskLevels AutoOpportunityDetector.

Lemma should_emergency_stop_true (rm : RiskManager) :
  fst (should_emergency_stop rm) = true <-> halt_condition rm.
Proof.
  unfold should_emergency_stop, halt_condition.
  set (p := get_current_profile rm). set (m := current_metrics rm).
  destruct (gtb (m_max_drawdown m) (emergency_stop_loss p)) eqn:E1;
    [apply gtb_gt in E1; cbn; tauto|apply gtb_le in E1].
  destruct (gtb (risk_score m) 0.9) eqn:E2;
    [apply gtb_gt in E2; cbn; tauto|apply gtb_le in E2].
  destruct (gtb (margin_utilization m) 0.95) eqn:E3;
    [apply gtb_gt in E3; cbn; tauto|apply gtb_le in E3].
  cbn. split; [discriminate|]. intros [H|[H|H]]; lra.
Qed.

Lemma should_emergency_stop_false (rm : RiskManager) :
  fst (should_emergency_stop rm) = false ->
  should_emergency_stop rm = (false, Condiciones_normales).
Proof.
  unfold should_emergency_stop.
  repeat match goal with
         | |- context [if ?c then _ else _] => destruct c
         end; cbn; congruence.
Qed.

(** The state the loop leaves behind when the safety check fires. *)
Lemma iteration_halts (self : Detector) (cycle : CycleOutcome) :
  is_running self = true ->
  fst (should_emergency_stop (risk_manager self)) = true ->
  exists d',
    _detection_loop_iteration self cycle
    = (d', LoopEmergencyStop (snd (should_emergency_stop (risk_manager self))))
    /\ active_positions d' = []
    /\ is_running d' = false
    /\ risk_manager d' = risk_manager self
    /\ detection_stats d' = detection_stats self
    /\ detected_opportunities d' = detected_opportunities self.
Proof.
  intros Hrun Hstop. unfold _detection_loop_iteration. rewrite Hrun. cbn [negb].
  destruct (should_emergency_stop (risk_manager self)) as [b reason].
  cbn in Hstop. subst b. eexists. split; [reflexivity|]. cbn. repeat split.
Qed.

Lemma iteration_not_running (self : Detector) (cycle : CycleOutcome) :
  is_running self = false ->
  _detection_loop_iteration self cycle = (self, LoopExit).
Proof. intros H. unfold _detection_loop_iteration. rewrite H. reflexivity. Qed.

End Safety.

(** C3. [should_emergency_stop] answers True exactly when the drawdown
    exceeds [profile.emergency_stop_loss], or the risk score exceeds 0.9, or
    the margin utilization exceeds 0.95.  When it does, the pass of the
    detection loop clears the open positions, sets [is_running] to False and
    leaves the loop: the task returns, no scan is counted, no further cycle
    is taken and any later pass finds the loop condition false.  With the
    Conservative profile
    (emergency stop at 0.03) and a drawdown of 0.06 the answer is True with
    the drawdown reason and the loop stops. *)
Theorem C3_emergency_stop_halts_detection :
  (forall rm : RiskLevels.RiskManager,
      fst (RiskLevels.should_emergency_stop rm) = true <-> halt_condition rm)
  /\ (forall (np_std : list Q -> Q) (s : AutoOpportunityDetector.Session)
             (n : nat) (cycle : AutoOpportunityDetector.CycleOutcome),
         let self := AutoOpportunityDetector.detector s in
         AutoOpportunityDetector.loop_tasks s = S n ->
         AutoOpportunityDetector.is_running self = true ->
         halt_condition (AutoOpportunityDetector.risk_manager self) ->
         exists d',
           AutoOpportunityDetector.session_step
             np_std s (AutoOpportunityDetector.LoopWakes cycle)
           = (AutoOpportunityDetector.mkSession d' n,
              Some (AutoOpportunityDetector.LoopEmergencyStop
                      (snd (RiskLevels.should_emergency_stop
                              (AutoOpportunityDetector.risk_manager self)))))
           /\ AutoOpportunityDetector.active_positions d' = []
           /\ AutoOpportunityDetector.is_running d' = false
           /\ AutoOpportunityDetector.detection_stats d'
              = AutoOpportunityDetector.detection_stats self
           /\ (forall cycle',
                  AutoOpportunityDetector._detection_loop_iteration d' cycle'
                  = (d', AutoOpportunityDetector.LoopExit)))
  /\ (forall (self : AutoOpportunityDetector.Detector)
             (cycle : AutoOpportunityDetector.CycleOutcome)
             (cycles : list AutoOpportunityDetector.CycleOutcome),
         AutoOpportunityDetector.is_running self = true ->
         halt_condition (AutoOpportunityDetector.risk_manager self) ->
         snd (AutoOpportunityDetector._detection_loop self (cycle :: cycles))
         = [AutoOpportunityDetector.LoopEmergencyStop
              (snd (RiskLevels.should_emergency_stop
                      (AutoOpportunityDetector.risk_manager self)))])
  /\ RiskLevels.should_emergency_stop
       (Scenario.manager_with RiskLevels.CONSERVATIVE 0.06 0 0)
     = (true, RiskLevels.Drawdown_de_emergencia 0.06)
  /\ snd (AutoOpportunityDetector._detection_loop
            (running_detector
               (Scenario.manager_with RiskLevels.CONSERVATIVE 0.06 0 0)
               two_positions)
            [empty_cycle; empty_cycle; empty_cycle])
     = [AutoOpportunityDetector.LoopEmergencyStop
          (RiskLevels.Drawdown_de_emergencia 0.06)].
Proof.
  split; [exact should_emergency_stop_true|].
  split; [|split; [|split; vm_compute; reflexivity]];
    [|intros self cycle cycles Hrun Hhalt;
      apply should_emergency_stop_true in Hhalt;
      destruct (iteration_halts self cycle Hrun Hhalt) as (d' & Hit & _);
      cbn [AutoOpportunityDetector._detection_loop]; rewrite Hit; reflexivity].
  intros np_std s n cycle self Htasks Hrun Hhalt.
  apply should_emergency_stop_true in Hhalt.
  destruct (iteration_halts self cycle Hrun Hhalt)
    as (d' & Hit & Hpos & Hrun' & _ & Hstats & _).
  exists d'. cbn [AutoOpportunityDetector.session_step].
  rewrite Htasks. fold self. rewrite Hit.
  repeat split; try assumption.
  intros cycle'. apply iteration_not_running, Hrun'.
Qed.

(** The scenario of the specification run as a session: one loop task, two
    open positions, Conservative profile, drawdown 0.06.  The pass halts,
    the positions are gone and no task is left. *)
Lemma C3_emergency_stop_witness :
  exists d',
    AutoOpportunityDetector.session_step
      (fun _ => 0)
      (AutoOpportunityDetector.mkSession
         (running_detector
            (Scenario.manager_with RiskLevels.CONSERVATIVE 0.06 0 0)
            two_positions) 1)
      (AutoOpportunityDetector.LoopWakes empty_cycle)
    = (AutoOpportunityDetector.mkSession d' 0,
       Some (AutoOpportunityDetector.LoopEmergencyStop
               (RiskLevels.Drawdown_de_emergencia 0.06)))
    /\ AutoOpportunityDetector.active_positions d' = []
    /\ AutoOpportunityDetector.is_running d' = false.
Proof.
  destruct (proj1 (proj2 C3_emergency_stop_halts_detection)
              (fun _ => 0)
              (AutoOpportunityDetector.mkSession
                 (running_detector
                    (Scenario.manager_with RiskLevels.CONSERVATIVE 0.06 0 0)
                    two_positions) 1)
              0%nat empty_cycle)
    as (d' & Hstep & Hpos & Hrun & _).
  - reflexivity.
  - reflexivity.
  - left. vm_compute. reflexivity.
  - exists d'. split; [exact Hstep|]. split; assumption.
Defined.

(** ** Warnings *)

Section Warnings.
Import Py PyFacts RiskLevels.

Lemma should_emergency_stop_normal (rm : RiskManager) :
  should_emergency_stop rm = (false, Condiciones_normales)
  <-> ~ halt_condition rm.
Proof.
  rewrite <- should_emergency_stop_true. split.
  - intros ->. cbn. discriminate.
  - intros H. apply should_emergency_stop_false.
    destruct (fst (should_emergency_stop rm)); congruence.
Qed.

(** Membership in one conditional segment of the recommendation list. *)
Lemma In_segment (c : bool) (r x : string) :
  In x (if c then [r] else []) <-> c = true /\ x = r.
Proof.
  destruct c; cbn; split.
  - intros [H|[]]. split; congruence.
  - intros [_ ->]. left. reflexivity.
  - intros [].
  - intros [H _]. discriminate.
Qed.

Lemma recommendations_spec (rm : RiskManager) (x : string) :
  let profile := get_current_profile rm in
  let m := current_metrics rm in
  In x (get_risk_recommendations rm) <->
  (0.7 < risk_score m
   /\ x = "Considerar reducir exposición o cambiar a nivel más conservador")
  \/ (max_drawdown profile * 0.8 < m_max_drawdown m
      /\ x = "Drawdown elevado, revisar estrategias de stop loss")
  \/ (win_rate m < 0.4
      /\ x = "Win rate bajo, revisar criterios de entrada")
  \/ (diversification_score m < 0.3
      /\ x = "Poca diversificación, considerar más pares")
  \/ (0.8 < margin_utilization m
      /\ x = "Alta utilización de margen, reducir posiciones").
Proof.
  intros profile m. unfold get_risk_recommendations. fold profile m.
  rewrite !in_app_iff, !In_segment, !gtb_gt, !ltb_lt. tauto.
Qed.

End Warnings.

(** C6 as stated fails.  Conservative profile, drawdown 0.025: above 80% of
    the emergency threshold 0.03 and not halted, so the rule of the
    specification says Warning; [should_emergency_stop] answers
    (False, normal conditions) and no recommendation is issued.  Risk score
    0.71: no metric is above 80% of its threshold (0.72 for the score), the
    rule says Normal, and a recommendation is issued. *)
Lemma C6_counterexample_no_warning_state :
  let rm1 := Scenario.manager_with RiskLevels.CONSERVATIVE 0.025 0 0 in
  let rm2 := Scenario.manager_with RiskLevels.CONSERVATIVE 0 0.71 0 in
  (spec_safety_state (RiskLevels.get_current_profile rm1)
                     (RiskLevels.current_metrics rm1) = Warning
   /\ RiskLevels.should_emergency_stop rm1
      = (false, RiskLevels.Condiciones_normales)
   /\ RiskLevels.get_risk_recommendations rm1 = []
   /\ ~ surfaces_warning rm1)
  /\ (spec_safety_state (RiskLevels.get_current_profile rm2)
                        (RiskLevels.current_metrics rm2) = Normal
      /\ surfaces_warning rm2).
Proof.
  cbv zeta. split; [split; [|split; [|split]]|split].
  - vm_compute. reflexivity.
  - vm_compute. reflexivity.
  - vm_compute. reflexivity.
  - unfold surfaces_warning. intros [H|H]; apply H; vm_compute; reflexivity.
  - vm_compute. reflexivity.
  - right. vm_compute. discriminate.
Qed.

(** C6 (amended). The code has no Warning state.  Whenever the halt
    conditions do not hold, [should_emergency_stop] answers
    (False, normal conditions), whatever the metrics.  Advisory texts come
    from [get_risk_recommendations], which only returns a list: one text when
    the risk score exceeds 0.7, one when the drawdown exceeds 80% of
    [profile.max_drawdown], one when the win rate is below 0.4, one when the
    diversification score is below 0.3, one when the margin utilization
    exceeds 0.8, and nothing else. *)
Theorem C6_no_warning_state_recommendations_only :
  forall rm : RiskLevels.RiskManager,
    let profile := RiskLevels.get_current_profile rm in
    let m := RiskLevels.current_metrics rm in
    (~ halt_condition rm
     <-> RiskLevels.should_emergency_stop rm
         = (false, RiskLevels.Condiciones_normales))
    /\ (forall x : string,
           In x (RiskLevels.get_risk_recommendations rm) <->
           (0.7 < RiskLevels.risk_score m
            /\ x = "Considerar reducir exposición o cambiar a nivel más conservador")
           \/ (RiskLevels.max_drawdown profile * 0.8 < RiskLevels.m_max_drawdown m
               /\ x = "Drawdown elevado, revisar estrategias de stop loss")
           \/ (RiskLevels.win_rate m < 0.4
               /\ x = "Win rate bajo, revisar criterios de entrada")
           \/ (RiskLevels.diversification_score m < 0.3
               /\ x = "Poca diversificación, considerar más pares")
           \/ (0.8 < RiskLevels.margin_utilization m
               /\ x = "Alta utilización de margen, reducir posiciones")).
Proof.
  intros rm profile m. split.
  - symmetry. apply should_emergency_stop_normal.
  - intros x. apply recommendations_spec.
Qed.

(** Conservative profile, drawdown 0.01 and margin utilization 0.9: not
    halted, normal conditions reported, and the margin recommendation is in
    the list. *)
Lemma C6_recommendations_witness :
  let rm := Scenario.manager_with RiskLevels.CONSERVATIVE 0.01 0 0.9 in
  RiskLevels.should_emergency_stop rm = (false, RiskLevels.Condiciones_normales)
  /\ In "Alta utilización de margen, reducir posiciones"
        (RiskLevels.get_risk_recommendations rm).
Proof.
  cbv zeta.
  pose proof (C6_no_warning_state_recommendations_only
                (Scenario.manager_with RiskLevels.CONSERVATIVE 0.01 0 0.9))
    as [Hnormal Hrec].
  split.
  - apply Hnormal. intros [H|[H|H]]; vm_compute in H; discriminate.
  - apply Hrec. right. right. right. right. split; [|reflexivity].
    vm_compute. reflexivity.
Defined.

(** ** What follows a halt *)

Section AfterHalt.
Import Py RiskLevels AutoOpportunityDetector.

Variable np_std : list Q -> Q.

(** While [is_running] is False and nobody calls [start_detection], an
    event changes neither the flag nor the scan results, and a loop pass can
    only be an exit. *)
Lemma stopped_step (s : Session) (ev : Event) :
  is_running (detector s) = false ->
  not_restart ev ->
  let r := session_step np_std s ev in
  is_running (detector (fst r)) = false
  /\ (snd r = None \/ snd r = Some LoopExit)
  /\ detection_stats (detector (fst r)) = detection_stats (detector s)
  /\ detected_opportunities (detector (fst r)) = detected_opportunities (detector s)
  /\ (loop_tasks (fst r) <= loop_tasks s)%nat.
Proof.
  intros Hstop Hev. destruct ev as [cycle| | |l|positions trades balance];
    cbn [session_step].
  - destruct (loop_tasks s) as [|n] eqn:Hn; cbn.
    + rewrite Hn. auto 10 with arith.
    + rewrite (iteration_not_running _ cycle Hstop). cbn.
      auto 10 with arith.
  - exfalso. apply Hev. reflexivity.
  - cbn. auto 10 with arith.
  - cbn. auto 10 with arith.
  - destruct (update_risk_metrics np_std (risk_manager (detector s))
                                  positions trades balance); cbn;
      auto 10 with arith.
Qed.

(** The two stretches, run one after the other with nothing in between,
    are the pass of [_detection_loop_iteration]. *)
Lemma pass_stretches (self : Detector) (cycle : CycleOutcome) :
  _detection_loop_iteration self cycle
  = match begin_pass self with
    | (d, Some step) => (d, step)
    | (d, None) => finish_pass d cycle
    end.
Proof.
  unfold _detection_loop_iteration, begin_pass.
  destruct (negb (is_running self)); [reflexivity|].
  destruct (should_emergency_stop (risk_manager self)) as [[|] reason];
    reflexivity.
Qed.

Lemma begin_pass_not_running (self : Detector) :
  is_running self = false -> begin_pass self = (self, Some LoopExit).
Proof. intros H. unfold begin_pass. rewrite H. reflexivity. Qed.

(** The second stretch does not read [is_running]: it completes the pass,
    and counts one scan when the awaits returned. *)
Lemma finish_pass_spec (self : Detector) (cycle : CycleOutcome) :
  let r := finish_pass self cycle in
  is_running (fst r) = is_running self
  /\ completes (snd r) = true
  /\ total_scans (detection_stats (fst r))
     = (total_scans (detection_stats self)
        + (if scanned (snd r) then 1 else 0))%nat.
Proof.
  destruct cycle as [opportunities [|o filtered]|e]; cbn; auto with arith.
Qed.

(** While [is_running] is False and nobody calls [start_detection], a task
    at the loop test can only leave the loop, a task inside a pass completes
    it, and a call changes neither the flag nor the scan results. *)
Lemma stopped_task_step (s : TaskSession) (ev : TaskEvent) :
  is_running (ts_detector s) = false ->
  task_not_restart ev ->
  let r := task_step np_std s ev in
  is_running (ts_detector (fst r)) = false
  /\ match snd r with
     | None =>
         in_pass (fst r) = in_pass s
         /\ at_loop_test (fst r) = at_loop_test s
         /\ detection_stats (ts_detector (fst r))
            = detection_stats (ts_detector s)
         /\ detected_opportunities (ts_detector (fst r))
            = detected_opportunities (ts_detector s)
     | Some st =>
         (st = LoopExit
          /\ in_pass (fst r) = in_pass s
          /\ S (at_loop_test (fst r)) = at_loop_test s
          /\ detection_stats (ts_detector (fst r))
             = detection_stats (ts_detector s)
          /\ detected_opportunities (ts_detector (fst r))
             = detected_opportunities (ts_detector s))
         \/ (completes st = true
             /\ S (in_pass (fst r)) = in_pass s
             /\ at_loop_test (fst r) = S (at_loop_test s)
             /\ total_scans (detection_stats (ts_detector (fst r)))
                = (total_scans (detection_stats (ts_detector s))
                   + (if scanned st then 1 else 0))%nat)
     end.
Proof.
  intros Hstop Hev. destruct ev as [|cycle|ev]; cbn [task_step].
  - destruct (at_loop_test s) as [|n] eqn:Hn; cbn.
    + auto.
    + rewrite (begin_pass_not_running _ Hstop). cbn. auto 10.
  - destruct (in_pass s) as [|m] eqn:Hm; cbn.
    + auto.
    + pose proof (finish_pass_spec (ts_detector s) cycle) as (F1 & F2 & F3).
      destruct (finish_pass (ts_detector s) cycle) as [d step].
      cbn [fst snd] in F1, F2, F3. cbn. split; [congruence|]. right. auto.
  - assert (Hev' : not_restart ev).
    { intros ->. apply Hev. reflexivity. }
    pose proof (stopped_step (mkSession (ts_detector s) O) ev Hstop Hev')
      as (H1 & _ & H3 & H4 & H5).
    cbn [fst snd detector loop_tasks] in *.
    cbn [fst snd ts_detector in_pass at_loop_test].
    repeat split; try assumption. lia.
Qed.

Lemma stopped_task_run (evs : list TaskEvent) :
  forall s : TaskSession,
    is_running (ts_detector s) = false ->
    Forall task_not_restart evs ->
    let r := task_run np_std s evs in
    is_running (ts_detector (fst r)) = false
    /\ Forall (fun st => st = LoopExit \/ completes st = true) (snd r)
    /\ (in_pass (fst r) + length (List.filter completes (snd r)) = in_pass s)%nat
    /\ total_scans (detection_stats (ts_detector (fst r)))
       = (total_scans (detection_stats (ts_detector s))
          + length (List.filter scanned (snd r)))%nat
    /\ (length (List.filter scanned (snd r))
        <= length (List.filter completes (snd r)))%nat
    /\ (at_loop_test (fst r) + in_pass (fst r)
        <= at_loop_test s + in_pass s)%nat
    /\ (in_pass s = O ->
        Forall (fun st => st = LoopExit) (snd r)
        /\ detection_stats (ts_detector (fst r))
           = detection_stats (ts_detector s)
        /\ detected_opportunities (ts_detector (fst r))
           = detected_opportunities (ts_detector s)).
Proof.
  induction evs as [|ev evs IH]; intros s Hstop Hevs; cbn [task_run].
  - cbn. repeat split; auto with arith.
  - inversion Hevs as [|? ? Hev Hevs']; subst.
    pose proof (stopped_task_step s ev Hstop Hev) as (H1 & H2).
    destruct (task_step np_std s ev) as [s1 step]. cbn [fst snd] in *.
    specialize (IH s1 H1 Hevs').
    destruct (task_run np_std s1 evs) as [s2 steps]. cbn [fst snd] in *.
    destruct IH as (I1 & I2 & I3 & I4 & I5 & I6 & I7).
    destruct step as [st|].
    + destruct H2 as [(-> & P1 & P2 & P3 & P4)|(C1 & P1 & P2 & P3)].
      * cbn [List.filter completes scanned length].
        repeat split; try assumption.
        -- constructor; [left; reflexivity|exact I2].
        -- lia.
        -- rewrite I4, P3. reflexivity.
        -- lia.
        -- constructor; [reflexivity|]. apply I7. lia.
        -- destruct I7 as (_ & J & _); [lia|]. rewrite J. exact P3.
        -- destruct I7 as (_ & _ & J); [lia|]. rewrite J. exact P4.
      * cbn [List.filter]. rewrite C1.
        assert (Hs : (length (List.filter scanned steps)
                      + (if scanned st then 1 else 0)
                      = length (if scanned st
                                then st :: List.filter scanned steps
                                else List.filter scanned steps))%nat).
        { destruct (scanned st); cbn [length]; lia. }
        repeat split; try assumption.
        -- constructor; [right; exact C1|exact I2].
        -- cbn [length]. lia.
        -- rewrite I4, P3, <- Hs. lia.
        -- rewrite <- Hs. cbn [length]. destruct (scanned st); lia.
        -- lia.
        -- exfalso. lia.
        -- exfalso. lia.
        -- exfalso. lia.
    + destruct H2 as (P1 & P2 & P3 & P4).
      repeat split; try assumption.
      * lia.
      * rewrite I4, P3. reflexivity.
      * lia.
      * apply I7. lia.
      * destruct I7 as (_ & J & _); [lia|]. rewrite J. exact P3.
      * destruct I7 as (_ & _ & J); [lia|]. rewrite J. exact P4.
Qed.

End AfterHalt.

(** C4 as stated fails in its second half.  In the drawdown scenario the
    loop halts; nobody calls [start_detection]; one call of
    [update_risk_metrics] with a winning trade follows.  The loop stays
    stopped, but [should_emergency_stop] now answers
    (False, normal conditions): the safety state is recomputed from the
    metrics and has left Halted without any restart. *)
Lemma C4_counterexample_state_not_latched :
  let r := AutoOpportunityDetector.run (fun _ => 0) halting_session recovery_events in
  let rm0 := AutoOpportunityDetector.risk_manager
               (AutoOpportunityDetector.detector halting_session) in
  let rm := AutoOpportunityDetector.risk_manager
              (AutoOpportunityDetector.detector (fst r)) in
  Forall not_restart recovery_events
  /\ spec_safety_state (RiskLevels.get_current_profile rm0)
                       (RiskLevels.current_metrics rm0) = Halted
  /\ snd r = [AutoOpportunityDetector.LoopEmergencyStop
                (RiskLevels.Drawdown_de_emergencia 0.06)]
  /\ RiskLevels.should_emergency_stop rm
     = (false, RiskLevels.Condiciones_normales)
  /\ spec_safety_state (RiskLevels.get_current_profile rm)
                       (RiskLevels.current_metrics rm) = Normal.
Proof.
  cbv zeta. split; [|split; [|split; [|split]]].
  - unfold recovery_events, not_restart. repeat constructor; discriminate.
  - vm_compute. reflexivity.
  - vm_compute. reflexivity.
  - vm_compute. reflexivity.
  - vm_compute. reflexivity.
Qed.

(** C4 (amended). Once [is_running] is False (as a halt or a call of
    [stop_detection] leaves it), every sequence of later events other than
    a call of [start_detection] - loop tasks resuming, [stop_detection],
    [set_risk_level], [update_risk_metrics] with any data, improving or not -
    keeps [is_running] False and begins no scan and no further emergency
    stop: a task that tests the loop leaves it.  A pass that had already
    reached its awaits when the flag fell is not cancelled: when its awaits
    are over it completes, publishing and counting its scan, so the scan
    counter grows by the number of such scans, at most the number of passes
    that were in flight; with none in flight the scan statistics and the
    published opportunities stay untouched.  A call of [start_detection]
    sets [is_running] and creates a loop task again.  The answer of
    [should_emergency_stop] is not latched: it is recomputed from the current
    metrics at each call. *)
Theorem C4_no_scan_begins_until_restart :
  forall (np_std : list Q -> Q) (s : AutoOpportunityDetector.TaskSession)
         (evs : list AutoOpportunityDetector.TaskEvent),
    AutoOpportunityDetector.is_running (AutoOpportunityDetector.ts_detector s)
    = false ->
    Forall task_not_restart evs ->
    let r := AutoOpportunityDetector.task_run np_std s evs in
    let d := AutoOpportunityDetector.ts_detector (fst r) in
    let restarted :=
      fst (AutoOpportunityDetector.task_step
             np_std (fst r)
             (AutoOpportunityDetector.Calls
                AutoOpportunityDetector.Call_start_detection)) in
    AutoOpportunityDetector.is_running d = false
    /\ Forall (fun st => st = AutoOpportunityDetector.LoopExit
                         \/ completes st = true) (snd r)
    /\ (AutoOpportunityDetector.in_pass (fst r)
        + length (List.filter completes (snd r))
        = AutoOpportunityDetector.in_pass s)%nat
    /\ AutoOpportunityDetector.total_scans
         (AutoOpportunityDetector.detection_stats d)
       = (AutoOpportunityDetector.total_scans
            (AutoOpportunityDetector.detection_stats
               (AutoOpportunityDetector.ts_detector s))
          + length (List.filter scanned (snd r)))%nat
    /\ (length (List.filter scanned (snd r))
        <= AutoOpportunityDetector.in_pass s)%nat
    /\ (AutoOpportunityDetector.in_pass s = O ->
        Forall (fun st => st = AutoOpportunityDetector.LoopExit) (snd r)
        /\ AutoOpportunityDetector.detection_stats d
           = AutoOpportunityDetector.detection_stats
               (AutoOpportunityDetector.ts_detector s)
        /\ AutoOpportunityDetector.detected_opportunities d
           = AutoOpportunityDetector.detected_opportunities
               (AutoOpportunityDetector.ts_detector s))
    /\ AutoOpportunityDetector.is_running
         (AutoOpportunityDetector.ts_detector restarted) = true
    /\ AutoOpportunityDetector.at_loop_test restarted
       = S (AutoOpportunityDetector.at_loop_test (fst r)).
Proof.
  intros np_std s evs Hstop Hevs r d restarted.
  destruct (stopped_task_run np_std evs s Hstop Hevs)
    as (H1 & H2 & H3 & H4 & H5 & _ & H7).
  fold r in H1, H2, H3, H4, H5, H7. fold d in H1, H4, H7.
  repeat split; try assumption.
  - lia.
  - apply H7; assumption.
  - apply H7; assumption.
  - apply H7; assumption.
  - unfold restarted. cbn. unfold AutoOpportunityDetector.start_detection.
    cbn. fold d. rewrite H1. reflexivity.
  - unfold restarted. cbn. unfold AutoOpportunityDetector.start_detection.
    cbn. fold d. rewrite H1. cbn. lia.
Qed.

(** [stop_detection] is called while the one loop task waits for its scan.
    Nothing restarts the detector; the pass completes all the same: a fourth
    scan is counted and its opportunity published while [is_running] is
    False, and the task then leaves the loop. *)
Lemma C4_suspended_witness :
  let r := AutoOpportunityDetector.task_run (fun _ => 0) stopped_in_flight
                                            late_events in
  let d := AutoOpportunityDetector.ts_detector (fst r) in
  AutoOpportunityDetector.in_pass stopped_in_flight = 1%nat
  /\ AutoOpportunityDetector.detection_stats
       (AutoOpportunityDetector.ts_detector stopped_in_flight)
     = AutoOpportunityDetector.mkDetectionStats 3 7
  /\ AutoOpportunityDetector.is_running d = false
  /\ snd r = [AutoOpportunityDetector.LoopScanned;
              AutoOpportunityDetector.LoopExit]
  /\ AutoOpportunityDetector.total_scans
       (AutoOpportunityDetector.detection_stats d) = 4%nat
  /\ AutoOpportunityDetector.detected_opportunities d = [late_opportunity]
  /\ AutoOpportunityDetector.in_pass (fst r) = O
  /\ AutoOpportunityDetector.at_loop_test (fst r) = O.
Proof.
  cbv zeta.
  destruct (C4_no_scan_begins_until_restart
              (fun _ => 0) stopped_in_flight late_events)
    as (H1 & _ & _ & H4 & _).
  - vm_compute. reflexivity.
  - unfold late_events, task_not_restart. repeat constructor; discriminate.
  - split; [vm_compute; reflexivity|].
    split; [vm_compute; reflexivity|].
    split; [exact H1|].
    split; [vm_compute; reflexivity|].
    split; [rewrite H4; vm_compute; reflexivity|].
    repeat split; vm_compute; reflexivity.
Defined.

(** ** Signal fusion (autopilot_engine.py) *)

(** Comparisons of binary64 numbers. *)
Section Float64.
Import PrimFloat.

Lemma ltb_irrefl (x : float) : (x <? x)%float = false.
Proof.
  rewrite FloatAxioms.ltb_spec. unfold SpecFloat.SFltb.
  destruct (FloatOps.Prim2SF x) as [s|s| |s m e]; cbn; try reflexivity.
  - destruct s; reflexivity.
  - change (PosDef.Pos.compare_cont Eq m m) with (m ?= m)%positive.
    destruct s; rewrite Z.compare_refl, Pos.compare_refl; reflexivity.
Qed.

Lemma ltb_asym (x y : float) : (x <? y)%float = true -> (y <? x)%float = false.
Proof.
  rewrite !FloatAxioms.ltb_spec. unfold SpecFloat.SFltb.
  destruct (FloatOps.Prim2SF x) as [s|s| |s m e],
           (FloatOps.Prim2SF y) as [s'|s'| |s' m' e']; cbn;
    try discriminate; try reflexivity;
    try (destruct s; try destruct s'; cbn; (discriminate || reflexivity)).
  change (PosDef.Pos.compare_cont Eq m m') with (m ?= m')%positive.
  change (PosDef.Pos.compare_cont Eq m' m) with (m' ?= m)%positive.
  rewrite (Z.compare_antisym e e'), (Pos.compare_antisym m m').
  destruct s, s'; try discriminate; try reflexivity;
    destruct (e ?= e')%Z; cbn; try discriminate; try reflexivity;
    destruct (m ?= m')%positive; cbn; discriminate || reflexivity.
Qed.

End Float64.

Section Fusion64.
Import PrimFloat AutopilotEngine64.
Import AutopilotEngine (dict, dict_get, dict_set, upper, join).
#[local] Set Warnings "-inexact-float".
#[local] Open Scope float_scope.

Lemma sum_nil (py : Summation) : sum py [] = 0.
Proof. destruct py; reflexivity. Qed.

Lemma dict_get_set {V} (k k' : string) (v : V) (d : dict V) :
  dict_get k (dict_set k' v d)
  = if String.eqb k' k then Some v else dict_get k d.
Proof.
  induction d as [|[k0 v0] d IH]; cbn.
  - reflexivity.
  - destruct (String.eqb k0 k') eqn:E0; cbn.
    + apply String.eqb_eq in E0. subst k0.
      destruct (String.eqb k' k); reflexivity.
    + rewrite IH. destruct (String.eqb k0 k) eqn:E1; [|reflexivity].
      apply String.eqb_eq in E1. subst k0. rewrite (String.eqb_sym k' k), E0. reflexivity.
Qed.

Lemma dict_get_iff_In {V} (k : string) (v : V) (d : dict V) :
  List.NoDup (map fst d) -> (dict_get k d = Some v <-> In (k, v) d).
Proof.
  induction d as [|[k0 v0] d IH]; cbn; intros Hnd.
  - split; [discriminate|tauto].
  - inversion Hnd as [|? ? Hnotin Hnd']; subst.
    destruct (String.eqb k0 k) eqn:E.
    + apply String.eqb_eq in E. subst k0. split.
      * intros [= ->]. left. reflexivity.
      * intros [[= ->]|Hin]; [reflexivity|].
        exfalso. apply Hnotin. apply in_map_iff. exists (k, v). auto.
    + rewrite (IH Hnd'). split; [auto|].
      intros [Heq|Hin]; [|exact Hin].
      injection Heq as Hk Hv. apply String.eqb_neq in E. contradiction.
Qed.

(** A lookup does not depend on the insertion order. *)
Lemma dict_get_Permutation {V} (k : string) (d d' : dict V) :
  Permutation d d' -> List.NoDup (map fst d) -> dict_get k d = dict_get k d'.
Proof.
  intros Hp Hnd.
  assert (Hnd' : List.NoDup (map fst d')).
  { eapply Permutation_NoDup; [|exact Hnd]. apply Permutation_map. exact Hp. }
  destruct (dict_get k d) as [v|] eqn:E.
  - symmetry. apply (dict_get_iff_In k v d' Hnd').
    eapply Permutation_in; [exact Hp|]. apply (dict_get_iff_In k v d Hnd). exact E.
  - destruct (dict_get k d') as [v'|] eqn:E'; [|reflexivity].
    apply (dict_get_iff_In k v' d' Hnd') in E'.
    apply Permutation_sym in Hp.
    apply (Permutation_in _ Hp) in E'.
    apply (dict_get_iff_In k v' d Hnd) in E'. congruence.
Qed.

(** What [collect_signals] appends for a list of known strategies. *)
Lemma collect_signals_known64 (symbol : string) (items : AnalysisResults) :
  Forall known_strategy64 items ->
  forall (signals : list WeightedSignal) (contributions : dict float),
  exists signals' contributions',
    collect_signals symbol items signals contributions
    = Py.Ok (signals ++ signals', contributions')
    /\ map (fun s => (ws_action s, ws_confidence s)) signals'
       = omap (weighted64 symbol) items
    /\ (List.NoDup (map fst items) ->
        forall k : string,
          dict_get k contributions'
          = match dict_get k items with
            | Some results =>
                match weighted64 symbol (k, results) with
                | Some (_, c) => Some c
                | None => dict_get k contributions
                end
            | None => dict_get k contributions
            end).
Proof.
  induction 1 as [|[strategy results] items Hk _ IH]; intros signals contributions.
  - exists [], contributions. cbn. rewrite app_nil_r. auto.
  - cbn [collect_signals omap list_omap]. unfold weighted64 at 1 3. cbn [fst snd].
    unfold known_strategy64 in Hk. cbn [fst] in Hk.
    destruct (dict_get symbol results) as [sd|] eqn:Esd.
    2:{ destruct (IH signals contributions) as (signals' & contributions' & Hc & Hm & Hl).
        exists signals', contributions'. split; [exact Hc|]. split; [exact Hm|].
        intros Hnd k. inversion Hnd as [|? ? Hnotin Hnd']; subst.
        rewrite (Hl Hnd' k). cbn [dict_get].
        destruct (String.eqb strategy k) eqn:E; [|reflexivity].
        apply String.eqb_eq in E. subst k.
        destruct (dict_get strategy items) as [r|] eqn:Er.
        - exfalso. apply Hnotin. apply in_map_iff. exists (strategy, r).
          split; [reflexivity|]. apply (dict_get_iff_In strategy r items Hnd'). exact Er.
        - unfold weighted64. cbn [fst snd]. rewrite Esd. reflexivity. }
    destruct (sd_error sd) eqn:Eerr.
    { destruct (IH signals contributions) as (signals' & contributions' & Hc & Hm & Hl).
      exists signals', contributions'. split; [exact Hc|]. split; [exact Hm|].
      intros Hnd k. inversion Hnd as [|? ? Hnotin Hnd']; subst.
      rewrite (Hl Hnd' k). cbn [dict_get].
      destruct (String.eqb strategy k) eqn:E; [|reflexivity].
      apply String.eqb_eq in E. subst k.
      destruct (dict_get strategy items) as [r|] eqn:Er.
      - exfalso. apply Hnotin. apply in_map_iff. exists (strategy, r).
        split; [reflexivity|]. apply (dict_get_iff_In strategy r items Hnd'). exact Er.
      - unfold weighted64. cbn [fst snd]. rewrite Esd, Eerr. reflexivity. }
    unfold weight_of64.
    destruct (StrategyWeight_value (upper strategy)) as [w|e] eqn:Ew;
      [|discriminate].
    cbn [Py.bind].
    destruct (IH (signals ++ [mkWeightedSignal (default "hold" (sd_action sd))
                                               (default 0.0 (sd_confidence sd) * w) w])
                 (dict_set strategy (default 0.0 (sd_confidence sd) * w) contributions))
      as (signals' & contributions' & Hc & Hm & Hl).
    eexists (_ :: signals'), contributions'. split; [|split].
    + rewrite Hc. rewrite <- app_assoc. reflexivity.
    + cbn [map ws_action ws_confidence]. rewrite Hm. reflexivity.
    + intros Hnd k. inversion Hnd as [|? ? Hnotin Hnd']; subst.
      rewrite (Hl Hnd' k). cbn [dict_get]. rewrite dict_get_set.
      destruct (String.eqb strategy k) eqn:E.
      * apply String.eqb_eq in E. subst k.
        destruct (dict_get strategy items) as [r|] eqn:Er.
        -- exfalso. apply Hnotin. apply in_map_iff. exists (strategy, r).
           split; [reflexivity|]. apply (dict_get_iff_In strategy r items Hnd'). exact Er.
        -- unfold weighted64, weight_of64. cbn [fst snd]. rewrite Esd, Eerr.
           rewrite Ew. reflexivity.
      * reflexivity.
Qed.

Lemma terms_of_signals (symbol : string) (items : AnalysisResults) :
  forall signals : list WeightedSignal,
    map (fun s => (ws_action s, ws_confidence s)) signals
    = omap (weighted64 symbol) items ->
    forall a : string,
      map ws_confidence
          (List.filter (fun s => String.eqb (ws_action s) a) signals)
      = terms64 symbol a items.
Proof.
  induction items as [|entry items IH]; intros signals Hm a.
  - destruct signals; [reflexivity|discriminate].
  - unfold terms64. cbn [flat_map omap list_omap] in *.
    unfold contribution64 at 1.
    destruct (weighted64 symbol entry) as [[act c]|].
    + destruct signals as [|s signals]; [discriminate|].
      cbn [map] in Hm. injection Hm as Ha Hc Hm.
      cbn [List.filter]. rewrite Ha.
      destruct (String.eqb act a); cbn [map app]; rewrite ?Hc;
        rewrite (IH signals Hm a); reflexivity.
    + cbn [app]. apply IH. exact Hm.
Qed.

Lemma omap_nil_In {A B} (f : A -> option B) (l : list A) :
  omap f l = [] -> forall x, In x l -> f x = None.
Proof.
  induction l as [|y l IH]; cbn [omap list_omap]; intros Hnil x Hin.
  - destruct Hin.
  - destruct (f y) eqn:Ey; [discriminate|].
    destruct Hin as [<-|Hin]; [exact Ey|]. apply IH; assumption.
Qed.

Lemma fused_action64_zero : fused_action64 0 0 0 = ("hold", 0).
Proof. reflexivity. Qed.

Section Rule.

Variable format_2f : float -> string.
Variable str_exc : Py.Exception -> string.
Variable np_mean : list float -> float.
Variable py : Summation.

(** The consolidated signal for known strategies and a symbol with a
    price. *)
Lemma consolidate_spec64 (self : AutopilotConfig) (now : Z)
    (ar : AnalysisResults) (sym : string) (closes : list float)
    (rest : MarketData) (current_price : float) :
  last closes = Some current_price ->
  Forall known_strategy64 ar ->
  let signal :=
    fst (_consolidate_signals format_2f str_exc np_mean py self now ar
                              ((sym, closes) :: rest)) in
  let B := fun a => bucket64 py sym a ar in
  symbol signal = sym
  /\ price signal = current_price
  /\ (action signal, confidence signal)
     = fused_action64 (B "buy") (B "sell") (B "hold")
  /\ (omap (weighted64 sym) ar = [] ->
      stop_loss signal = None /\ take_profit signal = None
      /\ position_size signal = 1.0)
  /\ (omap (weighted64 sym) ar <> [] ->
      (stop_loss signal, take_profit signal)
      = _calculate_stop_take_profit (action signal) current_price ar sym
      /\ position_size signal
         = _calculate_position_size self (confidence signal) current_price)
  /\ (List.NoDup (map fst ar) ->
      forall k : string,
        dict_get k (strategy_contributions signal)
        = match dict_get k ar with
          | Some results => option_map snd (weighted64 sym (k, results))
          | None => None
          end).
Proof.
  intros Hlast Hknown signal B. subst signal.
  unfold _consolidate_signals, consolidate_body. cbn [Py.bind fst snd].
  unfold last_close. rewrite Hlast. cbn [Py.bind].
  destruct (collect_signals_known64 sym ar Hknown [] [])
    as (signals & contributions & -> & Hm & Hl).
  cbn [Py.bind app].
  assert (HB : forall a, action_weight py a signals = B a).
  { intros a. unfold action_weight, B, bucket64.
    rewrite (terms_of_signals sym ar signals Hm a). reflexivity. }
  assert (Hlook : List.NoDup (map fst ar) ->
                  forall k : string,
                    dict_get k contributions
                    = match dict_get k ar with
                      | Some results => option_map snd (weighted64 sym (k, results))
                      | None => None
                      end).
  { intros Hnd k. rewrite (Hl Hnd k). cbn [dict_get].
    destruct (dict_get k ar) as [results|]; [|reflexivity].
    destruct (weighted64 sym (k, results)) as [[act c]|]; reflexivity. }
  destruct signals as [|s0 signals].
  - (* no valid signal: every bucket is the empty sum *)
    assert (Hz : forall a, B a = 0).
    { intros a. rewrite <- HB. unfold action_weight. cbn. apply sum_nil. }
    assert (Hnil : omap (weighted64 sym) ar = []).
    { rewrite <- Hm. reflexivity. }
    cbn [symbol price action confidence stop_loss take_profit position_size
         strategy_contributions fst].
    rewrite !Hz, fused_action64_zero.
    split; [reflexivity|]. split; [reflexivity|]. split; [reflexivity|].
    split; [auto|]. split; [intros Hne; contradiction|].
    intros Hnd k. cbn [dict_get].
    destruct (dict_get k ar) as [results|] eqn:Ek; [|reflexivity].
    apply (dict_get_iff_In k results ar Hnd) in Ek.
    rewrite (omap_nil_In _ _ Hnil _ Ek). reflexivity.
  - set (sigs := s0 :: signals) in *.
    assert (Hne : omap (weighted64 sym) ar <> []).
    { rewrite <- Hm. discriminate. }
    rewrite !HB. unfold fused_action64, gtb.
    destruct ((B "sell" <? B "buy") && (B "hold" <? B "buy")).
    + destruct (_calculate_stop_take_profit "buy" current_price ar sym) eqn:Est.
      cbn [symbol price action confidence stop_loss take_profit position_size
           strategy_contributions fst].
      rewrite Est.
      split; [reflexivity|]. split; [reflexivity|]. split; [reflexivity|].
      split; [intros Hnil; contradiction|]. split; [auto|]. exact Hlook.
    + destruct ((B "buy" <? B "sell") && (B "hold" <? B "sell")).
      * destruct (_calculate_stop_take_profit "sell" current_price ar sym) eqn:Est.
        cbn [symbol price action confidence stop_loss take_profit position_size
             strategy_contributions fst].
        rewrite Est.
        split; [reflexivity|]. split; [reflexivity|]. split; [reflexivity|].
        split; [intros Hnil; contradiction|]. split; [auto|]. exact Hlook.
      * destruct (_calculate_stop_take_profit "hold" current_price ar sym) eqn:Est.
        cbn [symbol price action confidence stop_loss take_profit position_size
             strategy_contributions fst].
        rewrite Est.
        split; [reflexivity|]. split; [reflexivity|]. split; [reflexivity|].
        split; [intros Hnil; contradiction|]. split; [auto|]. exact Hlook.
Qed.

End Rule.

Lemma omap_nil_Permutation {A B} (f : A -> option B) (l l' : list A) :
  Permutation l l' -> omap f l = [] -> omap f l' = [].
Proof.
  intros Hp Hnil.
  assert (H : forall x, In x l' -> f x = None).
  { intros x Hin. apply (omap_nil_In f l Hnil).
    eapply Permutation_in; [apply Permutation_sym; exact Hp|exact Hin]. }
  clear Hp Hnil. induction l' as [|y l' IH]; [reflexivity|].
  cbn [omap list_omap]. rewrite (H y (or_introl eq_refl)).
  apply IH. intros x Hin. apply H. right. exact Hin.
Qed.

(** The stop and the target read the results through one lookup. *)
Lemma stop_take_Permutation (a : string) (p : float) (ar ar' : AnalysisResults)
    (sym : string) :
  Permutation ar ar' -> List.NoDup (map fst ar) ->
  _calculate_stop_take_profit a p ar sym = _calculate_stop_take_profit a p ar' sym.
Proof.
  intros Hp Hnd. unfold _calculate_stop_take_profit.
  rewrite (dict_get_Permutation "support_resistance" ar ar' Hp Hnd). reflexivity.
Qed.

Section Order.

Variable format_2f : float -> string.
Variable str_exc : Py.Exception -> string.
Variable np_mean : list float -> float.
Variable py : Summation.

(** Two calls on the same results in another insertion order. *)
Lemma consolidate_Permutation (self : AutopilotConfig) (now1 now2 : Z)
    (ar ar' : AnalysisResults) (md : MarketData) :
  Permutation ar ar' ->
  List.NoDup (map fst ar) ->
  Forall known_strategy64 ar ->
  let s1 := fst (_consolidate_signals format_2f str_exc np_mean py self now1 ar md) in
  let s2 := fst (_consolidate_signals format_2f str_exc np_mean py self now2 ar' md) in
  symbol s1 = symbol s2
  /\ price s1 = price s2
  /\ (forall k : string,
         dict_get k (strategy_contributions s1)
         = dict_get k (strategy_contributions s2))
  /\ (forall sym a : string,
         Permutation (terms64 sym a ar) (terms64 sym a ar'))
  /\ ((forall a : string,
          bucket64 py (symbol s1) a ar = bucket64 py (symbol s1) a ar') ->
      action s1 = action s2
      /\ confidence s1 = confidence s2
      /\ stop_loss s1 = stop_loss s2
      /\ take_profit s1 = take_profit s2
      /\ position_size s1 = position_size s2).
Proof.
  intros Hp Hnd Hknown s1 s2.
  assert (Hterms : forall sym a : string,
             Permutation (terms64 sym a ar) (terms64 sym a ar')).
  { intros sym a. unfold terms64. apply Permutation_flat_map. exact Hp. }
  assert (Hnd' : List.NoDup (map fst ar')).
  { eapply Permutation_NoDup; [|exact Hnd]. apply Permutation_map. exact Hp. }
  assert (Hknown' : Forall known_strategy64 ar').
  { eapply Permutation_Forall; [exact Hp|exact Hknown]. }
  subst s1 s2.
  destruct md as [|[sym closes] rest].
  { cbn. repeat split; auto. }
  destruct (last closes) as [current_price|] eqn:Hlast.
  2:{ unfold _consolidate_signals, consolidate_body. cbn [Py.bind fst snd].
      unfold last_close. rewrite Hlast. cbn. repeat split; auto. }
  pose proof (consolidate_spec64 format_2f str_exc np_mean py self now1 ar sym
                closes rest current_price Hlast Hknown)
    as (S1 & P1 & A1 & N1 & E1 & C1).
  pose proof (consolidate_spec64 format_2f str_exc np_mean py self now2 ar' sym
                closes rest current_price Hlast Hknown')
    as (S2 & P2 & A2 & N2 & E2 & C2).
  cbv zeta in *.
  set (s1 := fst (_consolidate_signals format_2f str_exc np_mean py self now1 ar
                                       ((sym, closes) :: rest))) in *.
  set (s2 := fst (_consolidate_signals format_2f str_exc np_mean py self now2 ar'
                                       ((sym, closes) :: rest))) in *.
  split; [congruence|]. split; [congruence|]. split; [|split; [exact Hterms|]].
  - intros k. rewrite (C1 Hnd k), (C2 Hnd' k).
    rewrite (dict_get_Permutation k ar ar' Hp Hnd). reflexivity.
  - rewrite S1. intros HB.
    assert (HA : (action s1, confidence s1) = (action s2, confidence s2)).
    { rewrite A1, A2, !HB. reflexivity. }
    injection HA as Ha Hc.
    split; [exact Ha|]. split; [exact Hc|].
    destruct (omap (weighted64 sym) ar) as [|x xs] eqn:Eo.
    + pose proof (omap_nil_Permutation (weighted64 sym) ar ar' Hp Eo) as Eo'.
      destruct (N1 eq_refl) as (X1 & X2 & X3).
      destruct (N2 Eo') as (Y1 & Y2 & Y3).
      repeat split; congruence.
    + assert (Eo' : omap (weighted64 sym) ar' <> []).
      { intros Hnil.
        pose proof (omap_nil_Permutation (weighted64 sym) ar' ar
                      (Permutation_sym Hp) Hnil) as Hnil'.
        rewrite Eo in Hnil'. discriminate. }
      destruct E1 as (X1 & X2); [discriminate|].
      destruct (E2 Eo') as (Y1 & Y2).
      assert (HST : (stop_loss s1, take_profit s1) = (stop_loss s2, take_profit s2)).
      { rewrite X1, Y1, Ha.
        apply stop_take_Permutation; assumption. }
      injection HST as Hs Ht.
      repeat split; congruence.
Qed.

End Order.

(** C5 as stated fails on its tie rule.  Support/resistance says buy with
    confidence 0.75, channel analysis says sell with confidence 1.0; with
    the weights 0.20 and 0.15 both buckets weigh 0.15, a tie, which the
    specification resolves to hold.  The code multiplies in binary64: 0.75 times
    0.20 is rounded to 0.15000000000000002, 1.0 times 0.15 is 0.15, the buy
    bucket is the greater, and the fused signal is buy with confidence
    0.15000000000000002, under either summation. *)
Lemma C5_counterexample_rounded_tie :
  (bucket "BTCUSDT" "buy" tie_results == 0.15)%Q
  /\ (bucket "BTCUSDT" "sell" tie_results == 0.15)%Q
  /\ (bucket "BTCUSDT" "hold" tie_results == 0)%Q
  /\ forall (format_2f : float -> string) (str_exc : Py.Exception -> string)
            (np_mean : list float -> float) (py : Summation) (now : Z),
       let signal :=
         fst (_consolidate_signals format_2f str_exc np_mean py default_config
                                   now tie_results64 fusion_market_data64) in
       bucket64 py "BTCUSDT" "buy" tie_results64 = 0.15000000000000002
       /\ bucket64 py "BTCUSDT" "sell" tie_results64 = 0.15
       /\ action signal = "buy"
       /\ confidence signal = 0.15000000000000002.
Proof.
  split; [vm_compute; reflexivity|]. split; [vm_compute; reflexivity|].
  split; [vm_compute; reflexivity|].
  intros format_2f str_exc np_mean py now. cbv zeta.
  destruct py; repeat split; vm_compute; reflexivity.
Qed.

(** C5 (amended). With market data for the symbol and strategies that all
    have a weight, each valid per-strategy result adds its confidence times
    the fixed weight of its strategy, rounded to binary64, to the bucket of
    its action, and each bucket is the interpreter's sum of its terms in the
    order of the results.  When the computed buy bucket is strictly greater
    than the other two the fused action is buy and the fused confidence is
    the buy bucket; likewise for sell; in every other case - equal computed
    buckets among them - the fused action is hold and the fused confidence
    is the hold bucket.  For support/resistance buy 0.6, ICT buy 0.25 and
    Fibonacci sell 0.15, with weights 0.20, 0.25 and 0.15, the buy bucket is
    0.1825, the sell bucket 0.0225, and the fused signal is buy with
    confidence 0.1825. *)
Theorem C5_fusion_weighted_buckets :
  (forall (format_2f : float -> string) (str_exc : Py.Exception -> string)
          (np_mean : list float -> float) (py : Summation)
          (self : AutopilotConfig) (now : Z) (ar : AnalysisResults)
          (sym : string) (closes : list float) (rest : MarketData)
          (current_price : float),
      last closes = Some current_price ->
      Forall known_strategy64 ar ->
      let signal :=
        fst (_consolidate_signals format_2f str_exc np_mean py self now ar
                                  ((sym, closes) :: rest)) in
      let B := fun a => bucket64 py sym a ar in
      let buy_greatest :=
        (B "sell" <? B "buy") = true /\ (B "hold" <? B "buy") = true in
      let sell_greatest :=
        (B "buy" <? B "sell") = true /\ (B "hold" <? B "sell") = true in
      (buy_greatest -> action signal = "buy" /\ confidence signal = B "buy")
      /\ (sell_greatest ->
          action signal = "sell" /\ confidence signal = B "sell")
      /\ (~ buy_greatest -> ~ sell_greatest ->
          action signal = "hold" /\ confidence signal = B "hold")
      /\ (B "buy" = B "sell" ->
          action signal = "hold" /\ confidence signal = B "hold"))
  /\ (weight_of64 "support_resistance" = 0.20
      /\ weight_of64 "ict_techniques" = 0.25
      /\ weight_of64 "fibonacci" = 0.15)
  /\ (forall py : Summation,
         terms64 "BTCUSDT" "buy" fusion_results64 = [0.6 * 0.20; 0.25 * 0.25]
         /\ terms64 "BTCUSDT" "sell" fusion_results64 = [0.15 * 0.15]
         /\ bucket64 py "BTCUSDT" "buy" fusion_results64 = 0.1825
         /\ bucket64 py "BTCUSDT" "sell" fusion_results64 = 0.0225
         /\ bucket64 py "BTCUSDT" "hold" fusion_results64 = 0)
  /\ (forall (format_2f : float -> string) (str_exc : Py.Exception -> string)
             (np_mean : list float -> float) (py : Summation) (now : Z),
         let signal :=
           fst (_consolidate_signals format_2f str_exc np_mean py
                                     default_config now
                                     fusion_results64 fusion_market_data64) in
         action signal = "buy" /\ confidence signal = 0.1825).
Proof.
  split; [|split; [|split]].
  - intros format_2f str_exc np_mean py self now ar sym closes rest
           current_price Hlast Hknown signal B buy_greatest sell_greatest.
    pose proof (consolidate_spec64 format_2f str_exc np_mean py self now ar sym
                                   closes rest current_price Hlast Hknown)
      as HA.
    cbv zeta in HA. destruct HA as (_ & _ & HA & _).
    unfold fused_action64 in HA.
    subst signal B buy_greatest sell_greatest. cbv beta.
    split; [|split; [|split]].
    + intros [H1 H2]. rewrite H1, H2 in HA. cbn in HA.
      injection HA as Ha Hc. auto.
    + intros [H1 H2]. rewrite (ltb_asym _ _ H1), H1, H2 in HA. cbn in HA.
      injection HA as Ha Hc. auto.
    + intros Nb Ns.
      destruct (bucket64 py sym "sell" ar <? bucket64 py sym "buy" ar) eqn:E1,
               (bucket64 py sym "hold" ar <? bucket64 py sym "buy" ar) eqn:E2;
        try (exfalso; apply Nb; split; reflexivity);
        destruct (bucket64 py sym "buy" ar <? bucket64 py sym "sell" ar) eqn:E3,
                 (bucket64 py sym "hold" ar <? bucket64 py sym "sell" ar) eqn:E4;
        try (exfalso; apply Ns; split; reflexivity);
        cbn in HA; injection HA as Ha Hc; auto.
    + intros Heq. rewrite <- Heq, ltb_irrefl in HA. cbn in HA.
      injection HA as Ha Hc. auto.
  - repeat split; vm_compute; reflexivity.
  - intros py. destruct py; repeat split; vm_compute; reflexivity.
  - intros format_2f str_exc np_mean py now. cbv zeta.
    destruct py; split; vm_compute; reflexivity.
Qed.

(** The fusion scenario through the general rule: the computed buy bucket
    is strictly above the other two, so the signal is buy with the buy
    bucket as its confidence. *)
Lemma C5_fusion_witness :
  let signal :=
    fst (_consolidate_signals (fun _ => "") (fun _ => "") (fun _ => 0.5) Plain
                              default_config 0
                              fusion_results64 fusion_market_data64) in
  action signal = "buy"
  /\ confidence signal = bucket64 Plain "BTCUSDT" "buy" fusion_results64.
Proof.
  cbv zeta.
  refine (proj1 (proj1 C5_fusion_weighted_buckets
                   (fun _ => "") (fun _ => "") (fun _ => 0.5) Plain
                   default_config 0%Z
                   fusion_results64 "BTCUSDT" [44800; 45000] [] 45000 _ _) _).
  - reflexivity.
  - unfold fusion_results64, known_strategy64. repeat constructor.
  - split; vm_compute; reflexivity.
Defined.

End Fusion64.

(** ** Determinism of the consolidation *)

(** C8 as stated fails: the record has a [timestamp] field, filled from the
    clock.  Two calls on the fusion scenario's results and market data, made
    at clock readings 0 and 1, return different records. *)
Lemma C8_counterexample_timestamp_differs :
  fst (AutopilotEngine._consolidate_signals
         (fun _ => "") (fun _ => "") AutopilotEngine.default_config 0
         fusion_results fusion_market_data)
  <> fst (AutopilotEngine._consolidate_signals
            (fun _ => "") (fun _ => "") AutopilotEngine.default_config 1
            fusion_results fusion_market_data).
Proof.
  intros H. apply (f_equal AutopilotEngine.timestamp) in H.
  vm_compute in H. discriminate.
Qed.

Section FusionOrder64.
Import PrimFloat AutopilotEngine64.
Import AutopilotEngine (dict, dict_get, dict_set, upper, join).

#[local] Set Warnings "-inexact-float".
#[local] Open Scope float_scope.

(** C8 (amended). Two calls of [_consolidate_signals] on the same engine
    configuration, the same results in the same insertion order and the same
    market data return records that agree on every field except [timestamp],
    which is the clock reading of each call, and log the same.  On the same
    results in another insertion order (strategies with a weight) the two
    records still agree on the symbol, the price and the contribution of
    each strategy, and each bucket receives the same terms; they agree on
    the action, the confidence, the stop, the target and the position size
    whenever the three computed buckets come out equal.  The text of
    [reasoning] lists the strategies in insertion order, and a bucket of
    three terms summed without compensation depends on the order: three
    buys at 0.55 give the confidence 0.33 in one order and
    0.33000000000000007 in the other. *)
Theorem C8_consolidation_deterministic_up_to_timestamp :
  (forall (format_2f : float -> string) (str_exc : Py.Exception -> string)
          (np_mean : list float -> float) (py : Summation)
          (self : AutopilotConfig) (now1 now2 : Z)
          (ar : AnalysisResults) (md : MarketData),
      let r1 := _consolidate_signals format_2f str_exc np_mean py self now1 ar md in
      let r2 := _consolidate_signals format_2f str_exc np_mean py self now2 ar md in
      without_timestamp64 (fst r1) = without_timestamp64 (fst r2)
      /\ snd r1 = snd r2
      /\ timestamp (fst r1) = now1
      /\ timestamp (fst r2) = now2)
  /\ (forall (format_2f : float -> string) (str_exc : Py.Exception -> string)
             (np_mean : list float -> float) (py : Summation)
             (self : AutopilotConfig) (now1 now2 : Z)
             (ar ar' : AnalysisResults) (md : MarketData),
         Permutation ar ar' ->
         List.NoDup (map fst ar) ->
         Forall known_strategy64 ar ->
         let s1 :=
           fst (_consolidate_signals format_2f str_exc np_mean py self now1 ar md) in
         let s2 :=
           fst (_consolidate_signals format_2f str_exc np_mean py self now2 ar' md) in
         symbol s1 = symbol s2
         /\ price s1 = price s2
         /\ (forall k : string,
                dict_get k (strategy_contributions s1)
                = dict_get k (strategy_contributions s2))
         /\ (forall sym a : string,
                Permutation (terms64 sym a ar) (terms64 sym a ar'))
         /\ ((forall a : string,
                 bucket64 py (symbol s1) a ar = bucket64 py (symbol s1) a ar') ->
             action s1 = action s2
             /\ confidence s1 = confidence s2
             /\ stop_loss s1 = stop_loss s2
             /\ take_profit s1 = take_profit s2
             /\ position_size s1 = position_size s2))
  /\ (forall (np_mean : list float -> float) (py : Summation) (now : Z),
         let s1 :=
           fst (_consolidate_signals (fun _ => "") (fun _ => "") np_mean py
                                     default_config now
                                     three_buys64 fusion_market_data64) in
         let s2 :=
           fst (_consolidate_signals (fun _ => "") (fun _ => "") np_mean py
                                     default_config now
                                     three_buys_reversed64 fusion_market_data64) in
         Permutation three_buys64 three_buys_reversed64
         /\ reasoning s1 <> reasoning s2
         /\ (py = Plain ->
             confidence s1 = 0.33 /\ confidence s2 = 0.33000000000000007)).
Proof.
  split; [|split].
  - intros format_2f str_exc np_mean py self now1 now2 ar md. cbv zeta.
    unfold _consolidate_signals, consolidate_body.
    destruct md as [|[sym closes] rest]; cbn [Py.bind fst snd];
      [repeat split|].
    destruct (last_close closes) as [current_price|e];
      cbn [Py.bind]; [|repeat split].
    destruct (collect_signals sym ar [] []) as [[signals cs]|e];
      cbn [Py.bind]; [|repeat split].
    destruct signals as [|s0 signals]; [repeat split|].
    destruct (gtb _ _ && gtb _ _).
    + destruct (_calculate_stop_take_profit "buy" current_price ar sym).
      repeat split.
    + destruct (gtb _ _ && gtb _ _).
      * destruct (_calculate_stop_take_profit "sell" current_price ar sym).
        repeat split.
      * destruct (_calculate_stop_take_profit "hold" current_price ar sym).
        repeat split.
  - intros format_2f str_exc np_mean py self now1 now2 ar ar' md Hp Hnd Hknown.
    apply consolidate_Permutation; assumption.
  - intros np_mean py now. cbv zeta. split; [|split].
    + unfold three_buys64, three_buys_reversed64.
      apply (Permutation_rev [_; _; _]).
    + destruct py; vm_compute; discriminate.
    + intros ->. split; vm_compute; reflexivity.
Qed.

(** Three buys at 0.55 in two insertion orders, summed with compensation:
    the buckets come out equal, so the two signals agree on the action, the
    confidence, the stop, the target and the position size. *)
Lemma C8_order_witness :
  let s1 :=
    fst (_consolidate_signals (fun _ => "") (fun _ => "") (fun _ => 0.5)
                              Compensated default_config 0
                              three_buys64 fusion_market_data64) in
  let s2 :=
    fst (_consolidate_signals (fun _ => "") (fun _ => "") (fun _ => 0.5)
                              Compensated default_config 1
                              three_buys_reversed64 fusion_market_data64) in
  action s1 = action s2
  /\ confidence s1 = confidence s2
  /\ stop_loss s1 = stop_loss s2
  /\ take_profit s1 = take_profit s2
  /\ position_size s1 = position_size s2.
Proof.
  cbv zeta.
  refine (proj2 (proj2 (proj2 (proj2
            (proj1 (proj2 C8_consolidation_deterministic_up_to_timestamp)
               (fun _ => "") (fun _ => "") (fun _ => 0.5) Compensated
               default_config 0%Z 1%Z three_buys64 three_buys_reversed64
               fusion_market_data64 _ _ _)))) _).
  - unfold three_buys64, three_buys_reversed64. apply (Permutation_rev [_; _; _]).
  - unfold three_buys64. cbn. repeat constructor; cbn; intuition discriminate.
  - unfold three_buys64, known_strategy64. repeat constructor.
  - intros a. unfold bucket64, terms64, three_buys64, three_buys_reversed64.
    cbn [flat_map]. unfold contribution64.
    repeat match goal with
           | |- context [weighted64 ?s ?e] =>
               let v := eval vm_compute in (weighted64 s e) in
               change (weighted64 s e) with v
           end.
    cbv beta iota.
    destruct (String.eqb "buy" a); vm_compute; reflexivity.
Defined.

End FusionOrder64.

(** ** Fault isolation in the scanner (pair_scanner.py) *)

Section Scanner.
Import Py PairScanner.

Lemma batches_cover {A} (n : nat) :
  forall l : list A,
    (length l <= n * batch_size)%nat ->
    concat (map (fun k => take batch_size (drop (k * batch_size) l)) (seq 0 n)) = l.
Proof.
  induction n as [|n IH]; intros l Hlen.
  - destruct l; [reflexivity|cbn in Hlen; lia].
  - cbn [seq map concat]. rewrite <- seq_shift, map_map.
    cbn [Nat.mul Nat.add drop].
    transitivity (take batch_size l ++ drop batch_size l);
      [|apply take_drop].
    f_equal.
    transitivity (concat (map (fun k => take batch_size
                                         (drop (k * batch_size) (drop batch_size l)))
                              (seq 0 n))).
    + f_equal. apply map_ext. intros k. f_equal.
      rewrite drop_drop. reflexivity.
    + apply IH. rewrite length_drop. lia.
Qed.

Lemma concat_batches {A} (l : list A) : concat (batches l) = l.
Proof.
  unfold batches. apply batches_cover. unfold batch_size.
  pose proof (Nat.div_mod_eq (length l + (50 - 1)) 50).
  pose proof (Nat.mod_upper_bound (length l + (50 - 1)) 50). lia.
Qed.

(** One batch: the opportunities of the tasks that returned are appended,
    a warning is logged for each task that raised, and what the tasks
    logged is in the log. *)
Lemma collect_batch_spec (batch : list TaskOutcome) :
  forall (all_opportunities : list QuickOpportunity) (log : list LogRecord),
  exists log',
    collect_batch (all_opportunities, log) batch
    = (all_opportunities ++ results_of batch, log ++ log')
    /\ (forall e, In (Raise e) (map fst batch) ->
                  In (mkLog WARNING "Error en escaneo: " (Some e)) log')
    /\ (forall r, In r (concat (map snd batch)) -> In r log').
Proof.
  intros all_opportunities log. unfold collect_batch. cbv zeta.
  set (log0 := log ++ concat (map snd batch)).
  assert (H : forall all log1,
             exists log',
               fold_left collect_result (map fst batch) (all, log1)
               = (all ++ results_of batch, log1 ++ log')
               /\ (forall e, In (Raise e) (map fst batch) ->
                             In (mkLog WARNING "Error en escaneo: " (Some e)) log')).
  { clear. induction batch as [|[r lg] batch IH]; intros all log1.
    - exists []. cbn. rewrite !app_nil_r. split; [reflexivity|intros e []].
    - cbn [map fst fold_left]. destruct r as [[|o l]|e0]; cbn [collect_result].
      + destruct (IH all log1) as (log' & -> & Hw).
        exists log'. split; [reflexivity|].
        intros e [He|He]; [discriminate|auto].
      + destruct (IH (all ++ o :: l) log1) as (log' & -> & Hw).
        exists log'. split.
        * unfold results_of. cbn [flat_map fst]. rewrite <- app_assoc. reflexivity.
        * intros e [He|He]; [discriminate|auto].
      + destruct (IH all (log1 ++ [mkLog WARNING "Error en escaneo: " (Some e0)]))
          as (log' & -> & Hw).
        exists (mkLog WARNING "Error en escaneo: " (Some e0) :: log'). split.
        * rewrite <- app_assoc. reflexivity.
        * intros e [He|He]; [injection He as ->; left; reflexivity|right; auto]. }
  destruct (H all_opportunities log0) as (log' & -> & Hw).
  exists (concat (map snd batch) ++ log'). unfold log0. split.
  - rewrite <- app_assoc. reflexivity.
  - split.
    + intros e He. apply in_or_app. right. apply Hw, He.
    + intros r Hr. apply in_or_app. left. exact Hr.
Qed.

Lemma collect_batches_spec (bs : list (list TaskOutcome)) :
  forall (all_opportunities : list QuickOpportunity) (log : list LogRecord),
  exists log',
    collect_batches (all_opportunities, log) bs
    = (all_opportunities ++ results_of (concat bs), log ++ log')
    /\ (forall e, In (Raise e) (map fst (concat bs)) ->
                  In (mkLog WARNING "Error en escaneo: " (Some e)) log')
    /\ (forall r, In r (concat (map snd (concat bs))) -> In r log').
Proof.
  unfold collect_batches.
  induction bs as [|b bs IH]; intros all_opportunities log.
  - exists []. cbn. rewrite !app_nil_r. split; [reflexivity|].
    split; [intros e []|intros r []].
  - cbn [fold_left concat].
    destruct (collect_batch_spec b all_opportunities log) as (log1 & -> & W1 & L1).
    destruct (IH (all_opportunities ++ results_of b) (log ++ log1))
      as (log2 & -> & W2 & L2).
    exists (log1 ++ log2). split.
    + unfold results_of. rewrite flat_map_app, <- !app_assoc. reflexivity.
    + split.
      * intros e He. rewrite map_app in He. apply in_app_or in He.
        apply in_or_app. destruct He as [He|He]; [left; apply W1, He|right; apply W2, He].
      * intros r Hr. rewrite map_app, concat_app in Hr. apply in_app_or in Hr.
        apply in_or_app. destruct Hr as [Hr|Hr]; [left; apply L1, Hr|right; apply L2, Hr].
Qed.

Lemma In_insert_desc {A} (key : A -> Q) (x y : A) (l : list A) :
  In y (insert_desc key x l) <-> y = x \/ In y l.
Proof.
  induction l as [|z l IH]; cbn.
  - intuition.
  - destruct (ltb (key x) (key z)); cbn; rewrite ?IH; intuition.
Qed.

Lemma In_sorted_reverse {A} (key : A -> Q) (y : A) (l : list A) :
  In y (sorted_reverse key l) <-> In y l.
Proof.
  unfold sorted_reverse. induction l as [|x l IH]; cbn; [tauto|].
  rewrite In_insert_desc, IH. intuition.
Qed.

Lemma results_of_await (tasks : list WorkItem) :
  forall runs : nat -> WorkItem -> ItemRun,
    results_of (imap (await_scan_pair runs) tasks)
    = flat_map (fun r => fst (_scan_pair_opportunities r)) (imap runs tasks).
Proof.
  induction tasks as [|t tasks IH]; intros runs; [reflexivity|].
  cbn [imap]. unfold results_of in *. cbn [flat_map]. f_equal.
  - unfold await_scan_pair. destruct (_scan_pair_opportunities (runs O t)).
    reflexivity.
  - exact (IH (runs ∘ S)).
Qed.

Lemma logged_by_await (tasks : list WorkItem) :
  forall runs : nat -> WorkItem -> ItemRun,
    concat (map snd (imap (await_scan_pair runs) tasks))
    = flat_map (fun r => snd (_scan_pair_opportunities r)) (imap runs tasks).
Proof.
  induction tasks as [|t tasks IH]; intros runs; [reflexivity|].
  cbn [imap map concat flat_map]. f_equal.
  - unfold await_scan_pair. destruct (_scan_pair_opportunities (runs O t)).
    reflexivity.
  - exact (IH (runs ∘ S)).
Qed.

Lemma await_never_raises (tasks : list WorkItem) :
  forall (runs : nat -> WorkItem -> ItemRun) (e : Exception),
    ~ In (Raise e) (map fst (imap (await_scan_pair runs) tasks)).
Proof.
  induction tasks as [|t tasks IH]; intros runs e; [intros []|].
  cbn [imap map]. intros [H|H].
  - unfold await_scan_pair in H. destruct (_scan_pair_opportunities (runs O t)).
    discriminate.
  - exact (IH (runs ∘ S) e H).
Qed.

(** What a scan returns, whatever its tasks yield. *)
Lemma scan_all_opportunities_spec (self : PairScanner)
    (await_task : nat -> WorkItem -> TaskOutcome) :
  let results := imap await_task (scan_tasks self) in
  let r := scan_all_opportunities self await_task in
  snd r = sorted_reverse overall_score
                         (_filter_opportunities self (results_of results))
  /\ opportunities_cache (fst r) = snd r
  /\ total_scanned (scan_stats (fst r)) = length results
  /\ (forall e, In (Raise e) (map fst results) ->
                In (mkLog WARNING "Error en escaneo: " (Some e)) (log (fst r)))
  /\ (forall record, In record (concat (map snd results)) ->
                     In record (log (fst r))).
Proof.
  intros results r. subst r. unfold scan_all_opportunities. fold results.
  destruct (collect_batches_spec (batches results) []
              (log self ++ [mkLog INFO "Iniciando escaneo de " None]))
    as (log' & -> & Hw & Hl).
  rewrite concat_batches in *.
  cbn [fst snd opportunities_cache scan_stats total_scanned log app].
  repeat split.
  - unfold results. rewrite length_imap. reflexivity.
  - intros e He. rewrite !in_app_iff. left. right. apply Hw, He.
  - intros record Hr. rewrite !in_app_iff. left. right. apply Hl, Hr.
Qed.

End Scanner.

(** C9 as stated fails in its last part: a failing work item is caught and
    logged, but it is not dropped.  The handler of
    [_scan_pair_opportunities] returns the list the body had built when it
    raised.  Here the first of two items raises after appending one
    opportunity: the scan returns that opportunity beside the one of the
    second item. *)
Lemma C9_counterexample_failing_item_not_dropped :
  let r :=
    PairScanner.scan_all_opportunities
      small_scanner (PairScanner.await_scan_pair first_item_fails_late) in
  length (PairScanner.scan_tasks small_scanner) = 2%nat
  /\ In (Py.mkLog Py.WARNING "Error escaneando " (Some (Py.TypeError "confidence")))
        (PairScanner.log (fst r))
  /\ snd r = [eth_opportunity; btc_opportunity]
  /\ In btc_opportunity (snd r).
Proof.
  cbv zeta. split; [vm_compute; reflexivity|].
  split; [vm_compute; right; left; reflexivity|].
  split; [vm_compute; reflexivity|].
  vm_compute. right. left. reflexivity.
Qed.

(** C9 (amended). Whatever the bodies of the scan work items do - run to
    their end or raise at any point - [scan_all_opportunities] returns a
    list: the opportunities that the items returned or, for an item that
    raised, had appended before it raised, filtered and sorted as usual.
    The cache holds the same list and every task is counted.  For an item
    that raises, [_scan_pair_opportunities] logs the warning and the
    exception goes no further; every opportunity of any item, the failing
    one included, that passes the filter is in the output. *)
Theorem C9_scanner_fault_isolation :
  forall (self : PairScanner.PairScanner)
         (runs : nat -> PairScanner.WorkItem -> PairScanner.ItemRun),
    let tasks := PairScanner.scan_tasks self in
    let r := PairScanner.scan_all_opportunities
               self (PairScanner.await_scan_pair runs) in
    snd r = PairScanner.sorted_reverse
              PairScanner.overall_score
              (PairScanner._filter_opportunities
                 self
                 (flat_map (fun run => fst (PairScanner._scan_pair_opportunities run))
                           (imap runs tasks)))
    /\ PairScanner.opportunities_cache (fst r) = snd r
    /\ PairScanner.total_scanned (PairScanner.scan_stats (fst r)) = length tasks
    /\ (forall (j : nat) (item : PairScanner.WorkItem)
               (opp : PairScanner.QuickOpportunity),
           tasks !! j = Some item ->
           In opp (fst (PairScanner._scan_pair_opportunities (runs j item))) ->
           In opp (PairScanner._filter_opportunities self [opp]) ->
           In opp (snd r))
    /\ (forall (i : nat) (item : PairScanner.WorkItem)
               (collected : list PairScanner.QuickOpportunity) (e : Py.Exception),
           tasks !! i = Some item ->
           runs i item = PairScanner.Fails collected e ->
           In (Py.mkLog Py.WARNING "Error escaneando " (Some e))
              (PairScanner.log (fst r))
           /\ forall opp : PairScanner.QuickOpportunity,
                In opp collected ->
                In opp (PairScanner._filter_opportunities self [opp]) ->
                In opp (snd r)).
Proof.
  intros self runs tasks r.
  destruct (scan_all_opportunities_spec self (PairScanner.await_scan_pair runs))
    as (Hout & Hcache & Hn & _ & Hlog).
  fold r in Hout, Hcache, Hn, Hlog. fold tasks in Hout, Hn, Hlog.
  rewrite results_of_await in Hout. rewrite logged_by_await in Hlog.
  rewrite length_imap in Hn.
  assert (Hin : forall (j : nat) (item : PairScanner.WorkItem)
                       (opp : PairScanner.QuickOpportunity),
             tasks !! j = Some item ->
             In opp (fst (PairScanner._scan_pair_opportunities (runs j item))) ->
             In opp (PairScanner._filter_opportunities self [opp]) ->
             In opp (snd r)).
  { intros j item opp Hj Ho Hpass. rewrite Hout. apply In_sorted_reverse.
    unfold PairScanner._filter_opportunities in *.
    apply filter_In in Hpass as [_ Hpass]. apply filter_In. split; [|exact Hpass].
    apply in_flat_map. exists (runs j item). split; [|exact Ho].
    apply list_elem_of_In, elem_of_lookup_imap_2, Hj. }
  split; [exact Hout|]. split; [exact Hcache|]. split; [exact Hn|].
  split; [exact Hin|].
  intros i item collected e Hi Hrun. split.
  - apply Hlog. apply in_flat_map. exists (runs i item). split.
    + apply list_elem_of_In, elem_of_lookup_imap_2, Hi.
    + rewrite Hrun. left. reflexivity.
  - intros opp Ho Hpass. apply (Hin i item opp Hi); [|exact Hpass].
    rewrite Hrun. exact Ho.
Qed.

(** Two work items, the first of which raises after one opportunity: the
    failure is logged and the opportunity of the second item is in the
    output. *)
Lemma C9_scanner_witness :
  let r :=
    PairScanner.scan_all_opportunities
      small_scanner (PairScanner.await_scan_pair first_item_fails_late) in
  PairScanner.scan_tasks small_scanner !! O
  = Some (Scenario.btc, PairScanner.H1, PairScanner.SPOT)
  /\ In (Py.mkLog Py.WARNING "Error escaneando " (Some (Py.TypeError "confidence")))
        (PairScanner.log (fst r))
  /\ In eth_opportunity (snd r).
Proof.
  cbv zeta.
  assert (H0 : PairScanner.scan_tasks small_scanner !! O
               = Some (Scenario.btc, PairScanner.H1, PairScanner.SPOT))
    by (vm_compute; reflexivity).
  assert (H1 : PairScanner.scan_tasks small_scanner !! 1%nat
               = Some (eth, PairScanner.H1, PairScanner.SPOT))
    by (vm_compute; reflexivity).
  destruct (C9_scanner_fault_isolation small_scanner first_item_fails_late)
    as (_ & _ & _ & Hin & Hfail).
  split; [exact H0|]. split.
  - exact (proj1 (Hfail O _ [btc_opportunity] (Py.TypeError "confidence")
                        H0 eq_refl)).
  - apply (Hin 1%nat _ eth_opportunity H1).
    + left. reflexivity.
    + vm_compute. left. reflexivity.
Defined.


(** * Further properties of the embedded code *)

(** ** Trade validation after sizing (risk_levels.py) *)

(** X1. A [PositionSizing] that [calculate_position_size] returned is never
    rejected by [validate_trade] of the same manager for its leverage: the
    leverage gate cannot be the one that fails. *)
Theorem X1_sized_trade_never_fails_leverage_gate :
  forall (self : RiskLevels.RiskManager) (today : Z)
         (opp : PairScanner.QuickOpportunity) (balance volatility : Q)
         (mc : gmap string Q) (ps : RiskLevels.PositionSizing)
         (positions : list RiskLevels.DatedPosition),
    RiskLevels.calculate_position_size self opp balance volatility mc = Py.Ok ps ->
    forall l m : Q,
      snd (RiskLevels.validate_trade self today opp ps positions)
      <> RiskLevels.Leverage_excedido l m.
Proof.
  intros self today opp balance volatility mc ps positions Hps l m.
  assert (Hle : RiskLevels.leverage ps
                <= RiskLevels.max_leverage (RiskLevels.get_current_profile self)).
  { apply calculate_position_size_inv in Hps. destruct Hps as (_ & -> & _).
    apply dynamic_leverage_le_max. }
  unfold RiskLevels.validate_trade.
  repeat match goal with
         | |- context [if ?c then _ else _] => destruct c eqn:?
         end; cbn [snd]; try discriminate.
  match goal with H : Py.gtb (RiskLevels.leverage ps) _ = true |- _ =>
    apply PyFacts.gtb_gt in H; lra end.
Qed.

(** The first sizing of the Conservative scenario, validated against no open
    position: whatever the verdict, it is no rejection for leverage. *)
Lemma X1_witness :
  exists ps,
    RiskLevels.calculate_position_size
      (RiskLevels.create_risk_manager RiskLevels.CONSERVATIVE)
      (Scenario.opportunity 0.9 2 0.2) 10000 0.02 ∅ = Py.Ok ps
    /\ snd (RiskLevels.validate_trade
              (RiskLevels.create_risk_manager RiskLevels.CONSERVATIVE) 0
              (Scenario.opportunity 0.9 2 0.2) ps [])
       <> RiskLevels.Leverage_excedido 3 2.
Proof.
  eexists. split; [vm_compute; reflexivity|].
  apply (X1_sized_trade_never_fails_leverage_gate
           (RiskLevels.create_risk_manager RiskLevels.CONSERVATIVE) 0
           (Scenario.opportunity 0.9 2 0.2) 10000 0.02 ∅).
  vm_compute. reflexivity.
Defined.

(** X2. Under the three predefined profiles the emergency threshold lies
    below the maximum drawdown, so when [should_emergency_stop] answers
    False - as it has whenever the detection loop goes on to size and
    validate - [validate_trade] never rejects for drawdown. *)
Theorem X2_drawdown_gate_passes_after_safety_check :
  forall (self : RiskLevels.RiskManager) (today : Z)
         (opp : PairScanner.QuickOpportunity)
         (ps : RiskLevels.PositionSizing)
         (positions : list RiskLevels.DatedPosition),
    RiskLevels.risk_profiles self = RiskLevels._create_risk_profiles ->
    fst (RiskLevels.should_emergency_stop self) = false ->
    forall d m : Q,
      snd (RiskLevels.validate_trade self today opp ps positions)
      <> RiskLevels.Drawdown_maximo_excedido d m.
Proof.
  intros self today opp ps positions Hprof Hsafe d m.
  assert (Hdd : RiskLevels.m_max_drawdown (RiskLevels.current_metrics self)
                <= RiskLevels.max_drawdown (RiskLevels.get_current_profile self)).
  { destruct (Qlt_le_dec
                (RiskLevels.max_drawdown (RiskLevels.get_current_profile self))
                (RiskLevels.m_max_drawdown (RiskLevels.current_metrics self)))
      as [Hlt|Hle]; [exfalso|exact Hle].
    assert (Hhalt : halt_condition self).
    { left. eapply Qle_lt_trans; [|exact Hlt].
      unfold RiskLevels.get_current_profile. rewrite Hprof.
      destruct (RiskLevels.current_risk_level self); vm_compute; discriminate. }
    apply should_emergency_stop_true in Hhalt. congruence. }
  unfold RiskLevels.validate_trade.
  repeat match goal with
         | |- context [if ?c then _ else _] => destruct c eqn:?
         end; cbn [snd]; try discriminate.
  match goal with
    H : Py.gtb (RiskLevels.m_max_drawdown _) _ = true |- _ =>
    apply PyFacts.gtb_gt in H; lra end.
Qed.

(** The Conservative manager with a drawdown of 0.02: the safety check
    passes and a trade of insufficient confidence is rejected for that, not
    for drawdown. *)
Lemma X2_witness :
  snd (RiskLevels.validate_trade
         (Scenario.manager_with RiskLevels.CONSERVATIVE 0.02 0 0) 0
         (Scenario.opportunity 0.5 2 0.2)
         (RiskLevels.mkPositionSizing 0 2 0 0 0 0 0 0) [])
  <> RiskLevels.Drawdown_maximo_excedido 0.02 0.05.
Proof.
  apply (X2_drawdown_gate_passes_after_safety_check
           (Scenario.manager_with RiskLevels.CONSERVATIVE 0.02 0 0)).
  - reflexivity.
  - vm_compute. reflexivity.
Defined.

(** ** Exit levels (risk_levels.py) *)

(** X3. When the opportunity supplies no usable stop loss and take profit
    (absent or 0.0), the entry price and both percentages of the profile
    being positive: for the signal ['buy'] the stop lies below and the
    target above the entry; for every other signal - ['sell'], but also
    ['strong_buy'] - the stop lies above and the target below it.  Either
    way reward and risk are in the ratio of the two percentages. *)
Theorem X3_percentage_levels_bracket_entry :
  forall (self : RiskLevels.RiskManager) (opp : PairScanner.QuickOpportunity)
         (ps : RiskLevels.PositionSizing),
    let profile := RiskLevels.get_current_profile self in
    let entry := PairScanner.entry_price opp in
    let sl := RiskLevels.calculate_stop_loss self opp ps in
    let tp := RiskLevels.calculate_take_profit self opp ps in
    0 < entry ->
    0 < RiskLevels.stop_loss_percentage profile ->
    0 < RiskLevels.take_profit_percentage profile ->
    RiskLevels.truthy_level (PairScanner.stop_loss opp) = None ->
    RiskLevels.truthy_level (PairScanner.take_profit opp) = None ->
    (PairScanner.signal opp = "buy" ->
     sl < entry /\ entry < tp
     /\ (tp - entry) * RiskLevels.stop_loss_percentage profile
        == (entry - sl) * RiskLevels.take_profit_percentage profile)
    /\ (PairScanner.signal opp <> "buy" ->
        tp < entry /\ entry < sl
        /\ (entry - tp) * RiskLevels.stop_loss_percentage profile
           == (sl - entry) * RiskLevels.take_profit_percentage profile).
Proof.
  intros self opp ps profile entry sl tp He Hs Ht Hsl Htp.
  subst sl tp. unfold RiskLevels.calculate_stop_loss, RiskLevels.calculate_take_profit.
  rewrite Hsl, Htp. fold profile entry.
  set (s := RiskLevels.stop_loss_percentage profile) in *.
  set (t := RiskLevels.take_profit_percentage profile) in *.
  split; intros Hsig.
  - rewrite Hsig. cbn [String.eqb Ascii.eqb Bool.eqb].
    repeat split; nra || ring.
  - apply String.eqb_neq in Hsig. rewrite Hsig.
    repeat split; nra || ring.
Qed.

(** A ['strong_buy'] at 45000 under the Conservative profile (2% stop, 4%
    target): the stop is above the entry and the target below. *)
Lemma X3_witness :
  let opp :=
    PairScanner.mkQuickOpportunity Scenario.btc PairScanner.H1
      "support_resistance" "strong_buy" 0.9 45000 None (Some 0) 2 30 ""
      0.9 0.1 0.2 0.6 in
  let self := RiskLevels.create_risk_manager RiskLevels.CONSERVATIVE in
  let ps := RiskLevels.mkPositionSizing 0 2 0 0 0 0 0 0 in
  RiskLevels.calculate_take_profit self opp ps < 45000
  /\ 45000 < RiskLevels.calculate_stop_loss self opp ps.
Proof.
  cbv zeta.
  destruct (X3_percentage_levels_bracket_entry
              (RiskLevels.create_risk_manager RiskLevels.CONSERVATIVE)
              (PairScanner.mkQuickOpportunity Scenario.btc PairScanner.H1
                 "support_resistance" "strong_buy" 0.9 45000 None (Some 0) 2 30 ""
                 0.9 0.1 0.2 0.6)
              (RiskLevels.mkPositionSizing 0 2 0 0 0 0 0 0))
    as [_ Hother]; try (vm_compute; reflexivity).
  destruct Hother as (H1 & H2 & _); [discriminate|].
  split; assumption.
Defined.

(** ** Running risk metrics (risk_levels.py) *)

Section Metrics.
Import Py PyFacts RiskLevels.

Lemma fold_left_Qplus_ge (xs : list Q) :
  Forall (fun x => 0 <= x) xs -> forall acc, acc <= fold_left Qplus xs acc.
Proof.
  induction 1 as [|x xs Hx _ IH]; intros acc; cbn; [lra|].
  eapply Qle_trans; [|apply IH]. lra.
Qed.

Lemma sum_nonneg (xs : list Q) : Forall (fun x => 0 <= x) xs -> 0 <= sum xs.
Proof. intros H. apply (fold_left_Qplus_ge xs H 0). Qed.

Lemma ratio_in_unit (w n : nat) :
  (w <= n)%nat -> (0 < n)%nat ->
  0 <= inject_Z (Z.of_nat w) / inject_Z (Z.of_nat n) <= 1.
Proof.
  intros Hwn Hn.
  assert (Hn' : 0 < inject_Z (Z.of_nat n)).
  { change 0 with (inject_Z 0). rewrite <- Zlt_Qlt. lia. }
  assert (Hw : 0 <= inject_Z (Z.of_nat w)).
  { change 0 with (inject_Z 0). rewrite <- Zle_Qle. lia. }
  assert (Hle : inject_Z (Z.of_nat w) <= inject_Z (Z.of_nat n)).
  { rewrite <- Zle_Qle. lia. }
  split.
  - apply Qle_shift_div_l; [exact Hn'|]. lra.
  - apply Qle_shift_div_r; [exact Hn'|]. lra.
Qed.

Lemma filter_length_le {A} (f : A -> bool) (l : list A) :
  (length (List.filter f l) <= length l)%nat.
Proof.
  induction l as [|x l IH]; cbn; [lia|]. destruct (f x); cbn; lia.
Qed.

Lemma match_nonempty {A B} (l : list A) (a b : B) :
  l <> [] -> match l with [] => a | _ :: _ => b end = b.
Proof. destruct l; congruence. Qed.

Variable np_std : list Q -> Q.

(** The metrics a successful update stores. *)
Lemma update_risk_metrics_ranges (self rm' : RiskManager)
    (positions : list Position) (trades : list Trade) (balance : Q) :
  trades <> [] ->
  update_risk_metrics np_std self positions trades balance = Ok rm' ->
  let m := current_metrics rm' in
  0 <= win_rate m <= 1
  /\ risk_score m <= 1
  /\ 0 <= diversification_score m <= 1
  /\ 0 <= m_max_drawdown m
  /\ 0 <= profit_factor m
  /\ portfolio_var m == 0.
Proof.
  intros Hne H. unfold update_risk_metrics in H.
  rewrite (match_nonempty _ _ _ Hne) in H. cbv zeta in H.
  destruct (div _ _) as [mu|e] in H; cbn [bind] in H; [|discriminate].
  injection H as <-. cbn [current_metrics win_rate risk_score
    diversification_score m_max_drawdown profit_factor portfolio_var].
  split; [|split; [|split; [|split; [|split]]]].
  - assert (Hlen : (0 < length trades)%nat)
      by (destruct trades; [congruence|cbn; lia]).
    apply Nat.ltb_lt in Hlen as Hb. rewrite Hb.
    apply ratio_in_unit; [apply filter_length_le|exact Hlen].
  - match goal with |- min ?a ?b <= _ => pose proof (min_le_l a b) end. lra.
  - set (k := inject_Z _ / 10.0).
    assert (Hk : 0 <= k).
    { unfold k. apply Qle_shift_div_l; [reflexivity|].
      rewrite Qmult_0_l. change 0 with (inject_Z 0). rewrite <- Zle_Qle. lia. }
    destruct (min_cases 1.0 k) as [[? ->]|[? ->]]; split; try lra; discriminate.
  - destruct (map _ _); [discriminate|apply Qabs_nonneg].
  - destruct (gtb _ 0) eqn:E; [|discriminate].
    apply gtb_gt in E. apply Qle_shift_div_l; [exact E|].
    rewrite Qmult_0_l. apply sum_nonneg.
    apply List.Forall_forall. intros x Hx. apply in_map_iff in Hx as (tr & <- & Htr).
    apply filter_In in Htr as [_ Htr]. apply gtb_gt in Htr. lra.
  - reflexivity.
Qed.

(** What a successful update does to the history: the new metrics are
    appended and only the last 1000 entries are kept. *)
Lemma update_risk_metrics_history (self rm' : RiskManager)
    (positions : list Position) (trades : list Trade) (balance : Q) :
  trades <> [] ->
  update_risk_metrics np_std self positions trades balance = Ok rm' ->
  last (risk_history rm') = Some (current_metrics rm')
  /\ length (risk_history rm') = Nat.min (S (length (risk_history self))) 1000
  /\ current_risk_level rm' = current_risk_level self
  /\ risk_profiles rm' = risk_profiles self
  /\ leverage_modes rm' = leverage_modes self.
Proof.
  intros Hne H. unfold update_risk_metrics in H.
  rewrite (match_nonempty _ _ _ Hne) in H. cbv zeta in H.
  destruct (div _ _) as [mu|e] in H; cbn [bind] in H; [|discriminate].
  injection H as <-.
  cbn [risk_history current_metrics current_risk_level risk_profiles leverage_modes].
  match goal with
  | |- context [risk_history self ++ [?m]] => set (metrics := m)
  end.
  set (h := risk_history self ++ [metrics]).
  assert (Hlen : length h = S (length (risk_history self))).
  { unfold h. rewrite length_app. cbn. lia. }
  repeat split.
  - destruct (1000 <? length h)%nat eqn:E.
    + apply Nat.ltb_lt in E. unfold h in *. rewrite drop_app_le by lia.
      apply last_snoc.
    + apply last_snoc.
  - destruct (1000 <? length h)%nat eqn:E.
    + apply Nat.ltb_lt in E. rewrite length_drop. lia.
    + apply Nat.ltb_ge in E. lia.
Qed.

(** When an update raises. *)
Lemma update_risk_metrics_is_ok (self : RiskManager)
    (positions : list Position) (trades : list Trade) (balance : Q) :
  is_ok (update_risk_metrics np_std self positions trades balance) = true
  <-> trades = [] \/ ~ balance * max_leverage (get_current_profile self) == 0.
Proof.
  destruct trades as [|t ts].
  - cbn. split; auto.
  - unfold update_risk_metrics. cbv zeta. unfold div.
    destruct (eqb (balance * max_leverage (get_current_profile self)) 0) eqn:E;
      cbn [bind is_ok].
    + apply eqb_eq in E. split; [discriminate|]. intros [H|H]; [discriminate|tauto].
    + apply eqb_neq in E. split; auto.
Qed.

(** Margin utilization and total leverage after a successful update on a
    positive balance. *)
Lemma update_risk_metrics_margin (self rm' : RiskManager)
    (positions : list Position) (trades : list Trade) (balance : Q) :
  trades <> [] ->
  update_risk_metrics np_std self positions trades balance = Ok rm' ->
  let m := current_metrics rm' in
  let ml := max_leverage (get_current_profile self) in
  ~ balance * ml == 0
  /\ current_exposure m = sum (map position_value_of positions)
  /\ margin_utilization m = current_exposure m / (balance * ml)
  /\ (0 < balance -> total_leverage m = current_exposure m / balance).
Proof.
  intros Hne H. unfold update_risk_metrics in H.
  rewrite (match_nonempty _ _ _ Hne) in H. cbv zeta in H.
  unfold div in H.
  destruct (eqb (balance * max_leverage (get_current_profile self)) 0) eqn:E;
    cbn [bind] in H; [discriminate|].
  injection H as <-. cbn [current_metrics current_exposure margin_utilization
                          total_leverage].
  apply eqb_neq in E. repeat split; [exact E|].
  intros Hb. apply gtb_gt in Hb. rewrite Hb. reflexivity.
Qed.

(** Running maximum of a cumulative sum of non-negative terms: it is the
    cumulative sum itself. *)
Lemma running_max_of_gains (xs : list Q) :
  Forall (fun x => 0 <= x) xs ->
  forall acc m, m == acc ->
    Forall (fun cr => fst cr == snd cr)
           (combine (cumsum_from acc xs)
                    (maximum_accumulate_from m (cumsum_from acc xs))).
Proof.
  induction 1 as [|x xs Hx _ IH]; intros acc m Hm; cbn; [constructor|].
  assert (E : max m (acc + x) == acc + x).
  { destruct (max_cases m (acc + x)) as [[? ->]|[? ->]]; lra. }
  constructor; [cbn; symmetry; exact E|]. apply IH. exact E.
Qed.

Lemma np_min_zero (ds : list Q) :
  Forall (fun d => d == 0) ds -> forall d, d == 0 -> np_min d ds == 0.
Proof.
  unfold np_min. induction 1 as [|x ds Hx _ IH]; intros d Hd; cbn; [exact Hd|].
  apply IH. destruct (min_cases d x) as [[? ->]|[? ->]]; assumption.
Qed.

(** Without a losing trade the drawdown is zero. *)
Lemma update_risk_metrics_no_loss (self rm' : RiskManager)
    (positions : list Position) (trades : list Trade) (balance : Q) :
  trades <> [] ->
  Forall (fun t => 0 <= pnl_of t) trades ->
  update_risk_metrics np_std self positions trades balance = Ok rm' ->
  m_max_drawdown (current_metrics rm') == 0.
Proof.
  intros Hne Hgain H. unfold update_risk_metrics in H.
  rewrite (match_nonempty _ _ _ Hne) in H. cbv zeta in H.
  destruct (div _ _) as [mu|e] in H; cbn [bind] in H; [|discriminate].
  injection H as <-. cbn [current_metrics m_max_drawdown].
  assert (Hz : Forall (fun d => d == 0)
                 (map (fun cr : Q * Q => (fst cr - snd cr) / (snd cr + 1e-10))
                      (combine (cumsum (map pnl_of trades))
                               (maximum_accumulate (cumsum (map pnl_of trades)))))).
  { assert (Hxs : Forall (fun x => 0 <= x) (map pnl_of trades)).
    { apply List.Forall_forall. intros x Hx.
      apply in_map_iff in Hx as (t & <- & Ht).
      rewrite List.Forall_forall in Hgain. apply Hgain, Ht. }
    apply List.Forall_map. unfold cumsum.
    destruct (map pnl_of trades) as [|x xs]; [constructor|].
    inversion Hxs as [|? ? Hx Hxs']; subst.
    cbn [cumsum_from maximum_accumulate combine].
    constructor.
    - cbn [fst snd]. unfold Qdiv.
      assert (E0 : 0 + x - (0 + x) == 0) by ring.
      rewrite E0. apply Qmult_0_l.
    - eapply List.Forall_impl;
        [|apply (running_max_of_gains xs Hxs' (0 + x) (0 + x)); reflexivity].
      intros [c r] Hcr. cbn [fst snd] in *. unfold Qdiv.
      assert (E0 : c - r == 0) by lra.
      rewrite E0. apply Qmult_0_l. }
  destruct (map _ (combine _ _)) as [|d ds]; [reflexivity|].
  inversion Hz as [|? ? Hd Hds]; subst.
  unfold abs. rewrite (np_min_zero ds Hds d Hd). reflexivity.
Qed.

End Metrics.

(** X4. After an update that computed new metrics (at least one trade, no
    error), the win rate and the diversification score lie in [[0, 1]], the
    risk score is at most 1, and the drawdown and the profit factor are not
    negative. *)
Theorem X4_updated_metrics_in_range :
  forall (np_std : list Q -> Q) (self rm' : RiskLevels.RiskManager)
         (positions : list RiskLevels.Position)
         (trades : list RiskLevels.Trade) (balance : Q),
    trades <> [] ->
    RiskLevels.update_risk_metrics np_std self positions trades balance
    = Py.Ok rm' ->
    let m := RiskLevels.current_metrics rm' in
    0 <= RiskLevels.win_rate m <= 1
    /\ RiskLevels.risk_score m <= 1
    /\ 0 <= RiskLevels.diversification_score m <= 1
    /\ 0 <= RiskLevels.m_max_drawdown m
    /\ 0 <= RiskLevels.profit_factor m.
Proof.
  intros np_std self rm' positions trades balance Hne H m.
  destruct (update_risk_metrics_ranges np_std self rm' positions trades balance
                                       Hne H) as (H1 & H2 & H3 & H4 & H5 & _).
  repeat split; try apply H1; try apply H3; assumption.
Qed.

(** One gain and one loss on a balance of 10000 with two open positions. *)
Lemma X4_witness :
  exists rm',
    RiskLevels.update_risk_metrics
      (fun _ => 1) RiskLevels.init two_positions
      [RiskLevels.mkTrade (Some 10); RiskLevels.mkTrade (Some (-5))] 10000
    = Py.Ok rm'
    /\ 0 <= RiskLevels.win_rate (RiskLevels.current_metrics rm') <= 1
    /\ RiskLevels.risk_score (RiskLevels.current_metrics rm') <= 1.
Proof.
  eexists. split; [vm_compute; reflexivity|].
  destruct (X4_updated_metrics_in_range
              (fun _ => 1) RiskLevels.init _ two_positions
              [RiskLevels.mkTrade (Some 10); RiskLevels.mkTrade (Some (-5))]
              10000 ltac:(discriminate) eq_refl)
    as (H1 & H2 & _).
  split; assumption.
Defined.

(** X5. A successful update with at least one trade appends the new metrics
    to [risk_history] and keeps the last 1000 entries: afterwards the last
    entry is [current_metrics] and the history has
    [min(previous length + 1, 1000)] entries; the risk level and the
    profiles are untouched. *)
Theorem X5_risk_history_bounded :
  forall (np_std : list Q -> Q) (self rm' : RiskLevels.RiskManager)
         (positions : list RiskLevels.Position)
         (trades : list RiskLevels.Trade) (balance : Q),
    trades <> [] ->
    RiskLevels.update_risk_metrics np_std self positions trades balance
    = Py.Ok rm' ->
    last (RiskLevels.risk_history rm') = Some (RiskLevels.current_metrics rm')
    /\ length (RiskLevels.risk_history rm')
       = Nat.min (S (length (RiskLevels.risk_history self))) 1000
    /\ RiskLevels.get_current_profile rm' = RiskLevels.get_current_profile self.
Proof.
  intros np_std self rm' positions trades balance Hne H.
  destruct (update_risk_metrics_history np_std self rm' positions trades balance
                                        Hne H) as (H1 & H2 & H3 & H4 & _).
  repeat split; try assumption.
  unfold RiskLevels.get_current_profile. rewrite H3, H4. reflexivity.
Qed.

Lemma X5_witness :
  exists rm',
    RiskLevels.update_risk_metrics
      (fun _ => 1) RiskLevels.init two_positions
      [RiskLevels.mkTrade (Some 10); RiskLevels.mkTrade (Some (-5))] 10000
    = Py.Ok rm'
    /\ length (RiskLevels.risk_history rm') = 1%nat.
Proof.
  eexists. split; [vm_compute; reflexivity|].
  exact (proj1 (proj2 (X5_risk_history_bounded
           (fun _ => 1) RiskLevels.init _ two_positions
           [RiskLevels.mkTrade (Some 10); RiskLevels.mkTrade (Some (-5))]
           10000 ltac:(discriminate) eq_refl))).
Defined.

(** X6. [update_risk_metrics] returns early, leaving the manager as it is,
    when there is no trade - whatever the balance.  With at least one trade
    it raises (ZeroDivisionError, from the margin utilization) exactly when
    [current_balance * max_leverage] is zero; the total leverage is guarded,
    the margin utilization is not. *)
Theorem X6_update_raises_on_zero_balance :
  forall (np_std : list Q -> Q) (self : RiskLevels.RiskManager)
         (positions : list RiskLevels.Position)
         (trades : list RiskLevels.Trade) (balance : Q),
    RiskLevels.update_risk_metrics np_std self positions [] balance = Py.Ok self
    /\ (trades <> [] ->
        (RiskLevels.update_risk_metrics np_std self positions trades balance
         = Py.Raise Py.ZeroDivisionError
         <-> balance * RiskLevels.max_leverage (RiskLevels.get_current_profile self)
             == 0)).
Proof.
  intros np_std self positions trades balance. split; [reflexivity|].
  intros Hne.
  pose proof (update_risk_metrics_is_ok np_std self positions trades balance) as Hok.
  split.
  - intros E. rewrite E in Hok. cbn in Hok.
    destruct (Qeq_dec (balance * RiskLevels.max_leverage
                                   (RiskLevels.get_current_profile self)) 0)
      as [Hz|Hnz]; [exact Hz|].
    assert (false = true) by (apply Hok; right; exact Hnz). discriminate.
  - intros Hz. unfold RiskLevels.update_risk_metrics.
    rewrite (match_nonempty _ _ _ Hne). cbv zeta.
    rewrite (PyFacts.div_zero _ _ Hz). reflexivity.
Qed.

Lemma X6_witness :
  RiskLevels.update_risk_metrics
    (fun _ => 1) RiskLevels.init two_positions
    [RiskLevels.mkTrade (Some 10)] 0
  = Py.Raise Py.ZeroDivisionError.
Proof.
  apply (proj2 (X6_update_raises_on_zero_balance
                  (fun _ => 1) RiskLevels.init two_positions
                  [RiskLevels.mkTrade (Some 10)] 0)).
  - discriminate.
  - vm_compute. reflexivity.
Defined.

(** X7. After a successful update on a positive balance the total leverage
    is the margin utilization times the profile's [max_leverage]; and when
    the open exposure exceeds 95% of [balance * max_leverage], the next
    [should_emergency_stop] answers True. *)
Theorem X7_exposure_beyond_margin_halts :
  forall (np_std : list Q -> Q) (self rm' : RiskLevels.RiskManager)
         (positions : list RiskLevels.Position)
         (trades : list RiskLevels.Trade) (balance : Q),
    let ml := RiskLevels.max_leverage (RiskLevels.get_current_profile self) in
    let exposure := Py.sum (map RiskLevels.position_value_of positions) in
    trades <> [] ->
    0 < balance ->
    0 < ml ->
    RiskLevels.update_risk_metrics np_std self positions trades balance
    = Py.Ok rm' ->
    RiskLevels.total_leverage (RiskLevels.current_metrics rm')
    == RiskLevels.margin_utilization (RiskLevels.current_metrics rm') * ml
    /\ (0.95 * (balance * ml) < exposure ->
        fst (RiskLevels.should_emergency_stop rm') = true).
Proof.
  intros np_std self rm' positions trades balance ml exposure Hne Hb Hml H.
  destruct (update_risk_metrics_margin np_std self rm' positions trades balance
                                       Hne H) as (Hnz & He & Hmu & Htl).
  fold ml in Hnz, Hmu. specialize (Htl Hb). split.
  - rewrite Htl, Hmu. field. split; lra.
  - intros Hexp. apply should_emergency_stop_true. right. right.
    rewrite Hmu, He. fold exposure.
    apply Qlt_shift_div_l; [nra|exact Hexp].
Qed.

(** Conservative profile, balance 1000, open positions worth 2000: above
    95% of 2 x 1000, so the safety check fires after the update. *)
Lemma X7_witness :
  exists rm',
    RiskLevels.update_risk_metrics
      (fun _ => 1) RiskLevels.init two_positions
      [RiskLevels.mkTrade (Some 10)] 1000 = Py.Ok rm'
    /\ fst (RiskLevels.should_emergency_stop rm') = true.
Proof.
  eexists. split; [vm_compute; reflexivity|].
  refine (proj2 (X7_exposure_beyond_margin_halts
                   (fun _ => 1) RiskLevels.init _ two_positions
                   [RiskLevels.mkTrade (Some 10)] 1000 _ _ _ eq_refl) _).
  - discriminate.
  - reflexivity.
  - reflexivity.
  - vm_compute. reflexivity.
Defined.

(** X8. When no trade of the history lost money (every pnl is zero or
    positive, a missing pnl counting as zero), the drawdown stored by the
    update is zero. *)
Theorem X8_no_losing_trade_no_drawdown :
  forall (np_std : list Q -> Q) (self rm' : RiskLevels.RiskManager)
         (positions : list RiskLevels.Position)
         (trades : list RiskLevels.Trade) (balance : Q),
    trades <> [] ->
    Forall (fun t => 0 <= RiskLevels.pnl_of t) trades ->
    RiskLevels.update_risk_metrics np_std self positions trades balance
    = Py.Ok rm' ->
    RiskLevels.m_max_drawdown (RiskLevels.current_metrics rm') == 0.
Proof.
  intros np_std self rm' positions trades balance.
  apply update_risk_metrics_no_loss.
Qed.

Lemma X8_witness :
  exists rm',
    RiskLevels.update_risk_metrics
      (fun _ => 1) RiskLevels.init two_positions
      [RiskLevels.mkTrade (Some 10); RiskLevels.mkTrade None;
       RiskLevels.mkTrade (Some 3)] 10000 = Py.Ok rm'
    /\ RiskLevels.m_max_drawdown (RiskLevels.current_metrics rm') == 0.
Proof.
  eexists. split; [vm_compute; reflexivity|].
  apply (X8_no_losing_trade_no_drawdown
           (fun _ => 1) RiskLevels.init _ two_positions
           [RiskLevels.mkTrade (Some 10); RiskLevels.mkTrade None;
            RiskLevels.mkTrade (Some 3)] 10000).
  - discriminate.
  - repeat constructor; vm_compute; discriminate.
  - reflexivity.
Defined.

(** ** What a scan returns (pair_scanner.py) *)

Section ScanOutput.
Import Py PyFacts PairScanner.

(** Descending order of a key. *)
Lemma insert_desc_sorted {A} (key : A -> Q) (x : A) (l : list A) :
  StronglySorted (fun a b => key b <= key a) l ->
  StronglySorted (fun a b => key b <= key a) (insert_desc key x l).
Proof.
  induction 1 as [|y l Hs IH Hy]; cbn.
  - repeat constructor.
  - destruct (ltb (key x) (key y)) eqn:E.
    + apply ltb_lt in E. constructor; [exact IH|].
      apply List.Forall_forall. intros z Hz.
      apply In_insert_desc in Hz as [->|Hz]; [lra|].
      rewrite List.Forall_forall in Hy. apply Hy, Hz.
    + apply ltb_ge in E. constructor; [constructor; assumption|].
      constructor; [exact E|].
      eapply List.Forall_impl; [|exact Hy]. cbn. intros z Hz. lra.
Qed.

Lemma sorted_reverse_sorted {A} (key : A -> Q) (l : list A) :
  StronglySorted (fun a b => key b <= key a) (sorted_reverse key l).
Proof.
  unfold sorted_reverse. induction l as [|x l IH]; cbn; [constructor|].
  apply insert_desc_sorted, IH.
Qed.

Lemma insert_desc_perm {A} (key : A -> Q) (x : A) (l : list A) :
  Permutation (insert_desc key x l) (x :: l).
Proof.
  induction l as [|y l IH]; cbn; [reflexivity|].
  destruct (ltb (key x) (key y)); [|reflexivity].
  rewrite IH. apply perm_swap.
Qed.

Lemma sorted_reverse_perm {A} (key : A -> Q) (l : list A) :
  Permutation (sorted_reverse key l) l.
Proof.
  unfold sorted_reverse. induction l as [|x l IH]; cbn; [reflexivity|].
  rewrite insert_desc_perm. constructor. exact IH.
Qed.

(** Elements of equal key keep their order: the sort is stable. *)
Lemma insert_desc_filter {A} (key : A -> Q) (k : Q) (x : A) (l : list A) :
  StronglySorted (fun a b => key b <= key a) l ->
  List.filter (fun a => eqb (key a) k) (insert_desc key x l)
  = List.filter (fun a => eqb (key a) k) (x :: l).
Proof.
  induction 1 as [|y l Hs IH Hy]; [reflexivity|].
  cbn [insert_desc]. destruct (ltb (key x) (key y)) eqn:E; [|reflexivity].
  apply ltb_lt in E. cbn [List.filter] in *. rewrite IH.
  destruct (eqb (key x) k) eqn:Ex; destruct (eqb (key y) k) eqn:Ey;
    try reflexivity.
  apply eqb_eq in Ex. apply eqb_eq in Ey. lra.
Qed.

Lemma sorted_reverse_stable {A} (key : A -> Q) (k : Q) (l : list A) :
  List.filter (fun a => eqb (key a) k) (sorted_reverse key l)
  = List.filter (fun a => eqb (key a) k) l.
Proof.
  unfold sorted_reverse. induction l as [|x l IH]; [reflexivity|].
  cbn [fold_right]. rewrite insert_desc_filter by apply sorted_reverse_sorted.
  cbn [List.filter]. fold (sorted_reverse key l). unfold sorted_reverse. 
  rewrite IH. reflexivity.
Qed.

End ScanOutput.

(** X9. The list returned by [scan_all_opportunities] is a rearrangement of
    the opportunities that pass [_filter_opportunities], in descending order
    of [overall_score], opportunities of equal score keeping the order in
    which their tasks returned them (the sort is stable). *)
Theorem X9_scan_output_sorted_stable :
  forall (self : PairScanner.PairScanner)
         (await_task : nat -> PairScanner.WorkItem -> PairScanner.TaskOutcome),
    let passed :=
      PairScanner._filter_opportunities
        self (results_of (imap await_task (PairScanner.scan_tasks self))) in
    let out := snd (PairScanner.scan_all_opportunities self await_task) in
    StronglySorted (fun a b => PairScanner.overall_score b
                               <= PairScanner.overall_score a) out
    /\ Permutation out passed
    /\ (forall score : Q,
           List.filter (fun o => Py.eqb (PairScanner.overall_score o) score) out
           = List.filter (fun o => Py.eqb (PairScanner.overall_score o) score)
                         passed).
Proof.
  intros self await_task passed out.
  destruct (scan_all_opportunities_spec self await_task) as (Hout & _).
  fold out in Hout. fold passed in Hout. rewrite Hout.
  split; [apply sorted_reverse_sorted|].
  split; [apply sorted_reverse_perm|]. intros score. apply sorted_reverse_stable.
Qed.

(** X10. Every opportunity returned by a scan was returned by one of its
    tasks and has a confidence of at least [min_confidence_threshold], an
    overall score of at least 0.5 and a risk/reward ratio of at least 1; the
    cache holds the same list and [opportunities_found] is its length. *)
Theorem X10_scan_output_meets_thresholds :
  forall (self : PairScanner.PairScanner)
         (await_task : nat -> PairScanner.WorkItem -> PairScanner.TaskOutcome)
         (opp : PairScanner.QuickOpportunity),
    let r := PairScanner.scan_all_opportunities self await_task in
    In opp (snd r) ->
    (exists l, In (Py.Ok l)
                  (map fst (imap await_task (PairScanner.scan_tasks self)))
               /\ In opp l)
    /\ PairScanner.min_confidence_threshold (PairScanner.config self)
       <= PairScanner.confidence opp
    /\ 0.5 <= PairScanner.overall_score opp
    /\ 1 <= PairScanner.risk_reward_ratio opp
    /\ PairScanner.opportunities_cache (fst r) = snd r
    /\ PairScanner.opportunities_found (PairScanner.scan_stats (fst r))
       = length (snd r).
Proof.
  intros self await_task opp r Hin.
  destruct (scan_all_opportunities_spec self await_task) as (Hout & Hcache & _).
  fold r in Hout, Hcache. rewrite Hout in Hin.
  apply In_sorted_reverse in Hin.
  unfold PairScanner._filter_opportunities in Hin.
  apply filter_In in Hin as [Hin Hpass].
  split; [|split; [|split; [|split; [|split]]]].
  - unfold results_of in Hin. apply in_flat_map in Hin as ([[l|e] lg] & Hr & Hl).
    + exists l. split; [|exact Hl]. apply in_map_iff. exists (Py.Ok l, lg).
      split; [reflexivity|exact Hr].
    + destruct Hl.
  - destruct (Py.ltb (PairScanner.confidence opp) _) eqn:E; [discriminate|].
    apply PyFacts.ltb_ge in E. exact E.
  - destruct (Py.ltb (PairScanner.confidence opp) _); [discriminate|].
    destruct (Py.ltb (PairScanner.overall_score opp) 0.5) eqn:E; [discriminate|].
    apply PyFacts.ltb_ge in E. exact E.
  - destruct (Py.ltb (PairScanner.confidence opp) _); [discriminate|].
    destruct (Py.ltb (PairScanner.overall_score opp) 0.5); [discriminate|].
    destruct (Py.ltb (PairScanner.risk_reward_ratio opp) 1.0) eqn:E; [discriminate|].
    apply PyFacts.ltb_ge in E. lra.
  - exact Hcache.
  - subst r. unfold PairScanner.scan_all_opportunities.
    destruct (PairScanner.collect_batches _ _). reflexivity.
Qed.

Lemma X10_witness :
  let r := PairScanner.scan_all_opportunities small_scanner first_task_fails in
  0.5 <= PairScanner.overall_score eth_opportunity
  /\ 1 <= PairScanner.risk_reward_ratio eth_opportunity.
Proof.
  cbv zeta.
  destruct (X10_scan_output_meets_thresholds
              small_scanner first_task_fails eth_opportunity)
    as (_ & _ & H1 & H2 & _).
  - vm_compute. left. reflexivity.
  - split; assumption.
Defined.

(** X11. Sizing an opportunity returned by a scan never divides by zero
    under the Conservative profile: whatever the balance, the volatility and
    the market conditions, [calculate_position_size] of a Conservative
    manager returns a [PositionSizing] (the Kelly divisor is at least 1 and
    the fixed leverage is 2). *)
Theorem X11_scanned_opportunity_sizes_under_conservative :
  forall (self : PairScanner.PairScanner)
         (await_task : nat -> PairScanner.WorkItem -> PairScanner.TaskOutcome)
         (opp : PairScanner.QuickOpportunity)
         (balance volatility : Q) (mc : gmap string Q),
    In opp (snd (PairScanner.scan_all_opportunities self await_task)) ->
    exists ps,
      RiskLevels.calculate_position_size
        (RiskLevels.create_risk_manager RiskLevels.CONSERVATIVE)
        opp balance volatility mc = Py.Ok ps
      /\ RiskLevels.leverage ps == 2.
Proof.
  intros self await_task opp balance volatility mc Hin.
  destruct (scan_all_opportunities_spec self await_task) as (Hout & _).
  rewrite Hout in Hin. apply In_sorted_reverse in Hin.
  unfold PairScanner._filter_opportunities in Hin.
  apply filter_In in Hin as [_ Hpass].
  assert (Hrr : 1 <= PairScanner.risk_reward_ratio opp).
  { destruct (Py.ltb (PairScanner.confidence opp) _); [discriminate|].
    destruct (Py.ltb (PairScanner.overall_score opp) 0.5); [discriminate|].
    destruct (Py.ltb (PairScanner.risk_reward_ratio opp) 1.0) eqn:E; [discriminate|].
    apply PyFacts.ltb_ge in E. lra. }
  destruct (RiskLevels.calculate_position_size
              (RiskLevels.create_risk_manager RiskLevels.CONSERVATIVE)
              opp balance volatility mc) as [ps|e] eqn:Eps.
  - exists ps. split; [reflexivity|].
    apply calculate_position_size_inv in Eps. destruct Eps as (_ & -> & _).
    vm_compute. reflexivity.
  - exfalso.
    pose proof (calculate_position_size_ok
                  (RiskLevels.create_risk_manager RiskLevels.CONSERVATIVE)
                  opp balance volatility mc) as Hok.
    cbv zeta in Hok. rewrite Eps in Hok. cbn [Py.is_ok] in Hok.
    assert (false = true); [|discriminate].
    apply Hok. split; [split|].
    + intros _. lra.
    + intros H. vm_compute in H. discriminate.
    + vm_compute. discriminate.
Qed.

Lemma X11_witness :
  exists ps,
    RiskLevels.calculate_position_size
      (RiskLevels.create_risk_manager RiskLevels.CONSERVATIVE)
      eth_opportunity 10000 0.4 ∅ = Py.Ok ps
    /\ RiskLevels.leverage ps == 2.
Proof.
  apply (X11_scanned_opportunity_sizes_under_conservative
           small_scanner first_task_fails).
  vm_compute. left. reflexivity.
Defined.

Section ScanReaders.
Import Py PyFacts PairScanner.

Lemma sorted_app_le {A} (R : A -> A -> Prop) (l1 l2 : list A) :
  StronglySorted R (l1 ++ l2) ->
  forall a b, In a l1 -> In b l2 -> R a b.
Proof.
  induction l1 as [|x l1 IH]; intros Hs a b Ha Hb; [destruct Ha|].
  cbn in Hs. apply StronglySorted_inv in Hs as [Hs Hx].
  destruct Ha as [->|Ha].
  - rewrite List.Forall_forall in Hx. apply Hx. apply in_or_app. right. exact Hb.
  - apply (IH Hs a b Ha Hb).
Qed.

Lemma flat_map_length_le {A B} (f : A -> list B) (n : nat) (l : list A) :
  (forall x, In x l -> length (f x) <= n)%nat ->
  (length (flat_map f l) <= length l * n)%nat.
Proof.
  induction l as [|x l IH]; intros H; cbn; [lia|].
  rewrite length_app.
  pose proof (H x (or_introl eq_refl)).
  assert (length (flat_map f l) <= length l * n)%nat
    by (apply IH; intros y Hy; apply H; right; exact Hy).
  lia.
Qed.

End ScanReaders.

(** X12. After a scan, [get_top_opportunities(limit)] returns at most
    [limit] opportunities, the head of the cache, and none of those left out
    has a higher score than any of those returned; [top_opportunity_score]
    of the statistics is at least the score of every cached opportunity. *)
Theorem X12_top_opportunities_are_the_best :
  forall (self : PairScanner.PairScanner)
         (await_task : nat -> PairScanner.WorkItem -> PairScanner.TaskOutcome)
         (limit : nat),
    let s := fst (PairScanner.scan_all_opportunities self await_task) in
    let top := PairScanner.get_top_opportunities s limit in
    (length top <= limit)%nat
    /\ (forall a b,
           In a top -> In b (drop limit (PairScanner.opportunities_cache s)) ->
           PairScanner.overall_score b <= PairScanner.overall_score a)
    /\ (forall b, In b (PairScanner.opportunities_cache s) ->
                  PairScanner.overall_score b
                  <= PairScanner.top_opportunity_score s).
Proof.
  intros self await_task limit s top.
  destruct (scan_all_opportunities_spec self await_task) as (Hout & Hcache & _).
  fold s in Hcache.
  assert (Hs : StronglySorted (fun a b => PairScanner.overall_score b
                                          <= PairScanner.overall_score a)
                              (PairScanner.opportunities_cache s)).
  { rewrite Hcache, Hout. apply sorted_reverse_sorted. }
  subst top. unfold PairScanner.get_top_opportunities.
  split; [rewrite length_take; lia|]. split.
  - intros a b Ha Hb.
    rewrite <- (take_drop limit (PairScanner.opportunities_cache s)) in Hs.
    exact (sorted_app_le _ _ _ Hs a b Ha Hb).
  - intros b Hb. unfold PairScanner.top_opportunity_score.
    destruct (PairScanner.opportunities_cache s) as [|o l]; [destruct Hb|].
    destruct Hb as [->|Hb]; [lra|].
    apply StronglySorted_inv in Hs as [_ Ho].
    rewrite List.Forall_forall in Ho. apply Ho, Hb.
Qed.

Lemma X12_witness :
  PairScanner.overall_score eth_opportunity
  <= PairScanner.top_opportunity_score
       (fst (PairScanner.scan_all_opportunities small_scanner first_task_fails)).
Proof.
  apply (proj2 (proj2 (X12_top_opportunities_are_the_best
                         small_scanner first_task_fails 1))).
  vm_compute. left. reflexivity.
Defined.

(** X13. Fan-out is bounded before anything runs: every scan task is for an
    enabled exchange, a pair of that exchange's cache whose 24h volume and
    absolute price change reach the configured minima and whose market type
    is enabled, an enabled timeframe and an enabled market that the pair
    supports; and there are at most
    [exchanges x max_pairs_per_exchange x timeframes x markets] tasks. *)
Theorem X13_scan_tasks_prefiltered_and_bounded :
  forall self : PairScanner.PairScanner,
    let cfg := PairScanner.config self in
    (forall (pair : PairScanner.PairInfo) (tf : PairScanner.Timeframe)
            (mt : PairScanner.MarketType),
        In (pair, tf, mt) (PairScanner.scan_tasks self) ->
        (exists ex pairs,
            In (ex, pairs) (PairScanner.pairs_cache self)
            /\ In ex (PairScanner.enabled_exchanges cfg)
            /\ In pair pairs)
        /\ PairScanner.min_volume_24h cfg <= PairScanner.volume_24h pair
        /\ PairScanner.min_price_change_24h cfg
           <= Qabs (PairScanner.price_change_24h pair)
        /\ In (PairScanner.market_type pair) (PairScanner.enabled_markets cfg)
        /\ In tf (PairScanner.enabled_timeframes cfg)
        /\ In mt (PairScanner.enabled_markets cfg)
        /\ PairScanner._is_pair_supported pair mt = true)
    /\ (length (PairScanner.scan_tasks self)
        <= length (PairScanner.pairs_cache self)
           * (PairScanner.max_pairs_per_exchange cfg
              * (length (PairScanner.enabled_timeframes cfg)
                 * length (PairScanner.enabled_markets cfg))))%nat.
Proof.
  intros self cfg. split.
  - intros pair tf mt Hin. unfold PairScanner.scan_tasks in Hin. fold cfg in Hin.
    apply in_flat_map in Hin as ([ex pairs] & Hc & Hin).
    destruct (bool_decide (ex ∈ PairScanner.enabled_exchanges cfg)) eqn:Eex;
      cbn [negb] in Hin; [|destruct Hin].
    apply bool_decide_eq_true in Eex. apply list_elem_of_In in Eex.
    apply in_flat_map in Hin as (p & Hp & Hin).
    apply in_flat_map in Hin as (t & Ht & Hin).
    apply in_flat_map in Hin as (m & Hm & Hin).
    destruct (PairScanner._is_pair_supported p m) eqn:Esup; [|destruct Hin].
    destruct Hin as [Heq|[]]. injection Heq as -> -> ->.
    apply list_elem_of_In, elem_of_take in Hp as (i & Hp & _).
    apply list_elem_of_lookup_2, list_elem_of_In in Hp.
    unfold PairScanner._filter_pairs in Hp. apply filter_In in Hp as [Hp Hf].
    fold cfg in Hf.
    destruct (Py.ltb (PairScanner.volume_24h pair) _) eqn:E1; [discriminate|].
    destruct (Py.ltb (Py.abs (PairScanner.price_change_24h pair)) _) eqn:E2;
      [discriminate|].
    destruct (bool_decide (PairScanner.market_type pair
                           ∈ PairScanner.enabled_markets cfg)) eqn:E3;
      cbn [negb] in Hf; [|discriminate].
    apply PyFacts.ltb_ge in E1. apply PyFacts.ltb_ge in E2.
    apply bool_decide_eq_true, list_elem_of_In in E3.
    repeat split; try assumption.
    exists ex, pairs. repeat split; assumption.
  - unfold PairScanner.scan_tasks. fold cfg.
    apply flat_map_length_le. intros [ex pairs] _.
    destruct (negb _); [cbn; lia|].
    etransitivity;
      [apply (flat_map_length_le _
                (length (PairScanner.enabled_timeframes cfg)
                 * length (PairScanner.enabled_markets cfg)))|].
    + intros p _. apply flat_map_length_le. intros t _.
      etransitivity; [apply (flat_map_length_le _ 1)|lia].
      intros m _. destruct (PairScanner._is_pair_supported p m); cbn; lia.
    + rewrite length_take. apply Nat.mul_le_mono_r. lia.
Qed.

Lemma X13_witness :
  PairScanner.min_volume_24h (PairScanner.config small_scanner)
  <= PairScanner.volume_24h eth.
Proof.
  refine (proj1 (proj2 (proj1 (X13_scan_tasks_prefiltered_and_bounded small_scanner)
                          eth PairScanner.H1 PairScanner.SPOT _))).
  vm_compute. right. left. reflexivity.
Defined.

(** X14. The scan tasks are awaited in consecutive batches: the batches
    put end to end are the task list, there are [ceil(n / 50)] of them, and
    each holds at least one and at most 50 tasks. *)
Theorem X14_batches_partition_tasks :
  forall (A : Type) (tasks : list A),
    concat (PairScanner.batches tasks) = tasks
    /\ length (PairScanner.batches tasks) = ((length tasks + 49) / 50)%nat
    /\ Forall (fun b => (1 <= length b <= 50)%nat) (PairScanner.batches tasks).
Proof.
  intros A tasks. split; [apply concat_batches|].
  unfold PairScanner.batches, PairScanner.batch_size.
  split; [rewrite length_map, length_seq; reflexivity|].
  apply List.Forall_forall. intros b Hb.
  apply in_map_iff in Hb as (k & <- & Hk). apply in_seq in Hk.
  rewrite length_take, length_drop.
  pose proof (Nat.div_mod_eq (length tasks + (50 - 1)) 50).
  pose proof (Nat.mod_upper_bound (length tasks + (50 - 1)) 50).
  lia.
Qed.

(** ** From an analysis to an opportunity (pair_scanner.py) *)

Section Creation.
Import Py PyFacts PairScanner.

Variable format_2f : Q -> string.
Variable format_thousands : Q -> string.
Variable format_percent : Q -> string.

(** The fields of a created opportunity. *)
Lemma create_opportunity_inv (self : PairScanner) (pair : PairInfo)
    (tf : Timeframe) (mt : MarketType) (analysis : Analysis)
    (closes : list Q) (opp : QuickOpportunity) :
  _create_opportunity_from_analysis format_2f format_thousands format_percent
                                    self pair tf mt analysis closes = Some opp ->
  let action := default "hold" (a_action analysis) in
  let levels := _calculate_levels action (entry_price opp) analysis in
  action <> "hold"
  /\ min_confidence_threshold (config self) <= confidence opp
  /\ last closes = Some (entry_price opp)
  /\ PairScanner.pair opp = pair
  /\ signal opp = action
  /\ confidence opp = default 0.0 (a_confidence analysis)
  /\ technical_score opp = confidence opp
  /\ volume_score opp = min (volume_24h pair / 10000000) 1.0
  /\ volatility_score opp = min (abs (price_change_24h pair) / 0.1) 1.0
  /\ overall_score opp
     = technical_score opp * 0.5 + volume_score opp * 0.3
       + volatility_score opp * 0.2
  /\ stop_loss opp = fst levels
  /\ take_profit opp = snd levels
  /\ risk_reward_ratio opp
     = risk_reward action (entry_price opp) (fst levels) (snd levels).
Proof.
  intros H action levels. unfold _create_opportunity_from_analysis in H.
  fold action in H.
  destruct (String.eqb action "hold") eqn:Ea; cbn [orb] in H; [discriminate|].
  destruct (ltb _ _) eqn:Ec in H; [discriminate|].
  destruct (last closes) as [current_price|]; [|discriminate].
  destruct (_calculate_levels action current_price analysis) as [sl tp] eqn:El.
  injection H as <-. subst levels. cbn [entry_price]. rewrite El.
  apply String.eqb_neq in Ea. apply ltb_ge in Ec.
  cbn. repeat split; assumption.
Qed.

End Creation.

(** The ranges of the scores of a created opportunity. *)
Lemma created_opportunity_scores :
  forall (format_2f format_thousands format_percent : Q -> string)
         (self : PairScanner.PairScanner) (pair : PairScanner.PairInfo)
         (tf : PairScanner.Timeframe) (mt : PairScanner.MarketType)
         (analysis : PairScanner.Analysis) (closes : list Q)
         (opp : PairScanner.QuickOpportunity),
    PairScanner._create_opportunity_from_analysis
      format_2f format_thousands format_percent self pair tf mt analysis closes
    = Some opp ->
    PairScanner.signal opp <> "hold"
    /\ PairScanner.min_confidence_threshold (PairScanner.config self)
       <= PairScanner.confidence opp
    /\ last closes = Some (PairScanner.entry_price opp)
    /\ 0 <= PairScanner.volatility_score opp <= 1
    /\ PairScanner.volume_score opp <= 1
    /\ (0 <= PairScanner.volume_24h pair ->
        0 <= PairScanner.volume_score opp
        /\ (0 <= PairScanner.confidence opp <= 1 ->
            0 <= PairScanner.overall_score opp <= 1)).
Proof.
  intros f1 f2 f3 self pair tf mt analysis closes opp H.
  apply create_opportunity_inv in H. cbv zeta in H.
  destruct H as (Ha & Hc & Hl & _ & Hs & _ & Ht & Hv & Hvs & Ho & _).
  assert (Hvol : 0 <= PairScanner.volatility_score opp <= 1).
  { rewrite Hvs.
    assert (0 <= Py.abs (PairScanner.price_change_24h pair) / 0.1).
    { apply Qle_shift_div_l; [reflexivity|]. rewrite Qmult_0_l. apply Qabs_nonneg. }
    destruct (PyFacts.min_cases (Py.abs (PairScanner.price_change_24h pair) / 0.1) 1.0)
      as [[? ->]|[? ->]]; split; lra. }
  assert (Hvu : PairScanner.volume_score opp <= 1).
  { rewrite Hv.
    pose proof (PyFacts.min_le_r (PairScanner.volume_24h pair / 10000000) 1.0). lra. }
  repeat split; try assumption; try apply Hvol.
  - rewrite Hs. exact Ha.
  - rewrite Hv.
    assert (0 <= PairScanner.volume_24h pair / 10000000).
    { apply Qle_shift_div_l; [reflexivity|]. lra. }
    destruct (PyFacts.min_cases (PairScanner.volume_24h pair / 10000000) 1.0)
      as [[? ->]|[? ->]]; lra.
  - assert (0 <= PairScanner.volume_score opp).
    { rewrite Hv.
      assert (0 <= PairScanner.volume_24h pair / 10000000).
      { apply Qle_shift_div_l; [reflexivity|]. lra. }
      destruct (PyFacts.min_cases (PairScanner.volume_24h pair / 10000000) 1.0)
        as [[? ->]|[? ->]]; lra. }
    rewrite Ho, Ht. lra.
  - assert (0 <= PairScanner.volume_score opp).
    { rewrite Hv.
      assert (0 <= PairScanner.volume_24h pair / 10000000).
      { apply Qle_shift_div_l; [reflexivity|]. lra. }
      destruct (PyFacts.min_cases (PairScanner.volume_24h pair / 10000000) 1.0)
        as [[? ->]|[? ->]]; lra. }
    rewrite Ho, Ht. lra.
Qed.

(** X15. An opportunity that [_create_opportunity_from_analysis] returns is
    never a ['hold'], has a confidence of at least the configured minimum,
    takes its entry price from the last close, and carries normalized
    scores: the volatility score lies in [[0, 1]], the volume score is at
    most 1 and not negative when the 24h volume is not, and with a
    confidence in [[0, 1]] the overall score lies in [[0, 1]] too. *)
Theorem X15_created_opportunity_scores_normalized :
  forall (format_2f format_thousands format_percent : Q -> string)
         (self : PairScanner.PairScanner) (pair : PairScanner.PairInfo)
         (tf : PairScanner.Timeframe) (mt : PairScanner.MarketType)
         (analysis : PairScanner.Analysis) (closes : list Q)
         (opp : PairScanner.QuickOpportunity),
    PairScanner._create_opportunity_from_analysis
      format_2f format_thousands format_percent self pair tf mt analysis closes
    = Some opp ->
    PairScanner.signal opp <> "hold"
    /\ PairScanner.min_confidence_threshold (PairScanner.config self)
       <= PairScanner.confidence opp
    /\ last closes = Some (PairScanner.entry_price opp)
    /\ 0 <= PairScanner.volatility_score opp <= 1
    /\ PairScanner.volume_score opp <= 1
    /\ (0 <= PairScanner.volume_24h pair ->
        0 <= PairScanner.volume_score opp
        /\ (0 <= PairScanner.confidence opp <= 1 ->
            0 <= PairScanner.overall_score opp <= 1)).
Proof. exact created_opportunity_scores. Qed.

Lemma X15_witness :
  exists opp,
    created_buy = Some opp
    /\ 0 <= PairScanner.volatility_score opp <= 1
    /\ PairScanner.volume_score opp <= 1.
Proof.
  destruct created_buy as [opp|] eqn:E; [|vm_compute in E; discriminate].
  exists opp. split; [reflexivity|].
  destruct (X15_created_opportunity_scores_normalized _ _ _ _ _ _ _ _ _ _ E)
    as (_ & _ & _ & H1 & H2 & _).
  split; assumption.
Defined.

(** X16. With the default levels (any strategy but Fibonacci) and a
    positive last close, a created buy has its stop 2% below and its target
    4% above the entry, a created sell the reverse, and the risk/reward
    ratio is 2 in both cases. *)
Theorem X16_default_levels_give_ratio_two :
  forall (format_2f format_thousands format_percent : Q -> string)
         (self : PairScanner.PairScanner) (pair : PairScanner.PairInfo)
         (tf : PairScanner.Timeframe) (mt : PairScanner.MarketType)
         (analysis : PairScanner.Analysis) (closes : list Q)
         (opp : PairScanner.QuickOpportunity),
    PairScanner._create_opportunity_from_analysis
      format_2f format_thousands format_percent self pair tf mt analysis closes
    = Some opp ->
    PairScanner.a_strategy analysis <> Some "fibonacci" ->
    0 < PairScanner.entry_price opp ->
    let p := PairScanner.entry_price opp in
    (PairScanner.signal opp = "buy" ->
     PairScanner.stop_loss opp = Some (p * 0.98)
     /\ PairScanner.take_profit opp = Some (p * 1.04)
     /\ PairScanner.risk_reward_ratio opp == 2)
    /\ (PairScanner.signal opp = "sell" ->
        PairScanner.stop_loss opp = Some (p * 1.02)
        /\ PairScanner.take_profit opp = Some (p * 0.96)
        /\ PairScanner.risk_reward_ratio opp == 2).
Proof.
  intros f1 f2 f3 self pair tf mt analysis closes opp H Hfib Hp p.
  apply create_opportunity_inv in H. cbv zeta in H.
  destruct H as (_ & _ & _ & _ & Hs & _ & _ & _ & _ & _ & Hsl & Htp & Hrr).
  rewrite <- Hs in Hsl, Htp, Hrr. fold p in Hsl, Htp, Hrr.
  change (0 < p) in Hp. clearbody p.
  assert (Hlev : forall a, a = "buy" \/ a = "sell" ->
            PairScanner._calculate_levels a p analysis
            = if String.eqb a "buy" then (Some (p * 0.98), Some (p * 1.04))
              else (Some (p * 1.02), Some (p * 0.96))).
  { intros a Ha. unfold PairScanner._calculate_levels.
    destruct (PairScanner.a_strategy analysis) as [s|].
    - change (default "" (Some s)) with s.
      destruct (String.eqb_spec s "support_resistance");
        [destruct Ha as [->| ->]; reflexivity|].
      destruct (String.eqb_spec s "fibonacci"); [congruence|].
      destruct Ha as [->| ->]; reflexivity.
    - destruct Ha as [->| ->]; reflexivity. }
  split; intros Hsig; rewrite Hsig in *.
  - rewrite (Hlev "buy") in Hsl, Htp, Hrr by auto. cbn in Hsl, Htp, Hrr.
    repeat split; try assumption. rewrite Hrr. unfold PairScanner.risk_reward.
    assert (E1 : Py.eqb (p * 0.98) 0 = false) by (apply PyFacts.eqb_neq; nra).
    assert (E2 : Py.eqb (p * 1.04) 0 = false) by (apply PyFacts.eqb_neq; nra).
    assert (E3 : Py.gtb (p - p * 0.98) 0 = true) by (apply PyFacts.gtb_gt; nra).
    rewrite E1, E2. cbn [orb String.eqb Ascii.eqb Bool.eqb]. rewrite E3.
    field. nra.
  - rewrite (Hlev "sell") in Hsl, Htp, Hrr by auto. cbn in Hsl, Htp, Hrr.
    repeat split; try assumption. rewrite Hrr. unfold PairScanner.risk_reward.
    assert (E1 : Py.eqb (p * 1.02) 0 = false) by (apply PyFacts.eqb_neq; nra).
    assert (E2 : Py.eqb (p * 0.96) 0 = false) by (apply PyFacts.eqb_neq; nra).
    assert (E3 : Py.gtb (p * 1.02 - p) 0 = true) by (apply PyFacts.gtb_gt; nra).
    rewrite E1, E2. cbn [orb String.eqb Ascii.eqb Bool.eqb]. rewrite E3.
    field. nra.
Qed.

Lemma X16_witness :
  exists opp,
    created_buy = Some opp /\ PairScanner.risk_reward_ratio opp == 2.
Proof.
  destruct created_buy as [opp|] eqn:E; [|vm_compute in E; discriminate].
  exists opp. split; [reflexivity|].
  pose proof E as E'. vm_compute in E'. injection E' as <-.
  refine (proj2 (proj2 (proj1 (X16_default_levels_give_ratio_two
                                 _ _ _ _ _ _ _ _ _ _ E _ _) _))).
  - discriminate.
  - reflexivity.
  - reflexivity.
Defined.

(** ** Sizing what the scanner creates *)

(** X17. The sizing call of the detection pipeline cannot divide by zero
    on an opportunity the scanner created: with a positive confidence
    minimum, a non-negative 24h volume and a nonzero risk/reward ratio (as
    every opportunity passing the scan filter has), and the empty market
    conditions the detector passes, [calculate_position_size] returns a
    [PositionSizing] under each of the three predefined profiles, for every
    balance and volatility. *)
Theorem X17_created_opportunity_sizes_under_every_profile :
  forall (format_2f format_thousands format_percent : Q -> string)
         (self : PairScanner.PairScanner) (pair : PairScanner.PairInfo)
         (tf : PairScanner.Timeframe) (mt : PairScanner.MarketType)
         (analysis : PairScanner.Analysis) (closes : list Q)
         (opp : PairScanner.QuickOpportunity)
         (level : RiskLevels.RiskLevel) (balance volatility : Q),
    PairScanner._create_opportunity_from_analysis
      format_2f format_thousands format_percent self pair tf mt analysis closes
    = Some opp ->
    0 < PairScanner.min_confidence_threshold (PairScanner.config self) ->
    0 <= PairScanner.volume_24h pair ->
    ~ PairScanner.risk_reward_ratio opp == 0 ->
    exists ps,
      RiskLevels.calculate_position_size
        (RiskLevels.create_risk_manager level) opp balance volatility ∅
      = Py.Ok ps.
Proof.
  intros f1 f2 f3 self pair tf mt analysis closes opp level balance volatility
         H Hthr Hvol Hrr.
  pose proof (created_opportunity_scores
                f1 f2 f3 self pair tf mt analysis closes opp H)
    as (_ & Hc & _ & Hvs & _).
  apply create_opportunity_inv in H. cbv zeta in H.
  destruct H as (_ & _ & _ & Hpair & _).
  set (rm := RiskLevels.create_risk_manager level).
  destruct (RiskLevels.calculate_position_size rm opp balance volatility ∅)
    as [ps|e] eqn:Eps; [exists ps; reflexivity|exfalso].
  pose proof (calculate_position_size_ok rm opp balance volatility ∅) as Hok.
  cbv zeta in Hok. rewrite Eps in Hok. cbn [Py.is_ok] in Hok.
  assert (false = true); [apply Hok|discriminate].
  assert (Htrend : RiskLevels.trend_strength ∅ = 0.5) by reflexivity.
  split; [split|].
  - intros _. exact Hrr.
  - intros _. lra.
  - destruct level.
    + vm_compute. discriminate.
    + rewrite (dynamic_leverage_zero rm opp volatility ∅
                 (RiskLevels.get_current_profile rm));
        [|reflexivity|reflexivity].
      rewrite Htrend. intros [Hz|Hz]; [lra|vm_compute in Hz; discriminate].
    + unfold RiskLevels._calculate_dynamic_leverage.
      change (RiskLevels.leverage_modes rm
                (RiskLevels.risk_level (RiskLevels.get_current_profile rm)))
        with RiskLevels.ADAPTIVE.
      change (RiskLevels.max_leverage (RiskLevels.get_current_profile rm))
        with 10.0.
      cbv zeta. rewrite Htrend, Hpair.
      set (v := Py.min 1.0 (PairScanner.volume_24h pair / 10000000)).
      assert (Hv : 0 <= v).
      { unfold v.
        assert (0 <= PairScanner.volume_24h pair / 10000000).
        { apply Qle_shift_div_l; [reflexivity|]. lra. }
        destruct (PyFacts.min_cases 1.0 (PairScanner.volume_24h pair / 10000000))
          as [[? ->]|[? ->]]; lra. }
      destruct (PyFacts.min_cases (10.0 * (0.5 + 0.5 * 0.3 + v * 0.2)) 10.0)
        as [[? ->]|[? ->]]; lra.
Qed.

Lemma X17_witness :
  exists opp ps,
    created_buy = Some opp
    /\ RiskLevels.calculate_position_size
         (RiskLevels.create_risk_manager RiskLevels.TURBO) opp 10000 0.2 ∅
       = Py.Ok ps.
Proof.
  destruct created_buy as [opp|] eqn:E; [|vm_compute in E; discriminate].
  exists opp.
  pose proof E as E'. vm_compute in E'. injection E' as <-.
  destruct (X17_created_opportunity_sizes_under_every_profile
              _ _ _ _ _ _ _ _ _ _ RiskLevels.TURBO 10000 0.2 E)
    as [ps Hps].
  - reflexivity.
  - vm_compute. discriminate.
  - vm_compute. discriminate.
  - exists ps. split; [reflexivity|exact Hps].
Defined.

(** ** Inside a scan work item *)

(** X18. The body of a scan work item returns nothing when there is no
    market data or fewer than 50 rows; otherwise an analysis that raised
    is skipped without touching the others (the result is the one obtained
    without it), there is at most one opportunity per analysis, and every
    opportunity returned was created from an analysis that returned, on a
    frame of at least 50 rows. *)
Theorem X18_work_item_skips_failed_analyses :
  forall (format_2f format_thousands format_percent : Q -> string)
         (self : PairScanner.PairScanner) (pair : PairScanner.PairInfo)
         (tf : PairScanner.Timeframe) (mt : PairScanner.MarketType)
         (market_data : option (list Q))
         (results : list (Py.Result PairScanner.Analysis)),
    let body :=
      PairScanner.scan_pair_body format_2f format_thousands format_percent
                                 self pair tf mt in
    body None results = []
    /\ (forall closes, (length closes < 50)%nat -> body (Some closes) results = [])
    /\ (forall l1 l2 e,
           body market_data (l1 ++ Py.Raise e :: l2) = body market_data (l1 ++ l2))
    /\ (length (body market_data results) <= length results)%nat
    /\ (forall opp,
           In opp (body market_data results) ->
           exists analysis closes,
             In (Py.Ok analysis) results
             /\ market_data = Some closes
             /\ (50 <= length closes)%nat
             /\ PairScanner._create_opportunity_from_analysis
                  format_2f format_thousands format_percent
                  self pair tf mt analysis closes = Some opp).
Proof.
  intros f1 f2 f3 self pair tf mt market_data results body. subst body.
  unfold PairScanner.scan_pair_body.
  split; [reflexivity|]. split.
  { intros closes Hlen. apply Nat.ltb_lt in Hlen. rewrite Hlen. reflexivity. }
  split.
  { intros l1 l2 e. destruct market_data as [closes|]; [|reflexivity].
    destruct (length closes <? 50)%nat; [reflexivity|].
    rewrite !flat_map_app. reflexivity. }
  split.
  { destruct market_data as [closes|]; [|cbn; lia].
    destruct (length closes <? 50)%nat; [cbn; lia|].
    replace (length results) with (length results * 1)%nat by lia.
    apply flat_map_length_le. intros [a|e] _; [|cbn; lia].
    destruct (_ && _); [|cbn; lia].
    destruct (PairScanner._create_opportunity_from_analysis _ _ _ _ _ _ _ _ _);
      cbn; lia. }
  intros opp Hin. destruct market_data as [closes|]; [|destruct Hin].
  destruct (length closes <? 50)%nat eqn:Hlen; [destruct Hin|].
  apply Nat.ltb_ge in Hlen.
  apply in_flat_map in Hin as ([a|e] & Hr & Hin); [|destruct Hin].
  destruct (_ && _) in Hin; [|destruct Hin].
  destruct (PairScanner._create_opportunity_from_analysis _ _ _ _ _ _ _ _ _)
    as [o|] eqn:Ec in Hin; [|destruct Hin].
  destruct Hin as [->|[]].
  exists a, closes. repeat split; assumption.
Qed.

(** Two rows only: nothing is returned.  Sixty rows, a failed analysis, the
    error dict of another and a buy: one opportunity. *)
Lemma X18_witness :
  PairScanner.scan_pair_body
    (fun _ => "") (fun _ => "") (fun _ => "") small_scanner Scenario.btc
    PairScanner.H1 PairScanner.SPOT (Some [44000; 45000])
    [Py.Ok buy_analysis] = []
  /\ length (PairScanner.scan_pair_body
               (fun _ => "") (fun _ => "") (fun _ => "") small_scanner
               Scenario.btc PairScanner.H1 PairScanner.SPOT (Some sixty_closes)
               [Py.Raise (Py.RuntimeError "timeout"); Py.Ok error_analysis;
                Py.Ok buy_analysis]) = 1%nat.
Proof.
  split.
  - apply (proj1 (proj2 (X18_work_item_skips_failed_analyses
                           (fun _ => "") (fun _ => "") (fun _ => "")
                           small_scanner Scenario.btc PairScanner.H1
                           PairScanner.SPOT None [Py.Ok buy_analysis]))).
    cbn. lia.
  - vm_compute. reflexivity.
Defined.

(** ** The autopilot engine's cycle (autopilot_engine.py) *)

Section EngineCycle.
Import Py PyFacts AutopilotEngine.

Lemma execute_trade_history (self : Engine) (signal : TradingSignal)
    (outcome : OrderOutcome) :
  let self' := _execute_trade self signal outcome in
  config self' = config self
  /\ status self' = status self
  /\ is_running self' = is_running self
  /\ exchange_manager self' = exchange_manager self
  /\ ollama_ai self' = ollama_ai self
  /\ current_drawdown (metrics self') = current_drawdown (metrics self)
  /\ (trade_history self' = trade_history self
      \/ exists execution,
           outcome = OrderExecuted execution
           /\ exchange_manager self = true
           /\ dry_run (config self) = false
           /\ trade_history self'
              = trade_history self
                ++ [mkTradeRecord (Some (ex_day execution)) (ex_exchange execution)
                      (ex_symbol execution) (ex_side execution)
                      (ex_amount execution) (ex_price execution)
                      (ex_fees execution) (confidence signal)
                      (reasoning signal) None]).
Proof.
  unfold _execute_trade.
  destruct (exchange_manager self) eqn:Em; destruct (dry_run (config self)) eqn:Ed;
    cbn [negb orb]; try (cbn; rewrite ?Em, ?Ed; auto 10; fail).
  destruct outcome; cbn; rewrite ?Em, ?Ed; auto 10.
  repeat split; try reflexivity. right. eexists. repeat split.
Qed.

Lemma update_metrics_frame (self : Engine) (now : Z) :
  let self' := _update_metrics self now in
  config self' = config self
  /\ status self' = status self
  /\ is_running self' = is_running self
  /\ trade_history self' = trade_history self
  /\ exchange_manager self' = exchange_manager self
  /\ ollama_ai self' = ollama_ai self
  /\ current_drawdown (metrics self') = current_drawdown (metrics self).
Proof.
  unfold _update_metrics. destruct (trade_history self) eqn:E; cbn; auto 10.
Qed.

Lemma emergency_stop_frame (self : Engine) (balances : option Exception) :
  let self' := emergency_stop self balances in
  config self' = config self
  /\ status self' = EMERGENCY_STOP
  /\ is_running self' = false
  /\ trade_history self' = trade_history self
  /\ metrics self' = metrics self.
Proof.
  unfold emergency_stop, _close_all_positions. cbn.
  destruct (exchange_manager self); destruct (trading_enabled (config self));
    destruct balances; cbn; auto.
Qed.

Lemma check_emergency_frame (self : Engine) (today : Z)
    (balances : option Exception) :
  let self' := _check_emergency_conditions self today balances in
  config self' = config self
  /\ trade_history self' = trade_history self
  /\ metrics self' = metrics self
  /\ exchange_manager self' = exchange_manager self
  /\ ollama_ai self' = ollama_ai self.
Proof.
  unfold _check_emergency_conditions.
  destruct (gtb _ _).
  - unfold emergency_stop, _close_all_positions. cbn.
    destruct (exchange_manager self); destruct (trading_enabled (config self));
      destruct balances; cbn;
      destruct (count_today today (trade_history self)) as [n|]; cbn;
      try destruct (_ <=? _)%Z; cbn; auto.
  - destruct (count_today today (trade_history self)) as [n|]; cbn;
      try destruct (_ <=? _)%Z; cbn; auto.
Qed.

(** Without a drawdown above the threshold the check can only pause. *)
Lemma check_emergency_no_drawdown (self : Engine) (today : Z)
    (balances : option Exception) :
  current_drawdown (metrics self) <= emergency_stop_loss (config self) ->
  let self' := _check_emergency_conditions self today balances in
  is_running self' = is_running self
  /\ (status self' = status self \/ status self' = PAUSED).
Proof.
  intros H. apply gtb_le in H. unfold _check_emergency_conditions. rewrite H.
  destruct (count_today today (trade_history self)) as [n|]; cbn;
    try destruct (_ <=? _)%Z; cbn; auto.
Qed.

Lemma sum_no_pnl_from (l : list TradeRecord) (a : Q) :
  Forall (fun t => tr_pnl t = None) l ->
  fold_left Qplus (map pnl_of l) a == a.
Proof.
  intros H. revert a. induction H as [|t l Ht _ IH]; intros a; cbn [map fold_left].
  - reflexivity.
  - rewrite IH. unfold pnl_of. rewrite Ht. cbn. ring.
Qed.

Lemma filter_no_pnl (f : Q -> bool) (l : list TradeRecord) :
  f 0 = false ->
  Forall (fun t => tr_pnl t = None) l ->
  List.filter (fun t => f (pnl_of t)) l = [].
Proof.
  intros Hf H. induction H as [|t l Ht _ IH]; cbn [List.filter]; [reflexivity|].
  unfold pnl_of at 1. rewrite Ht. cbn [default]. rewrite Hf. exact IH.
Qed.

Lemma update_metrics_flat (self : Engine) (now : Z) :
  Forall (fun t => tr_pnl t = None) (trade_history self) ->
  total_trades (metrics self) = length (trade_history self)
  /\ winning_trades (metrics self) = O
  /\ losing_trades (metrics self) = O
  /\ total_pnl (metrics self) == 0
  /\ win_rate (metrics self) == 0
  \/ trade_history self <> [] ->
  flat_metrics (_update_metrics self now).
Proof.
  intros Hf H. unfold flat_metrics, _update_metrics.
  destruct (trade_history self) as [|t ts] eqn:E.
  - destruct H as [H|H]; [|congruence]. rewrite E. split; [constructor|exact H].
  - cbn [trade_history metrics total_trades winning_trades losing_trades
         total_pnl win_rate].
    rewrite (filter_no_pnl (fun x => gtb x 0) (t :: ts)) by (reflexivity || exact Hf).
    rewrite (filter_no_pnl (fun x => ltb x 0) (t :: ts)) by (reflexivity || exact Hf).
    split; [exact Hf|]. split; [reflexivity|]. split; [reflexivity|].
    split; [reflexivity|]. split.
    + unfold sum. apply sum_no_pnl_from. exact Hf.
    + cbn [length Nat.ltb Nat.leb]. unfold Qdiv. apply Qmult_0_l.
Qed.

Lemma check_emergency_limit (self : Engine) (today : Z)
    (balances : option Exception) (n : nat) :
  count_today today (trade_history self) = Some n ->
  (max_daily_trades (config self) <= Z.of_nat n)%Z ->
  let self' := _check_emergency_conditions self today balances in
  status self' = PAUSED
  /\ (is_running self' = false <->
      is_running self = false
      \/ emergency_stop_loss (config self) < current_drawdown (metrics self)).
Proof.
  intros Hc Hn. unfold _check_emergency_conditions.
  destruct (gtb _ _) eqn:Eg.
  - apply gtb_gt in Eg.
    destruct (emergency_stop_frame
                (add_log self (mkLog CRITICAL "Drawdown excedido: " None)) balances)
      as (C & _ & R & T & _).
    cbv zeta in *. rewrite T, C. cbn [add_log with_status trade_history config].
    rewrite Hc. apply Z.leb_le in Hn. rewrite Hn. cbn [pause with_status status
      is_running add_log]. rewrite R. split; [reflexivity|]. split; auto.
  - apply gtb_le in Eg. rewrite Hc. apply Z.leb_le in Hn. rewrite Hn.
    cbn. split; [reflexivity|]. split; [auto|]. intros [H|H]; [exact H|lra].
Qed.

Lemma execute_trade_flat (self : Engine) (signal : TradingSignal)
    (outcome : OrderOutcome) :
  flat_metrics self ->
  let self' := _execute_trade self signal outcome in
  Forall (fun t => tr_pnl t = None) (trade_history self')
  /\ (total_trades (metrics self') = length (trade_history self')
      /\ winning_trades (metrics self') = O
      /\ losing_trades (metrics self') = O
      /\ total_pnl (metrics self') == 0
      /\ win_rate (metrics self') == 0).
Proof.
  intros (F & H). unfold _execute_trade.
  destruct (negb (exchange_manager self) || dry_run (config self));
    [cbn; auto|].
  destruct outcome; cbn; auto.
  destruct H as (H1 & H2 & H3 & H4 & H5). split.
  - apply Forall_app. split; [exact F|]. constructor; [reflexivity|constructor].
  - rewrite length_app, H1. cbn. auto.
Qed.

End EngineCycle.

Section EngineLoop.
Import Py PyFacts AutopilotEngine.

Variable format_2f : Q -> string.
Variable str_exc : Exception -> string.

(** What one cycle can change. *)
Lemma analyze_and_trade_frame (self : Engine) (input : CycleInput) :
  let self' := _analyze_and_trade format_2f str_exc self input in
  let signal := fst (cycle_signal format_2f str_exc self input) in
  config self' = config self
  /\ exchange_manager self' = exchange_manager self
  /\ ollama_ai self' = ollama_ai self
  /\ current_drawdown (metrics self') = current_drawdown (metrics self)
  /\ (trade_history self' = trade_history self
      \/ exists execution,
           ci_order input = OrderExecuted execution
           /\ trading_enabled (config self) = true
           /\ dry_run (config self) = false
           /\ exchange_manager self = true
           /\ action signal <> "hold"
           /\ min_confidence_threshold (config self) <= confidence signal
           /\ trade_history self'
              = trade_history self
                ++ [mkTradeRecord (Some (ex_day execution)) (ex_exchange execution)
                      (ex_symbol execution) (ex_side execution)
                      (ex_amount execution) (ex_price execution)
                      (ex_fees execution) (confidence signal)
                      (reasoning signal) None])
  /\ (current_drawdown (metrics self) <= emergency_stop_loss (config self) ->
      is_running self' = is_running self
      /\ (status self' = status self \/ status self' = PAUSED)).
Proof.
  intros self' signal. subst self' signal. unfold _analyze_and_trade.
  destruct (ci_market_data input) as [|md mds] eqn:Emd.
  { cbn. repeat split; auto. }
  destruct (cycle_signal format_2f str_exc self input) as [signal logged].
  cbn [fst].
  set (self1 := mkEngine (config self) (status self) (is_running self)
                         (trade_history self) (metrics self)
                         (exchange_manager self) (ollama_ai self)
                         (log self ++ logged)).
  set (gate := geb (confidence signal) (min_confidence_threshold (config self1))
               && negb (String.eqb (action signal) "hold")
               && trading_enabled (config self1) && negb (dry_run (config self1))).
  set (self2 := if gate then _execute_trade self1 signal (ci_order input) else self1).
  assert (H2 : config self2 = config self
               /\ status self2 = status self
               /\ is_running self2 = is_running self
               /\ exchange_manager self2 = exchange_manager self
               /\ ollama_ai self2 = ollama_ai self
               /\ current_drawdown (metrics self2) = current_drawdown (metrics self)
               /\ (trade_history self2 = trade_history self
                   \/ exists execution,
                        ci_order input = OrderExecuted execution
                        /\ trading_enabled (config self) = true
                        /\ dry_run (config self) = false
                        /\ exchange_manager self = true
                        /\ action signal <> "hold"
                        /\ min_confidence_threshold (config self) <= confidence signal
                        /\ trade_history self2
                           = trade_history self
                             ++ [mkTradeRecord (Some (ex_day execution))
                                   (ex_exchange execution) (ex_symbol execution)
                                   (ex_side execution) (ex_amount execution)
                                   (ex_price execution) (ex_fees execution)
                                   (confidence signal) (reasoning signal) None])).
  { unfold self2. destruct gate eqn:Eg; [|cbn; auto 10].
    unfold gate in Eg. cbn [config self1] in Eg.
    apply andb_true_iff in Eg as [Eg Hdry].
    apply andb_true_iff in Eg as [Eg Hte].
    apply andb_true_iff in Eg as [Hconf Hact].
    apply negb_true_iff in Hdry. apply negb_true_iff in Hact.
    apply String.eqb_neq in Hact.
    unfold geb in Hconf. apply negb_true_iff, ltb_ge in Hconf.
    destruct (execute_trade_history self1 signal (ci_order input))
      as (E1 & E2 & E3 & E4 & E5 & E6 & [E7|(ex & F1 & F2 & F3 & F4)]);
      cbn [config status is_running exchange_manager ollama_ai metrics
           trade_history self1] in *;
      repeat split; try assumption; [left; assumption|].
    right. exists ex. repeat split; assumption. }
  destruct H2 as (C2 & S2 & R2 & X2 & O2 & D2 & T2).
  destruct (update_metrics_frame self2 (ci_now input))
    as (C3 & S3 & R3 & T3 & X3 & O3 & D3).
  set (self3 := _update_metrics self2 (ci_now input)) in *.
  destruct (check_emergency_frame self3 (ci_today input) (ci_balances input))
    as (C4 & T4 & M4 & X4 & O4).
  split; [congruence|]. split; [congruence|]. split; [congruence|].
  split; [congruence|]. split.
  - rewrite T4, T3. exact T2.
  - intros Hdd.
    destruct (check_emergency_no_drawdown self3 (ci_today input)
                                          (ci_balances input)) as (Hr & Hs);
      [rewrite D3, D2, C3, C2; exact Hdd|].
    split; [congruence|]. destruct Hs as [H|H]; [left; congruence|right; exact H].
Qed.

Lemma main_loop_no_trade (inputs : list CycleInput) :
  forall self : Engine,
    trading_enabled (config self) = false
    \/ dry_run (config self) = true
    \/ exchange_manager self = false ->
    trade_history (_main_loop format_2f str_exc self inputs) = trade_history self.
Proof.
  induction inputs as [|input inputs IH]; intros self H; [reflexivity|].
  cbn [_main_loop]. unfold _main_loop_iteration.
  destruct (is_running self); [|reflexivity].
  destruct (status self); try (apply IH; exact H).
  destruct (analyze_and_trade_frame self input) as (C & X & _ & _ & T & _).
  rewrite IH by (rewrite C, X; exact H).
  destruct T as [T|(ex & _ & Te & Td & Tx & _)]; [exact T|].
  destruct H as [H|[H|H]]; congruence.
Qed.

Lemma main_loop_no_emergency (inputs : list CycleInput) :
  forall self : Engine,
    current_drawdown (metrics self) <= emergency_stop_loss (config self) ->
    let self' := _main_loop format_2f str_exc self inputs in
    current_drawdown (metrics self') = current_drawdown (metrics self)
    /\ config self' = config self
    /\ is_running self' = is_running self
    /\ (status self <> EMERGENCY_STOP -> status self' <> EMERGENCY_STOP).
Proof.
  induction inputs as [|input inputs IH]; intros self H; cbn [_main_loop].
  - auto.
  - unfold _main_loop_iteration.
    destruct (is_running self) eqn:Er; [|auto].
    destruct (status self) eqn:Es;
      try (destruct (IH self H) as (I1 & I2 & I3 & I4);
           rewrite Es in I4; repeat split; try congruence; exact I4).
    destruct (analyze_and_trade_frame self input) as (C & _ & _ & D & _ & S).
    destruct (S H) as (R1 & S1).
    destruct (IH (_analyze_and_trade format_2f str_exc self input))
      as (I1 & I2 & I3 & I4); [rewrite D, C; exact H|].
    cbv zeta. repeat split; try congruence.
    intros _. apply I4. rewrite Es in S1. destruct S1 as [-> | ->]; discriminate.
Qed.

Lemma analyze_and_trade_flat (self : Engine) (input : CycleInput) :
  flat_metrics self ->
  flat_metrics (_analyze_and_trade format_2f str_exc self input).
Proof.
  intros H. unfold _analyze_and_trade.
  destruct (ci_market_data input) as [|md mds]; [exact H|].
  destruct (cycle_signal format_2f str_exc self input) as [signal logged].
  set (self1 := mkEngine _ _ _ _ _ _ _ _).
  assert (H1 : flat_metrics self1) by exact H.
  match goal with
  | |- context [_update_metrics ?s _] => set (self2 := s)
  end.
  assert (H2 : flat_metrics self2).
  { unfold self2. destruct (_ && _); [|exact H1].
    apply (execute_trade_flat self1 signal (ci_order input) H1). }
  destruct H2 as (F2 & C2).
  pose proof (update_metrics_flat self2 (ci_now input) F2 (or_introl C2)) as H3.
  destruct (check_emergency_frame (_update_metrics self2 (ci_now input))
              (ci_today input) (ci_balances input)) as (_ & T & M & _).
  unfold flat_metrics in *. cbv zeta in T, M. rewrite T, M. exact H3.
Qed.

Lemma main_loop_flat (inputs : list CycleInput) :
  forall self : Engine,
    flat_metrics self ->
    flat_metrics (_main_loop format_2f str_exc self inputs).
Proof.
  induction inputs as [|input inputs IH]; intros self H; [exact H|].
  cbn [_main_loop]. unfold _main_loop_iteration.
  destruct (is_running self); [|exact H].
  destruct (status self); try (apply IH; exact H).
  apply IH, analyze_and_trade_flat, H.
Qed.

Lemma analyze_and_trade_limit (self : Engine) (input : CycleInput) (n : nat) :
  ci_market_data input <> [] ->
  let self' := _analyze_and_trade format_2f str_exc self input in
  count_today (ci_today input) (trade_history self') = Some n ->
  (max_daily_trades (config self) <= Z.of_nat n)%Z ->
  status self' = PAUSED.
Proof.
  intros Hmd self' Hc Hn. subst self'. revert Hc. unfold _analyze_and_trade.
  destruct (ci_market_data input) as [|md mds]; [congruence|].
  destruct (cycle_signal format_2f str_exc self input) as [signal logged].
  set (self1 := mkEngine _ _ _ _ _ _ _ _).
  match goal with
  | |- context [_update_metrics ?s _] => set (self2 := s)
  end.
  assert (C2 : config self2 = config self).
  { unfold self2. destruct (_ && _); [|reflexivity].
    apply (execute_trade_history self1 signal (ci_order input)). }
  destruct (update_metrics_frame self2 (ci_now input))
    as (C3 & _ & _ & T3 & _).
  set (self3 := _update_metrics self2 (ci_now input)) in *.
  destruct (check_emergency_frame self3 (ci_today input) (ci_balances input))
    as (_ & T4 & _).
  cbv zeta in T4. rewrite T4. intros Hc.
  apply (check_emergency_limit self3 (ci_today input) (ci_balances input) n Hc).
  rewrite C3, C2. exact Hn.
Qed.

Lemma main_loop_idle (inputs : list CycleInput) (self : Engine) :
  status self <> RUNNING ->
  _main_loop format_2f str_exc self inputs = self.
Proof.
  intros H. induction inputs as [|input inputs IH]; [reflexivity|].
  cbn [_main_loop]. unfold _main_loop_iteration.
  destruct (is_running self); [|reflexivity].
  destruct (status self); try exact IH. congruence.
Qed.

End EngineLoop.

(** X19. An engine that runs with trading disabled, in dry-run mode or
    without an exchange manager never records a trade, however many cycles
    its main loop makes and whatever the market data, the analyses, the
    advisory and the exchanges return.  In any configuration, a cycle that
    does record a trade acted on a signal that is not ['hold'] and whose
    (advisory-adjusted) confidence reaches [min_confidence_threshold]. *)
Theorem X19_no_trade_unless_enabled_and_confident :
  forall (format_2f : Q -> string) (str_exc : Py.Exception -> string)
         (self : AutopilotEngine.Engine),
    (AutopilotEngine.trading_enabled (AutopilotEngine.config self) = false
     \/ AutopilotEngine.dry_run (AutopilotEngine.config self) = true
     \/ AutopilotEngine.exchange_manager self = false ->
     forall inputs : list AutopilotEngine.CycleInput,
       AutopilotEngine.trade_history
         (AutopilotEngine._main_loop format_2f str_exc self inputs)
       = AutopilotEngine.trade_history self)
    /\ (forall input : AutopilotEngine.CycleInput,
           let signal :=
             fst (AutopilotEngine.cycle_signal format_2f str_exc self input) in
           AutopilotEngine.trade_history
             (AutopilotEngine._analyze_and_trade format_2f str_exc self input)
           <> AutopilotEngine.trade_history self ->
           AutopilotEngine.action signal <> "hold"
           /\ AutopilotEngine.min_confidence_threshold (AutopilotEngine.config self)
              <= AutopilotEngine.confidence signal).
Proof.
  intros format_2f str_exc self. split.
  - intros H inputs. apply main_loop_no_trade. exact H.
  - intros input signal Hne.
    destruct (analyze_and_trade_frame format_2f str_exc self input)
      as (_ & _ & _ & _ & [T|(ex & _ & _ & _ & _ & Ha & Hc & _)] & _);
      [congruence|]. split; assumption.
Qed.

Lemma X19_witness :
  (AutopilotEngine.trading_enabled (AutopilotEngine.config analysis_engine) = false
   \/ AutopilotEngine.dry_run (AutopilotEngine.config analysis_engine) = true
   \/ AutopilotEngine.exchange_manager analysis_engine = false)
  /\ AutopilotEngine.trade_history
       (AutopilotEngine._main_loop (fun _ => "") (fun _ => "") analysis_engine
          [trading_cycle 1; trading_cycle 1])
     = []
  /\ AutopilotEngine.trade_history
       (AutopilotEngine._analyze_and_trade (fun _ => "") (fun _ => "")
          live_engine (trading_cycle 1))
     <> AutopilotEngine.trade_history live_engine
  /\ AutopilotEngine.action
       (fst (AutopilotEngine.cycle_signal (fun _ => "") (fun _ => "")
               live_engine (trading_cycle 1)))
     <> "hold".
Proof.
  assert (H : AutopilotEngine.trading_enabled (AutopilotEngine.config analysis_engine)
              = false
              \/ AutopilotEngine.dry_run (AutopilotEngine.config analysis_engine) = true
              \/ AutopilotEngine.exchange_manager analysis_engine = false)
    by (left; reflexivity).
  assert (N : AutopilotEngine.trade_history
                (AutopilotEngine._analyze_and_trade (fun _ => "") (fun _ => "")
                   live_engine (trading_cycle 1))
              <> AutopilotEngine.trade_history live_engine)
    by (vm_compute; discriminate).
  split; [exact H|]. split; [|split; [exact N|]].
  - exact (proj1 (X19_no_trade_unless_enabled_and_confident
                    (fun _ => "") (fun _ => "") analysis_engine) H
                 [trading_cycle 1; trading_cycle 1]).
  - exact (proj1 (proj2 (X19_no_trade_unless_enabled_and_confident
                           (fun _ => "") (fun _ => "") live_engine)
                        (trading_cycle 1) N)).
Defined.

(** X20. The engine never writes [metrics.current_drawdown]: whatever the
    cycles of the main loop receive, it keeps the value it had.  So for an
    engine whose drawdown does not exceed [emergency_stop_loss] (a fresh
    engine has 0.0), no cycle triggers the emergency stop: the status never
    becomes [EMERGENCY_STOP] and the loop never clears [is_running]. *)
Theorem X20_engine_drawdown_stop_never_fires :
  forall (format_2f : Q -> string) (str_exc : Py.Exception -> string)
         (self : AutopilotEngine.Engine)
         (inputs : list AutopilotEngine.CycleInput),
    AutopilotEngine.current_drawdown (AutopilotEngine.metrics self)
    <= AutopilotEngine.emergency_stop_loss (AutopilotEngine.config self) ->
    AutopilotEngine.status self <> AutopilotEngine.EMERGENCY_STOP ->
    let self' := AutopilotEngine._main_loop format_2f str_exc self inputs in
    AutopilotEngine.current_drawdown (AutopilotEngine.metrics self')
    = AutopilotEngine.current_drawdown (AutopilotEngine.metrics self)
    /\ AutopilotEngine.is_running self' = AutopilotEngine.is_running self
    /\ AutopilotEngine.status self' <> AutopilotEngine.EMERGENCY_STOP.
Proof.
  intros format_2f str_exc self inputs Hd Hs.
  destruct (main_loop_no_emergency format_2f str_exc inputs self Hd)
    as (D & _ & R & S).
  cbv zeta. auto.
Qed.

Lemma X20_witness :
  AutopilotEngine.current_drawdown (AutopilotEngine.metrics live_engine)
  <= AutopilotEngine.emergency_stop_loss (AutopilotEngine.config live_engine)
  /\ AutopilotEngine.is_running
       (AutopilotEngine._main_loop (fun _ => "") (fun _ => "") live_engine
          [trading_cycle 1; trading_cycle 1; trading_cycle 2])
     = true.
Proof.
  assert (Hd : AutopilotEngine.current_drawdown (AutopilotEngine.metrics live_engine)
               <= AutopilotEngine.emergency_stop_loss
                    (AutopilotEngine.config live_engine))
    by (vm_compute; discriminate).
  split; [exact Hd|].
  refine (proj1 (proj2 (X20_engine_drawdown_stop_never_fires
                          (fun _ => "") (fun _ => "") live_engine
                          [trading_cycle 1; trading_cycle 1; trading_cycle 2]
                          Hd _))).
  vm_compute. discriminate.
Defined.

(** X21. The trade records the engine writes carry no ['pnl'] key, and
    [_update_metrics] reads a missing ['pnl'] as 0.  So starting from an
    engine whose rows have no ['pnl'] and whose counters agree with that (a
    fresh engine), after any number of cycles and trades the wins, the
    losses, the total profit and the win rate are still 0, while
    [total_trades] counts the recorded trades. *)
Theorem X21_engine_trades_never_count_as_wins_or_losses :
  forall (format_2f : Q -> string) (str_exc : Py.Exception -> string)
         (self : AutopilotEngine.Engine)
         (inputs : list AutopilotEngine.CycleInput),
    flat_metrics self ->
    flat_metrics (AutopilotEngine._main_loop format_2f str_exc self inputs).
Proof.
  intros format_2f str_exc self inputs H. apply main_loop_flat. exact H.
Qed.

Lemma X21_witness :
  flat_metrics live_engine
  /\ flat_metrics
       (AutopilotEngine._main_loop (fun _ => "") (fun _ => "") live_engine
          [trading_cycle 1; trading_cycle 1])
  /\ length (AutopilotEngine.trade_history
               (AutopilotEngine._main_loop (fun _ => "") (fun _ => "") live_engine
                  [trading_cycle 1; trading_cycle 1])) = 2%nat.
Proof.
  assert (H : flat_metrics live_engine).
  { unfold flat_metrics. cbn. repeat split; try reflexivity. constructor. }
  split; [exact H|]. split.
  - exact (X21_engine_trades_never_count_as_wins_or_losses
             (fun _ => "") (fun _ => "") live_engine
             [trading_cycle 1; trading_cycle 1] H).
  - vm_compute. reflexivity.
Defined.

(** X22. When, at the end of a cycle, the trades of the day have reached
    [max_daily_trades], the engine is [PAUSED] (also when the same check
    has just made an emergency stop).  A paused engine is never resumed by
    the main loop itself: the following cycles, on the same or on a later
    day, leave it exactly as it is; only [resume] sets it [RUNNING]
    again. *)
Theorem X22_daily_limit_pause_is_never_lifted_by_loop :
  forall (format_2f : Q -> string) (str_exc : Py.Exception -> string)
         (self : AutopilotEngine.Engine) (input : AutopilotEngine.CycleInput)
         (n : nat) (inputs : list AutopilotEngine.CycleInput),
    AutopilotEngine.ci_market_data input <> [] ->
    let self' := AutopilotEngine._analyze_and_trade format_2f str_exc self input in
    AutopilotEngine.count_today (AutopilotEngine.ci_today input)
                                (AutopilotEngine.trade_history self') = Some n ->
    (AutopilotEngine.max_daily_trades (AutopilotEngine.config self)
     <= Z.of_nat n)%Z ->
    AutopilotEngine.status self' = AutopilotEngine.PAUSED
    /\ AutopilotEngine._main_loop format_2f str_exc self' inputs = self'
    /\ AutopilotEngine.status (AutopilotEngine.resume self')
       = AutopilotEngine.RUNNING.
Proof.
  intros format_2f str_exc self input n inputs Hmd self' Hc Hn.
  assert (Hp : AutopilotEngine.status self' = AutopilotEngine.PAUSED)
    by exact (analyze_and_trade_limit format_2f str_exc self input n Hmd Hc Hn).
  split; [exact Hp|]. split; [|reflexivity].
  apply main_loop_idle. rewrite Hp. discriminate.
Qed.

Lemma X22_witness :
  let self :=
    AutopilotEngine._analyze_and_trade (fun _ => "") (fun _ => "") live_engine
                                       (trading_cycle 1) in
  AutopilotEngine.status self = AutopilotEngine.RUNNING
  /\ AutopilotEngine.status
       (AutopilotEngine._analyze_and_trade (fun _ => "") (fun _ => "") self
                                           (trading_cycle 1))
     = AutopilotEngine.PAUSED.
Proof.
  intros self. split; [vm_compute; reflexivity|].
  refine (proj1 (X22_daily_limit_pause_is_never_lifted_by_loop
                   (fun _ => "") (fun _ => "") self (trading_cycle 1) 2
                   [trading_cycle 2] _ _ _)).
  - vm_compute. discriminate.
  - vm_compute. reflexivity.
  - vm_compute. discriminate.
Defined.

(** ** The advisory adjustment (autopilot_engine.py) *)

Section AdvisoryFacts.
Import Py PyFacts AutopilotEngine.

Lemma min_one_scaled (c k : Q) :
  0 <= c <= 1 -> 1 <= k ->
  c <= min 1.0 (c * k) /\ min 1.0 (c * k) <= 1 /\ min 1.0 (c * k) <= c * k.
Proof.
  intros Hc Hk. destruct (min_cases 1.0 (c * k)) as [[H ->]|[H ->]]; nra.
Qed.

Lemma adjust_signal_frame (format_2f : Q -> string) (signal : TradingSignal)
    (ai_validation : option AIValidation) :
  let signal' := _adjust_signal_with_ai format_2f signal ai_validation in
  symbol signal' = symbol signal
  /\ action signal' = action signal
  /\ price signal' = price signal
  /\ stop_loss signal' = stop_loss signal
  /\ take_profit signal' = take_profit signal
  /\ position_size signal' = position_size signal.
Proof.
  unfold _adjust_signal_with_ai. destruct ai_validation as [v|]; [|cbn; auto 10].
  cbv zeta.
  destruct (String.eqb (default "hold" (ai_recommendation v)) (action signal));
    cbn [negb andb];
    [|destruct (negb (String.eqb (default "hold" (ai_recommendation v)) "hold"))];
    cbn [negb andb];
    destruct (String.eqb (default "medio" (ai_risk_assessment v)) "alto");
    try destruct (String.eqb (default "medio" (ai_risk_assessment v)) "bajo");
    cbn; auto 10.
Qed.

Lemma adjust_signal_confidence (format_2f : Q -> string) (signal : TradingSignal)
    (ai_validation : option AIValidation) :
  0 <= confidence signal <= 1 ->
  let signal' := _adjust_signal_with_ai format_2f signal ai_validation in
  0.72 * confidence signal <= confidence signal'
  /\ confidence signal' <= 1
  /\ confidence signal' <= 1.155 * confidence signal
  /\ (forall v : AIValidation,
        ai_validation = Some v ->
        default "hold" (ai_recommendation v) <> "hold" ->
        default "hold" (ai_recommendation v) <> action signal ->
        confidence signal' <= 0.84 * confidence signal).
Proof.
  intros Hc. unfold _adjust_signal_with_ai.
  destruct ai_validation as [v|];
    [|cbn; repeat split; try lra; intros v' Hv; discriminate].
  cbv zeta.
  set (c := confidence signal) in *.
  destruct (min_one_scaled c 1.1 Hc ltac:(lra)) as (A1 & A2 & A3).
  destruct (String.eqb (default "hold" (ai_recommendation v)) (action signal))
    eqn:Ea; cbn [negb andb].
  - apply String.eqb_eq in Ea.
    destruct (String.eqb (default "medio" (ai_risk_assessment v)) "alto");
      [|destruct (String.eqb (default "medio" (ai_risk_assessment v)) "bajo")];
      cbn [confidence with_confidence]; fold c;
      try (destruct (min_one_scaled (min 1.0 (c * 1.1)) 1.05 ltac:(lra) ltac:(lra))
             as (B1 & B2 & B3));
      (split; [nra|]); (split; [nra|]); (split; [nra|]);
      intros v' Hv Hh Hn; injection Hv as <-; congruence.
  - destruct (String.eqb (default "hold" (ai_recommendation v)) "hold") eqn:Eh;
      cbn [negb andb].
    + apply String.eqb_eq in Eh.
      destruct (String.eqb (default "medio" (ai_risk_assessment v)) "alto");
        [|destruct (String.eqb (default "medio" (ai_risk_assessment v)) "bajo")];
        cbn [confidence with_confidence]; fold c;
        try (destruct (min_one_scaled c 1.05 Hc ltac:(lra)) as (B1 & B2 & B3));
        (split; [nra|]); (split; [nra|]); (split; [nra|]);
        intros v' Hv Hh Hn; injection Hv as <-; congruence.
    + destruct (String.eqb (default "medio" (ai_risk_assessment v)) "alto");
        [|destruct (String.eqb (default "medio" (ai_risk_assessment v)) "bajo")];
        cbn [confidence with_confidence]; fold c;
        try (destruct (min_one_scaled (c * 0.8) 1.05 ltac:(lra) ltac:(lra))
               as (B1 & B2 & B3));
        (split; [nra|]); (split; [nra|]); (split; [nra|]);
        intros v' Hv Hh Hn; nra.
Qed.

End AdvisoryFacts.

(** X23. The advisory adjustment changes only the confidence and the
    reasoning of a signal: symbol, action, price, stop-loss, take-profit
    and the position size (computed from the confidence before the
    adjustment) stay.  A confidence in [0, 1] stays in [0, 1] and is scaled
    by a factor between 0.72 and 1.155; when the advisory recommends another
    action than the signal's (and not ['hold']), the confidence drops to at
    most 0.84 of its value. *)
Theorem X23_advisory_adjustment_bounded :
  forall (format_2f : Q -> string) (signal : AutopilotEngine.TradingSignal)
         (ai_validation : option AutopilotEngine.AIValidation),
    0 <= AutopilotEngine.confidence signal <= 1 ->
    let signal' :=
      AutopilotEngine._adjust_signal_with_ai format_2f signal ai_validation in
    (AutopilotEngine.symbol signal' = AutopilotEngine.symbol signal
     /\ AutopilotEngine.action signal' = AutopilotEngine.action signal
     /\ AutopilotEngine.price signal' = AutopilotEngine.price signal
     /\ AutopilotEngine.stop_loss signal' = AutopilotEngine.stop_loss signal
     /\ AutopilotEngine.take_profit signal' = AutopilotEngine.take_profit signal
     /\ AutopilotEngine.position_size signal'
        = AutopilotEngine.position_size signal)
    /\ 0.72 * AutopilotEngine.confidence signal
       <= AutopilotEngine.confidence signal'
    /\ AutopilotEngine.confidence signal' <= 1
    /\ AutopilotEngine.confidence signal'
       <= 1.155 * AutopilotEngine.confidence signal
    /\ (forall v : AutopilotEngine.AIValidation,
          ai_validation = Some v ->
          default "hold" (AutopilotEngine.ai_recommendation v) <> "hold" ->
          default "hold" (AutopilotEngine.ai_recommendation v)
          <> AutopilotEngine.action signal ->
          AutopilotEngine.confidence signal'
          <= 0.84 * AutopilotEngine.confidence signal).
Proof.
  intros format_2f signal ai_validation Hc signal'. split.
  - apply adjust_signal_frame.
  - apply adjust_signal_confidence. exact Hc.
Qed.

Lemma X23_witness :
  0 <= AutopilotEngine.confidence strong_signal <= 1
  /\ AutopilotEngine.confidence
       (AutopilotEngine._adjust_signal_with_ai (fun _ => "") strong_signal
          (Some contrary_validation))
     <= 0.84 * AutopilotEngine.confidence strong_signal.
Proof.
  assert (H : 0 <= AutopilotEngine.confidence strong_signal <= 1)
    by (split; vm_compute; discriminate).
  split; [exact H|].
  refine (proj2 (proj2 (proj2 (proj2 (X23_advisory_adjustment_bounded
            (fun _ => "") strong_signal (Some contrary_validation) H))))
          contrary_validation eq_refl _ _).
  - vm_compute. discriminate.
  - vm_compute. discriminate.
Defined.

(** ** The fusion of the strategies' signals (autopilot_engine.py) *)

Section FusionErrors.
Import Py PyFacts AutopilotEngine.

Lemma collect_signals_is_ok (symbol : string) (items : AnalysisResults) :
  forall (signals : list WeightedSignal) (contributions : dict Q),
    is_ok (collect_signals symbol items signals contributions) = true
    <-> Forall (fun e => valid_for symbol e = true -> known_strategy e) items.
Proof.
  induction items as [|[strategy results] items IH]; intros signals contributions.
  - cbn. split; [constructor|reflexivity].
  - cbn [collect_signals]. rewrite Forall_cons.
    unfold valid_for at 1, known_strategy at 1. cbn [fst snd].
    destruct (dict_get symbol results) as [sd|];
      [|rewrite IH; split; [intros H; split; [discriminate|exact H]|tauto]].
    destruct (sd_error sd);
      [rewrite IH; split; [intros H; split; [discriminate|exact H]|tauto]|].
    destruct (StrategyWeight_value (upper strategy)) as [w|e]; cbn [bind is_ok].
    + rewrite IH. split; [intros H; split; [reflexivity|exact H]|tauto].
    + split; [discriminate|]. intros [H _]. specialize (H eq_refl). discriminate.
Qed.

Lemma consolidate_body_is_ok (format_2f : Q -> string) (self : AutopilotConfig)
    (now : Z) (ar : AnalysisResults) (md : MarketData) :
  is_ok (consolidate_body format_2f self now ar md) = true
  <-> exists (sym : string) (closes : list Q) (rest : MarketData) (p : Q),
        md = (sym, closes) :: rest
        /\ last closes = Some p
        /\ Forall (fun e => valid_for sym e = true -> known_strategy e) ar.
Proof.
  unfold consolidate_body.
  destruct md as [|[sym closes] rest]; cbn [bind fst snd].
  { split; [discriminate|]. intros (? & ? & ? & ? & H & _). discriminate. }
  unfold last_close. destruct (last closes) as [p|] eqn:El; cbn [bind].
  - pose proof (collect_signals_is_ok sym ar [] []) as Hc.
    destruct (collect_signals sym ar [] []) as [[signals contributions]|e];
      cbn [bind is_ok] in *.
    + assert (Hok : Forall (fun e => valid_for sym e = true -> known_strategy e) ar)
        by (apply Hc; reflexivity).
      split.
      * intros _. exists sym, closes, rest, p. auto.
      * intros _. destruct signals; [reflexivity|].
        destruct (_ && _); [|destruct (_ && _)];
          destruct (_calculate_stop_take_profit _ _ _ _); reflexivity.
    + split; [discriminate|].
      intros (sym' & closes' & rest' & p' & E & _ & F). injection E as <- <- <-.
      apply Hc in F. discriminate.
  - split; [discriminate|].
    intros (sym' & closes' & rest' & p' & E & L & _). injection E as <- <- <-.
    congruence.
Qed.

End FusionErrors.

(** X24. The fusion fails closed.  It logs nothing exactly when there is
    market data, the first symbol has a last close, and every strategy with
    a valid result for that symbol has a weight in [StrategyWeight].
    Otherwise (a single strategy name without a weight is enough, whatever
    the other strategies say) it logs one error and returns the signal
    ['UNKNOWN'], ['hold'], confidence 0.0, price 0.0, without stop-loss and
    take-profit. *)
Theorem X24_fusion_fails_closed :
  forall (format_2f : Q -> string) (str_exc : Py.Exception -> string)
         (self : AutopilotEngine.AutopilotConfig) (now : Z)
         (ar : AutopilotEngine.AnalysisResults) (md : AutopilotEngine.MarketData),
    let r := AutopilotEngine._consolidate_signals format_2f str_exc self now ar md in
    (snd r = []
     <-> exists (sym : string) (closes : list Q)
                (rest : AutopilotEngine.MarketData) (p : Q),
           md = (sym, closes) :: rest
           /\ last closes = Some p
           /\ Forall (fun e => valid_for sym e = true -> known_strategy e) ar)
    /\ (snd r <> [] ->
        AutopilotEngine.symbol (fst r) = "UNKNOWN"
        /\ AutopilotEngine.action (fst r) = "hold"
        /\ AutopilotEngine.confidence (fst r) = 0.0
        /\ AutopilotEngine.price (fst r) = 0.0
        /\ AutopilotEngine.stop_loss (fst r) = None
        /\ AutopilotEngine.take_profit (fst r) = None
        /\ exists e : Py.Exception,
             snd r = [Py.mkLog Py.ERROR "Error consolidando señales: " (Some e)]).
Proof.
  intros format_2f str_exc self now ar md r. subst r.
  pose proof (consolidate_body_is_ok format_2f self now ar md) as H.
  unfold AutopilotEngine._consolidate_signals.
  destruct (AutopilotEngine.consolidate_body format_2f self now ar md) as [signal|e];
    cbn [Py.is_ok fst snd] in *.
  - split; [split; [intros _; apply H; reflexivity|reflexivity]|].
    intros N. congruence.
  - split.
    + split; [discriminate|]. intros E. apply H in E. discriminate.
    + intros _. repeat split. exists e. reflexivity.
Qed.

Lemma X24_witness :
  snd (AutopilotEngine._consolidate_signals (fun _ => "") (fun _ => "")
         live_config 1 unknown_results fusion_market_data) <> []
  /\ AutopilotEngine.action
       (fst (AutopilotEngine._consolidate_signals (fun _ => "") (fun _ => "")
               live_config 1 unknown_results fusion_market_data)) = "hold"
  /\ AutopilotEngine.action
       (fst (AutopilotEngine._consolidate_signals (fun _ => "") (fun _ => "")
               live_config 1 strong_results fusion_market_data)) = "buy".
Proof.
  assert (N : snd (AutopilotEngine._consolidate_signals (fun _ => "") (fun _ => "")
                     live_config 1 unknown_results fusion_market_data) <> [])
    by (vm_compute; discriminate).
  split; [exact N|]. split; [|vm_compute; reflexivity].
  exact (proj1 (proj2 (proj2 (X24_fusion_fails_closed
                                (fun _ => "") (fun _ => "") live_config 1
                                unknown_results fusion_market_data) N))).
Defined.

Section FusionBounds.
Import Py PyFacts AutopilotEngine.

Lemma fold_left_Qplus_acc (l : list Q) :
  forall a : Q, fold_left Qplus l a == a + fold_left Qplus l 0.
Proof.
  induction l as [|x l IH]; intros a; cbn [fold_left]; [ring|].
  rewrite (IH (a + x)), (IH (0 + x)). ring.
Qed.

Lemma sum_cons (x : Q) (l : list Q) : sum (x :: l) == x + sum l.
Proof. unfold sum. cbn [fold_left]. rewrite fold_left_Qplus_acc. ring. Qed.

Lemma sum_map_zero {A} (f : A -> Q) (l : list A) :
  (forall x, In x l -> f x == 0) -> sum (map f l) == 0.
Proof.
  induction l as [|x l IH]; intros H; [reflexivity|].
  cbn [map]. rewrite sum_cons, IH, (H x) by (intros; (apply H; right; assumption)
                                              || (left; reflexivity)).
  ring.
Qed.

Lemma sum_map_filter_le {A} (f : A -> Q) (p : A -> bool) (l : list A) :
  Forall (fun x => 0 <= f x) l ->
  0 <= sum (map f (List.filter p l)) <= sum (map f l).
Proof.
  induction 1 as [|x l Hx _ IH]; [cbn; lra|].
  cbn [List.filter map]. destruct (p x); cbn [map]; rewrite ?sum_cons; lra.
Qed.

Lemma indicator_sum (k0 : string) (v0 : Q) (ks : list string) :
  0 <= v0 -> List.NoDup ks ->
  sum (map (fun k => if String.eqb k0 k then v0 else 0) ks) <= v0.
Proof.
  intros Hv. induction 1 as [|k ks Hk _ IH]; [cbn; exact Hv|].
  cbn [map]. rewrite sum_cons. destruct (String.eqb k0 k) eqn:E; [|lra].
  apply String.eqb_eq in E. subst k0.
  rewrite sum_map_zero; [lra|].
  intros x Hx. destruct (String.eqb k x) eqn:E; [|reflexivity].
  apply String.eqb_eq in E. subst x. contradiction.
Qed.

Lemma dict_get_nonneg (d : dict Q) (k : string) :
  Forall (fun kv => 0 <= snd kv) d -> 0 <= default 0 (dict_get k d).
Proof.
  induction 1 as [|[k0 v0] d Hv _ IH]; cbn [dict_get]; [cbn; lra|].
  destruct (String.eqb k0 k); [exact Hv|exact IH].
Qed.

(** Distinct keys look up at most the total of a dict of non-negative
    values. *)
Lemma dict_sum_bound (d : dict Q) :
  Forall (fun kv => 0 <= snd kv) d ->
  forall ks : list string,
    List.NoDup ks ->
    sum (map (fun k => default 0 (dict_get k d)) ks) <= sum (map snd d).
Proof.
  induction 1 as [|[k0 v0] d Hv Hd IH]; intros ks Hks.
  - rewrite sum_map_zero; [cbn; lra|]. intros; reflexivity.
  - cbn [map snd]. rewrite sum_cons.
    assert (Hs : sum (map (fun k => default 0 (dict_get k ((k0, v0) :: d))) ks)
                 <= sum (map (fun k => if String.eqb k0 k then v0 else 0) ks)
                    + sum (map (fun k => default 0 (dict_get k d)) ks)).
    { clear Hks IH. induction ks as [|k ks IHk]; [cbn; lra|].
      cbn [map]. rewrite !sum_cons. cbn [dict_get] in IHk |- *.
      pose proof (dict_get_nonneg d k Hd).
      cbn [snd] in Hv.
      destruct (String.eqb k0 k); unfold default, from_option, id in *; lra. }
    pose proof (indicator_sum k0 v0 ks Hv Hks). specialize (IH ks Hks).
    cbn [snd] in Hv. lra.
Qed.

Lemma weight_of_get (strategy : string) :
  weight_of strategy = default 0 (dict_get (upper strategy) StrategyWeight).
Proof.
  unfold weight_of, StrategyWeight_value.
  destruct (dict_get (upper strategy) StrategyWeight); reflexivity.
Qed.

Lemma StrategyWeight_nonneg : Forall (fun kv : string * Q => 0 <= snd kv) StrategyWeight.
Proof. repeat constructor; cbn; lra. Qed.

Lemma weight_of_nonneg (strategy : string) : 0 <= weight_of strategy.
Proof. rewrite weight_of_get. apply dict_get_nonneg, StrategyWeight_nonneg. Qed.

(** Strategies with distinct upper-cased names weigh at most 1 together. *)
Lemma weights_bound (names : list string) :
  List.NoDup (map upper names) -> sum (map weight_of names) <= 1.
Proof.
  intros H.
  pose proof (dict_sum_bound StrategyWeight StrategyWeight_nonneg (map upper names) H)
    as B.
  rewrite map_map in B.
  assert (E : map weight_of names
              = map (fun x => default 0 (dict_get (upper x) StrategyWeight)) names)
    by (apply map_ext; intros; apply weight_of_get).
  rewrite E.
  assert (T : sum (map snd StrategyWeight) == 1) by (vm_compute; reflexivity).
  lra.
Qed.

Lemma dict_get_In {V} (key : string) (d : dict V) (v : V) :
  dict_get key d = Some v -> In (key, v) d.
Proof.
  induction d as [|[k v'] d IH]; cbn [dict_get]; [discriminate|].
  destruct (String.eqb k key) eqn:E.
  - apply String.eqb_eq in E. intros [= ->]. left. congruence.
  - intros H. right. apply IH, H.
Qed.

Lemma collect_signals_bound (symbol : string) (items : AnalysisResults) :
  confidences_in_unit items ->
  forall (signals : list WeightedSignal) (contributions : dict Q)
         (signals' : list WeightedSignal) (contributions' : dict Q),
    collect_signals symbol items signals contributions
    = Ok (signals', contributions') ->
    exists new : list WeightedSignal,
      signals' = signals ++ new
      /\ Forall (fun w => 0 <= ws_confidence w) new
      /\ sum (map ws_confidence new) <= sum (map (fun e => weight_of (fst e)) items).
Proof.
  induction items as [|[strategy results] items IH];
    intros Hu signals contributions signals' contributions' H.
  - cbn in H. injection H as <- <-. exists []. rewrite app_nil_r.
    split; [reflexivity|]. split; [constructor|cbn; lra].
  - assert (Hu' : confidences_in_unit items).
    { intros s y r sd Hi. apply (Hu s y r sd). right. exact Hi. }
    pose proof (weight_of_nonneg strategy) as Hw.
    assert (S : sum (map (fun e => weight_of (fst e)) ((strategy, results) :: items))
                == weight_of strategy + sum (map (fun e => weight_of (fst e)) items))
      by (cbn [map fst]; apply sum_cons).
    cbn [collect_signals] in H.
    destruct (dict_get symbol results) as [sd|] eqn:Eg.
    2:{ destruct (IH Hu' _ _ _ _ H) as (new & E & F & B).
        exists new. split; [exact E|]. split; [exact F|]. rewrite S. lra. }
    destruct (sd_error sd) eqn:Ee.
    { destruct (IH Hu' _ _ _ _ H) as (new & E & F & B).
      exists new. split; [exact E|]. split; [exact F|]. rewrite S. lra. }
    assert (Hc : 0 <= default 0.0 (sd_confidence sd) <= 1).
    { apply (Hu strategy symbol results sd); [left; reflexivity| |exact Ee].
      apply dict_get_In, Eg. }
    assert (Ew : forall w, StrategyWeight_value (upper strategy) = Ok w ->
                           weight_of strategy = w)
      by (intros w Hw'; unfold weight_of; rewrite Hw'; reflexivity).
    destruct (StrategyWeight_value (upper strategy)) as [w|e]; [|discriminate].
    cbn [bind] in H. rewrite (Ew w eq_refl) in *.
    destruct (IH Hu' _ _ _ _ H) as (new & E & F & B).
    eexists (_ :: new). split; [rewrite E, <- app_assoc; reflexivity|].
    split.
    + constructor; [cbn [ws_confidence]; nra|exact F].
    + cbn [map ws_confidence]. rewrite sum_cons, S. nra.
Qed.

Lemma mean_in_unit (l : list Q) :
  l <> [] -> Forall (fun x => 0 <= x <= 1) l ->
  0 <= sum l / inject_Z (Z.of_nat (length l)) <= 1.
Proof.
  intros Hne H.
  assert (B : 0 <= sum l <= inject_Z (Z.of_nat (length l))).
  { clear Hne. induction H as [|x l Hx _ IH];
      [split; vm_compute; discriminate|].
    rewrite sum_cons. cbn [length]. rewrite Nat2Z.inj_succ. unfold Z.succ.
    rewrite inject_Z_plus. change (inject_Z 1) with 1. lra. }
  assert (P : 0 < inject_Z (Z.of_nat (length l))).
  { change 0 with (inject_Z 0). rewrite <- Zlt_Qlt.
    destruct l; [congruence|cbn [length]; lia]. }
  split.
  - apply Qle_shift_div_l; [exact P|lra].
  - apply Qle_shift_div_r; [exact P|lra].
Qed.

Lemma risk_score_in_unit (ar : AnalysisResults) :
  confidences_in_unit ar -> 0 <= _calculate_risk_score ar <= 1.
Proof.
  intros Hu. unfold _calculate_risk_score.
  match goal with
  | |- context [match ?l with [] => _ | _ :: _ => _ end] => set (rf := l)
  end.
  assert (F : Forall (fun x => 0 <= x <= 1) rf).
  { unfold rf. apply Forall_flat_map. apply List.Forall_forall.
    intros [strategy results] Hi. apply Forall_flat_map. apply List.Forall_forall.
    intros [symbol sd] Hs. cbn [snd].
    destruct (sd_error sd) eqn:Ee; [constructor|].
    constructor; [|constructor].
    pose proof (Hu strategy symbol results sd Hi Hs Ee). lra. }
  destruct rf as [|x rf'] eqn:E; [lra|].
  apply mean_in_unit; [discriminate|exact F].
Qed.

Lemma consolidate_in_unit (format_2f : Q -> string) (str_exc : Exception -> string)
    (self : AutopilotConfig) (now : Z) (ar : AnalysisResults) (md : MarketData) :
  confidences_in_unit ar ->
  List.NoDup (map (fun e => upper (fst e)) ar) ->
  let signal := fst (_consolidate_signals format_2f str_exc self now ar md) in
  0 <= confidence signal <= 1 /\ 0 <= risk_score signal <= 1.
Proof.
  intros Hu Hn signal. subst signal.
  unfold _consolidate_signals, consolidate_body.
  destruct md as [|[sym closes] rest]; cbn [bind fst snd]; [cbn; lra|].
  unfold last_close. destruct (last closes) as [p|]; cbn [bind]; [|cbn; lra].
  destruct (collect_signals sym ar [] []) as [[signals contributions]|e] eqn:Ec;
    cbn [bind]; [|cbn; lra].
  destruct (collect_signals_bound sym ar Hu [] [] signals contributions Ec)
    as (new & E & F & B).
  cbn [app] in E. subst new.
  assert (W : sum (map (fun e => weight_of (fst e)) ar) <= 1).
  { rewrite <- (map_map fst weight_of). apply weights_bound.
    rewrite map_map. exact Hn. }
  assert (A : forall a, 0 <= action_weight a signals <= 1).
  { intros a. unfold action_weight.
    pose proof (sum_map_filter_le ws_confidence
                  (fun s => String.eqb (ws_action s) a) signals F). lra. }
  pose proof (risk_score_in_unit ar Hu) as R.
  destruct signals as [|s0 signals']; [cbn; lra|].
  set (signals := s0 :: signals') in *.
  pose proof (A "buy"). pose proof (A "sell"). pose proof (A "hold").
  destruct (_ && _); [|destruct (_ && _)];
    destruct (_calculate_stop_take_profit _ _ _ _);
    cbn [fst confidence risk_score]; split; assumption.
Qed.

End FusionBounds.

(** X25. When every strategy reports a confidence in [0, 1] and no two
    strategy names agree up to case, the fused signal has a confidence in
    [0, 1] and a risk score in [0, 1], whatever the market data and whether
    or not the fusion fails. *)
Theorem X25_fused_confidence_and_risk_normalized :
  forall (format_2f : Q -> string) (str_exc : Py.Exception -> string)
         (self : AutopilotEngine.AutopilotConfig) (now : Z)
         (ar : AutopilotEngine.AnalysisResults) (md : AutopilotEngine.MarketData),
    confidences_in_unit ar ->
    List.NoDup (map (fun e => AutopilotEngine.upper (fst e)) ar) ->
    let signal :=
      fst (AutopilotEngine._consolidate_signals format_2f str_exc self now ar md) in
    0 <= AutopilotEngine.confidence signal <= 1
    /\ 0 <= AutopilotEngine.risk_score signal <= 1.
Proof.
  intros format_2f str_exc self now ar md Hu Hn.
  apply consolidate_in_unit; assumption.
Qed.

Lemma X25_witness :
  confidences_in_unit strong_results
  /\ 0 <= AutopilotEngine.confidence strong_signal <= 1.
Proof.
  assert (Hu : confidences_in_unit strong_results).
  { intros strategy symbol results sd Hi Hs _.
    cbn in Hi. destruct Hi as [Hi|[Hi|[]]]; injection Hi as <- <-;
      cbn in Hs; destruct Hs as [Hs|[]]; injection Hs as <- <-;
      split; vm_compute; discriminate. }
  assert (Hn : List.NoDup (map (fun e => AutopilotEngine.upper (fst e))
                               strong_results)).
  { vm_compute. constructor; [intros [H|[]]; discriminate|].
    constructor; [intros []|constructor]. }
  split; [exact Hu|].
  exact (proj1 (X25_fused_confidence_and_risk_normalized
                  (fun _ => "") (fun _ => "") live_config 1 strong_results
                  fusion_market_data Hu Hn)).
Defined.

Section StopTakeProfit.
Import Py PyFacts AutopilotEngine.

Lemma min_by_spec {A} (key : A -> Q) (xs : list A) :
  forall x : A,
    In (min_by key x xs) (x :: xs)
    /\ forall y : A, In y (x :: xs) -> key (min_by key x xs) <= key y.
Proof.
  induction xs as [|y ys IH]; intros x; cbn [min_by].
  - split; [left; reflexivity|]. intros y [<-|[]]. lra.
  - destruct (ltb (key y) (key x)) eqn:E.
    + apply ltb_lt in E. destruct (IH y) as (Hi & Hm). split; [right; exact Hi|].
      intros z [<-|Hz]; [|apply Hm, Hz].
      specialize (Hm y (or_introl eq_refl)). lra.
    + apply ltb_ge in E. destruct (IH x) as (Hi & Hm). split.
      * destruct Hi as [Hi|Hi]; [left; exact Hi|right; right; exact Hi].
      * intros z [<-|[<-|Hz]].
        -- apply Hm. left. reflexivity.
        -- specialize (Hm x (or_introl eq_refl)). lra.
        -- apply Hm. right. exact Hz.
Qed.

Lemma closest_level_spec (levels : list Level) (ty : string) (p : Q) (l : Level) :
  closest_level levels ty p = Some l -> is_closest levels ty p l.
Proof.
  unfold closest_level, is_closest.
  destruct (List.filter (fun level => String.eqb (level_type level) ty) levels)
    as [|x xs] eqn:E; [discriminate|].
  intros [= <-].
  destruct (min_by_spec (fun x => abs (level_price x - p)) xs x) as (Hi & Hm).
  rewrite <- E in Hi. apply filter_In in Hi as (Hi & Ht).
  apply String.eqb_eq in Ht. split; [exact Hi|]. split; [exact Ht|].
  intros l' Hl' Ht'. apply Hm. rewrite <- E. apply filter_In.
  split; [exact Hl'|]. apply String.eqb_eq, Ht'.
Qed.

Lemma stop_take_profit_levels (action : string) (p : Q)
    (ar : AnalysisResults) (sym : string) :
  _calculate_stop_take_profit action p ar sym
  = let levels := sr_levels ar sym in
    let '(stop_loss, take_profit) :=
      if String.eqb action "buy" then
        (option_map (fun l => level_price l * 0.995)
                    (closest_level levels "support" p),
         option_map (fun l => level_price l * 0.995)
                    (closest_level levels "resistance" p))
      else if String.eqb action "sell" then
        (option_map (fun l => level_price l * 1.005)
                    (closest_level levels "resistance" p),
         option_map (fun l => level_price l * 1.005)
                    (closest_level levels "support" p))
      else (None, None) in
    if falsy stop_loss then
      if String.eqb action "buy" then (Some (p * 0.98), Some (p * 1.04))
      else if String.eqb action "sell" then (Some (p * 1.02), Some (p * 0.96))
      else (stop_loss, take_profit)
    else (stop_loss, take_profit).
Proof.
  unfold _calculate_stop_take_profit, sr_levels.
  destruct (dict_get "support_resistance" ar) as [results|];
    [destruct (dict_get sym results) as [sd|];
     [destruct (default [] (sd_levels sd)) as [|l0 ls]|]|];
    try reflexivity;
    cbn; destruct (String.eqb action "buy"); try reflexivity;
    destruct (String.eqb action "sell"); reflexivity.
Qed.

Lemma falsy_some_false (v : Q) : ~ v == 0 -> falsy (Some v) = false.
Proof. unfold falsy. intros H. apply eqb_neq, H. Qed.

Lemma falsy_some_true (v : Q) : v == 0 -> falsy (Some v) = true.
Proof. unfold falsy. intros H. apply eqb_eq, H. Qed.

Lemma closest_level_none (levels : list Level) (ty : string) (p : Q) :
  closest_level levels ty p = None
  <-> forall l : Level, In l levels -> level_type l <> ty.
Proof.
  unfold closest_level.
  destruct (List.filter (fun level => String.eqb (level_type level) ty) levels)
    as [|x xs] eqn:E.
  - split; [|reflexivity]. intros _ l Hl Ht.
    assert (Hin : In l (List.filter (fun level => String.eqb (level_type level) ty)
                                    levels))
      by (apply filter_In; split; [exact Hl|apply String.eqb_eq, Ht]).
    rewrite E in Hin. destruct Hin.
  - split; [discriminate|]. intros H. exfalso.
    assert (Hin : In x (List.filter (fun level => String.eqb (level_type level) ty)
                                    levels))
      by (rewrite E; left; reflexivity).
    apply filter_In in Hin as (Hl & Ht). apply String.eqb_eq in Ht.
    exact (H x Hl Ht).
Qed.

End StopTakeProfit.

(** X26. The stop-loss and take-profit of a fused signal.  The closest
    level of a kind is one of the levels of that kind in the
    support/resistance analysis of the symbol, none of them being closer to
    the price, and there is none exactly when the analysis has no level of
    that kind.  A signal that is neither buy nor sell gets no stop and no
    target.  For a buy, when there is a closest support and 0.995 times its
    price is not 0, the stop is that value and the target is 0.995 times the
    price of the closest resistance, or missing when there is no
    resistance; when there is no support, or that stop is 0, the stop is 2%
    under the price and the target 4% above it.  A sell mirrors this with
    the closest resistance for the stop, the closest support for the target
    and the factor 1.005, or 2% above and 4% under the price. *)
Theorem X26_stop_and_target_from_closest_levels :
  forall (action : string) (p : Q) (ar : AutopilotEngine.AnalysisResults)
         (sym : string),
    let r := AutopilotEngine._calculate_stop_take_profit action p ar sym in
    let levels := sr_levels ar sym in
    let support := AutopilotEngine.closest_level levels "support" p in
    let resistance := AutopilotEngine.closest_level levels "resistance" p in
    (forall (ty : string) (l : AutopilotEngine.Level),
        AutopilotEngine.closest_level levels ty p = Some l ->
        is_closest levels ty p l)
    /\ (forall ty : string,
           AutopilotEngine.closest_level levels ty p = None
           <-> forall l : AutopilotEngine.Level,
                 In l levels -> AutopilotEngine.level_type l <> ty)
    /\ (action <> "buy" -> action <> "sell" -> r = (None, None))
    /\ (action = "buy" ->
        (forall l : AutopilotEngine.Level,
            support = Some l ->
            ~ AutopilotEngine.level_price l * 0.995 == 0 ->
            r = (Some (AutopilotEngine.level_price l * 0.995),
                 option_map (fun l' => AutopilotEngine.level_price l' * 0.995)
                            resistance))
        /\ (support = None
            \/ (exists l : AutopilotEngine.Level,
                   support = Some l
                   /\ AutopilotEngine.level_price l * 0.995 == 0) ->
            r = (Some (p * 0.98), Some (p * 1.04))))
    /\ (action = "sell" ->
        (forall l : AutopilotEngine.Level,
            resistance = Some l ->
            ~ AutopilotEngine.level_price l * 1.005 == 0 ->
            r = (Some (AutopilotEngine.level_price l * 1.005),
                 option_map (fun l' => AutopilotEngine.level_price l' * 1.005)
                            support))
        /\ (resistance = None
            \/ (exists l : AutopilotEngine.Level,
                   resistance = Some l
                   /\ AutopilotEngine.level_price l * 1.005 == 0) ->
            r = (Some (p * 1.02), Some (p * 0.96)))).
Proof.
  intros action p ar sym r levels support resistance. subst r.
  rewrite stop_take_profit_levels. fold levels. subst support resistance.
  cbv zeta.
  split; [intros ty l; apply closest_level_spec|].
  split; [intros ty; apply closest_level_none|].
  split; [|split].
  - intros Hb Hs. apply String.eqb_neq in Hb. apply String.eqb_neq in Hs.
    rewrite Hb, Hs. reflexivity.
  - intros ->. cbn [String.eqb Ascii.eqb Bool.eqb]. split.
    + intros l E Hn. rewrite E. cbn [option_map].
      rewrite (falsy_some_false _ Hn). reflexivity.
    + intros [E|(l & E & Hz)]; rewrite E; cbn [option_map]; [reflexivity|].
      rewrite (falsy_some_true _ Hz). reflexivity.
  - intros ->. cbn [String.eqb Ascii.eqb Bool.eqb]. split.
    + intros l E Hn. rewrite E. cbn [option_map].
      rewrite (falsy_some_false _ Hn). reflexivity.
    + intros [E|(l & E & Hz)]; rewrite E; cbn [option_map]; [reflexivity|].
      rewrite (falsy_some_true _ Hz). reflexivity.
Qed.

(** A buy at 45000 with supports at 44000 and 43000 and no resistance: the
    stop is 0.995 x 44000 and there is no target. *)
Lemma X26_witness :
  AutopilotEngine.closest_level (sr_levels support_only_results "BTCUSDT")
                                "support" 45000
  = Some (AutopilotEngine.mkLevel "support" 44000)
  /\ AutopilotEngine._calculate_stop_take_profit "buy" 45000 support_only_results
                                                 "BTCUSDT"
     = (Some (44000 * 0.995), None).
Proof.
  assert (E : AutopilotEngine.closest_level
                (sr_levels support_only_results "BTCUSDT") "support" 45000
              = Some (AutopilotEngine.mkLevel "support" 44000))
    by (vm_compute; reflexivity).
  split; [exact E|].
  refine (proj1 (proj1 (proj2 (proj2 (proj2
            (X26_stop_and_target_from_closest_levels
               "buy" 45000 support_only_results "BTCUSDT")))) eq_refl)
          (AutopilotEngine.mkLevel "support" 44000) E _).
  vm_compute. discriminate.
Defined.

(** ** Scoring, enhancing and ranking in the detector
    (auto_opportunity_detector.py) *)

Section DetectorScores.
Import Py PyFacts.

Lemma geb_false (a b : Q) : a < b -> geb a b = false.
Proof. intros H. unfold geb. apply ltb_lt in H. rewrite H. reflexivity. Qed.

Lemma execution_score_le_one (opp : PairScanner.QuickOpportunity)
    (news : option AutoOpportunityDetector.NewsSentiment)
    (ai : option AutoOpportunityDetector.AIAnalysis) :
  AutoOpportunityDetector._calculate_execution_score opp news ai <= 1.
Proof.
  unfold AutoOpportunityDetector._calculate_execution_score. cbv zeta.
  match goal with |- min ?s _ <= _ => pose proof (min_le_r s 1.0) end. lra.
Qed.

Lemma execution_score_plain (opp : PairScanner.QuickOpportunity) :
  scores_in_unit opp ->
  let s := AutoOpportunityDetector._calculate_execution_score opp None None in
  s == (PairScanner.confidence opp + PairScanner.technical_score opp
        + PairScanner.volume_score opp + PairScanner.volatility_score opp)
       * 0.1 + 0.3
  /\ s <= 0.7
  /\ (0.7 <= s ->
      PairScanner.confidence opp == 1
      /\ PairScanner.technical_score opp == 1
      /\ PairScanner.volume_score opp == 1
      /\ PairScanner.volatility_score opp == 1).
Proof.
  intros (Hc & Ht & Hv & Ho) s. subst s.
  unfold AutoOpportunityDetector._calculate_execution_score. cbv zeta.
  set (c := PairScanner.confidence opp) in *.
  set (t := PairScanner.technical_score opp) in *.
  set (v := PairScanner.volume_score opp) in *.
  set (o := PairScanner.volatility_score opp) in *.
  assert (E : 0.0 + (c + t + v + o) / 4 * 0.4 + 0.5 * 0.3 + 0.5 * 0.3
              == (c + t + v + o) * 0.1 + 0.3) by (field).
  match goal with |- context [min ?s 1.0] =>
    destruct (min_cases s 1.0) as [[H ->]|[H ->]] end;
    rewrite ?E in *; repeat split; lra.
Qed.

Lemma priority_plain (opp : PairScanner.QuickOpportunity) :
  PairScanner.confidence opp <= 1 ->
  AutoOpportunityDetector._calculate_priority opp None None
  = AutoOpportunityDetector.LOW.
Proof.
  intros H. unfold AutoOpportunityDetector._calculate_priority. cbv zeta.
  rewrite !geb_false by lra. reflexivity.
Qed.

End DetectorScores.

(** X27. The execution score never exceeds 1.  Without news and AI answers
    (the services off or failing) an opportunity whose four scores lie in
    [0, 1] gets the execution score a tenth of their sum plus 0.3, at most
    0.7, so it reaches the default [min_execution_score] of 0.7 only when
    all four scores are 1; and its priority is always [LOW]. *)
Theorem X27_without_news_and_ai_scores_are_capped :
  forall opp : PairScanner.QuickOpportunity,
    scores_in_unit opp ->
    (forall (news : option AutoOpportunityDetector.NewsSentiment)
            (ai : option AutoOpportunityDetector.AIAnalysis),
        AutoOpportunityDetector._calculate_execution_score opp news ai <= 1)
    /\ (let s := AutoOpportunityDetector._calculate_execution_score opp None None in
        s == (PairScanner.confidence opp + PairScanner.technical_score opp
              + PairScanner.volume_score opp + PairScanner.volatility_score opp)
             * 0.1 + 0.3
        /\ s <= 0.7
        /\ (0.7 <= s ->
            PairScanner.confidence opp == 1
            /\ PairScanner.technical_score opp == 1
            /\ PairScanner.volume_score opp == 1
            /\ PairScanner.volatility_score opp == 1))
    /\ AutoOpportunityDetector._calculate_priority opp None None
       = AutoOpportunityDetector.LOW.
Proof.
  intros opp H. split; [|split].
  - intros news ai. apply execution_score_le_one.
  - apply execution_score_plain, H.
  - apply priority_plain. destruct H as ((_ & H) & _). exact H.
Qed.

Lemma X27_witness :
  scores_in_unit (ada_opportunity 0.9 (Some 0.52))
  /\ AutoOpportunityDetector._calculate_execution_score
       (ada_opportunity 0.9 (Some 0.52)) None None <= 0.7
  /\ AutoOpportunityDetector._calculate_priority
       (ada_opportunity 0.9 (Some 0.52)) None None
     = AutoOpportunityDetector.LOW.
Proof.
  assert (H : scores_in_unit (ada_opportunity 0.9 (Some 0.52)))
    by (repeat split; vm_compute; discriminate).
  split; [exact H|]. split.
  - exact (proj1 (proj2 (proj1 (proj2 (X27_without_news_and_ai_scores_are_capped
                                          (ada_opportunity 0.9 (Some 0.52)) H))))).
  - exact (proj2 (proj2 (X27_without_news_and_ai_scores_are_capped
                           (ada_opportunity 0.9 (Some 0.52)) H))).
Defined.

Section DetectorRanking.
Import Py PyFacts AutoOpportunityDetector.

Lemma key_ltb_true (x y : ScoredOpportunity) :
  key_ltb (sort_key x) (sort_key y) = true -> outranks y x /\ ~ outranks x y.
Proof.
  unfold key_ltb, sort_key, outranks. cbn [fst snd]. intros H.
  apply orb_true_iff in H as [H|H].
  - apply Z.ltb_lt in H. split; [left; exact H|]. intros [C|[C _]]; lia.
  - apply andb_true_iff in H as [He Hl].
    apply Z.eqb_eq in He. apply ltb_lt in Hl.
    split; [right; split; [symmetry; exact He|lra]|].
    intros [C|[_ C]]; [lia|lra].
Qed.

Lemma key_ltb_false (x y : ScoredOpportunity) :
  key_ltb (sort_key x) (sort_key y) = false -> outranks x y.
Proof.
  unfold key_ltb, sort_key, outranks. cbn [fst snd]. intros H.
  apply orb_false_iff in H as [H1 H2]. apply Z.ltb_ge in H1.
  apply andb_false_iff in H2 as [H2|H2].
  - apply Z.eqb_neq in H2. left. lia.
  - apply ltb_ge in H2.
    destruct (Z.eq_dec (priority_order (priority x)) (priority_order (priority y)))
      as [E|N]; [right; split; assumption|left; lia].
Qed.

Lemma outranks_trans (a b c : ScoredOpportunity) :
  outranks a b -> outranks b c -> outranks a c.
Proof.
  unfold outranks. intros [H1|[H1 H1']] [H2|[H2 H2']].
  - left. lia.
  - left. lia.
  - left. lia.
  - right. split; [congruence|lra].
Qed.

Lemma In_insert_desc_by {A} (lt : A -> A -> bool) (x z : A) (l : list A) :
  In z (insert_desc_by lt x l) -> z = x \/ In z l.
Proof.
  induction l as [|y l IH]; cbn [insert_desc_by].
  - intros [<-|[]]. left. reflexivity.
  - destruct (lt x y).
    + intros [<-|H]; [right; left; reflexivity|].
      destruct (IH H) as [->|Hz]; [left; reflexivity|right; right; exact Hz].
    + intros [<-|H]; [left; reflexivity|right; exact H].
Qed.

Lemma insert_ranked (x : ScoredOpportunity) (l : list ScoredOpportunity) :
  StronglySorted outranks l ->
  StronglySorted outranks
    (insert_desc_by (fun a b => key_ltb (sort_key a) (sort_key b)) x l).
Proof.
  induction 1 as [|y l Hs IH Hy]; cbn [insert_desc_by].
  - repeat constructor.
  - destruct (key_ltb (sort_key x) (sort_key y)) eqn:E.
    + apply key_ltb_true in E as [E _]. constructor; [exact IH|].
      apply List.Forall_forall. intros z Hz.
      apply In_insert_desc_by in Hz as [->|Hz]; [exact E|].
      rewrite List.Forall_forall in Hy. apply Hy, Hz.
    + apply key_ltb_false in E. constructor; [constructor; assumption|].
      constructor; [exact E|].
      eapply List.Forall_impl; [|exact Hy]. cbn. intros z Hz.
      exact (outranks_trans x y z E Hz).
Qed.

Lemma insert_by_perm {A} (lt : A -> A -> bool) (x : A) (l : list A) :
  Permutation (insert_desc_by lt x l) (x :: l).
Proof.
  induction l as [|y l IH]; cbn [insert_desc_by]; [reflexivity|].
  destruct (lt x y); [|reflexivity].
  rewrite IH. apply perm_swap.
Qed.

Lemma same_rank_true (p : OpportunityPriority) (k : Q) (x : ScoredOpportunity) :
  same_rank p k x = true ->
  priority_order (priority x) = priority_order p
  /\ execution_score (enhanced x) == k.
Proof.
  unfold same_rank. intros H. apply andb_true_iff in H as [H1 H2].
  apply Z.eqb_eq in H1. apply eqb_eq in H2. auto.
Qed.

Lemma insert_ranked_filter (p : OpportunityPriority) (k : Q)
    (x : ScoredOpportunity) (l : list ScoredOpportunity) :
  List.filter (same_rank p k)
    (insert_desc_by (fun a b => key_ltb (sort_key a) (sort_key b)) x l)
  = List.filter (same_rank p k) (x :: l).
Proof.
  induction l as [|y l IH]; [reflexivity|].
  cbn [insert_desc_by].
  destruct (key_ltb (sort_key x) (sort_key y)) eqn:E; [|reflexivity].
  apply key_ltb_true in E as [_ E]. cbn [List.filter] in *. rewrite IH.
  destruct (same_rank p k x) eqn:Ex; destruct (same_rank p k y) eqn:Ey;
    try reflexivity.
  apply same_rank_true in Ex as (X1 & X2). apply same_rank_true in Ey as (Y1 & Y2).
  exfalso. apply E. right. split; [congruence|]. rewrite X2, Y2. lra.
Qed.

Lemma filter_and_prioritize_spec (self : Detector)
    (opportunities : list ScoredOpportunity) :
  let out := _filter_and_prioritize self opportunities in
  let passed := List.filter (passes_min_score self) opportunities in
  StronglySorted outranks out
  /\ Permutation out passed
  /\ (forall (p : OpportunityPriority) (k : Q),
         List.filter (same_rank p k) out = List.filter (same_rank p k) passed).
Proof.
  intros out passed. subst out. unfold _filter_and_prioritize.
  change (List.filter _ opportunities) with passed. cbv zeta.
  unfold sort_reverse_by.
  induction passed as [|x l (IH1 & IH2 & IH3)]; cbn [fold_right].
  - split; [constructor|]. split; reflexivity.
  - split; [apply insert_ranked, IH1|]. split.
    + rewrite insert_by_perm. constructor. exact IH2.
    + intros p k. rewrite insert_ranked_filter. cbn [List.filter].
      rewrite IH3. reflexivity.
Qed.

End DetectorRanking.

(** X28. [_filter_and_prioritize] returns a rearrangement of the
    opportunities whose execution score reaches [min_execution_score], in
    which every opportunity stands before those of lower priority and,
    within a priority, before those of lower execution score; opportunities
    of the same priority and score keep the order they came in. *)
Theorem X28_prioritized_list_ranked_and_stable :
  forall (self : AutoOpportunityDetector.Detector)
         (opportunities : list AutoOpportunityDetector.ScoredOpportunity),
    let out := AutoOpportunityDetector._filter_and_prioritize self opportunities in
    let passed := List.filter (passes_min_score self) opportunities in
    StronglySorted outranks out
    /\ Permutation out passed
    /\ (forall (p : AutoOpportunityDetector.OpportunityPriority) (k : Q),
           List.filter (same_rank p k) out = List.filter (same_rank p k) passed).
Proof.
  intros self opportunities. apply filter_and_prioritize_spec.
Qed.

Section DetectorEnhance.
Import Py PyFacts.

Lemma validate_trade_accepts (self : RiskLevels.RiskManager) (today : Z)
    (opp : PairScanner.QuickOpportunity) (ps : RiskLevels.PositionSizing)
    (positions : list RiskLevels.DatedPosition) :
  fst (RiskLevels.validate_trade self today opp ps positions) = true ->
  let profile := RiskLevels.get_current_profile self in
  RiskLevels.confidence_threshold profile <= PairScanner.confidence opp
  /\ sum (map (fun p => RiskLevels.position_value_of (RiskLevels.dp_row p))
              positions)
     + RiskLevels.position_value ps
     <= RiskLevels.max_position_size profile
        * inject_Z (RiskLevels.diversification_limit profile)
  /\ RiskLevels.leverage ps <= RiskLevels.max_leverage profile
  /\ RiskLevels.m_max_drawdown (RiskLevels.current_metrics self)
     <= RiskLevels.max_drawdown profile.
Proof.
  intros H profile. unfold RiskLevels.validate_trade in H. fold profile in H.
  cbv zeta in H.
  destruct (ltb _ _) eqn:E1 in H; [discriminate|].
  destruct (_ <=? _)%Z in H; [discriminate|].
  destruct (_ <=? _)%Z in H; [discriminate|].
  destruct (gtb _ _) eqn:E2 in H; [discriminate|].
  destruct (gtb _ _) eqn:E3 in H; [discriminate|].
  destruct (gtb _ _) eqn:E4 in H; [discriminate|].
  apply ltb_ge in E1. apply gtb_le in E2. apply gtb_le in E3. apply gtb_le in E4.
  auto.
Qed.

Lemma enhance_one_some (self : AutoOpportunityDetector.Detector) (today : Z)
    (item : AutoOpportunityDetector.EnhanceInput)
    (o : AutoOpportunityDetector.ScoredOpportunity) :
  AutoOpportunityDetector.enhance_one self today item = Ok (Some o) ->
  let opportunity := AutoOpportunityDetector.ei_opportunity item in
  let sizing :=
    AutoOpportunityDetector.position_sizing (AutoOpportunityDetector.enhanced o) in
  AutoOpportunityDetector.base_opportunity (AutoOpportunityDetector.enhanced o)
  = opportunity
  /\ RiskLevels.calculate_position_size
       (AutoOpportunityDetector.risk_manager self) opportunity 10000.0
       (PairScanner.volatility_score opportunity) ∅ = Ok sizing
  /\ fst (RiskLevels.validate_trade (AutoOpportunityDetector.risk_manager self)
            today opportunity sizing (AutoOpportunityDetector.positions_of self))
     = true
  /\ PairScanner.take_profit opportunity <> None
  /\ AutoOpportunityDetector.execution_score (AutoOpportunityDetector.enhanced o)
     <= 1.
Proof.
  intros H opportunity sizing. subst sizing.
  unfold AutoOpportunityDetector.enhance_one in H. fold opportunity in H.
  cbv zeta in H.
  destruct (RiskLevels.calculate_position_size _ _ _ _ _) as [ps|e] eqn:Eps;
    cbn [bind] in H; [|discriminate].
  destruct (RiskLevels.validate_trade _ _ _ _ _) as [is_valid reason] eqn:Ev.
  destruct is_valid; cbn [negb] in H; [|discriminate].
  destruct (PairScanner.take_profit opportunity) as [tp|] eqn:Et; [|discriminate].
  injection H as <-.
  cbn [AutoOpportunityDetector.enhanced AutoOpportunityDetector.base_opportunity
       AutoOpportunityDetector.position_sizing
       AutoOpportunityDetector.execution_score].
  rewrite ?Ev. split; [reflexivity|]. split; [reflexivity|]. split; [reflexivity|].
  split; [discriminate|]. apply execution_score_le_one.
Qed.

Lemma enhance_opportunities_app (self : AutoOpportunityDetector.Detector)
    (today : Z) (l1 l2 : list AutoOpportunityDetector.EnhanceInput) :
  AutoOpportunityDetector._enhance_opportunities self today (l1 ++ l2)
  = (fst (AutoOpportunityDetector._enhance_opportunities self today l1)
     ++ fst (AutoOpportunityDetector._enhance_opportunities self today l2),
     snd (AutoOpportunityDetector._enhance_opportunities self today l1)
     ++ snd (AutoOpportunityDetector._enhance_opportunities self today l2)).
Proof.
  induction l1 as [|item l1 IH]; cbn [app AutoOpportunityDetector._enhance_opportunities].
  - cbn. destruct (AutoOpportunityDetector._enhance_opportunities self today l2).
    reflexivity.
  - rewrite IH.
    destruct (AutoOpportunityDetector._enhance_opportunities self today l1)
      as [e1 g1].
    destruct (AutoOpportunityDetector.enhance_one self today item) as [[o|]|e];
      reflexivity.
Qed.

Lemma enhance_opportunities_In (self : AutoOpportunityDetector.Detector)
    (today : Z) (items : list AutoOpportunityDetector.EnhanceInput)
    (o : AutoOpportunityDetector.ScoredOpportunity) :
  In o (fst (AutoOpportunityDetector._enhance_opportunities self today items)) ->
  exists item, In item items
               /\ AutoOpportunityDetector.enhance_one self today item = Ok (Some o).
Proof.
  induction items as [|item items IH];
    cbn [AutoOpportunityDetector._enhance_opportunities]; [intros []|].
  destruct (AutoOpportunityDetector._enhance_opportunities self today items)
    as [e1 g1].
  destruct (AutoOpportunityDetector.enhance_one self today item) as [[o'|]|e] eqn:E;
    cbn [fst] in *.
  - intros [<-|H]; [exists item; split; [left; reflexivity|exact E]|].
    destruct (IH H) as (i & Hi & Ho). exists i. split; [right; exact Hi|exact Ho].
  - intros H. destruct (IH H) as (i & Hi & Ho). exists i. split; [right; exact Hi|exact Ho].
  - intros H. destruct (IH H) as (i & Hi & Ho). exists i. split; [right; exact Hi|exact Ho].
Qed.

End DetectorEnhance.

(** X29. [_enhance_opportunities] treats each opportunity on its own.
    Every enhanced opportunity comes from an opportunity of the scan that
    was sized with a balance of 10000 and accepted by [validate_trade]: its
    confidence reaches the profile's threshold, its leverage is within
    [max_leverage], its position value keeps the exposure within
    [max_position_size] times [diversification_limit], it has a take-profit
    and its execution score is at most 1.  An opportunity that is not
    enhanced - the sizing or the formatting of a missing take-profit raises,
    or the validation rejects it - changes nothing for the others: the
    result is the one of the scan without it. *)
Theorem X29_enhancement_validates_and_isolates :
  forall (self : AutoOpportunityDetector.Detector) (today : Z)
         (items : list AutoOpportunityDetector.EnhanceInput),
    (forall o : AutoOpportunityDetector.ScoredOpportunity,
        In o (fst (AutoOpportunityDetector._enhance_opportunities self today items)) ->
        exists item : AutoOpportunityDetector.EnhanceInput,
          let opportunity := AutoOpportunityDetector.ei_opportunity item in
          let sizing :=
            AutoOpportunityDetector.position_sizing
              (AutoOpportunityDetector.enhanced o) in
          let profile :=
            RiskLevels.get_current_profile
              (AutoOpportunityDetector.risk_manager self) in
          In item items
          /\ AutoOpportunityDetector.base_opportunity
               (AutoOpportunityDetector.enhanced o) = opportunity
          /\ RiskLevels.calculate_position_size
               (AutoOpportunityDetector.risk_manager self) opportunity 10000.0
               (PairScanner.volatility_score opportunity) ∅ = Py.Ok sizing
          /\ RiskLevels.confidence_threshold profile
             <= PairScanner.confidence opportunity
          /\ RiskLevels.leverage sizing <= RiskLevels.max_leverage profile
          /\ within_exposure self sizing
          /\ PairScanner.take_profit opportunity <> None
          /\ AutoOpportunityDetector.execution_score
               (AutoOpportunityDetector.enhanced o) <= 1)
    /\ (forall (before after : list AutoOpportunityDetector.EnhanceInput)
               (item : AutoOpportunityDetector.EnhanceInput),
           items = before ++ item :: after ->
           (forall o, AutoOpportunityDetector.enhance_one self today item
                      <> Py.Ok (Some o)) ->
           fst (AutoOpportunityDetector._enhance_opportunities self today items)
           = fst (AutoOpportunityDetector._enhance_opportunities
                    self today (before ++ after))).
Proof.
  intros self today items. split.
  - intros o Ho.
    destruct (enhance_opportunities_In self today items o Ho) as (item & Hi & He).
    exists item. cbv zeta.
    destruct (enhance_one_some self today item o He) as (B & S & V & T & X).
    destruct (validate_trade_accepts _ _ _ _ _ V) as (V1 & V2 & V3 & _).
    repeat split; assumption.
  - intros before after item -> Hn.
    rewrite !enhance_opportunities_app. cbn [fst]. f_equal.
    cbn [AutoOpportunityDetector._enhance_opportunities].
    destruct (AutoOpportunityDetector._enhance_opportunities self today after)
      as [e1 g1].
    destruct (AutoOpportunityDetector.enhance_one self today item) as [[o|]|e];
      [exfalso; apply (Hn o); reflexivity| |]; reflexivity.
Qed.

Lemma X29_witness :
  (exists item : AutoOpportunityDetector.EnhanceInput,
      In item [no_target_item; good_item; weak_item]
      /\ RiskLevels.confidence_threshold
           (RiskLevels.get_current_profile
              (AutoOpportunityDetector.risk_manager fresh_detector))
         <= PairScanner.confidence (AutoOpportunityDetector.ei_opportunity item))
  /\ fst (AutoOpportunityDetector._enhance_opportunities
            fresh_detector 1 [no_target_item; good_item; weak_item])
     = fst (AutoOpportunityDetector._enhance_opportunities
              fresh_detector 1 [good_item; weak_item]).
Proof.
  split.
  - destruct (AutoOpportunityDetector._enhance_opportunities
                fresh_detector 1 [no_target_item; good_item; weak_item])
      as [[|o os] logged] eqn:E; [vm_compute in E; discriminate|].
    destruct (proj1 (X29_enhancement_validates_and_isolates
                       fresh_detector 1 [no_target_item; good_item; weak_item]) o)
      as (item & Hi & _ & _ & Hc & _).
    + rewrite E. left. reflexivity.
    + exists item. split; [exact Hi|exact Hc].
  - apply (proj2 (X29_enhancement_validates_and_isolates
                    fresh_detector 1 [no_target_item; good_item; weak_item])
                 [] [good_item; weak_item] no_target_item eq_refl).
    intros o. vm_compute. discriminate.
Defined.
